(** * The xlink channel multiplexer: a shallow embedding

    The development follows [drivers/misc/xlink-core/xlink-multiplexer.c]
    and the kernel API of [drivers/misc/xlink-core/xlink-core.c]: the write,
    read, release, channel and callback entry points, and the connect and
    disconnect of a device.

    Conventions.
    - C integers are values of [Z]; every place where the C arithmetic wraps
      is written with [u32] (uint32_t) or [s32] (int32_t, the kernel is built
      with wrapping signed arithmetic).
    - Pointers are addresses in [Z], [0] being NULL.  The [open_channel]
      object a slot points to is held inside the slot ([chan_opchan]), so the
      back pointer [opchan->chan] is the slot that holds it.
    - Calls that leave the multiplexer (allocator, transport, dispatcher,
      completions, callbacks) are recorded in a trace of [effect]s; what they
      answer comes from an [env] record, and every suspension of the caller
      takes one [wait_step] of a script.
    - The multiplexer is initialised and the event is there: the tests
      [!xmux || !event] that open the entry points are passed.  The functions
      of the life cycle of a link, which are called around
      [xlink_multiplexer_init] and [xlink_multiplexer_destroy], take the
      multiplexer as an option instead.
    - Locks are not part of the state: a call runs from one suspension to the
      next without interleaving. *)

From Stdlib Require Import ZArith List Bool Lia Ascii.
Import ListNotations.
Local Open Scope Z_scope.

(** ** Machine integers *)

Definition u32 (z : Z) : Z := z mod 2 ^ 32.
Definition s32 (z : Z) : Z := (z + 2 ^ 31) mod 2 ^ 32 - 2 ^ 31.

(** ** Enumerations *)

(** Modelled from the spec: [enum xlink_error] is declared in a header that
    is not under src/; these are the result codes of the spec's error
    taxonomy.  The source tests a result with [rc == 0], [if (rc)] and
    [rc == X_LINK_SUCCESS] interchangeably, so [X_LINK_SUCCESS] is the zero
    of the enumeration and every other enumerator is non-zero. *)
Inductive xlink_error : Set :=
| X_LINK_SUCCESS
| X_LINK_ALREADY_OPEN
| X_LINK_COMMUNICATION_FAIL
| X_LINK_TIMEOUT
| X_LINK_ERROR
| X_LINK_CHAN_FULL.

(** What an [int rc] holds when it is handed back: an enumerator, or a raw
    integer that was never mapped to one (the errno of an interrupted
    unbounded wait on the read paths). *)
Inductive retval : Set :=
| Ret (e : xlink_error)
| Raw (z : Z).

Definition is_success (r : retval) : bool :=
  match r with
  | Ret X_LINK_SUCCESS => true
  | Ret _ => false
  | Raw z => z =? 0
  end.

Inductive xlink_channel_status : Set := CHAN_CLOSED | CHAN_OPEN | CHAN_OPEN_PEER.

Inductive xlink_opmode : Set := RXB_TXB | RXN_TXN | RXB_TXN | RXN_TXB.

Inductive xlink_interface : Set :=
| NULL_INTERFACE | IPC_INTERFACE | PCIE_INTERFACE | USB_CDC_INTERFACE | ETH_INTERFACE.

(** Only [VPUIP_DEVICE] is named by the multiplexer; [HOST_DEVICE] stands
    for every other device type. *)
Inductive xlink_dev_type : Set := HOST_DEVICE | VPUIP_DEVICE.

Inductive xlink_memory : Set := XLINK_NORMAL_MEMORY | XLINK_CMA_MEMORY.

Inductive xlink_event_type : Set :=
| XLINK_WRITE_REQ | XLINK_WRITE_VOLATILE_REQ | XLINK_WRITE_CONTROL_REQ
| XLINK_READ_REQ | XLINK_READ_TO_BUFFER_REQ | XLINK_RELEASE_REQ
| XLINK_OPEN_CHANNEL_REQ | XLINK_CLOSE_CHANNEL_REQ | XLINK_PING_REQ
| XLINK_DATA_READY_CALLBACK_REQ | XLINK_DATA_CONSUMED_CALLBACK_REQ
| XLINK_WRITE_RESP | XLINK_WRITE_VOLATILE_RESP | XLINK_WRITE_CONTROL_RESP
| XLINK_READ_RESP | XLINK_READ_TO_BUFFER_RESP | XLINK_RELEASE_RESP
| XLINK_OPEN_CHANNEL_RESP | XLINK_CLOSE_CHANNEL_RESP | XLINK_PING_RESP
| XLINK_PASSTHRU_WRITE_REQ | XLINK_PASSTHRU_VOLATILE_WRITE_REQ
| XLINK_PASSTHRU_READ_REQ | XLINK_PASSTHRU_READ_TO_BUFFER_REQ.

Inductive event_dir : Set := EVENT_TX | EVENT_RX.

Definition status_eqb (a b : xlink_channel_status) : bool :=
  match a, b with
  | CHAN_CLOSED, CHAN_CLOSED | CHAN_OPEN, CHAN_OPEN
  | CHAN_OPEN_PEER, CHAN_OPEN_PEER => true
  | _, _ => false
  end.

Definition opmode_eqb (a b : xlink_opmode) : bool :=
  match a, b with
  | RXB_TXB, RXB_TXB | RXN_TXN, RXN_TXN | RXB_TXN, RXB_TXN | RXN_TXB, RXN_TXB => true
  | _, _ => false
  end.

Definition interface_eqb (a b : xlink_interface) : bool :=
  match a, b with
  | NULL_INTERFACE, NULL_INTERFACE | IPC_INTERFACE, IPC_INTERFACE
  | PCIE_INTERFACE, PCIE_INTERFACE | USB_CDC_INTERFACE, USB_CDC_INTERFACE
  | ETH_INTERFACE, ETH_INTERFACE => true
  | _, _ => false
  end.

(** ** Structures *)

(** [struct packet] *)
Record packet : Set := {
  pkt_data : Z;
  pkt_length : Z;
  pkt_paddr : Z
}.

(** [struct packet_queue]; [q_head] is the list anchored at [head], first
    entry first. *)
Record packet_queue : Set := {
  q_count : Z;
  q_capacity : Z;
  q_head : list packet
}.

(** [struct open_channel] without its four completions and its lock. *)
Record open_channel : Set := {
  id : Z;
  rx_queue : packet_queue;
  tx_queue : packet_queue;
  rx_fill_level : Z;
  tx_fill_level : Z;
  tx_packet_level : Z;
  tx_up_limit : Z;
  ready_calling_pid : Z;
  ready_callback : Z;
  consumed_calling_pid : Z;
  consumed_callback : Z;
  callback_origin : ascii
}.

(** [struct channel], one slot of [xmux->channels]. *)
Record channel : Set := {
  chan_opchan : option open_channel;
  chan_mode : xlink_opmode;
  chan_status : xlink_channel_status;
  chan_ipc_status : xlink_channel_status;
  chan_size : Z;
  chan_timeout : Z
}.

(** [struct xlink_event] with its header and handle flattened; [ev_pdata]
    and [ev_length] are the cells the caller passed for the results. *)
Record xlink_event : Set := {
  ev_link_id : Z;
  ev_type : xlink_event_type;
  ev_chan : Z;
  ev_size : Z;
  ev_timeout : Z;
  ev_sw_device_id : Z;
  ev_dev_type : xlink_dev_type;
  ev_interface : xlink_interface;
  ev_data : Z;
  ev_paddr : Z;
  ev_calling_pid : Z;
  ev_callback_origin : ascii;
  ev_pdata : Z;
  ev_length : Z
}.

(** Field updates. *)

Definition set_q (n : Z) (l : list packet) (q : packet_queue) : packet_queue :=
  {| q_count := n; q_capacity := q_capacity q; q_head := l |}.

Definition set_rx_queue (q : packet_queue) (o : open_channel) : open_channel :=
  {| id := id o; rx_queue := q; tx_queue := tx_queue o;
     rx_fill_level := rx_fill_level o; tx_fill_level := tx_fill_level o;
     tx_packet_level := tx_packet_level o; tx_up_limit := tx_up_limit o;
     ready_calling_pid := ready_calling_pid o; ready_callback := ready_callback o;
     consumed_calling_pid := consumed_calling_pid o;
     consumed_callback := consumed_callback o;
     callback_origin := callback_origin o |}.

Definition set_tx_queue (q : packet_queue) (o : open_channel) : open_channel :=
  {| id := id o; rx_queue := rx_queue o; tx_queue := q;
     rx_fill_level := rx_fill_level o; tx_fill_level := tx_fill_level o;
     tx_packet_level := tx_packet_level o; tx_up_limit := tx_up_limit o;
     ready_calling_pid := ready_calling_pid o; ready_callback := ready_callback o;
     consumed_calling_pid := consumed_calling_pid o;
     consumed_callback := consumed_callback o;
     callback_origin := callback_origin o |}.

Definition set_rx_fill_level (v : Z) (o : open_channel) : open_channel :=
  {| id := id o; rx_queue := rx_queue o; tx_queue := tx_queue o;
     rx_fill_level := v; tx_fill_level := tx_fill_level o;
     tx_packet_level := tx_packet_level o; tx_up_limit := tx_up_limit o;
     ready_calling_pid := ready_calling_pid o; ready_callback := ready_callback o;
     consumed_calling_pid := consumed_calling_pid o;
     consumed_callback := consumed_callback o;
     callback_origin := callback_origin o |}.

Definition set_tx_levels (fill pkts : Z) (o : open_channel) : open_channel :=
  {| id := id o; rx_queue := rx_queue o; tx_queue := tx_queue o;
     rx_fill_level := rx_fill_level o; tx_fill_level := fill;
     tx_packet_level := pkts; tx_up_limit := tx_up_limit o;
     ready_calling_pid := ready_calling_pid o; ready_callback := ready_callback o;
     consumed_calling_pid := consumed_calling_pid o;
     consumed_callback := consumed_callback o;
     callback_origin := callback_origin o |}.

Definition set_tx_up_limit (v : Z) (o : open_channel) : open_channel :=
  {| id := id o; rx_queue := rx_queue o; tx_queue := tx_queue o;
     rx_fill_level := rx_fill_level o; tx_fill_level := tx_fill_level o;
     tx_packet_level := tx_packet_level o; tx_up_limit := v;
     ready_calling_pid := ready_calling_pid o; ready_callback := ready_callback o;
     consumed_calling_pid := consumed_calling_pid o;
     consumed_callback := consumed_callback o;
     callback_origin := callback_origin o |}.

Definition set_ready (cb pid : Z) (origin : ascii) (o : open_channel) : open_channel :=
  {| id := id o; rx_queue := rx_queue o; tx_queue := tx_queue o;
     rx_fill_level := rx_fill_level o; tx_fill_level := tx_fill_level o;
     tx_packet_level := tx_packet_level o; tx_up_limit := tx_up_limit o;
     ready_calling_pid := pid; ready_callback := cb;
     consumed_calling_pid := consumed_calling_pid o;
     consumed_callback := consumed_callback o;
     callback_origin := origin |}.

Definition set_consumed (cb pid : Z) (origin : ascii) (o : open_channel) : open_channel :=
  {| id := id o; rx_queue := rx_queue o; tx_queue := tx_queue o;
     rx_fill_level := rx_fill_level o; tx_fill_level := tx_fill_level o;
     tx_packet_level := tx_packet_level o; tx_up_limit := tx_up_limit o;
     ready_calling_pid := ready_calling_pid o; ready_callback := ready_callback o;
     consumed_calling_pid := pid; consumed_callback := cb;
     callback_origin := origin |}.

Definition set_opchan (o : option open_channel) (c : channel) : channel :=
  {| chan_opchan := o; chan_mode := chan_mode c; chan_status := chan_status c;
     chan_ipc_status := chan_ipc_status c; chan_size := chan_size c;
     chan_timeout := chan_timeout c |}.

Definition set_status (s : xlink_channel_status) (c : channel) : channel :=
  {| chan_opchan := chan_opchan c; chan_mode := chan_mode c; chan_status := s;
     chan_ipc_status := chan_ipc_status c; chan_size := chan_size c;
     chan_timeout := chan_timeout c |}.

Definition set_size_timeout (sz tmo : Z) (c : channel) : channel :=
  {| chan_opchan := chan_opchan c; chan_mode := chan_mode c;
     chan_status := chan_status c; chan_ipc_status := chan_ipc_status c;
     chan_size := sz; chan_timeout := tmo |}.

Definition set_mode (m : xlink_opmode) (c : channel) : channel :=
  {| chan_opchan := chan_opchan c; chan_mode := m; chan_status := chan_status c;
     chan_ipc_status := chan_ipc_status c; chan_size := chan_size c;
     chan_timeout := chan_timeout c |}.

Definition set_ev_type (t : xlink_event_type) (e : xlink_event) : xlink_event :=
  {| ev_link_id := ev_link_id e; ev_type := t; ev_chan := ev_chan e;
     ev_size := ev_size e; ev_timeout := ev_timeout e;
     ev_sw_device_id := ev_sw_device_id e; ev_dev_type := ev_dev_type e;
     ev_interface := ev_interface e; ev_data := ev_data e; ev_paddr := ev_paddr e;
     ev_calling_pid := ev_calling_pid e;
     ev_callback_origin := ev_callback_origin e;
     ev_pdata := ev_pdata e; ev_length := ev_length e |}.

Definition set_ev_size (n : Z) (e : xlink_event) : xlink_event :=
  {| ev_link_id := ev_link_id e; ev_type := ev_type e; ev_chan := ev_chan e;
     ev_size := n; ev_timeout := ev_timeout e;
     ev_sw_device_id := ev_sw_device_id e; ev_dev_type := ev_dev_type e;
     ev_interface := ev_interface e; ev_data := ev_data e; ev_paddr := ev_paddr e;
     ev_calling_pid := ev_calling_pid e;
     ev_callback_origin := ev_callback_origin e;
     ev_pdata := ev_pdata e; ev_length := ev_length e |}.

Definition set_ev_timeout (n : Z) (e : xlink_event) : xlink_event :=
  {| ev_link_id := ev_link_id e; ev_type := ev_type e; ev_chan := ev_chan e;
     ev_size := ev_size e; ev_timeout := n;
     ev_sw_device_id := ev_sw_device_id e; ev_dev_type := ev_dev_type e;
     ev_interface := ev_interface e; ev_data := ev_data e; ev_paddr := ev_paddr e;
     ev_calling_pid := ev_calling_pid e;
     ev_callback_origin := ev_callback_origin e;
     ev_pdata := ev_pdata e; ev_length := ev_length e |}.

Definition set_ev_buffer (buf pa : Z) (e : xlink_event) : xlink_event :=
  {| ev_link_id := ev_link_id e; ev_type := ev_type e; ev_chan := ev_chan e;
     ev_size := ev_size e; ev_timeout := ev_timeout e;
     ev_sw_device_id := ev_sw_device_id e; ev_dev_type := ev_dev_type e;
     ev_interface := ev_interface e; ev_data := buf; ev_paddr := pa;
     ev_calling_pid := ev_calling_pid e;
     ev_callback_origin := ev_callback_origin e;
     ev_pdata := ev_pdata e; ev_length := ev_length e |}.

Definition set_ev_result (p len : Z) (e : xlink_event) : xlink_event :=
  {| ev_link_id := ev_link_id e; ev_type := ev_type e; ev_chan := ev_chan e;
     ev_size := ev_size e; ev_timeout := ev_timeout e;
     ev_sw_device_id := ev_sw_device_id e; ev_dev_type := ev_dev_type e;
     ev_interface := ev_interface e; ev_data := ev_data e; ev_paddr := ev_paddr e;
     ev_calling_pid := ev_calling_pid e;
     ev_callback_origin := ev_callback_origin e;
     ev_pdata := p; ev_length := len |}.

(** ** The world outside the multiplexer *)

Inductive signal : Set := Sig_opened | Sig_pkt_available | Sig_pkt_consumed | Sig_pkt_released.

(** One entry per call that leaves the multiplexer, in program order. *)
Inductive effect : Set :=
| Kzalloc_opchan (ok : bool)
| Kfree_opchan (chan : Z)
| Kzalloc_packet (ok : bool)
| Kfree_packet (data : Z)
| Platform_allocate (size : Z) (mem : xlink_memory) (buffer paddr : Z)
| Platform_deallocate (buffer paddr size : Z) (mem : xlink_memory)
| Platform_read (itf : xlink_interface) (dev buffer size timeout : Z)
| Dispatcher_event_add (dir : event_dir) (e : xlink_event)
| Create_event (e : xlink_event)
| Destroy_event (e : xlink_event)
| Complete (chan : Z) (s : signal)
| Wait_for_completion (chan : Z) (s : signal) (timeout_ms : option Z)
| Send_sig_info (pid chan callback : Z)
| Call_function (callback chan : Z).

(** Answers of the callees of one call, each of which an entry point calls
    at most once: [kzalloc], the platform allocator (buffer and bus address,
    buffer [0] on failure), the platform read (its return value and the size
    it wrote back) and [send_sig_info]. *)
Record env : Set := {
  kzalloc_ok : bool;
  allocate_result : Z * Z;
  read_result : Z * Z;
  send_sig_result : Z
}.

Inductive wait_result : Set := Completed | Timed_out | Interrupted.

(** The result of running a call of the model. [Blocked]: the caller is
    still suspended when the script ends (or an unbounded wait is never
    completed). [Fault]: the C code dereferences NULL. [Not_covered]: one of
    the relay cases that this development leaves out. *)
Inductive outcome (A : Type) : Type :=
| Done (a : A)
| Blocked
| Fault
| Not_covered.
Arguments Done {A} a.
Arguments Blocked {A}.
Arguments Fault {A}.
Arguments Not_covered {A}.

(** [xmux->channels], indexed by link and channel. *)
Definition multiplexer : Type := Z -> Z -> channel.

Definition upd (x : multiplexer) (l c : Z) (ch : channel) : multiplexer :=
  fun l' c' => if (l' =? l) && (c' =? c) then ch else x l' c'.

(** While the caller sleeps in a wait it holds no lock: [ws_others] is what
    the other threads did to the multiplexer in the meantime, [ws_result]
    how the wait ended. *)
Record wait_step : Type := {
  ws_others : multiplexer -> multiplexer;
  ws_result : wait_result
}.

(** What the multiplexer takes from the rest of the driver.  The constants
    of [xlink-defs.h] and the build option are not under src/; the three
    functions are [get_interface_from_sw_device_id] of the platform layer,
    the cast [(uintptr_t)event->data] of an open request read as an
    [enum xlink_opmode], and [xlink_passthrough], the relay to the local
    transport (its result, what it leaves in the slot table, what it
    calls). *)
Class xlink_defs : Type := {
  NMB_CHANNELS : Z;
  XLINK_IPC_MAX_CHANNELS : Z;
  IP_CONTROL_CHANNEL : Z;
  VPU_CONTROL_CHANNEL : Z;
  XLINK_PACKET_QUEUE_CAPACITY : Z;
  XLINK_MAX_DATA_SIZE : Z;
  XLINK_MAX_CONTROL_DATA_SIZE : Z;
  XLINK_MAX_BUF_SIZE : Z;
  CONFIG_XLINK_LOCAL_HOST : bool;
  get_interface_from_sw_device_id : Z -> xlink_interface;
  opmode_of_data : Z -> xlink_opmode;
  xlink_passthrough : xlink_event -> multiplexer -> retval * multiplexer * list effect
}.

Definition THR_UPR : Z := 85.
Definition THR_LWR : Z := 80.
Definition OPEN_CHANNEL_TIMEOUT_MSEC : Z := 5000.

(** Channel mapping table. *)
Record xlink_channel_type : Set := {
  remote_to_local : xlink_interface;
  local_to_ip : xlink_interface
}.

Record xlink_channel_table_entry : Set := {
  start_range : Z;
  stop_range : Z;
  entry_type : xlink_channel_type
}.

Definition table_entry (a b : Z) (r l : xlink_interface) : xlink_channel_table_entry :=
  {| start_range := a; stop_range := b;
     entry_type := {| remote_to_local := r; local_to_ip := l |} |}.

Inductive which_queue : Set := Rx_queue | Tx_queue.

Definition queue_of (w : which_queue) (o : open_channel) : packet_queue :=
  match w with Rx_queue => rx_queue o | Tx_queue => tx_queue o end.

Definition set_queue (w : which_queue) (q : packet_queue) (o : open_channel) : open_channel :=
  match w with Rx_queue => set_rx_queue q o | Tx_queue => set_tx_queue q o end.

(** [list_for_each_entry] with the test [pkt->data == addr]: the first
    packet at that address, and the list without it. *)
Fixpoint find_packet (addr : Z) (l : list packet) : option (packet * list packet) :=
  match l with
  | [] => None
  | p :: tl =>
      if pkt_data p =? addr then Some (p, tl)
      else match find_packet addr tl with
           | Some (q, rest) => Some (q, p :: rest)
           | None => None
           end
  end.

Definition sum_lengths (l : list packet) : Z :=
  fold_right (fun p acc => pkt_length p + acc) 0 l.

(** The errno of an interrupted wait ([linux/errno.h]). *)
Definition ERESTARTSYS : Z := 512.

(** ** Multiplexer internal functions *)

Section Multiplexer.

Context {K : xlink_defs}.

Definition default_channel_table : list xlink_channel_table_entry :=
  [ table_entry 0x0 0x1 PCIE_INTERFACE IPC_INTERFACE;
    table_entry 0x2 0x9 USB_CDC_INTERFACE IPC_INTERFACE;
    table_entry 0xA 0x3FD PCIE_INTERFACE IPC_INTERFACE;
    table_entry 0x3FE 0x3FF ETH_INTERFACE IPC_INTERFACE;
    table_entry 0x400 0xFFE PCIE_INTERFACE NULL_INTERFACE;
    table_entry 0xFFF 0xFFF ETH_INTERFACE NULL_INTERFACE;
    table_entry NMB_CHANNELS NMB_CHANNELS NULL_INTERFACE NULL_INTERFACE ].

(** The walk of [get_channel_type] from entry [i] on; the walk stops at the
    first entry whose start is not below [NMB_CHANNELS]. *)
Fixpoint walk_channel_table (tbl : list xlink_channel_table_entry) (chan : Z)
  : option xlink_channel_type :=
  match tbl with
  | [] => None
  | e :: rest =>
      if start_range e <? NMB_CHANNELS then
        if (chan >=? start_range e) && (chan <=? stop_range e)
        then Some (entry_type e)
        else walk_channel_table rest chan
      else None
  end.

Definition get_channel_type (chan : Z) : option xlink_channel_type :=
  walk_channel_table default_channel_table chan.

Definition is_channel_for_device (chan sw_device_id : Z) (dev_type : xlink_dev_type) : bool :=
  match get_channel_type chan with
  | Some chan_type =>
      let interface := get_interface_from_sw_device_id sw_device_id in
      match dev_type with
      | VPUIP_DEVICE => interface_eqb (local_to_ip chan_type) interface
      | HOST_DEVICE => interface_eqb (remote_to_local chan_type) interface
      end
  | None => false
  end.

Definition chan_is_non_blocking_read (chan : channel) : bool :=
  opmode_eqb (chan_mode chan) RXN_TXN || opmode_eqb (chan_mode chan) RXN_TXB.

Definition chan_is_non_blocking_write (chan : channel) : bool :=
  opmode_eqb (chan_mode chan) RXN_TXN || opmode_eqb (chan_mode chan) RXB_TXN.

(** The two thresholds on the byte fill of a channel, in uint32_t. *)
Definition upper_threshold (chan : channel) : Z := u32 (u32 (chan_size chan) / 100 * THR_UPR).
Definition lower_threshold (chan : channel) : Z := u32 (u32 (chan_size chan) / 100 * THR_LWR).

(** [opchan->tx_fill_level + size]: the int32_t is converted to uint32_t. *)
Definition tx_fill_with (opchan : open_channel) (size : Z) : Z :=
  u32 (tx_fill_level opchan + size).

(** The cap on the packets in flight. *)
Definition packet_limit : Z := Z.quot XLINK_PACKET_QUEUE_CAPACITY 100 * THR_UPR.

Definition is_enough_space_in_channel (chan : channel) (opchan : open_channel) (size : Z)
  : bool * open_channel :=
  if tx_packet_level opchan >=? packet_limit then (false, opchan)
  else if (tx_up_limit opchan =? 0) && (tx_fill_with opchan size >? upper_threshold chan)
  then (false, set_tx_up_limit 1 opchan)
  else if tx_up_limit opchan =? 1 then
    if tx_fill_with opchan size <? lower_threshold chan
    then (true, set_tx_up_limit 0 opchan)
    else (false, opchan)
  else (true, opchan).

(** [chan_type] is dereferenced without a test: [None] is the NULL
    dereference. *)
Definition is_passthru_channel (chan : Z) : option bool :=
  match get_channel_type chan with
  | Some chan_type => Some (interface_eqb (local_to_ip chan_type) IPC_INTERFACE)
  | None => None
  end.

Definition is_control_channel (chan : Z) : bool :=
  (chan =? IP_CONTROL_CHANNEL) || (chan =? VPU_CONTROL_CHANNEL).

Definition get_channel (x : multiplexer) (link_id chan : Z) : option open_channel :=
  chan_opchan (x link_id chan).

(** Writes [opchan] back through the pointer the slot holds. *)
Definition put_channel (x : multiplexer) (link_id chan : Z) (opchan : open_channel)
  : multiplexer :=
  upd x link_id chan (set_opchan (Some opchan) (x link_id chan)).

Definition add_packet_to_channel (en : env) (opchan : open_channel) (w : which_queue)
    (buffer size paddr : Z) : xlink_error * open_channel * list effect :=
  let queue := queue_of w opchan in
  if q_count queue <? q_capacity queue then
    if kzalloc_ok en then
      let pkt := {| pkt_data := buffer; pkt_length := size; pkt_paddr := paddr |} in
      let queue' := set_q (u32 (q_count queue + 1)) (q_head queue ++ [pkt]) queue in
      let opchan' := set_queue w queue' opchan in
      (X_LINK_SUCCESS,
       set_rx_fill_level (s32 (rx_fill_level opchan' + pkt_length pkt)) opchan',
       [Kzalloc_packet true])
    else (X_LINK_ERROR, opchan, [Kzalloc_packet false])
  else (X_LINK_SUCCESS, opchan, []).

Definition get_packet_from_channel (queue : packet_queue) : option packet :=
  match q_head queue with
  | [] => None
  | pkt :: _ => Some pkt
  end.

(** The packet [release_packet_from_channel] settles on: the first of the
    queue when [addr] is NULL, else the first whose data is [addr]. *)
Definition select_packet (addr : Z) (l : list packet) : option (packet * list packet) :=
  if addr =? 0 then
    match l with
    | [] => None
    | pkt :: rest => Some (pkt, rest)
    end
  else find_packet addr l.

(** Result, channel, the length stored through [size], trace. *)
Definition release_packet_from_channel (opchan : open_channel) (w : which_queue) (addr : Z)
  : xlink_error * open_channel * Z * list effect :=
  let queue := queue_of w opchan in
  match select_packet addr (q_head queue) with
  | None => (X_LINK_ERROR, opchan, 0, [])
  | Some (pkt, rest) =>
      let queue' := set_q (u32 (q_count queue - 1)) rest queue in
      let opchan' := set_queue w queue' opchan in
      (X_LINK_SUCCESS,
       set_rx_fill_level (s32 (rx_fill_level opchan' - pkt_length pkt)) opchan',
       pkt_length pkt,
       [Platform_deallocate (pkt_data pkt) (pkt_paddr pkt) (pkt_length pkt)
          XLINK_NORMAL_MEMORY;
        Kfree_packet (pkt_data pkt)])
  end.

Definition core_release_packet_from_channel (x : multiplexer) (link_id chan addr : Z)
  : outcome (xlink_error * multiplexer * list effect) :=
  if CONFIG_XLINK_LOCAL_HOST then Done (X_LINK_SUCCESS, x, [])
  else
    match is_passthru_channel chan with
    | None => Fault
    | Some false => Done (X_LINK_SUCCESS, x, [])
    | Some true =>
        match get_channel x link_id chan with
        | None => Fault
        | Some opchan =>
            let '(rc, opchan', _, t) := release_packet_from_channel opchan Rx_queue addr in
            Done (rc, put_channel x link_id chan opchan', t)
        end
    end.

(** The object [multiplexer_open_channel] initialises. *)
Definition new_open_channel (chan : Z) : open_channel :=
  let queue := {| q_count := 0; q_capacity := XLINK_PACKET_QUEUE_CAPACITY;
                  q_head := [] |} in
  {| id := chan; rx_queue := queue; tx_queue := queue;
     rx_fill_level := 0; tx_fill_level := 0; tx_packet_level := 0; tx_up_limit := 0;
     ready_calling_pid := 0; ready_callback := 0;
     consumed_calling_pid := 0; consumed_callback := 0;
     callback_origin := Ascii.zero |}.

Definition multiplexer_open_channel (en : env) (x : multiplexer) (link_id chan : Z)
  : xlink_error * multiplexer * list effect :=
  match chan_opchan (x link_id chan) with
  | Some _ => (X_LINK_SUCCESS, x, [])
  | None =>
      if kzalloc_ok en then
        (X_LINK_SUCCESS, put_channel x link_id chan (new_open_channel chan),
         [Kzalloc_opchan true])
      else (X_LINK_ERROR, x, [Kzalloc_opchan false])
  end.

(** [while (!list_empty(&queue->head)) release_packet_from_channel(opchan,
    queue, NULL, NULL);] run for at most [fuel] rounds. *)
Fixpoint drain_queue (fuel : nat) (w : which_queue) (opchan : open_channel)
  : open_channel * list effect :=
  match fuel with
  | O => (opchan, [])
  | S fuel' =>
      match q_head (queue_of w opchan) with
      | [] => (opchan, [])
      | _ :: _ =>
          let '(_, opchan', _, t) := release_packet_from_channel opchan w 0 in
          let '(opchan'', t') := drain_queue fuel' w opchan' in
          (opchan'', t ++ t')
      end
  end.

(** [opchan] is the object of slot [(link_id, chan)], as at every call site;
    each loop gets one round per queued packet. *)
Definition multiplexer_close_channel (x : multiplexer) (link_id chan : Z)
  : xlink_error * multiplexer * list effect :=
  match chan_opchan (x link_id chan) with
  | None => (X_LINK_ERROR, x, [])
  | Some opchan =>
      let '(o1, t1) := drain_queue (length (q_head (rx_queue opchan))) Rx_queue opchan in
      let '(o2, t2) := drain_queue (length (q_head (tx_queue o1))) Tx_queue o1 in
      (X_LINK_SUCCESS,
       upd x link_id chan (set_opchan None (x link_id chan)),
       t1 ++ t2 ++ [Kfree_opchan (id o2)])
  end.

Definition run_callback (en : env) (opchan : open_channel) (callback pid : Z)
  : xlink_error * list effect :=
  if Ascii.eqb (callback_origin opchan) "U"%char then
    if negb (pid =? 0) then
      (if send_sig_result en <? 0 then X_LINK_ERROR else X_LINK_SUCCESS,
       [Send_sig_info pid (id opchan) callback])
    else (X_LINK_ERROR, [])
  else (X_LINK_SUCCESS, [Call_function callback (id opchan)]).

(** ** Multiplexer external functions: the transmit entry point *)

(** What [xlink_multiplexer_tx] leaves behind: its return value,
    [*event_queued], the event as last written, the slot table and the
    trace. *)
Record tx_result : Type := {
  tx_rc : retval;
  tx_event_queued : bool;
  tx_event : xlink_event;
  tx_mux : multiplexer;
  tx_trace : list effect
}.

Definition tx_done (rc : xlink_error) (queued : bool) (event : xlink_event)
    (x : multiplexer) (t : list effect) : outcome tx_result :=
  Done {| tx_rc := Ret rc; tx_event_queued := queued; tx_event := event;
          tx_mux := x; tx_trace := t |}.

(** Modelled from the spec: [xlink_create_event] is defined outside src/; it
    makes the per-call event record that carries the operation kind, the
    channel and link ids, the device handle, the payload size and the
    timeout.  The interface of the event is that of the device of the
    handle; the other fields are zero. *)
Definition xlink_create_event (link_id : Z) (type : xlink_event_type)
    (sw_device_id : Z) (dev_type : xlink_dev_type) (chan size timeout : Z)
  : xlink_event :=
  {| ev_link_id := link_id; ev_type := type; ev_chan := chan; ev_size := size;
     ev_timeout := timeout; ev_sw_device_id := sw_device_id;
     ev_dev_type := dev_type;
     ev_interface := get_interface_from_sw_device_id sw_device_id;
     ev_data := 0; ev_paddr := 0; ev_calling_pid := 0;
     ev_callback_origin := Ascii.zero; ev_pdata := 0; ev_length := 0 |}.

Definition tx_blocking (mode : xlink_opmode) : bool :=
  opmode_eqb mode RXN_TXB || opmode_eqb mode RXB_TXB.

Definition rx_blocking (mode : xlink_opmode) : bool :=
  opmode_eqb mode RXB_TXN || opmode_eqb mode RXB_TXB.

(** The bound handed to a wait: none when the channel timeout is 0. *)
Definition wait_bound (timeout : Z) : option Z :=
  if timeout =? 0 then None else Some timeout.

(** The [while (!is_enough_space_in_channel(...))] loop of the write
    requests.  Result: [rc] on leaving the loop, the slot table, the trace
    and what is left of the script. *)
Fixpoint wait_for_space (script : list wait_step) (x : multiplexer)
    (link_id chan size : Z)
  : outcome (xlink_error * multiplexer * list effect * list wait_step) :=
  match get_channel x link_id chan with
  | None => Fault
  | Some opchan =>
      let '(enough, opchan') :=
        is_enough_space_in_channel (x link_id chan) opchan size in
      let x1 := put_channel x link_id chan opchan' in
      if enough then Done (X_LINK_SUCCESS, x1, [], script)
      else if tx_blocking (chan_mode (x1 link_id chan)) then
        match script with
        | [] => Blocked
        | step :: rest =>
            let timeout := chan_timeout (x1 link_id chan) in
            let w := Wait_for_completion chan Sig_pkt_released (wait_bound timeout) in
            let x2 := ws_others step x1 in
            match ws_result step with
            | Completed =>
                match wait_for_space rest x2 link_id chan size with
                | Done (rc, x3, t, script') => Done (rc, x3, w :: t, script')
                | Blocked => Blocked
                | Fault => Fault
                | Not_covered => Not_covered
                end
            | Interrupted => Done (X_LINK_ERROR, x2, [w], rest)
            | Timed_out =>
                if timeout =? 0 then Blocked
                else Done (X_LINK_TIMEOUT, x2, [w], rest)
            end
        end
      else Done (X_LINK_CHAN_FULL, x1, [], script)
  end.

(** [case XLINK_WRITE_REQ: case XLINK_WRITE_VOLATILE_REQ:
     case XLINK_WRITE_CONTROL_REQ:] *)
Definition tx_write_req (script : list wait_step) (event : xlink_event) (x : multiplexer)
  : outcome tx_result :=
  let link_id := ev_link_id event in
  let chan := ev_chan event in
  match get_channel x link_id chan with
  | None => tx_done X_LINK_COMMUNICATION_FAIL false event x []
  | Some _ =>
      if negb (status_eqb (chan_status (x link_id chan)) CHAN_OPEN)
      then tx_done X_LINK_COMMUNICATION_FAIL false event x []
      else
        let event := set_ev_timeout (chan_timeout (x link_id chan)) event in
        match wait_for_space script x link_id chan (ev_size event) with
        | Done (X_LINK_SUCCESS, x1, t1, script1) =>
            match get_channel x1 link_id chan with
            | None => Fault
            | Some opchan =>
                let opchan' :=
                  set_tx_levels (s32 (tx_fill_level opchan + ev_size event))
                                (s32 (tx_packet_level opchan + 1)) opchan in
                let x2 := put_channel x1 link_id chan opchan' in
                match is_passthru_channel chan with
                | None => Fault
                | Some true =>
                    (* pass this data on to VPU via IPC *)
                    let '(rc, event') :=
                      match ev_type event with
                      | XLINK_WRITE_REQ =>
                          (X_LINK_SUCCESS, set_ev_type XLINK_PASSTHRU_WRITE_REQ event)
                      | XLINK_WRITE_CONTROL_REQ | XLINK_WRITE_VOLATILE_REQ =>
                          (X_LINK_SUCCESS,
                           set_ev_type XLINK_PASSTHRU_VOLATILE_WRITE_REQ event)
                      | _ => (X_LINK_ERROR, event)
                      end in
                    tx_done rc true event' x2
                      (t1 ++ [Dispatcher_event_add EVENT_TX event'])
                | Some false =>
                    let t2 := t1 ++ [Dispatcher_event_add EVENT_TX event] in
                    if tx_blocking (chan_mode (x2 link_id chan)) then
                      (* channel is blocking, wait for packet to be consumed *)
                      match script1 with
                      | [] => Blocked
                      | step :: _ =>
                          let timeout := chan_timeout (x2 link_id chan) in
                          let w := Wait_for_completion chan Sig_pkt_consumed
                                     (wait_bound timeout) in
                          let x3 := ws_others step x2 in
                          match ws_result step with
                          | Completed => tx_done X_LINK_SUCCESS true event x3 (t2 ++ [w])
                          | Interrupted => tx_done X_LINK_ERROR true event x3 (t2 ++ [w])
                          | Timed_out =>
                              if timeout =? 0 then Blocked
                              else tx_done X_LINK_TIMEOUT true event x3 (t2 ++ [w])
                          end
                      end
                    else tx_done X_LINK_SUCCESS true event x2 t2
                end
            end
        | Done (rc, x1, t1, _) => tx_done rc false event x1 t1
        | Blocked => Blocked
        | Fault => Fault
        | Not_covered => Not_covered
        end
  end.

(** The wait on [pkt_available] of the two read requests: the bounded wait
    is mapped to an enumerator, the unbounded one is handed on as it is. *)
Definition wait_for_packet (script : list wait_step) (x : multiplexer) (link_id chan : Z)
  : outcome (retval * multiplexer * list effect) :=
  if rx_blocking (chan_mode (x link_id chan)) then
    match script with
    | [] => Blocked
    | step :: _ =>
        let timeout := chan_timeout (x link_id chan) in
        let w := Wait_for_completion chan Sig_pkt_available (wait_bound timeout) in
        let x1 := ws_others step x in
        match ws_result step with
        | Completed => Done (Ret X_LINK_SUCCESS, x1, [w])
        | Interrupted =>
            Done (if timeout =? 0 then Raw (- ERESTARTSYS) else Ret X_LINK_ERROR, x1, [w])
        | Timed_out =>
            if timeout =? 0 then Blocked else Done (Ret X_LINK_TIMEOUT, x1, [w])
        end
    end
  else Done (Ret X_LINK_SUCCESS, x, []).

(** [case XLINK_READ_REQ:] *)
Definition tx_read_req (script : list wait_step) (event : xlink_event) (x : multiplexer)
  : outcome tx_result :=
  let link_id := ev_link_id event in
  let chan := ev_chan event in
  match get_channel x link_id chan with
  | None => tx_done X_LINK_COMMUNICATION_FAIL false event x []
  | Some _ =>
      if negb (status_eqb (chan_status (x link_id chan)) CHAN_OPEN)
      then tx_done X_LINK_COMMUNICATION_FAIL false event x []
      else
        match is_passthru_channel chan with
        | None => Fault
        | Some passthru =>
            let passthru_event :=
              xlink_create_event link_id XLINK_PASSTHRU_READ_REQ
                (ev_sw_device_id event) (ev_dev_type event) chan 0
                (chan_timeout (x link_id chan)) in
            let t0 := if passthru
                      then [Create_event passthru_event;
                            Dispatcher_event_add EVENT_TX passthru_event]
                      else [] in
            let event := if passthru then set_ev_type XLINK_PASSTHRU_READ_REQ event
                         else event in
            let event := set_ev_timeout (chan_timeout (x link_id chan)) event in
            match wait_for_packet script x link_id chan with
            | Done (rc, x1, t1) =>
                if is_success rc then
                  match get_channel x1 link_id chan with
                  | None => Fault
                  | Some opchan =>
                      match get_packet_from_channel (rx_queue opchan) with
                      | Some pkt =>
                          let event :=
                            match ev_type event with
                            | XLINK_PASSTHRU_READ_REQ => set_ev_type XLINK_READ_REQ event
                            | _ => event
                            end in
                          let event := set_ev_result (pkt_data pkt) (pkt_length pkt) event in
                          Done {| tx_rc := rc; tx_event_queued := true;
                                  tx_event := event; tx_mux := x1;
                                  tx_trace := t0 ++ t1 ++
                                    [Dispatcher_event_add EVENT_TX event] |}
                      | None => tx_done X_LINK_ERROR passthru event x1 (t0 ++ t1)
                      end
                  end
                else Done {| tx_rc := rc; tx_event_queued := passthru;
                             tx_event := event; tx_mux := x1; tx_trace := t0 ++ t1 |}
            | Blocked => Blocked
            | Fault => Fault
            | Not_covered => Not_covered
            end
        end
  end.

(** [case XLINK_READ_TO_BUFFER_REQ:] *)
Definition tx_read_to_buffer_req (script : list wait_step) (event : xlink_event)
    (x : multiplexer) : outcome tx_result :=
  let link_id := ev_link_id event in
  let chan := ev_chan event in
  match get_channel x link_id chan with
  | None => tx_done X_LINK_COMMUNICATION_FAIL false event x []
  | Some _ =>
      if negb (status_eqb (chan_status (x link_id chan)) CHAN_OPEN)
      then tx_done X_LINK_COMMUNICATION_FAIL false event x []
      else
        match is_passthru_channel chan with
        | None => Fault
        | Some passthru =>
            let passthru_event :=
              xlink_create_event link_id XLINK_PASSTHRU_READ_TO_BUFFER_REQ
                (ev_sw_device_id event) (ev_dev_type event) chan 0
                (chan_timeout (x link_id chan)) in
            let t0 := if passthru
                      then [Create_event passthru_event;
                            Dispatcher_event_add EVENT_TX passthru_event]
                      else [] in
            let event := set_ev_timeout (chan_timeout (x link_id chan)) event in
            match wait_for_packet script x link_id chan with
            | Done (rc, x1, t1) =>
                if is_success rc then
                  match get_channel x1 link_id chan with
                  | None => Fault
                  | Some opchan =>
                      match get_packet_from_channel (rx_queue opchan) with
                      | Some pkt =>
                          (* memcpy(event->data, pkt->data, pkt->length) *)
                          let '(rc', opchan', t2) :=
                            if passthru then
                              let '(r, o, _, t) :=
                                release_packet_from_channel opchan Rx_queue (pkt_data pkt) in
                              (Ret r, o, t)
                            else (rc, opchan, []) in
                          let event := set_ev_result (ev_pdata event) (pkt_length pkt) event in
                          Done {| tx_rc := rc'; tx_event_queued := true;
                                  tx_event := event;
                                  tx_mux := put_channel x1 link_id chan opchan';
                                  tx_trace := t0 ++ t1 ++ t2 ++
                                    [Dispatcher_event_add EVENT_TX event] |}
                      | None => tx_done X_LINK_ERROR false event x1 (t0 ++ t1)
                      end
                  end
                else Done {| tx_rc := rc; tx_event_queued := false;
                             tx_event := event; tx_mux := x1; tx_trace := t0 ++ t1 |}
            | Blocked => Blocked
            | Fault => Fault
            | Not_covered => Not_covered
            end
        end
  end.

(** [case XLINK_RELEASE_REQ:] *)
Definition tx_release_req (event : xlink_event) (x : multiplexer) : outcome tx_result :=
  let link_id := ev_link_id event in
  let chan := ev_chan event in
  match get_channel x link_id chan with
  | None => tx_done X_LINK_COMMUNICATION_FAIL false event x []
  | Some opchan =>
      match release_packet_from_channel opchan Rx_queue (ev_data event) with
      | (X_LINK_SUCCESS, opchan', size, t) =>
          let event := set_ev_size size event in
          tx_done X_LINK_SUCCESS true event (put_channel x link_id chan opchan')
            (t ++ [Dispatcher_event_add EVENT_TX event])
      | (_, opchan', _, t) =>
          tx_done X_LINK_ERROR false event (put_channel x link_id chan opchan') t
      end
  end.

(** [case XLINK_OPEN_CHANNEL_REQ:] *)
Definition tx_open_channel_req (en : env) (script : list wait_step) (event : xlink_event)
    (x : multiplexer) : outcome tx_result :=
  let link_id := ev_link_id event in
  let chan := ev_chan event in
  let requested (c : channel) : channel :=
    set_mode (opmode_of_data (ev_data event))
      (set_size_timeout (ev_size event) (ev_timeout event) c) in
  match chan_status (x link_id chan) with
  | CHAN_CLOSED =>
      let x1 := upd x link_id chan (requested (x link_id chan)) in
      match multiplexer_open_channel en x1 link_id chan with
      | (X_LINK_SUCCESS, x2, t2) =>
          match get_channel x2 link_id chan with
          | None => tx_done X_LINK_COMMUNICATION_FAIL false event x2 t2
          | Some _ =>
              let t3 := t2 ++ [Dispatcher_event_add EVENT_TX event;
                               Wait_for_completion chan Sig_opened
                                 (Some OPEN_CHANNEL_TIMEOUT_MSEC)] in
              match script with
              | [] => Blocked
              | step :: _ =>
                  let x3 := ws_others step x2 in
                  match ws_result step with
                  | Completed =>
                      tx_done X_LINK_SUCCESS true event
                        (upd x3 link_id chan (set_status CHAN_OPEN (x3 link_id chan))) t3
                  | failed =>
                      let rc := match failed with
                                | Timed_out => X_LINK_TIMEOUT
                                | _ => X_LINK_ERROR
                                end in
                      match get_channel x3 link_id chan with
                      | None => Fault
                      | Some _ =>
                          let '(_, x4, t4) := multiplexer_close_channel x3 link_id chan in
                          tx_done rc true event x4 (t3 ++ t4)
                      end
                  end
              end
          end
      | (_, x2, t2) => tx_done X_LINK_ERROR false event x2 t2
      end
  | CHAN_OPEN_PEER =>
      (* channel already open *)
      let x1 := upd x link_id chan
                  (requested (set_status CHAN_OPEN (x link_id chan))) in
      let '(_, x2, t2) := multiplexer_open_channel en x1 link_id chan in
      tx_done X_LINK_SUCCESS false event x2 t2
  | CHAN_OPEN => tx_done X_LINK_ALREADY_OPEN false event x []
  end.

(** [case XLINK_DATA_READY_CALLBACK_REQ:] *)
Definition tx_data_ready_callback_req (event : xlink_event) (x : multiplexer)
  : outcome tx_result :=
  let link_id := ev_link_id event in
  let chan := ev_chan event in
  match get_channel x link_id chan with
  | None => tx_done X_LINK_COMMUNICATION_FAIL false event x []
  | Some opchan =>
      tx_done X_LINK_SUCCESS false event
        (put_channel x link_id chan
           (set_ready (ev_data event) (ev_calling_pid event)
              (ev_callback_origin event) opchan)) []
  end.

(** [case XLINK_DATA_CONSUMED_CALLBACK_REQ:] *)
Definition tx_data_consumed_callback_req (event : xlink_event) (x : multiplexer)
  : outcome tx_result :=
  let link_id := ev_link_id event in
  let chan := ev_chan event in
  match get_channel x link_id chan with
  | None => tx_done X_LINK_COMMUNICATION_FAIL false event x []
  | Some opchan =>
      tx_done X_LINK_SUCCESS false event
        (put_channel x link_id chan
           (set_consumed (ev_data event) (ev_calling_pid event)
              (ev_callback_origin event) opchan)) []
  end.

(** [case XLINK_CLOSE_CHANNEL_REQ:] *)
Definition tx_close_channel_req (event : xlink_event) (x : multiplexer)
  : outcome tx_result :=
  let link_id := ev_link_id event in
  let chan := ev_chan event in
  match chan_status (x link_id chan) with
  | CHAN_OPEN =>
      match multiplexer_close_channel x link_id chan with
      | (X_LINK_SUCCESS, x1, t) =>
          tx_done X_LINK_SUCCESS false event
            (upd x1 link_id chan (set_status CHAN_CLOSED (x1 link_id chan))) t
      | (_, x1, t) => tx_done X_LINK_ERROR false event x1 t
      end
  | _ =>
      (* can't close channel not open *)
      tx_done X_LINK_ERROR false event x []
  end.

(** The three tests every request passes first, and the test that sends it
    to the passthrough. *)
Definition tx_channel_valid (event : xlink_event) : bool :=
  negb (ev_chan event >=? NMB_CHANNELS)
  && is_channel_for_device (ev_chan event) (ev_sw_device_id event) (ev_dev_type event)
  && negb (is_control_channel (ev_chan event)).

Definition tx_by_passthrough (event : xlink_event) : bool :=
  (ev_chan event <? XLINK_IPC_MAX_CHANNELS)
  && interface_eqb (ev_interface event) IPC_INTERFACE.

(** The [switch (event->header.type)] of the events the dispatcher handles. *)
Definition tx_switch (en : env) (script : list wait_step) (event : xlink_event)
    (x : multiplexer) : outcome tx_result :=
  match ev_type event with
  | XLINK_WRITE_REQ | XLINK_WRITE_VOLATILE_REQ | XLINK_WRITE_CONTROL_REQ =>
      tx_write_req script event x
  | XLINK_READ_REQ => tx_read_req script event x
  | XLINK_READ_TO_BUFFER_REQ => tx_read_to_buffer_req script event x
  | XLINK_RELEASE_REQ => tx_release_req event x
  | XLINK_OPEN_CHANNEL_REQ => tx_open_channel_req en script event x
  | XLINK_DATA_READY_CALLBACK_REQ => tx_data_ready_callback_req event x
  | XLINK_DATA_CONSUMED_CALLBACK_REQ => tx_data_consumed_callback_req event x
  | XLINK_CLOSE_CHANNEL_REQ => tx_close_channel_req event x
  | XLINK_PING_REQ => tx_done X_LINK_SUCCESS false event x []
  | _ => tx_done X_LINK_ERROR false event x []
  end.

Definition xlink_multiplexer_tx (en : env) (script : list wait_step)
    (event : xlink_event) (x : multiplexer) : outcome tx_result :=
  (* verify channel ID is in range *)
  if ev_chan event >=? NMB_CHANNELS then tx_done X_LINK_ERROR false event x []
  (* verify communication to device on channel is valid *)
  else if negb (is_channel_for_device (ev_chan event) (ev_sw_device_id event)
                  (ev_dev_type event))
  then tx_done X_LINK_ERROR false event x []
  (* verify this is not a control channel *)
  else if is_control_channel (ev_chan event) then tx_done X_LINK_ERROR false event x []
  else if tx_by_passthrough event then
    (* event should be handled by passthrough *)
    let '(rc, x1, t) := xlink_passthrough event x in
    Done {| tx_rc := rc; tx_event_queued := false; tx_event := event;
            tx_mux := x1; tx_trace := t |}
  else
    (* event should be handled by dispatcher *)
    tx_switch en script event x.

(** ** Multiplexer external functions: the receive entry point *)

Record rx_result : Type := {
  rx_rc : retval;
  rx_mux : multiplexer;
  rx_trace : list effect
}.

Definition rx_done (rc : xlink_error) (x : multiplexer) (t : list effect)
  : outcome rx_result :=
  Done {| rx_rc := Ret rc; rx_mux := x; rx_trace := t |}.

(** [case XLINK_WRITE_REQ: case XLINK_WRITE_VOLATILE_REQ:] *)
Definition rx_write_req (en : env) (event : xlink_event) (x : multiplexer)
  : outcome rx_result :=
  let link_id := ev_link_id event in
  let chan := ev_chan event in
  match get_channel x link_id chan with
  | None => rx_done X_LINK_COMMUNICATION_FAIL x []
  | Some opchan =>
      let timeout := chan_timeout (x link_id chan) in
      let event := set_ev_timeout timeout event in
      let '(buffer, paddr) := allocate_result en in
      let size := ev_size event in
      let dealloc := Platform_deallocate buffer paddr size XLINK_NORMAL_MEMORY in
      let t0 := [Platform_allocate size XLINK_NORMAL_MEMORY buffer paddr] in
      if negb (buffer =? 0) then
        let '(read_rc, read_size) := read_result en in
        let t1 := t0 ++ [Platform_read (ev_interface event) (ev_sw_device_id event)
                           buffer size timeout] in
        if negb (read_rc =? 0) || negb (size =? read_size)
        then rx_done X_LINK_ERROR x (t1 ++ [dealloc])
        else
          let event := set_ev_buffer buffer paddr event in
          match add_packet_to_channel en opchan Rx_queue (ev_data event) size paddr with
          | (X_LINK_SUCCESS, opchan', t2) =>
              let x1 := put_channel x link_id chan opchan' in
              let event := set_ev_type XLINK_WRITE_VOLATILE_RESP event in
              (* complete regardless of mode/timeout *)
              let t3 := t1 ++ t2 ++ [Dispatcher_event_add EVENT_RX event;
                                     Complete chan Sig_pkt_available] in
              (* run callback *)
              if status_eqb (chan_status (x1 link_id chan)) CHAN_OPEN
                 && chan_is_non_blocking_read (x1 link_id chan)
                 && negb (ready_callback opchan' =? 0)
              then
                let '(rc, t4) := run_callback en opchan' (ready_callback opchan')
                                   (ready_calling_pid opchan') in
                rx_done rc x1 (t3 ++ t4)
              else rx_done X_LINK_SUCCESS x1 t3
          | (_, _, t2) => rx_done X_LINK_ERROR x (t1 ++ t2 ++ [dealloc])
          end
      else
        (* failed to allocate buffer *)
        rx_done X_LINK_ERROR x t0
  end.

(** [case XLINK_WRITE_CONTROL_REQ:] *)
Definition rx_write_control_req (en : env) (event : xlink_event) (x : multiplexer)
  : outcome rx_result :=
  let link_id := ev_link_id event in
  let chan := ev_chan event in
  match get_channel x link_id chan with
  | None => rx_done X_LINK_COMMUNICATION_FAIL x []
  | Some opchan =>
      let event := set_ev_timeout (chan_timeout (x link_id chan)) event in
      let '(buffer, paddr) := allocate_result en in
      let size := ev_size event in
      let t0 := [Platform_allocate size XLINK_NORMAL_MEMORY buffer paddr] in
      if negb (buffer =? 0) then
        (* memcpy(buffer, event->header.control_data, size) *)
        let event := set_ev_buffer buffer paddr event in
        match add_packet_to_channel en opchan Rx_queue (ev_data event) size paddr with
        | (X_LINK_SUCCESS, opchan', t1) =>
            let event := set_ev_type XLINK_WRITE_CONTROL_RESP event in
            (* channel blocking, notify waiting threads of available packet *)
            rx_done X_LINK_SUCCESS (put_channel x link_id chan opchan')
              (t0 ++ t1 ++ [Dispatcher_event_add EVENT_RX event;
                            Complete chan Sig_pkt_available])
        | (_, _, t1) =>
            rx_done X_LINK_ERROR x
              (t0 ++ t1 ++ [Platform_deallocate buffer paddr size XLINK_NORMAL_MEMORY])
        end
      else
        (* failed to allocate buffer *)
        rx_done X_LINK_ERROR x t0
  end.

(** [case XLINK_READ_REQ: case XLINK_READ_TO_BUFFER_REQ:] *)
Definition rx_read_req (en : env) (event : xlink_event) (x : multiplexer)
  : outcome rx_result :=
  let link_id := ev_link_id event in
  let chan := ev_chan event in
  match get_channel x link_id chan with
  | None =>
      (* the callback test dereferences opchan once the status is CHAN_OPEN *)
      if status_eqb (chan_status (x link_id chan)) CHAN_OPEN then Fault
      else rx_done X_LINK_COMMUNICATION_FAIL x []
  | Some opchan =>
      let event := set_ev_type XLINK_READ_TO_BUFFER_RESP
                     (set_ev_timeout (chan_timeout (x link_id chan)) event) in
      (* complete regardless of mode/timeout *)
      let t0 := [Dispatcher_event_add EVENT_RX event; Complete chan Sig_pkt_consumed] in
      (* run callback *)
      if status_eqb (chan_status (x link_id chan)) CHAN_OPEN
         && chan_is_non_blocking_write (x link_id chan)
         && negb (consumed_callback opchan =? 0)
      then
        let '(rc, t1) := run_callback en opchan (consumed_callback opchan)
                           (consumed_calling_pid opchan) in
        rx_done rc x (t0 ++ t1)
      else rx_done X_LINK_SUCCESS x t0
  end.

(** [case XLINK_RELEASE_REQ:] *)
Definition rx_release_req (event : xlink_event) (x : multiplexer) : outcome rx_result :=
  let link_id := ev_link_id event in
  let chan := ev_chan event in
  match get_channel x link_id chan with
  | None => rx_done X_LINK_COMMUNICATION_FAIL x []
  | Some opchan =>
      let event := set_ev_timeout (chan_timeout (x link_id chan)) event in
      let opchan' := set_tx_levels (s32 (tx_fill_level opchan - ev_size event))
                       (s32 (tx_packet_level opchan - 1)) opchan in
      let event := set_ev_type XLINK_RELEASE_RESP event in
      (* complete regardless of mode/timeout *)
      rx_done X_LINK_SUCCESS (put_channel x link_id chan opchan')
        [Dispatcher_event_add EVENT_RX event; Complete chan Sig_pkt_released]
  end.

(** [case XLINK_OPEN_CHANNEL_REQ:] *)
Definition rx_open_channel_req (en : env) (event : xlink_event) (x : multiplexer)
  : outcome rx_result :=
  let link_id := ev_link_id event in
  let chan := ev_chan event in
  let response (timeout : Z) :=
    let passthru_event :=
      xlink_create_event link_id XLINK_OPEN_CHANNEL_RESP (ev_sw_device_id event)
        (ev_dev_type event) chan 0 timeout in
    [Create_event passthru_event; Dispatcher_event_add EVENT_RX passthru_event] in
  let '(x', t') :=
    match chan_status (x link_id chan) with
    | CHAN_CLOSED =>
        let x1 := upd x link_id chan
                    (set_size_timeout (ev_size event) (ev_timeout event)
                       (x link_id chan)) in
        match multiplexer_open_channel en x1 link_id chan with
        | (X_LINK_SUCCESS, x2, t2) =>
            match get_channel x2 link_id chan with
            | None => (x2, t2)
            | Some _ =>
                (upd x2 link_id chan (set_status CHAN_OPEN_PEER (x2 link_id chan)),
                 t2 ++ Complete chan Sig_opened
                         :: response (chan_timeout (x2 link_id chan)))
            end
        | (_, x2, t2) => (x2, t2)
        end
    | _ =>
        (* channel already open *)
        match get_channel x link_id chan with
        | None => (x, [])
        | Some _ => (x, response 0)
        end
    end in
  let '(rc, x'', t'') := xlink_passthrough event x' in
  Done {| rx_rc := rc; rx_mux := x'';
          rx_trace := t' ++ t'' ++ (if is_success rc then [Destroy_event event] else []) |}.

(** The cases that destroy the event when the channel has its object. *)
Definition rx_response (signal_opened : bool) (event : xlink_event) (x : multiplexer)
  : outcome rx_result :=
  match get_channel x (ev_link_id event) (ev_chan event) with
  | None => rx_done X_LINK_COMMUNICATION_FAIL x []
  | Some _ =>
      rx_done X_LINK_SUCCESS x
        (Destroy_event event ::
         (if signal_opened then [Complete (ev_chan event) Sig_opened] else []))
  end.

Definition xlink_multiplexer_rx (en : env) (event : xlink_event) (x : multiplexer)
  : outcome rx_result :=
  match ev_type event with
  | XLINK_PASSTHRU_READ_REQ | XLINK_PASSTHRU_READ_TO_BUFFER_REQ
  | XLINK_PASSTHRU_WRITE_REQ | XLINK_PASSTHRU_VOLATILE_WRITE_REQ => Not_covered
  | XLINK_WRITE_REQ | XLINK_WRITE_VOLATILE_REQ => rx_write_req en event x
  | XLINK_WRITE_CONTROL_REQ => rx_write_control_req en event x
  | XLINK_READ_REQ | XLINK_READ_TO_BUFFER_REQ => rx_read_req en event x
  | XLINK_RELEASE_REQ => rx_release_req event x
  | XLINK_OPEN_CHANNEL_REQ => rx_open_channel_req en event x
  | XLINK_CLOSE_CHANNEL_REQ | XLINK_PING_REQ => rx_done X_LINK_SUCCESS x []
  | XLINK_WRITE_RESP | XLINK_WRITE_VOLATILE_RESP | XLINK_WRITE_CONTROL_RESP =>
      rx_response false event x
  | XLINK_READ_RESP | XLINK_READ_TO_BUFFER_RESP | XLINK_RELEASE_RESP
  | XLINK_CLOSE_CHANNEL_RESP | XLINK_PING_RESP =>
      rx_done X_LINK_SUCCESS x [Destroy_event event]
  | XLINK_OPEN_CHANNEL_RESP => rx_response true event x
  | XLINK_DATA_READY_CALLBACK_REQ | XLINK_DATA_CONSUMED_CALLBACK_REQ =>
      rx_done X_LINK_ERROR x []
  end.

(** ** The write entry points of xlink-core.c *)

(** [struct xlink_handle], [struct xlink_link] and the link table of
    [struct keembay_xlink_dev]. *)
Record xlink_handle : Set := {
  sw_device_id : Z;
  dev_type : xlink_dev_type
}.

Record xlink_link : Set := {
  link_id : Z;
  link_handle : xlink_handle
}.

Definition keembay_xlink_dev : Set := list xlink_link.

Definition get_link_by_sw_device_id (xlink : keembay_xlink_dev) (id : Z)
  : option xlink_link :=
  find (fun link => sw_device_id (link_handle link) =? id) xlink.

(** Answers to one call of the core: whether [xlink_create_event] returned
    an event, what the platform allocator returned, and the environment and
    script of the multiplexer call. *)
Record core_env : Type := {
  event_created : bool;
  core_allocate_result : Z * Z;
  mux_env : env;
  mux_script : list wait_step
}.

Definition core_result : Type := outcome (retval * multiplexer * list effect).

Definition core_error (x : multiplexer) (t : list effect) : core_result :=
  Done (Ret X_LINK_ERROR, x, t).

(** Runs the multiplexer on [event]; [cleanup] is what the caller does with
    the event and its buffer afterwards, given [event_queued]. *)
Definition core_submit (ce : core_env) (event : xlink_event) (x : multiplexer)
    (before : list effect) (cleanup : tx_result -> list effect) : core_result :=
  match xlink_multiplexer_tx (mux_env ce) (mux_script ce) event x with
  | Done r => Done (tx_rc r, tx_mux r, before ++ tx_trace r ++ cleanup r)
  | Blocked => Blocked
  | Fault => Fault
  | Not_covered => Not_covered
  end.

(** [pmessage_cell] is [&pmessage], the address handed over on the IPC
    path. *)
Definition xlink_write_data (ce : core_env) (xlink : option keembay_xlink_dev)
    (handle : option xlink_handle) (chan pmessage pmessage_cell size : Z)
    (x : multiplexer) : core_result :=
  match xlink, handle with
  | Some dev, Some h =>
      if size >? XLINK_MAX_DATA_SIZE then core_error x []
      else
        match get_link_by_sw_device_id dev (sw_device_id h) with
        | None => core_error x []
        | Some link =>
            if negb (event_created ce) then core_error x []
            else
              let event :=
                xlink_create_event (link_id link) XLINK_WRITE_REQ
                  (sw_device_id (link_handle link)) (dev_type (link_handle link))
                  chan size 0 in
              if (chan <? XLINK_IPC_MAX_CHANNELS)
                 && interface_eqb (ev_interface event) IPC_INTERFACE
              then
                (* only passing message address across IPC interface *)
                let event' := set_ev_buffer pmessage_cell (ev_paddr event) event in
                core_submit ce event' x [Create_event event]
                  (fun r => [Destroy_event (tx_event r)])
              else
                let event' := set_ev_buffer pmessage 0 event in
                core_submit ce event' x [Create_event event]
                  (fun r => if tx_event_queued r then []
                            else [Destroy_event (tx_event r)])
        end
  | _, _ => core_error x []
  end.

Definition xlink_write_control_data (ce : core_env) (xlink : option keembay_xlink_dev)
    (handle : option xlink_handle) (chan pmessage size : Z) (x : multiplexer)
  : core_result :=
  match xlink, handle with
  | Some dev, Some h =>
      if size >? XLINK_MAX_CONTROL_DATA_SIZE then core_error x []
      else
        match get_link_by_sw_device_id dev (sw_device_id h) with
        | None => core_error x []
        | Some link =>
            if negb (event_created ce) then core_error x []
            else
              let event :=
                xlink_create_event (link_id link) XLINK_WRITE_CONTROL_REQ
                  (sw_device_id (link_handle link)) (dev_type (link_handle link))
                  chan size 0 in
              (* memcpy(event->header.control_data, pmessage, size) *)
              core_submit ce event x [Create_event event]
                (fun r => if tx_event_queued r then []
                          else [Destroy_event (tx_event r)])
        end
  | _, _ => core_error x []
  end.

Definition xlink_write_volatile (ce : core_env) (xlink : option keembay_xlink_dev)
    (handle : option xlink_handle) (chan message size : Z) (x : multiplexer)
  : core_result :=
  match xlink, handle with
  | Some dev, Some h =>
      if size >? XLINK_MAX_BUF_SIZE then core_error x []
      else
        match get_link_by_sw_device_id dev (sw_device_id h) with
        | None => core_error x []
        | Some link =>
            if negb (event_created ce) then core_error x []
            else
              let event :=
                xlink_create_event (link_id link) XLINK_WRITE_VOLATILE_REQ
                  (sw_device_id (link_handle link)) (dev_type (link_handle link))
                  chan size 0 in
              let region :=
                if (chan <? XLINK_IPC_MAX_CHANNELS)
                   && interface_eqb (ev_interface event) IPC_INTERFACE
                then XLINK_CMA_MEMORY else XLINK_NORMAL_MEMORY in
              let '(buffer, paddr) := core_allocate_result ce in
              let t0 := [Create_event event;
                         Platform_allocate size region buffer paddr] in
              if buffer =? 0 then core_error x (t0 ++ [Destroy_event event])
              else
                (* memcpy(event->data, message, size) *)
                let event' := set_ev_buffer buffer paddr event in
                core_submit ce event' x t0
                  (fun r => if tx_event_queued r then []
                            else [Platform_deallocate buffer paddr size region;
                                  Destroy_event (tx_event r)])
        end
  | _, _ => core_error x []
  end.

End Multiplexer.

(** ** A sample platform

    The values the examples run on: the Keem Bay constants, a device reached
    over PCIe, modes numbered in the order of the enumeration, and the build
    without the local-host relay, whose [xlink_passthrough] returns 0. *)

#[local] Instance kmb_defs : xlink_defs := {
  NMB_CHANNELS := 4096;
  XLINK_IPC_MAX_CHANNELS := 1024;
  IP_CONTROL_CHANNEL := 0xA;
  VPU_CONTROL_CHANNEL := 0x400;
  XLINK_PACKET_QUEUE_CAPACITY := 10000;
  XLINK_MAX_DATA_SIZE := 1024 * 1024 * 1024;
  XLINK_MAX_CONTROL_DATA_SIZE := 100;
  XLINK_MAX_BUF_SIZE := 128;
  CONFIG_XLINK_LOCAL_HOST := false;
  get_interface_from_sw_device_id := fun _ => PCIE_INTERFACE;
  opmode_of_data := fun z =>
    if z =? 0 then RXB_TXB else if z =? 1 then RXN_TXN
    else if z =? 2 then RXB_TXN else RXN_TXB;
  xlink_passthrough := fun _ x => (Ret X_LINK_SUCCESS, x, [])
}.

(** A slot as [kzalloc] leaves it. *)
Definition closed_channel : channel :=
  {| chan_opchan := None; chan_mode := RXB_TXB; chan_status := CHAN_CLOSED;
     chan_ipc_status := CHAN_CLOSED; chan_size := 0; chan_timeout := 0 |}.

Definition empty_multiplexer : multiplexer := fun _ _ => closed_channel.

(** An event of the given kind for channel [chan] of link 0, from the host
    side of the sample device. *)
Definition sample_event (type : xlink_event_type) (chan size timeout data : Z)
  : xlink_event :=
  {| ev_link_id := 0; ev_type := type; ev_chan := chan; ev_size := size;
     ev_timeout := timeout; ev_sw_device_id := 1; ev_dev_type := HOST_DEVICE;
     ev_interface := PCIE_INTERFACE; ev_data := data; ev_paddr := 0;
     ev_calling_pid := 0; ev_callback_origin := "K"%char;
     ev_pdata := 0; ev_length := 0 |}.

Definition sample_env : env :=
  {| kzalloc_ok := true; allocate_result := (0x1000, 0x8000);
     read_result := (0, 0); send_sig_result := 0 |}.

(** The environment of a receive whose transport read delivers [size]
    bytes into the buffer at [buffer]. *)
Definition receive_env (buffer size : Z) : env :=
  {| kzalloc_ok := true; allocate_result := (buffer, buffer + 0x8000);
     read_result := (0, size); send_sig_result := 0 |}.

(** Nothing happens during the wait. *)
Definition quiet (r : wait_result) : wait_step :=
  {| ws_others := fun x => x; ws_result := r |}.

(** The slot table after a call, or the table itself if the call did not
    return. *)
Definition mux_after_tx (r : outcome tx_result) (x : multiplexer) : multiplexer :=
  match r with Done r => tx_mux r | _ => x end.

Definition mux_after_rx (r : outcome rx_result) (x : multiplexer) : multiplexer :=
  match r with Done r => rx_mux r | _ => x end.

(** A wait during which the dispatcher thread hands [event] to the receive
    entry point, and which this completes. *)
Definition completed_by (en : env) (event : xlink_event) : wait_step :=
  {| ws_others := fun x => mux_after_rx (xlink_multiplexer_rx en event x) x;
     ws_result := Completed |}.

(** Channel 0x20 of link 0, opened locally with the given mode code, size
    and timeout, the peer having answered. *)
Definition sample_open (mode size timeout : Z) : multiplexer :=
  mux_after_tx
    (xlink_multiplexer_tx sample_env [quiet Completed]
       (sample_event XLINK_OPEN_CHANNEL_REQ 0x20 size timeout mode)
       empty_multiplexer)
    empty_multiplexer.

(** * Vocabulary of the properties *)

Section Vocabulary.

Context {K : xlink_defs}.

(** The writer of [size] bytes on channel [(l, c)] is held back: the
    over-watermark flag is set and the fill it asks for is not below the
    lower threshold. *)
Definition held_back (l c size : Z) (x : multiplexer) : Prop :=
  exists opchan,
    get_channel x l c = Some opchan
    /\ tx_up_limit opchan = 1
    /\ lower_threshold (x l c) <= tx_fill_with opchan size.

(** What the multiplexer keeps true of a channel: the fill level is the
    sum of the queued lengths in int32_t, nothing is ever put on the tx
    queue, and every queued length is a uint32_t. *)
Definition rx_accounted (o : open_channel) : Prop :=
  rx_fill_level o = s32 (sum_lengths (q_head (rx_queue o)))
  /\ q_head (tx_queue o) = []
  /\ Forall (fun p => 0 <= pkt_length p < 2 ^ 32) (q_head (rx_queue o)).

(** Every channel of the table that has its object satisfies
    [rx_accounted]. *)
Definition accounted (x : multiplexer) : Prop :=
  forall l c o, get_channel x l c = Some o -> rx_accounted o.

(** A call of the multiplexer: the transmit entry point, the receive entry
    point, or [core_release_packet_from_channel]. *)
Inductive call : Type :=
| Call_tx (en : env) (script : list wait_step) (event : xlink_event)
| Call_rx (en : env) (event : xlink_event)
| Call_release (link_id chan addr : Z).

(** The slot table after the call; a call that does not return is left
    out. *)
Definition run_call (k : call) (x : multiplexer) : multiplexer :=
  match k with
  | Call_tx en script event => mux_after_tx (xlink_multiplexer_tx en script event x) x
  | Call_rx en event => mux_after_rx (xlink_multiplexer_rx en event x) x
  | Call_release link_id chan addr =>
      match core_release_packet_from_channel x link_id chan addr with
      | Done (_, x', _) => x'
      | _ => x
      end
  end.

Definition run_calls (calls : list call) (x : multiplexer) : multiplexer :=
  fold_left (fun x k => run_call k x) calls x.

(** What the other threads do while a caller waits keeps the accounting. *)
Definition script_keeps_accounting (script : list wait_step) : Prop :=
  Forall (fun step => forall x, accounted x -> accounted (ws_others step x)) script.

(** The size of an event is a uint32_t, and the threads that run during the
    waits of a call keep the accounting. *)
Definition call_well_formed (k : call) : Prop :=
  match k with
  | Call_tx _ script event =>
      0 <= ev_size event < 2 ^ 32 /\ script_keeps_accounting script
  | Call_rx _ event => 0 <= ev_size event < 2 ^ 32
  | Call_release _ _ _ => True
  end.

(** The relay to the local transport does not touch the packet queues. *)
Definition passthrough_keeps_accounting : Prop :=
  forall event x, accounted x -> accounted (snd (fst (xlink_passthrough event x))).

Definition is_deallocation (e : effect) : bool :=
  match e with
  | Platform_deallocate _ _ _ _ => true
  | _ => false
  end.

(** The two ways [run_callback] reaches the registered consumer. *)
Definition is_callback_delivery (e : effect) : bool :=
  match e with
  | Send_sig_info _ _ _ | Call_function _ _ => true
  | _ => false
  end.

(** [run_callback] has somebody to reach: a kernel function, or a user
    process whose task is known. *)
Definition ready_callback_deliverable (opchan : open_channel) : bool :=
  negb (Ascii.eqb (callback_origin opchan) "U"%char)
  || negb (ready_calling_pid opchan =? 0).

(** The calls by which [release_packet_from_channel] gives a packet up. *)
Definition release_effects (p : packet) : list effect :=
  [Platform_deallocate (pkt_data p) (pkt_paddr p) (pkt_length p)
     XLINK_NORMAL_MEMORY;
   Kfree_packet (pkt_data p)].

Definition is_read_request (t : xlink_event_type) : bool :=
  match t with
  | XLINK_READ_REQ | XLINK_READ_TO_BUFFER_REQ => true
  | _ => false
  end.

Definition is_write_request (t : xlink_event_type) : bool :=
  match t with
  | XLINK_WRITE_REQ | XLINK_WRITE_VOLATILE_REQ | XLINK_WRITE_CONTROL_REQ => true
  | _ => false
  end.

(** The receive of a write request of the given type runs the ready
    callback of [opchan]: a data request (the control case has no such
    call), the slot open, its receive non-blocking, a callback
    registered. *)
Definition ready_callback_runs (type : xlink_event_type) (slot : channel)
    (opchan : open_channel) : bool :=
  match type with
  | XLINK_WRITE_REQ | XLINK_WRITE_VOLATILE_REQ =>
      status_eqb (chan_status slot) CHAN_OPEN
      && chan_is_non_blocking_read slot
      && negb (ready_callback opchan =? 0)
  | _ => false
  end.

(** [run_callback] of the ready callback returns X_LINK_ERROR: the callback
    is of user origin, and the task is NULL or [send_sig_info] fails. *)
Definition ready_callback_fails (en : env) (opchan : open_channel) : bool :=
  Ascii.eqb (callback_origin opchan) "U"%char
  && ((ready_calling_pid opchan =? 0) || (send_sig_result en <? 0)).

End Vocabulary.

(** * Sample states *)

(** A table with one slot in use: channel 0x401 of link 0 (a channel that is
    not relayed to the local transport), open, with the given mode, capacity,
    timeout and open-channel object. *)
Definition sample_channel (mode : xlink_opmode) (size timeout : Z)
    (opchan : open_channel) : multiplexer :=
  upd empty_multiplexer 0 0x401
    {| chan_opchan := Some opchan; chan_mode := mode; chan_status := CHAN_OPEN;
       chan_ipc_status := CHAN_CLOSED; chan_size := size; chan_timeout := timeout |}.

(** The object of channel 0x401 with the given tx fill level, count of
    packets in flight and over-watermark flag. *)
Definition sample_opchan (fill pkts flag : Z) : open_channel :=
  set_tx_up_limit flag (set_tx_levels fill pkts (new_open_channel 0x401)).

(** Channel 0x20 is opened, receives packets of 100, 50 and 7 bytes, and
    the first of them is released. *)
Definition sample_calls : list call :=
  [Call_tx sample_env [quiet Completed]
     (sample_event XLINK_OPEN_CHANNEL_REQ 0x20 4096 0 1);
   Call_rx (receive_env 0x1000 100) (sample_event XLINK_WRITE_REQ 0x20 100 0 0);
   Call_rx (receive_env 0x2000 50) (sample_event XLINK_WRITE_REQ 0x20 50 0 0);
   Call_rx (receive_env 0x3000 7) (sample_event XLINK_WRITE_CONTROL_REQ 0x20 7 0 0);
   Call_tx sample_env [] (sample_event XLINK_RELEASE_REQ 0x20 0 0 0x1000)].

(** Channel 0x20 is opened and receives two packets of 1 GiB. *)
Definition two_gigabytes : list call :=
  [Call_tx sample_env [quiet Completed]
     (sample_event XLINK_OPEN_CHANNEL_REQ 0x20 4096 0 1);
   Call_rx (receive_env 0x10000000 0x40000000)
     (sample_event XLINK_WRITE_REQ 0x20 0x40000000 0 0);
   Call_rx (receive_env 0x50000000 0x40000000)
     (sample_event XLINK_WRITE_REQ 0x20 0x40000000 0 0)].

(** Channel 0x20, 50 bytes of capacity, non-blocking, after the peer has
    sent a release request of 5 bytes that answers no write. *)
Definition after_stray_release : multiplexer :=
  let x0 := sample_open 1 50 0 in
  mux_after_rx
    (xlink_multiplexer_rx sample_env (sample_event XLINK_RELEASE_REQ 0x20 5 0 0) x0) x0.

(** Channel 0x401, non-blocking, with a ready callback registered from the
    kernel. *)
Definition with_ready_callback : multiplexer :=
  let x0 := sample_channel RXN_TXN 4096 0 (new_open_channel 0x401) in
  mux_after_tx
    (xlink_multiplexer_tx sample_env []
       (sample_event XLINK_DATA_READY_CALLBACK_REQ 0x401 0 0 0xC0DE) x0) x0.

(** A queue of two packets of capacity two. *)
Definition full_rx_queue : open_channel :=
  set_rx_fill_level 30
    (set_rx_queue
       {| q_count := 2; q_capacity := 2;
          q_head := [ {| pkt_data := 0x1000; pkt_length := 10; pkt_paddr := 0x9000 |};
                      {| pkt_data := 0x2000; pkt_length := 20; pkt_paddr := 0xA000 |} ] |}
       (new_open_channel 0x401)).

Definition sample_link_table : keembay_xlink_dev :=
  [ {| link_id := 0;
       link_handle := {| sw_device_id := 1; dev_type := HOST_DEVICE |} |} ].

Definition sample_core_env : core_env :=
  {| event_created := true; core_allocate_result := (0x4000, 0xC000);
     mux_env := sample_env; mux_script := [] |}.

(** * The rest of the driver

    The functions of [xlink-multiplexer.c] and [xlink-core.c] around the two
    entry points: the registry of relayed buffers, the life cycle of a link,
    the relay to the local transport and the kernel API of the core. *)

(** ** The registry of remote allocations *)

(** [struct remote_allocs]; [rmt_queue.list] is a list of them, first entry
    first. *)
Record remote_allocs : Set := {
  ra_virt : Z;
  ra_paddr : Z
}.

(** [list_for_each_entry] with the test [rmt->virt == buf && rmt->paddr ==
    paddr], followed by [list_del]: the list without the first entry that
    passes the test. *)
Fixpoint find_alloc (buf paddr : Z) (l : list remote_allocs)
  : option (list remote_allocs) :=
  match l with
  | [] => None
  | rmt :: tl =>
      if (ra_virt rmt =? buf) && (ra_paddr rmt =? paddr) then Some tl
      else match find_alloc buf paddr tl with
           | Some rest => Some (rmt :: rest)
           | None => None
           end
  end.

Definition unregister_allocated_buffer (rmt_queue : list remote_allocs) (buf paddr : Z)
  : xlink_error * list remote_allocs :=
  match find_alloc buf paddr rmt_queue with
  | None => (X_LINK_ERROR, rmt_queue)
  | Some rest => (X_LINK_SUCCESS, rest)
  end.

Definition register_allocated_buffer (en : env) (rmt_queue : list remote_allocs)
    (buf paddr : Z) : xlink_error * list remote_allocs :=
  if kzalloc_ok en
  then (X_LINK_SUCCESS, rmt_queue ++ [ {| ra_virt := buf; ra_paddr := paddr |} ])
  else (X_LINK_ERROR, rmt_queue).

(** The result is [rmt->virt] of the first entry at [paddr], NULL when there
    is none. *)
Definition find_allocated_buffer (rmt_queue : list remote_allocs) (paddr : Z) : Z :=
  match find (fun rmt => ra_paddr rmt =? paddr) rmt_queue with
  | Some rmt => ra_virt rmt
  | None => 0
  end.

(** ** The life cycle of a link in the multiplexer *)

(** The constants of [xlink-defs.h] that the life cycle of a link uses; the
    header is not under src/. *)
Class xlink_link_defs : Type := {
  XLINK_MAX_CONNECTIONS : Z;
  XLINK_INVALID_SW_DEVICE_ID : Z;
  CONTROL_CHANNEL_DATASIZE : Z;
  CONTROL_CHANNEL_TIMEOUT_MS : Z;
  CONTROL_CHANNEL_OPMODE : xlink_opmode
}.

Definition set_ipc_status (s : xlink_channel_status) (c : channel) : channel :=
  {| chan_opchan := chan_opchan c; chan_mode := chan_mode c;
     chan_status := chan_status c; chan_ipc_status := s; chan_size := chan_size c;
     chan_timeout := chan_timeout c |}.

Section Lifecycle.

Context {K : xlink_defs} {L : xlink_link_defs}.

(** The four stores of [xlink_multiplexer_connect] into the slot of a
    control channel. *)
Definition set_control_channel (c : channel) : channel :=
  set_status CHAN_OPEN
    (set_mode CONTROL_CHANNEL_OPMODE
       (set_size_timeout CONTROL_CHANNEL_DATASIZE CONTROL_CHANNEL_TIMEOUT_MS c)).

(** [for (; i < NMB_CHANNELS; i++)] of [xlink_multiplexer_disconnect], with
    [rounds] rounds to go. *)
Fixpoint disconnect_channels (rounds : nat) (x : multiplexer) (link_id i : Z)
  : multiplexer * list effect :=
  match rounds with
  | O => (x, [])
  | S rounds' =>
      let '(x1, t1) :=
        match chan_opchan (x link_id i) with
        | Some _ =>
            let '(_, x', t) := multiplexer_close_channel x link_id i in (x', t)
        | None => (x, [])
        end in
      let '(x2, t2) := disconnect_channels rounds' x1 link_id (i + 1) in
      (x2, t1 ++ t2)
  end.

(** [xmux] is [None] before [xlink_multiplexer_init] and after
    [xlink_multiplexer_destroy]. *)
Definition xlink_multiplexer_disconnect (xmux : option multiplexer) (link_id : Z)
  : xlink_error * option multiplexer * list effect :=
  match xmux with
  | None => (X_LINK_ERROR, None, [])
  | Some x =>
      let '(x', t) := disconnect_channels (Z.to_nat NMB_CHANNELS) x link_id 0 in
      (X_LINK_SUCCESS, Some x', t)
  end.

(** [en_ip] and [en_vpu] answer the two calls of [multiplexer_open_channel]. *)
Definition xlink_multiplexer_connect (en_ip en_vpu : env) (xmux : option multiplexer)
    (link_id : Z) : xlink_error * option multiplexer * list effect :=
  match xmux with
  | None => (X_LINK_ERROR, None, [])
  | Some x =>
      let r_cleanup (x' : multiplexer) (t : list effect) :=
        let '(_, xmux', t') := xlink_multiplexer_disconnect (Some x') link_id in
        (X_LINK_ERROR, xmux', t ++ t') in
      (* open ip control channel *)
      match multiplexer_open_channel en_ip x link_id IP_CONTROL_CHANNEL with
      | (X_LINK_SUCCESS, x1, t1) =>
          let x2 := upd x1 link_id IP_CONTROL_CHANNEL
                      (set_control_channel (x1 link_id IP_CONTROL_CHANNEL)) in
          (* open vpu control channel *)
          match multiplexer_open_channel en_vpu x2 link_id VPU_CONTROL_CHANNEL with
          | (X_LINK_SUCCESS, x3, t3) =>
              (X_LINK_SUCCESS,
               Some (upd x3 link_id VPU_CONTROL_CHANNEL
                       (set_control_channel (x3 link_id VPU_CONTROL_CHANNEL))),
               t1 ++ t3)
          | (_, x3, t3) => r_cleanup x3 (t1 ++ t3)
          end
      | (_, x1, t1) => r_cleanup x1 t1
      end
  end.

(** [for (; i < XLINK_MAX_CONNECTIONS; i++) xlink_multiplexer_disconnect(i);] *)
Fixpoint disconnect_links (rounds : nat) (xmux : option multiplexer) (i : Z)
  : option multiplexer * list effect :=
  match rounds with
  | O => (xmux, [])
  | S rounds' =>
      let '(_, xmux1, t1) := xlink_multiplexer_disconnect xmux i in
      let '(xmux2, t2) := disconnect_links rounds' xmux1 (i + 1) in
      (xmux2, t1 ++ t2)
  end.

Definition xlink_multiplexer_destroy (xmux : option multiplexer)
  : xlink_error * option multiplexer * list effect :=
  match xmux with
  | None => (X_LINK_ERROR, None, [])
  | Some _ =>
      (* close all open channels and deallocate remaining packets *)
      let '(_, t) := disconnect_links (Z.to_nat XLINK_MAX_CONNECTIONS) xmux 0 in
      (* destroy multiplexer *)
      (X_LINK_SUCCESS, None, t)
  end.

End Lifecycle.

(** ** The relay to the local transport *)

Definition U32_MAX : Z := 2 ^ 32 - 1.

(** An [int] handed back as it came from the platform layer. *)
Definition of_int (rc : Z) : retval :=
  if rc =? 0 then Ret X_LINK_SUCCESS else Raw rc.

(** What a call of the transport is given as its message or buffer: the
    address of the local [vpuaddr] (with what it holds when the call is
    made), the pointer [event->data], or the array
    [event->header.control_data]. *)
Inductive relay_buffer : Set :=
| Local_vpuaddr (word : Z)
| Event_data (pointer : Z)
| Control_data.

(** The calls of [xlink_passthrough] into the platform layer, all on
    [IPC_INTERFACE]. *)
Inductive relay_call : Set :=
| Relay_write (dev chan : Z) (message : relay_buffer) (size : Z) (is_volatile : bool)
| Relay_read (dev chan : Z) (buffer : relay_buffer) (timeout : Z) (is_volatile : bool)
| Relay_open_channel (dev chan : Z)
| Relay_close_channel (dev chan : Z)
| Relay_allocate (size buffer paddr : Z)
| Relay_deallocate (buffer paddr size : Z).

(** The answers to one call of [xlink_passthrough]: the two address
    translations of the device, the word at [event->data] of a write
    request, the address of the local [vpuaddr], and for each platform call
    its return value with what it stores through its pointers
    ([xlink_platform_write]: the size; [xlink_platform_read]: the word at
    the buffer and the length). *)
Record relay_env : Type := {
  phys_to_dma : Z -> Z;
  dma_to_phys : Z -> Z;
  message_word : Z;
  vpuaddr_cell : Z;
  write_result : Z * Z;
  relay_read_result : Z * Z * Z;
  open_channel_result : Z;
  close_channel_result : Z;
  relay_allocate_result : Z * Z
}.

Module Relay.

Section Passthrough.

Context {K : xlink_defs}.

(** The timeout of a relayed read: if the channel has receive blocking set,
    U32_MAX. *)
Definition read_timeout (slot : channel) : Z :=
  if opmode_eqb (chan_mode slot) RXB_TXN || opmode_eqb (chan_mode slot) RXB_TXB
  then U32_MAX else chan_timeout slot.

(** [xlink_passthrough], of which the field of the same name of
    [xlink_defs] keeps the result, the slot table and the trace.  Result:
    return value, the event as it is left, the slot table, the calls. *)
Definition xlink_passthrough (rv : relay_env) (event : xlink_event) (x : multiplexer)
  : retval * xlink_event * multiplexer * list relay_call :=
  if negb CONFIG_XLINK_LOCAL_HOST then (Ret X_LINK_SUCCESS, event, x, [])
  else
    let link_id := ev_link_id event in
    let chan := ev_chan event in
    let dev := ev_sw_device_id event in
    let slot := x link_id chan in
    let ipc_open := status_eqb (chan_ipc_status slot) CHAN_OPEN in
    (* channel not open *)
    let not_open := (Ret X_LINK_ERROR, event, x, []) in
    if chan >=? XLINK_IPC_MAX_CHANNELS then (Ret X_LINK_SUCCESS, event, x, [])
    else
      match ev_type event with
      | XLINK_PASSTHRU_WRITE_REQ | XLINK_WRITE_REQ =>
          if ipc_open then
            (* Translate physical address to VPU address *)
            let vpuaddr := phys_to_dma rv (message_word rv) in
            let event := set_ev_buffer (vpuaddr_cell rv) (ev_paddr event) event in
            let '(rc, size) := write_result rv in
            (of_int rc, set_ev_size size event, x,
             [Relay_write dev chan (Local_vpuaddr vpuaddr) (ev_size event) false])
          else not_open
      | XLINK_PASSTHRU_VOLATILE_WRITE_REQ | XLINK_WRITE_VOLATILE_REQ =>
          if ipc_open then
            let '(rc, size) := write_result rv in
            (of_int rc, set_ev_size size event, x,
             [Relay_write dev chan (Event_data (ev_data event)) (ev_size event) true])
          else not_open
      | XLINK_WRITE_CONTROL_REQ =>
          if ipc_open then
            let '(rc, size) := write_result rv in
            (of_int rc, set_ev_size size event, x,
             [Relay_write dev chan Control_data (ev_size event) true])
          else not_open
      | XLINK_PASSTHRU_READ_REQ | XLINK_READ_REQ =>
          if ipc_open then
            let '(rc, vpuaddr, length) := relay_read_result rv in
            (* Translate VPU address to physical address *)
            let physaddr := dma_to_phys rv vpuaddr in
            (of_int rc, set_ev_result physaddr length event, x,
             [Relay_read dev chan (Local_vpuaddr 0) (read_timeout slot) false])
          else not_open
      | XLINK_READ_TO_BUFFER_REQ =>
          if ipc_open then
            let '(rc, _, length) := relay_read_result rv in
            let event' := set_ev_result (ev_pdata event) length event in
            (Ret (if negb (rc =? 0) || (length >? XLINK_MAX_BUF_SIZE)
                  then X_LINK_ERROR else X_LINK_SUCCESS),
             event', x,
             [Relay_read dev chan (Event_data (ev_data event)) (read_timeout slot) true])
          else not_open
      | XLINK_PASSTHRU_READ_TO_BUFFER_REQ =>
          if ipc_open then
            let '(buffer, paddr) := relay_allocate_result rv in
            let event := set_ev_buffer buffer (ev_paddr event) event in
            let t0 := [Relay_allocate XLINK_MAX_BUF_SIZE buffer paddr] in
            if negb (buffer =? 0) then
              let '(rc, _, length) := relay_read_result rv in
              let event' := set_ev_result (ev_pdata event) length event in
              let t1 := t0 ++ [Relay_read dev chan (Event_data buffer)
                                 (read_timeout slot) true] in
              if negb (rc =? 0) || (length >? XLINK_MAX_BUF_SIZE)
              then (Ret X_LINK_ERROR, event', x,
                    t1 ++ [Relay_deallocate buffer paddr (ev_size event)])
              else (Ret X_LINK_SUCCESS, event', x, t1)
            else (Ret X_LINK_ERROR, event, x, t0)
          else not_open
      | XLINK_RELEASE_REQ => (Ret X_LINK_SUCCESS, event, x, [])
      | XLINK_OPEN_CHANNEL_REQ =>
          if status_eqb (chan_ipc_status slot) CHAN_CLOSED then
            let slot1 := set_mode (opmode_of_data (ev_data event))
                           (set_size_timeout (ev_size event) (ev_timeout event) slot) in
            let t := [Relay_open_channel dev chan] in
            if negb (open_channel_result rv =? 0)
            then (Ret X_LINK_ERROR, event, upd x link_id chan slot1, t)
            else (Ret X_LINK_SUCCESS, event,
                  upd x link_id chan (set_ipc_status CHAN_OPEN slot1), t)
          else
            (* channel already open *)
            (Ret X_LINK_ALREADY_OPEN, event, x, [])
      | XLINK_CLOSE_CHANNEL_REQ =>
          if ipc_open then
            let t := [Relay_close_channel dev chan] in
            if negb (close_channel_result rv =? 0)
            then (Ret X_LINK_ERROR, event, x, t)
            else (Ret X_LINK_SUCCESS, event,
                  upd x link_id chan (set_ipc_status CHAN_CLOSED slot), t)
          else
            (* can't close channel not open *)
            not_open
      | XLINK_PING_REQ
      | XLINK_WRITE_RESP | XLINK_WRITE_VOLATILE_RESP | XLINK_WRITE_CONTROL_RESP
      | XLINK_READ_RESP | XLINK_READ_TO_BUFFER_RESP | XLINK_RELEASE_RESP
      | XLINK_OPEN_CHANNEL_RESP | XLINK_CLOSE_CHANNEL_RESP | XLINK_PING_RESP =>
          (Ret X_LINK_SUCCESS, event, x, [])
      | XLINK_DATA_READY_CALLBACK_REQ | XLINK_DATA_CONSUMED_CALLBACK_REQ =>
          (Ret X_LINK_ERROR, event, x, [])
      end.

End Passthrough.

End Relay.

(** ** The kernel API of xlink-core.c *)

Definition u16 (z : Z) : Z := z mod 2 ^ 16.

(** The macros that carry the origin of a call in bit 15 of the channel, on
    a uint16_t. *)
Definition CHANNEL_SET_USER_BIT (chan : Z) : Z := u16 (Z.lor chan (Z.shiftl 1 15)).

Definition CHANNEL_USER_BIT_IS_SET (chan : Z) : bool :=
  negb (Z.land chan (Z.shiftl 1 15) =? 0).

Definition CHANNEL_CLEAR_USER_BIT (chan : Z) : Z :=
  u16 (Z.land chan (Z.lnot (Z.shiftl 1 15))).

Definition set_ev_callback (callback pid : Z) (origin : ascii) (e : xlink_event)
  : xlink_event :=
  {| ev_link_id := ev_link_id e; ev_type := ev_type e; ev_chan := ev_chan e;
     ev_size := ev_size e; ev_timeout := ev_timeout e;
     ev_sw_device_id := ev_sw_device_id e; ev_dev_type := ev_dev_type e;
     ev_interface := ev_interface e; ev_data := callback; ev_paddr := ev_paddr e;
     ev_calling_pid := pid; ev_callback_origin := origin;
     ev_pdata := ev_pdata e; ev_length := ev_length e |}.

(** What a call of the API that reads leaves behind: the return value, the
    contents of the two cells the caller passed for the message and its
    size, the slot table and the trace. *)
Definition core_read_result : Type :=
  outcome (retval * (Z * Z) * multiplexer * list effect).

(** What [get_user] and [copy_from_user] answer to [xlink_write_data_user]:
    the word read from user space ([None] when the access faults), whether
    the copy went through, and the address of the local [addr]. *)
Record user_env : Set := {
  get_user_result : option Z;
  copy_from_user_ok : bool;
  addr_cell : Z
}.

Section CoreApi.

Context {K : xlink_defs}.

(** The end of every entry point: [if (!event_queued)
    xlink_destroy_event(event);]. *)
Definition destroy_unless_queued (r : tx_result) : list effect :=
  if tx_event_queued r then [] else [Destroy_event (tx_event r)].

(** The start of every entry point: the tests of [xlink] and [handle], the
    search of the link and the creation of the event, which [fill] then
    completes. *)
Definition with_event (ce : core_env) (xlink : option keembay_xlink_dev)
    (handle : option xlink_handle) (type : xlink_event_type) (chan size timeout : Z)
    (x : multiplexer) (fill : xlink_event -> xlink_event) : core_result :=
  match xlink, handle with
  | Some dev, Some h =>
      match get_link_by_sw_device_id dev (sw_device_id h) with
      | None => core_error x []
      | Some link =>
          if negb (event_created ce) then core_error x []
          else
            let event :=
              xlink_create_event (link_id link) type
                (sw_device_id (link_handle link)) (dev_type (link_handle link))
                chan size timeout in
            core_submit ce (fill event) x [Create_event event] destroy_unless_queued
      end
  | _, _ => core_error x []
  end.

(** [current] is the task that makes the call. *)
Definition xlink_data_available_event (ce : core_env) (xlink : option keembay_xlink_dev)
    (handle : option xlink_handle) (chan data_available_event current : Z)
    (x : multiplexer) : core_result :=
  let origin := if CHANNEL_USER_BIT_IS_SET chan
                then "U"%char (* function called from user space *)
                else "K"%char in
  let chan := CHANNEL_CLEAR_USER_BIT chan (* restore proper channel value *) in
  with_event ce xlink handle XLINK_DATA_READY_CALLBACK_REQ chan 0 0 x
    (set_ev_callback data_available_event
       (if data_available_event =? 0
        then 0 (* disable callbacks on this channel *)
        else current)
       origin).

Definition xlink_data_consumed_event (ce : core_env) (xlink : option keembay_xlink_dev)
    (handle : option xlink_handle) (chan data_consumed_event current : Z)
    (x : multiplexer) : core_result :=
  let origin := if negb (Z.land chan (Z.shiftl 1 15) =? 0)
                then "U"%char (* user space call *)
                else "K"%char in
  let chan := u16 (Z.land chan (Z.lnot (Z.shiftl 1 15))) (* clear top bit *) in
  with_event ce xlink handle XLINK_DATA_CONSUMED_CALLBACK_REQ chan 0 0 x
    (set_ev_callback data_consumed_event
       (if data_consumed_event =? 0
        then 0 (* disable callbacks on this channel *)
        else current)
       origin).

(** [mode] is the enumerator as the integer that is cast to
    [event->data]. *)
Definition xlink_open_channel (ce : core_env) (xlink : option keembay_xlink_dev)
    (handle : option xlink_handle) (chan mode data_size timeout : Z) (x : multiplexer)
  : core_result :=
  with_event ce xlink handle XLINK_OPEN_CHANNEL_REQ chan data_size timeout x
    (fun event => set_ev_buffer mode (ev_paddr event) event).

Definition xlink_close_channel (ce : core_env) (xlink : option keembay_xlink_dev)
    (handle : option xlink_handle) (chan : Z) (x : multiplexer) : core_result :=
  with_event ce xlink handle XLINK_CLOSE_CHANNEL_REQ chan 0 0 x (fun event => event).

Definition xlink_release_data (ce : core_env) (xlink : option keembay_xlink_dev)
    (handle : option xlink_handle) (chan data_addr : Z) (x : multiplexer) : core_result :=
  with_event ce xlink handle XLINK_RELEASE_REQ chan 0 0 x
    (fun event => set_ev_buffer data_addr (ev_paddr event) event).

(** The reading entry points: [pmessage] and [size] are what the two cells
    of the caller hold at the call. *)
Definition with_read_event (ce : core_env) (xlink : option keembay_xlink_dev)
    (handle : option xlink_handle) (type : xlink_event_type) (chan pmessage size : Z)
    (x : multiplexer) (fill : xlink_event -> xlink_event) : core_read_result :=
  match xlink, handle with
  | Some dev, Some h =>
      match get_link_by_sw_device_id dev (sw_device_id h) with
      | None => Done (Ret X_LINK_ERROR, (pmessage, size), x, [])
      | Some link =>
          if negb (event_created ce) then Done (Ret X_LINK_ERROR, (pmessage, size), x, [])
          else
            let event :=
              xlink_create_event (link_id link) type
                (sw_device_id (link_handle link)) (dev_type (link_handle link))
                chan size 0 in
            match xlink_multiplexer_tx (mux_env ce) (mux_script ce)
                    (fill (set_ev_result pmessage size event)) x with
            | Done r =>
                Done (tx_rc r, (ev_pdata (tx_event r), ev_length (tx_event r)), tx_mux r,
                      Create_event event :: tx_trace r ++ destroy_unless_queued r)
            | Blocked => Blocked
            | Fault => Fault
            | Not_covered => Not_covered
            end
      end
  | _, _ => Done (Ret X_LINK_ERROR, (pmessage, size), x, [])
  end.

Definition xlink_read_data (ce : core_env) (xlink : option keembay_xlink_dev)
    (handle : option xlink_handle) (chan pmessage size : Z) (x : multiplexer)
  : core_read_result :=
  with_read_event ce xlink handle XLINK_READ_REQ chan pmessage size x (fun event => event).

(** [message] is the buffer of the caller; the cell for the message is not
    used. *)
Definition xlink_read_data_to_buffer (ce : core_env) (xlink : option keembay_xlink_dev)
    (handle : option xlink_handle) (chan message size : Z) (x : multiplexer)
  : core_read_result :=
  with_read_event ce xlink handle XLINK_READ_TO_BUFFER_REQ chan 0 size x
    (fun event => set_ev_buffer message (ev_paddr event) event).

(** [xlink_write_data_user], the write of the ioctl; the flag
    [event->user_data] is not part of the event record. *)
Definition xlink_write_data_user (ce : core_env) (ue : user_env)
    (xlink : option keembay_xlink_dev) (handle : option xlink_handle)
    (chan pmessage size : Z) (x : multiplexer) : core_result :=
  match xlink, handle with
  | Some dev, Some h =>
      if size >? XLINK_MAX_DATA_SIZE then core_error x []
      else
        match get_link_by_sw_device_id dev (sw_device_id h) with
        | None => core_error x []
        | Some link =>
            if negb (event_created ce) then core_error x []
            else
              let event :=
                xlink_create_event (link_id link) XLINK_WRITE_REQ
                  (sw_device_id (link_handle link)) (dev_type (link_handle link))
                  chan size 0 in
              if (chan <? XLINK_IPC_MAX_CHANNELS)
                 && interface_eqb (ev_interface event) IPC_INTERFACE
              then
                (* only passing message address across IPC interface *)
                match get_user_result ue with
                | None => core_error x [Create_event event; Destroy_event event]
                | Some _ =>
                    let event' := set_ev_buffer (addr_cell ue) (ev_paddr event) event in
                    core_submit ce event' x [Create_event event]
                      (fun r => [Destroy_event (tx_event r)])
                end
              else
                let '(buffer, paddr) := core_allocate_result ce in
                let t0 := [Create_event event;
                           Platform_allocate size XLINK_NORMAL_MEMORY buffer paddr] in
                let event1 := set_ev_buffer buffer (ev_paddr event) event in
                if buffer =? 0 then core_error x (t0 ++ [Destroy_event event1])
                else if negb (copy_from_user_ok ue) then
                  core_error x
                    (t0 ++ [Platform_deallocate buffer paddr size XLINK_NORMAL_MEMORY;
                            Destroy_event event1])
                else
                  let event' := set_ev_buffer buffer paddr event in
                  core_submit ce event' x t0
                    (fun r => if tx_event_queued r then []
                              else [Platform_deallocate buffer paddr size
                                      XLINK_NORMAL_MEMORY;
                                    Destroy_event (tx_event r)])
        end
  | _, _ => core_error x []
  end.

End CoreApi.

(** ** Connecting and disconnecting a device *)

(** [struct xlink_link] with its reference count, and what
    [struct keembay_xlink_dev] holds besides the device.  [le_refcount] is
    the counter of the [struct kref] (linux/kref.h, not under src/):
    [kref_init] stores 1, [kref_get] adds 1, and [kref_put_mutex] subtracts
    1 and takes its branch when the counter reaches 0.  The counter of the
    kernel saturates outside 1 .. INT_MAX; the properties below stay within
    that range. *)
Record link_entry : Set := {
  le_link : xlink_link;
  le_refcount : Z
}.

Record xlink_dev : Set := {
  links : list link_entry;
  nmb_connected_links : Z
}.

(** The calls of [xlink_connect] and [xlink_disconnect] that leave the
    core. *)
Inductive link_call : Set :=
| Platform_connect (itf : xlink_interface) (dev : Z)
| Dispatcher_start (id : Z)
| Dispatcher_stop (id : Z)
| Multiplexer_call (e : effect).

(** Their answers: the return values of [xlink_platform_connect],
    [xlink_dispatcher_start] and [xlink_dispatcher_stop], and the
    environments of the two channels [xlink_multiplexer_connect] opens. *)
Record connect_env : Set := {
  platform_connect_result : Z;
  dispatcher_start_result : Z;
  dispatcher_stop_result : Z;
  ip_channel_env : env;
  vpu_channel_env : env
}.

Fixpoint find_index {A : Type} (p : A -> bool) (l : list A) : option nat :=
  match l with
  | [] => None
  | a :: tl => if p a then Some O else option_map S (find_index p tl)
  end.

Fixpoint update_nth {A : Type} (n : nat) (f : A -> A) (l : list A) : list A :=
  match l, n with
  | [], _ => []
  | a :: tl, O => f a :: tl
  | a :: tl, S n' => a :: update_nth n' f tl
  end.

Definition entry_device (e : link_entry) : Z := sw_device_id (link_handle (le_link e)).

Definition set_entry_handle (h : xlink_handle) (refcount : Z) (e : link_entry)
  : link_entry :=
  {| le_link := {| link_id := link_id (le_link e); link_handle := h |};
     le_refcount := refcount |}.

Definition set_entry_refcount (refcount : Z) (e : link_entry) : link_entry :=
  {| le_link := le_link e; le_refcount := refcount |}.

Section Links.

Context {K : xlink_defs} {L : xlink_link_defs}.

(** The link [link->handle.sw_device_id = XLINK_INVALID_SW_DEVICE_ID] leaves. *)
Definition invalidate (e : link_entry) : link_entry :=
  set_entry_handle
    {| sw_device_id := XLINK_INVALID_SW_DEVICE_ID;
       dev_type := dev_type (link_handle (le_link e)) |}
    (le_refcount e) e.

(** The position of the link [get_link_by_sw_device_id] returns. *)
Definition link_index_by_sw_device_id (xlink : xlink_dev) (id : Z) : option nat :=
  find_index (fun e => entry_device e =? id) (links xlink).

(** The position of the link [get_next_link] returns. *)
Definition get_next_link (xlink : xlink_dev) : option nat :=
  find_index (fun e => entry_device e =? XLINK_INVALID_SW_DEVICE_ID) (links xlink).

Definition update_link (n : nat) (f : link_entry -> link_entry) (xlink : xlink_dev)
  : xlink_dev :=
  {| links := update_nth n f (links xlink);
     nmb_connected_links := nmb_connected_links xlink |}.

Definition set_nmb_connected_links (n : Z) (xlink : xlink_dev) : xlink_dev :=
  {| links := links xlink; nmb_connected_links := n |}.

(** What [xlink_connect] and [xlink_disconnect] leave behind: the return
    value, the handle of the caller, the device, the multiplexer and the
    calls. *)
Record link_result : Type := {
  lr_rc : xlink_error;
  lr_handle : option xlink_handle;
  lr_xlink : option xlink_dev;
  lr_xmux : option multiplexer;
  lr_trace : list link_call
}.

Definition link_done (rc : xlink_error) (handle : option xlink_handle)
    (xlink : option xlink_dev) (xmux : option multiplexer) (t : list link_call)
  : link_result :=
  {| lr_rc := rc; lr_handle := handle; lr_xlink := xlink; lr_xmux := xmux;
     lr_trace := t |}.

Definition xlink_connect (ce : connect_env) (xlink : option xlink_dev)
    (xmux : option multiplexer) (handle : option xlink_handle) : link_result :=
  match xlink, handle with
  | Some dev, Some h =>
      match link_index_by_sw_device_id dev (sw_device_id h) with
      | None =>
          match get_next_link dev with
          | None => link_done X_LINK_ERROR handle xlink xmux []
          | Some n =>
              (* platform connect *)
              let interface := get_interface_from_sw_device_id (sw_device_id h) in
              let t0 := [Platform_connect interface (sw_device_id h)] in
              if negb (platform_connect_result ce =? 0)
              then link_done X_LINK_ERROR handle xlink xmux t0
              else
                (* set link handle reference and link id *)
                let dev1 := set_nmb_connected_links
                              (u32 (nmb_connected_links dev + 1))
                              (update_link n (set_entry_handle h 1) dev) in
                let id := match nth_error (links dev) n with
                          | Some e => link_id (le_link e)
                          | None => 0
                          end in
                let r_cleanup (xmux' : option multiplexer) (t : list link_call) :=
                  link_done X_LINK_ERROR handle (Some (update_link n invalidate dev1))
                    xmux' t in
                let started := negb (interface_eqb interface IPC_INTERFACE) in
                let t1 := if started then t0 ++ [Dispatcher_start id] else t0 in
                if started && negb (dispatcher_start_result ce =? 0)
                then r_cleanup xmux t1
                else
                  (* initialize multiplexer connection *)
                  match xlink_multiplexer_connect (ip_channel_env ce)
                          (vpu_channel_env ce) xmux id with
                  | (X_LINK_SUCCESS, xmux', t) =>
                      link_done X_LINK_SUCCESS handle (Some dev1) xmux'
                        (t1 ++ map Multiplexer_call t)
                  | (_, xmux', t) => r_cleanup xmux' (t1 ++ map Multiplexer_call t)
                  end
          end
      | Some n =>
          (* already connected *)
          match nth_error (links dev) n with
          | Some e =>
              link_done X_LINK_SUCCESS (Some (link_handle (le_link e)))
                (Some (update_link n (set_entry_refcount (le_refcount e + 1)) dev))
                xmux []
          | None => link_done X_LINK_ERROR handle xlink xmux []
          end
      end
  | _, _ => link_done X_LINK_ERROR handle xlink xmux []
  end.

Definition xlink_disconnect (ce : connect_env) (xlink : option xlink_dev)
    (xmux : option multiplexer) (handle : option xlink_handle) : link_result :=
  match xlink, handle with
  | Some dev, Some h =>
      match link_index_by_sw_device_id dev (sw_device_id h) with
      | None => link_done X_LINK_ERROR handle xlink xmux []
      | Some n =>
          match nth_error (links dev) n with
          | None => link_done X_LINK_ERROR handle xlink xmux []
          | Some e =>
              (* decrement refcount, if count is 0 lock mutex and disconnect *)
              let dev1 := update_link n (set_entry_refcount (le_refcount e - 1)) dev in
              if le_refcount e - 1 =? 0 then
                let id := link_id (le_link e) in
                let interface := get_interface_from_sw_device_id (entry_device e) in
                let stopped := negb (interface_eqb interface IPC_INTERFACE) in
                let t0 := if stopped then [Dispatcher_stop id] else [] in
                if stopped && negb (dispatcher_stop_result ce =? 0)
                then link_done X_LINK_ERROR handle (Some dev1) xmux t0
                else
                  (* deinitialize multiplexer connection *)
                  match xlink_multiplexer_disconnect xmux id with
                  | (X_LINK_SUCCESS, xmux', t) =>
                      (* invalidate link handle reference *)
                      link_done X_LINK_SUCCESS handle
                        (Some (set_nmb_connected_links
                                 (u32 (nmb_connected_links dev1 - 1))
                                 (update_link n invalidate dev1)))
                        xmux' (t0 ++ map Multiplexer_call t)
                  | (_, xmux', t) =>
                      link_done X_LINK_ERROR handle (Some dev1) xmux'
                        (t0 ++ map Multiplexer_call t)
                  end
              else link_done X_LINK_SUCCESS handle (Some dev1) xmux []
          end
      end
  | _, _ => link_done X_LINK_ERROR handle xlink xmux []
  end.

(** The links as the API functions search them. *)
Definition link_table (xlink : xlink_dev) : keembay_xlink_dev :=
  map le_link (links xlink).

End Links.

(** * Vocabulary of the further properties *)

Section MoreVocabulary.

Context {K : xlink_defs} {L : xlink_link_defs}.

(** The calls by which [multiplexer_close_channel] gives up an object: the
    release of the packets of its rx queue, of those of its tx queue, and
    the [kfree] of the object. *)
Definition close_effects (o : open_channel) : list effect :=
  flat_map release_effects (q_head (rx_queue o))
  ++ flat_map release_effects (q_head (tx_queue o))
  ++ [Kfree_opchan (id o)].

(** The channels [i], [i + 1], ... of [rounds] rounds of a loop. *)
Definition channel_range (i : Z) (rounds : nat) : list Z :=
  map (fun k => i + Z.of_nat k) (seq 0 rounds).

(** What closing every channel of link [l] among [chans] calls, in order. *)
Definition disconnect_effects (x : multiplexer) (l : Z) (chans : list Z) : list effect :=
  flat_map (fun c => match chan_opchan (x l c) with
                     | Some o => close_effects o
                     | None => []
                     end) chans.

(** [multiplexer_open_channel] has an object to leave in slot [(l, c)]: the
    slot holds one, or [kzalloc] succeeds. *)
Definition object_ready (en : env) (x : multiplexer) (l c : Z) : bool :=
  match chan_opchan (x l c) with
  | Some _ => true
  | None => kzalloc_ok en
  end.

(** The object of slot [(l, c)] after [multiplexer_open_channel]. *)
Definition object_or_new (x : multiplexer) (l c : Z) : open_channel :=
  match chan_opchan (x l c) with
  | Some o => o
  | None => new_open_channel c
  end.

(** What a request of each kind returns on a channel whose slot is CHAN_OPEN
    but has no object. *)
Definition result_without_object (type : xlink_event_type) : xlink_error :=
  match type with
  | XLINK_OPEN_CHANNEL_REQ => X_LINK_ALREADY_OPEN
  | XLINK_WRITE_REQ | XLINK_WRITE_VOLATILE_REQ | XLINK_WRITE_CONTROL_REQ
  | XLINK_READ_REQ | XLINK_READ_TO_BUFFER_REQ | XLINK_RELEASE_REQ
  | XLINK_DATA_READY_CALLBACK_REQ | XLINK_DATA_CONSUMED_CALLBACK_REQ =>
      X_LINK_COMMUNICATION_FAIL
  | XLINK_PING_REQ => X_LINK_SUCCESS
  | _ => X_LINK_ERROR
  end.

(** The slot table [xlink_passthrough] leaves. *)
Definition relay_mux (r : retval * xlink_event * multiplexer * list relay_call)
  : multiplexer :=
  snd (fst r).

(** The driver with the relay of the source in the place of the field
    [xlink_passthrough]; the platform calls of the relay are not [effect]s,
    so the trace of the field is empty. *)
Definition with_relay (rv : relay_env) : xlink_defs :=
  {| NMB_CHANNELS := NMB_CHANNELS;
     XLINK_IPC_MAX_CHANNELS := XLINK_IPC_MAX_CHANNELS;
     IP_CONTROL_CHANNEL := IP_CONTROL_CHANNEL;
     VPU_CONTROL_CHANNEL := VPU_CONTROL_CHANNEL;
     XLINK_PACKET_QUEUE_CAPACITY := XLINK_PACKET_QUEUE_CAPACITY;
     XLINK_MAX_DATA_SIZE := XLINK_MAX_DATA_SIZE;
     XLINK_MAX_CONTROL_DATA_SIZE := XLINK_MAX_CONTROL_DATA_SIZE;
     XLINK_MAX_BUF_SIZE := XLINK_MAX_BUF_SIZE;
     CONFIG_XLINK_LOCAL_HOST := CONFIG_XLINK_LOCAL_HOST;
     get_interface_from_sw_device_id := get_interface_from_sw_device_id;
     opmode_of_data := opmode_of_data;
     xlink_passthrough := fun event x =>
       let '(rc, _, x', _) := Relay.xlink_passthrough rv event x in (rc, x', []) |}.

(** The slot of an open request: the size, timeout and mode it asks for. *)
Definition requested_slot (event : xlink_event) (slot : channel) : channel :=
  set_mode (opmode_of_data (ev_data event))
    (set_size_timeout (ev_size event) (ev_timeout event) slot).

Definition is_relay_read (k : relay_call) : bool :=
  match k with
  | Relay_read _ _ _ _ _ => true
  | _ => false
  end.

(** The requests that leave the relay without a call and with success
    whatever the state of the channel. *)
Definition is_relay_no_op (type : xlink_event_type) : bool :=
  match type with
  | XLINK_RELEASE_REQ | XLINK_PING_REQ
  | XLINK_WRITE_RESP | XLINK_WRITE_VOLATILE_RESP | XLINK_WRITE_CONTROL_RESP
  | XLINK_READ_RESP | XLINK_READ_TO_BUFFER_RESP | XLINK_RELEASE_RESP
  | XLINK_OPEN_CHANNEL_RESP | XLINK_CLOSE_CHANNEL_RESP | XLINK_PING_RESP => true
  | _ => false
  end.

(** The requests that [xlink_passthrough] answers with a call of the
    transport when the IPC channel is open. *)
Definition is_relayed_io (type : xlink_event_type) : bool :=
  match type with
  | XLINK_PASSTHRU_WRITE_REQ | XLINK_WRITE_REQ
  | XLINK_PASSTHRU_VOLATILE_WRITE_REQ | XLINK_WRITE_VOLATILE_REQ
  | XLINK_WRITE_CONTROL_REQ
  | XLINK_PASSTHRU_READ_REQ | XLINK_READ_REQ
  | XLINK_READ_TO_BUFFER_REQ | XLINK_PASSTHRU_READ_TO_BUFFER_REQ => true
  | _ => false
  end.

(** No link of the device is connected to the device of the handle (or the
    driver is not probed, or the handle is NULL). *)
Definition no_link (xlink : option keembay_xlink_dev) (handle : option xlink_handle)
  : Prop :=
  match xlink, handle with
  | Some dev, Some h => get_link_by_sw_device_id dev (sw_device_id h) = None
  | _, _ => True
  end.

(** The requests of the API on channel [chan] of [link] pass the tests of
    the transmit entry point and are handled by its switch, not by the
    relay. *)
Definition usable_channel (link : xlink_link) (chan : Z) : bool :=
  let event := xlink_create_event (link_id link) XLINK_PING_REQ
                 (sw_device_id (link_handle link)) (dev_type (link_handle link))
                 chan 0 0 in
  tx_channel_valid event && negb (tx_by_passthrough event).

(** The task a registration records: none when the callback is NULL. *)
Definition registered_pid (callback current : Z) : Z :=
  if callback =? 0 then 0 else current.

(** What [run_callback] calls for a callback of the given origin. *)
Definition delivery (origin : ascii) (pid chan callback : Z) : list effect :=
  if Ascii.eqb origin "U"%char then
    if pid =? 0 then [] else [Send_sig_info pid chan callback]
  else [Call_function callback chan].

(** The slot table after a call of the API, or the table itself if the
    call did not return. *)
Definition mux_after_core (r : core_result) (x : multiplexer) : multiplexer :=
  match r with
  | Done (_, x', _) => x'
  | _ => x
  end.

(** The receive of [event] goes through: the buffer is allocated, the
    transport delivers the bytes the event announces, and the packet record
    is allocated. *)
Definition received (en : env) (event : xlink_event) : Prop :=
  fst (allocate_result en) <> 0
  /\ read_result en = (0, ev_size event)
  /\ kzalloc_ok en = true.

(** The calls of the receive of [event] on the table [x], none when it does
    not return. *)
Definition rx_calls (en : env) (event : xlink_event) (x : multiplexer) : list effect :=
  match xlink_multiplexer_rx en event x with
  | Done r => rx_trace r
  | _ => []
  end.

(** The object of a channel after a write of [size] bytes is admitted: the
    flag as the admission test leaves it, and the two tx levels raised. *)
Definition after_admission (slot : channel) (o : open_channel) (size : Z) : open_channel :=
  let o1 := snd (is_enough_space_in_channel slot o size) in
  set_tx_levels (s32 (tx_fill_level o1 + size)) (s32 (tx_packet_level o1 + 1)) o1.

(** The return value of a bounded or unbounded interruptible wait in the
    write requests. *)
Definition wait_outcome (r : wait_result) : xlink_error :=
  match r with
  | Completed => X_LINK_SUCCESS
  | Timed_out => X_LINK_TIMEOUT
  | Interrupted => X_LINK_ERROR
  end.

(** Every channel of the table that has its object satisfies [P], a
    property of the channel number and the object. *)
Definition every_object (P : Z -> open_channel -> Prop) (x : multiplexer) : Prop :=
  forall l c o, get_channel x l c = Some o -> P c o.

(** What the other threads do while a caller waits keeps [Q]. *)
Definition script_keeps (Q : multiplexer -> Prop) (script : list wait_step) : Prop :=
  Forall (fun step => forall x, Q x -> Q (ws_others step x)) script.

(** The size of a received event is a uint32_t, and the threads that run
    during the waits of a call keep [Q]. *)
Definition call_keeps (Q : multiplexer -> Prop) (k : call) : Prop :=
  match k with
  | Call_tx _ script _ => script_keeps Q script
  | Call_rx _ event => 0 <= ev_size event < 2 ^ 32
  | Call_release _ _ _ => True
  end.

(** The relay to the local transport keeps [Q]. *)
Definition passthrough_keeps (Q : multiplexer -> Prop) : Prop :=
  forall event x, Q x -> Q (snd (fst (xlink_passthrough event x))).

(** The shape of an open-channel object: its id is the number of its
    channel, its queues have the capacity of the driver, the count of the rx
    queue is the number of packets it holds and is within the capacity, the
    tx queue is empty, and the over-watermark flag is 0 or 1. *)
Definition object_shape (c : Z) (o : open_channel) : Prop :=
  id o = c
  /\ q_capacity (rx_queue o) = XLINK_PACKET_QUEUE_CAPACITY
  /\ q_capacity (tx_queue o) = XLINK_PACKET_QUEUE_CAPACITY
  /\ q_count (rx_queue o) = Z.of_nat (length (q_head (rx_queue o)))
  /\ q_count (rx_queue o) <= XLINK_PACKET_QUEUE_CAPACITY
  /\ q_count (tx_queue o) = 0
  /\ q_head (tx_queue o) = []
  /\ (tx_up_limit o = 0 \/ tx_up_limit o = 1).

(** Slot [(l, c)] has its object. *)
Definition has_object (l c : Z) (x : multiplexer) : Prop :=
  get_channel x l c <> None.

(** No two links hold the same device, the free links apart. *)
Definition distinct_devices (xlink : xlink_dev) : Prop :=
  forall m m' e e',
    nth_error (links xlink) m = Some e -> nth_error (links xlink) m' = Some e' ->
    entry_device e = entry_device e' ->
    entry_device e <> XLINK_INVALID_SW_DEVICE_ID -> m = m'.

(** The device ids of the links, in the order of the table. *)
Definition devices (xlink : xlink_dev) : list Z := map entry_device (links xlink).

End MoreVocabulary.

(** ** Further sample states *)

#[local] Instance kmb_link_defs : xlink_link_defs := {
  XLINK_MAX_CONNECTIONS := 16;
  XLINK_INVALID_SW_DEVICE_ID := 0xDEADBEEF;
  CONTROL_CHANNEL_DATASIZE := 128;
  CONTROL_CHANNEL_TIMEOUT_MS := 0;
  CONTROL_CHANNEL_OPMODE := RXB_TXB
}.

(** The constants of the build for the local host, whose devices are
    reached over IPC. *)
Definition local_host_constants : xlink_defs :=
  {| NMB_CHANNELS := 4096;
     XLINK_IPC_MAX_CHANNELS := 1024;
     IP_CONTROL_CHANNEL := 0xA;
     VPU_CONTROL_CHANNEL := 0x400;
     XLINK_PACKET_QUEUE_CAPACITY := 10000;
     XLINK_MAX_DATA_SIZE := 1024 * 1024 * 1024;
     XLINK_MAX_CONTROL_DATA_SIZE := 100;
     XLINK_MAX_BUF_SIZE := 128;
     CONFIG_XLINK_LOCAL_HOST := true;
     get_interface_from_sw_device_id := fun _ => IPC_INTERFACE;
     opmode_of_data := @opmode_of_data kmb_defs;
     xlink_passthrough := @xlink_passthrough kmb_defs |}.

(** A transport that accepts every call: a read delivers 64 bytes at the
    device address 0x84000000, which is the physical address 0x4000000. *)
Definition sample_relay_env : relay_env :=
  {| phys_to_dma := fun a => a + 0x80000000;
     dma_to_phys := fun a => a - 0x80000000;
     message_word := 0x4000000;
     vpuaddr_cell := 0xF000;
     write_result := (0, 64);
     relay_read_result := (0, 0x84000000, 64);
     open_channel_result := 0;
     close_channel_result := 0;
     relay_allocate_result := (0x5000, 0xD000) |}.

(** The build for the local host with the relay of the source. *)
Definition local_host_defs : xlink_defs :=
  @with_relay local_host_constants sample_relay_env.

(** A request of the given kind on the relayed channel 0x20 of link 0. *)
Definition relay_event (type : xlink_event_type) (size timeout data : Z) : xlink_event :=
  {| ev_link_id := 0; ev_type := type; ev_chan := 0x20; ev_size := size;
     ev_timeout := timeout; ev_sw_device_id := 1; ev_dev_type := VPUIP_DEVICE;
     ev_interface := IPC_INTERFACE; ev_data := data; ev_paddr := 0;
     ev_calling_pid := 0; ev_callback_origin := "K"%char;
     ev_pdata := 0; ev_length := 0 |}.

(** Channel 0x20 of link 0 after the relay has opened it for 4096 bytes. *)
Definition relay_open : multiplexer :=
  relay_mux
    (Relay.xlink_passthrough (K := local_host_constants) sample_relay_env
       (relay_event XLINK_OPEN_CHANNEL_REQ 4096 0 1) empty_multiplexer).

(** An environment in which [kzalloc] fails. *)
Definition out_of_memory : env :=
  {| kzalloc_ok := false; allocate_result := (0, 0);
     read_result := (0, 0); send_sig_result := 0 |}.

(** A table of two links: link 0 holds the device 1 with one reference,
    link 1 is free. *)
Definition sample_links : xlink_dev :=
  {| links :=
       [ {| le_link := {| link_id := 0;
                          link_handle := {| sw_device_id := 1;
                                            dev_type := HOST_DEVICE |} |};
            le_refcount := 1 |};
         {| le_link := {| link_id := 1;
                          link_handle := {| sw_device_id := 0xDEADBEEF;
                                            dev_type := HOST_DEVICE |} |};
            le_refcount := 0 |} ];
     nmb_connected_links := 1 |}.

(** The platform connects and the dispatcher stops; the dispatcher starts
    with the given result. *)
Definition sample_connect_env (start : Z) : connect_env :=
  {| platform_connect_result := 0; dispatcher_start_result := start;
     dispatcher_stop_result := 0; ip_channel_env := sample_env;
     vpu_channel_env := sample_env |}.

(** * Properties *)

Section Properties.

Context {K : xlink_defs}.

(** ** The slot table *)

Lemma upd_same (x : multiplexer) (l c : Z) (ch : channel) : upd x l c ch l c = ch.
Proof. unfold upd. now rewrite !Z.eqb_refl. Qed.

Lemma upd_other (x : multiplexer) (l c l' c' : Z) (ch : channel) :
  (l', c') <> (l, c) -> upd x l c ch l' c' = x l' c'.
Proof.
  intros Hne. unfold upd.
  destruct (Z.eqb_spec l' l), (Z.eqb_spec c' c); subst; simpl; congruence.
Qed.

Lemma set_opchan_same (ch : channel) : set_opchan (chan_opchan ch) ch = ch.
Proof. now destruct ch. Qed.

Lemma put_channel_same (x : multiplexer) (l c : Z) (o : open_channel) :
  get_channel x l c = Some o -> forall l' c', put_channel x l c o l' c' = x l' c'.
Proof.
  unfold get_channel, put_channel, upd. intros Ho l' c'.
  destruct (Z.eqb_spec l' l), (Z.eqb_spec c' c); subst; simpl; trivial.
  rewrite <- Ho. apply set_opchan_same.
Qed.

Lemma get_put_channel (x : multiplexer) (l c : Z) (o : open_channel) :
  get_channel (put_channel x l c o) l c = Some o.
Proof. unfold get_channel, put_channel. now rewrite upd_same. Qed.

Lemma put_channel_fields (x : multiplexer) (l c : Z) (o : open_channel) :
  chan_mode (put_channel x l c o l c) = chan_mode (x l c)
  /\ chan_status (put_channel x l c o l c) = chan_status (x l c)
  /\ chan_size (put_channel x l c o l c) = chan_size (x l c)
  /\ chan_timeout (put_channel x l c o l c) = chan_timeout (x l c).
Proof. unfold put_channel. rewrite upd_same. now destruct (x l c). Qed.

(** ** A full queue *)

Lemma add_packet_full (en : env) (opchan : open_channel) (w : which_queue)
    (buffer size paddr : Z) :
  q_count (queue_of w opchan) = q_capacity (queue_of w opchan) ->
  add_packet_to_channel en opchan w buffer size paddr = (X_LINK_SUCCESS, opchan, []).
Proof.
  intros Hfull. unfold add_packet_to_channel.
  now rewrite Hfull, Z.ltb_irrefl.
Qed.

Lemma run_callback_keeps_buffers (en : env) (opchan : open_channel) (callback pid : Z) :
  forallb (fun e => negb (is_deallocation e))
    (snd (run_callback en opchan callback pid)) = true.
Proof.
  unfold run_callback.
  destruct (Ascii.eqb _ _); [destruct (negb _)|]; reflexivity.
Qed.

Lemma run_callback_result (en : env) (opchan : open_channel) :
  fst (run_callback en opchan (ready_callback opchan) (ready_calling_pid opchan))
  = if ready_callback_fails en opchan then X_LINK_ERROR else X_LINK_SUCCESS.
Proof.
  unfold run_callback, ready_callback_fails.
  destruct (Ascii.eqb _ _); [|reflexivity].
  destruct (ready_calling_pid opchan =? 0); [reflexivity|].
  now destruct (send_sig_result en <? 0).
Qed.

(** C9: when the count of a queue equals its capacity,
    [add_packet_to_channel] returns X_LINK_SUCCESS with the channel (queue,
    count, fill level) untouched and without any call, so nothing is
    deallocated; and a write request that arrives at the receive entry point
    for a channel whose rx queue is full (buffer allocated, transport read
    complete) leaves the channel as it was, deallocates nothing, still hands
    the response to the dispatcher and signals [pkt_available].  What it
    returns is X_LINK_SUCCESS, except when the ready callback is run (a data
    request on an open channel with non-blocking receive and a registered
    callback): then it returns what [run_callback] returns, which is
    X_LINK_ERROR exactly when the callback is of user origin and its task is
    NULL or [send_sig_info] fails. *)
Theorem full_queue_drops_packet_silently
    (en : env) (event : xlink_event) (x : multiplexer) (opchan : open_channel) :
  get_channel x (ev_link_id event) (ev_chan event) = Some opchan ->
  q_count (rx_queue opchan) = q_capacity (rx_queue opchan) ->
  is_write_request (ev_type event) = true ->
  fst (allocate_result en) <> 0 ->
  read_result en = (0, ev_size event) ->
  let runs := ready_callback_runs (ev_type event)
                (x (ev_link_id event) (ev_chan event)) opchan in
  (forall buffer size paddr,
      add_packet_to_channel en opchan Rx_queue buffer size paddr
      = (X_LINK_SUCCESS, opchan, []))
  /\ exists r,
      xlink_multiplexer_rx en event x = Done r
      /\ (forall l c, rx_mux r l c = x l c)
      /\ forallb (fun e => negb (is_deallocation e)) (rx_trace r) = true
      /\ (exists response,
             In (Dispatcher_event_add EVENT_RX response) (rx_trace r)
             /\ (ev_type response = XLINK_WRITE_VOLATILE_RESP
                 \/ ev_type response = XLINK_WRITE_CONTROL_RESP))
      /\ In (Complete (ev_chan event) Sig_pkt_available) (rx_trace r)
      /\ rx_rc r
         = Ret (if runs
                then fst (run_callback en opchan (ready_callback opchan)
                            (ready_calling_pid opchan))
                else X_LINK_SUCCESS)
      /\ (rx_rc r = Ret X_LINK_SUCCESS
          <-> runs && ready_callback_fails en opchan = false)
      /\ (rx_rc r = Ret X_LINK_ERROR
          <-> runs && ready_callback_fails en opchan = true).
Proof.
  intros Hget Hfull Htype Halloc Hread runs.
  assert (Hadd : forall buffer size paddr,
             add_packet_to_channel en opchan Rx_queue buffer size paddr
             = (X_LINK_SUCCESS, opchan, [])).
  { intros. now apply add_packet_full. }
  split; [exact Hadd|].
  assert (Hcases : forall r : rx_result,
            rx_rc r = Ret (if runs
                           then fst (run_callback en opchan (ready_callback opchan)
                                       (ready_calling_pid opchan))
                           else X_LINK_SUCCESS) ->
            (rx_rc r = Ret X_LINK_SUCCESS
             <-> runs && ready_callback_fails en opchan = false)
            /\ (rx_rc r = Ret X_LINK_ERROR
                <-> runs && ready_callback_fails en opchan = true)).
  { intros r ->. rewrite run_callback_result.
    destruct runs, (ready_callback_fails en opchan); cbn;
      split; split; congruence. }
  destruct (allocate_result en) as [buffer paddr] eqn:Ealloc. simpl in Halloc.
  assert (Hbuf : (buffer =? 0) = false) by now apply Z.eqb_neq.
  assert (Hctl : ev_type event = XLINK_WRITE_CONTROL_REQ
                 \/ (ev_type event = XLINK_WRITE_REQ
                     \/ ev_type event = XLINK_WRITE_VOLATILE_REQ)).
  { destruct (ev_type event); simpl in Htype; try discriminate; auto. }
  destruct Hctl as [Hc | Hd].
  - (* control data *)
    assert (Hruns : runs = false) by (unfold runs; now rewrite Hc).
    unfold xlink_multiplexer_rx. rewrite Hc. unfold rx_write_control_req.
    rewrite Hget, Ealloc, Hbuf. cbn [negb]. rewrite Hadd.
    eexists. split; [reflexivity|].
    assert (Hrc : forall A B, rx_rc {| rx_rc := Ret X_LINK_SUCCESS; rx_mux := A;
                                       rx_trace := B |}
                              = Ret (if runs
                                     then fst (run_callback en opchan
                                                 (ready_callback opchan)
                                                 (ready_calling_pid opchan))
                                     else X_LINK_SUCCESS))
      by (intros; now rewrite Hruns).
    split; [|split; [|split; [|split; [|split]]]].
    + cbn. now apply put_channel_same.
    + reflexivity.
    + eexists. split; [right; left; reflexivity|]. now right.
    + now right; right; left.
    + apply Hrc.
    + apply Hcases, Hrc.
  - (* data and volatile data *)
    assert (Hrx : xlink_multiplexer_rx en event x = rx_write_req en event x).
    { unfold xlink_multiplexer_rx. now destruct Hd as [-> | ->]. }
    rewrite Hrx. unfold rx_write_req.
    rewrite Hget, Ealloc, Hbuf, Hread. cbn [negb].
    change (ev_size (set_ev_timeout _ event)) with (ev_size event).
    rewrite !Z.eqb_refl. cbn [negb orb]. rewrite Hadd.
    destruct (put_channel_fields x (ev_link_id event) (ev_chan event) opchan)
      as (Hmode & Hstatus & _).
    unfold chan_is_non_blocking_read at 1. rewrite Hmode, Hstatus.
    fold (chan_is_non_blocking_read (x (ev_link_id event) (ev_chan event))).
    assert (Hruns : runs
                    = status_eqb (chan_status (x (ev_link_id event) (ev_chan event)))
                        CHAN_OPEN
                      && chan_is_non_blocking_read (x (ev_link_id event) (ev_chan event))
                      && negb (ready_callback opchan =? 0))
      by (unfold runs; now destruct Hd as [-> | ->]).
    rewrite <- Hruns.
    destruct runs.
    + destruct (run_callback en opchan (ready_callback opchan)
                  (ready_calling_pid opchan)) as [rc t4] eqn:Ecb.
      eexists. split; [reflexivity|].
      split; [|split; [|split; [|split; [|split]]]].
      * cbn. now apply put_channel_same.
      * cbn. change t4 with (snd (rc, t4)). rewrite <- Ecb.
        apply run_callback_keeps_buffers.
      * eexists. split; [cbn; right; right; left; reflexivity|]. now left.
      * cbn. now right; right; right; left.
      * reflexivity.
      * apply Hcases. reflexivity.
    + eexists. split; [reflexivity|].
      split; [|split; [|split; [|split; [|split]]]].
      * cbn. now apply put_channel_same.
      * reflexivity.
      * eexists. split; [cbn; right; right; left; reflexivity|]. now left.
      * cbn. now right; right; right; left.
      * reflexivity.
      * apply Hcases. reflexivity.
Qed.

(** ** Admission control *)

Lemma u32_small (z : Z) : 0 <= z < 2 ^ 32 -> u32 z = z.
Proof. intros Hz. unfold u32. now apply Z.mod_small. Qed.

Lemma u32_range (z : Z) : 0 <= u32 z < 2 ^ 32.
Proof. unfold u32. apply Z.mod_pos_bound. lia. Qed.

Lemma tx_dispatch (en : env) (script : list wait_step) (event : xlink_event)
    (x : multiplexer) :
  tx_channel_valid event = true ->
  tx_by_passthrough event = false ->
  xlink_multiplexer_tx en script event x = tx_switch en script event x.
Proof.
  unfold tx_channel_valid, xlink_multiplexer_tx. intros Hvalid Hpass.
  apply andb_prop in Hvalid as [Hvalid Hctl].
  apply andb_prop in Hvalid as [Hrange Hdev].
  apply negb_true_iff in Hrange. apply negb_true_iff in Hctl.
  now rewrite Hrange, Hdev, Hctl, Hpass.
Qed.

Lemma packet_limit_le_capacity :
  0 <= XLINK_PACKET_QUEUE_CAPACITY -> packet_limit <= XLINK_PACKET_QUEUE_CAPACITY.
Proof.
  intros Hcap. unfold packet_limit, THR_UPR.
  rewrite Z.quot_div_nonneg by lia.
  pose proof (Z.mul_div_le XLINK_PACKET_QUEUE_CAPACITY 100 ltac:(lia)).
  pose proof (Z.div_pos XLINK_PACKET_QUEUE_CAPACITY 100 Hcap ltac:(lia)).
  lia.
Qed.

Lemma hard_cap (chan : channel) (opchan : open_channel) (size : Z) :
  packet_limit <= tx_packet_level opchan ->
  is_enough_space_in_channel chan opchan size = (false, opchan).
Proof.
  intros Hlvl. unfold is_enough_space_in_channel.
  now replace (tx_packet_level opchan >=? packet_limit) with true
    by (symmetry; apply Z.geb_le; lia).
Qed.

Lemma non_blocking_write_mode (chan : channel) :
  chan_is_non_blocking_write chan = negb (tx_blocking (chan_mode chan)).
Proof. unfold chan_is_non_blocking_write, tx_blocking. now destruct (chan_mode chan). Qed.

Lemma wait_for_space_rejected (script : list wait_step) (x : multiplexer)
    (l c size : Z) (opchan opchan' : open_channel) :
  get_channel x l c = Some opchan ->
  is_enough_space_in_channel (x l c) opchan size = (false, opchan') ->
  tx_blocking (chan_mode (x l c)) = false ->
  wait_for_space script x l c size
  = Done (X_LINK_CHAN_FULL, put_channel x l c opchan', [], script).
Proof.
  intros Hget Hspace Hmode.
  destruct (put_channel_fields x l c opchan') as (Hm & _).
  destruct script; simpl; now rewrite Hget, Hspace, Hm, Hmode.
Qed.

Lemma tx_write_req_rejected (script : list wait_step) (event : xlink_event)
    (x : multiplexer) (opchan opchan' : open_channel) :
  let l := ev_link_id event in
  let c := ev_chan event in
  get_channel x l c = Some opchan ->
  chan_status (x l c) = CHAN_OPEN ->
  tx_blocking (chan_mode (x l c)) = false ->
  is_enough_space_in_channel (x l c) opchan (ev_size event) = (false, opchan') ->
  tx_write_req script event x
  = tx_done X_LINK_CHAN_FULL false (set_ev_timeout (chan_timeout (x l c)) event)
      (put_channel x l c opchan') [].
Proof.
  intros l c Hget Hstatus Hmode Hspace. unfold tx_write_req.
  fold l c. rewrite Hget, Hstatus. cbn [status_eqb negb].
  change (ev_size (set_ev_timeout _ event)) with (ev_size event).
  now rewrite (wait_for_space_rejected script x l c _ opchan opchan').
Qed.

(** C5: on an open channel whose mode is non-blocking for transmit and whose
    count of packets in flight has reached the capacity of the queue, the
    admission test fails whatever the size, the byte fill, the flag and the
    mode of the channel (the cap at 85% of the capacity comes first), and a
    write request returns X_LINK_CHAN_FULL with an empty trace: no wait, no
    event queued, the slot table as it was. *)
Theorem full_pipeline_non_blocking_write_chan_full
    (en : env) (script : list wait_step) (event : xlink_event) (x : multiplexer)
    (opchan : open_channel) :
  tx_channel_valid event = true ->
  tx_by_passthrough event = false ->
  is_write_request (ev_type event) = true ->
  get_channel x (ev_link_id event) (ev_chan event) = Some opchan ->
  chan_status (x (ev_link_id event) (ev_chan event)) = CHAN_OPEN ->
  chan_is_non_blocking_write (x (ev_link_id event) (ev_chan event)) = true ->
  0 <= XLINK_PACKET_QUEUE_CAPACITY <= tx_packet_level opchan ->
  (forall chan size, is_enough_space_in_channel chan opchan size = (false, opchan))
  /\ exists r,
      xlink_multiplexer_tx en script event x = Done r
      /\ tx_rc r = Ret X_LINK_CHAN_FULL
      /\ tx_event_queued r = false
      /\ tx_trace r = []
      /\ forall l c, tx_mux r l c = x l c.
Proof.
  intros Hvalid Hpass Htype Hget Hstatus Hmode Hlevel.
  assert (Hcap : forall chan size,
             is_enough_space_in_channel chan opchan size = (false, opchan)).
  { intros. apply hard_cap. pose proof packet_limit_le_capacity. lia. }
  split; [exact Hcap|].
  rewrite non_blocking_write_mode in Hmode. apply negb_true_iff in Hmode.
  rewrite tx_dispatch by assumption.
  assert (Hsw : tx_switch en script event x = tx_write_req script event x).
  { unfold tx_switch. destruct (ev_type event); simpl in Htype; try discriminate;
      reflexivity. }
  rewrite Hsw, (tx_write_req_rejected script event x opchan opchan); auto.
  eexists. split; [reflexivity|]. cbn.
  repeat split. now apply put_channel_same.
Qed.

(** ** Hysteresis *)

Lemma thresholds_formula (chan : channel) :
  upper_threshold chan = u32 (chan_size chan) / 100 * THR_UPR
  /\ lower_threshold chan = u32 (chan_size chan) / 100 * THR_LWR.
Proof.
  unfold upper_threshold, lower_threshold, THR_UPR, THR_LWR.
  pose proof (u32_range (chan_size chan)) as Hs.
  pose proof (Z.mul_div_le (u32 (chan_size chan)) 100 ltac:(lia)).
  pose proof (Z.div_pos (u32 (chan_size chan)) 100 ltac:(lia) ltac:(lia)).
  split; apply u32_small; lia.
Qed.

Lemma lower_threshold_percent (chan : channel) :
  100 * lower_threshold chan <= 80 * u32 (chan_size chan).
Proof.
  destruct (thresholds_formula chan) as [_ ->]. unfold THR_LWR.
  pose proof (u32_range (chan_size chan)) as Hs.
  pose proof (Z.mul_div_le (u32 (chan_size chan)) 100 ltac:(lia)). lia.
Qed.

Lemma latched_band (chan : channel) (opchan : open_channel) (size : Z) :
  tx_up_limit opchan = 1 ->
  lower_threshold chan <= tx_fill_with opchan size ->
  is_enough_space_in_channel chan opchan size = (false, opchan).
Proof.
  intros Hflag Hband. unfold is_enough_space_in_channel. rewrite Hflag.
  destruct (tx_packet_level opchan >=? packet_limit); [reflexivity|].
  cbn [Z.eqb Pos.eqb andb].
  now replace (tx_fill_with opchan size <? lower_threshold chan) with false
    by (symmetry; apply Z.ltb_ge; lia).
Qed.

Lemma latched_release (chan : channel) (opchan : open_channel) (size : Z) :
  tx_up_limit opchan = 1 ->
  fst (is_enough_space_in_channel chan opchan size) = true ->
  tx_fill_with opchan size < lower_threshold chan
  /\ tx_packet_level opchan < packet_limit
  /\ snd (is_enough_space_in_channel chan opchan size) = set_tx_up_limit 0 opchan.
Proof.
  intros Hflag. unfold is_enough_space_in_channel. rewrite Hflag.
  destruct (Z.geb_spec (tx_packet_level opchan) packet_limit); [discriminate|].
  cbn [Z.eqb Pos.eqb andb].
  destruct (Z.ltb_spec (tx_fill_with opchan size) (lower_threshold chan));
    [|discriminate].
  intros _. repeat split; lia.
Qed.

Lemma latch_set (chan : channel) (opchan : open_channel) (size : Z) :
  tx_up_limit opchan = 0 ->
  tx_up_limit (snd (is_enough_space_in_channel chan opchan size)) = 1 ->
  fst (is_enough_space_in_channel chan opchan size) = false
  /\ upper_threshold chan < tx_fill_with opchan size.
Proof.
  intros Hflag. unfold is_enough_space_in_channel. rewrite Hflag.
  destruct (tx_packet_level opchan >=? packet_limit);
    [cbn; rewrite Hflag; discriminate|].
  cbn [Z.eqb andb].
  destruct (Z.gtb_spec (tx_fill_with opchan size) (upper_threshold chan)).
  - intros _. split; [reflexivity|lia].
  - cbn. rewrite Hflag. discriminate.
Qed.

Lemma held_back_put (l c size : Z) (x : multiplexer) (opchan : open_channel) :
  get_channel x l c = Some opchan ->
  held_back l c size x -> held_back l c size (put_channel x l c opchan).
Proof.
  intros Hget (o & Ho & Hflag & Hband).
  assert (o = opchan) by congruence. subst o.
  exists opchan. split; [apply get_put_channel|]. split; [exact Hflag|].
  unfold lower_threshold in *.
  destruct (put_channel_fields x l c opchan) as (_ & _ & -> & _). exact Hband.
Qed.

Lemma held_back_never_admitted (script : list wait_step) (l c size : Z) :
  Forall (fun step => forall x, held_back l c size x ->
                                held_back l c size (ws_others step x)) script ->
  forall x, held_back l c size x ->
  forall x' t script',
    wait_for_space script x l c size <> Done (X_LINK_SUCCESS, x', t, script').
Proof.
  induction 1 as [|step rest Hstep _ IH]; intros x Hheld x' t script'.
  - destruct Hheld as (opchan & Hget & Hflag & Hband). simpl.
    rewrite Hget, (latched_band _ _ _ Hflag Hband).
    destruct (tx_blocking _); discriminate.
  - pose proof Hheld as (opchan & Hget & Hflag & Hband). simpl.
    rewrite Hget, (latched_band _ _ _ Hflag Hband).
    destruct (tx_blocking _); [|discriminate].
    pose proof (Hstep _ (held_back_put l c size x opchan Hget Hheld)) as Hnext.
    destruct (ws_result step).
    + destruct (wait_for_space rest _ l c size) as [[[[rc x3] t3] s3]| | |] eqn:Erec;
        try discriminate.
      intros Heq. inversion Heq; subst.
      exact (IH _ Hnext _ _ _ Erec).
    + destruct (_ =? 0); discriminate.
    + discriminate.
Qed.

(** C2: hysteresis of the admission test.  The fill is [tx_fill_level + size]
    as the code computes it, the 85% and 80% marks are the thresholds
    [(size / 100) * 85] and [(size / 100) * 80] of the channel.
    (a) The flag is only ever set by a request whose fill is above the 85%
    mark, and that request is refused.
    (b) With the flag set, a request whose fill is at or above the 80% mark
    (so anywhere between the two marks) is refused and the flag stays set;
    the same holds when the fill is at or above 80% of the capacity itself.
    (c) With the flag set, a request is admitted only with its fill strictly
    below the 80% mark (and below 80% of the capacity), and admitting it
    clears the flag.
    (d) A writer in the waiting loop, flag set, is never admitted as long as
    what happens during its waits keeps the fill at or above the 80% mark. *)
Theorem admission_hysteresis (chan : channel) (opchan : open_channel) (size : Z)
    (script : list wait_step) (x : multiplexer) (l c : Z) :
  let r := is_enough_space_in_channel chan opchan size in
  let fill := tx_fill_with opchan size in
  (tx_up_limit opchan = 0 -> tx_up_limit (snd r) = 1 ->
   fst r = false /\ upper_threshold chan < fill)
  /\ (tx_up_limit opchan = 1 ->
      lower_threshold chan <= fill \/ 80 * u32 (chan_size chan) <= 100 * fill ->
      r = (false, opchan))
  /\ (tx_up_limit opchan = 1 -> fst r = true ->
      fill < lower_threshold chan
      /\ 100 * fill < 80 * u32 (chan_size chan)
      /\ tx_up_limit (snd r) = 0)
  /\ (held_back l c size x ->
      Forall (fun step => forall x', held_back l c size x' ->
                                     held_back l c size (ws_others step x')) script ->
      forall x' t script',
        wait_for_space script x l c size <> Done (X_LINK_SUCCESS, x', t, script')).
Proof.
  intros r fill. pose proof (lower_threshold_percent chan) as Hpct.
  split; [|split; [|split]].
  - intros Hflag Hset. now apply latch_set.
  - intros Hflag Hband. apply latched_band; [exact Hflag|]. fold fill. lia.
  - intros Hflag Hadm.
    destruct (latched_release chan opchan size Hflag Hadm) as (Hlow & _ & Hsnd).
    fold fill in Hlow. subst r. rewrite Hsnd. split; [lia|]. split; [lia|reflexivity].
  - intros Hheld Hothers. now apply held_back_never_admitted.
Qed.

(** ** Channels of less than 100 bytes *)

Lemma small_channel_thresholds (chan : channel) :
  0 <= chan_size chan < 100 ->
  upper_threshold chan = 0 /\ lower_threshold chan = 0.
Proof.
  intros Hsize. destruct (thresholds_formula chan) as [-> ->].
  rewrite u32_small by lia. now rewrite Z.div_small by lia.
Qed.

Lemma small_channel_refuses (chan : channel) (opchan : open_channel) (size : Z) :
  0 <= chan_size chan < 100 ->
  tx_up_limit opchan = 0 \/ tx_up_limit opchan = 1 ->
  tx_fill_with opchan size <> 0 ->
  fst (is_enough_space_in_channel chan opchan size) = false.
Proof.
  intros Hsize Hflag Hfill.
  destruct (small_channel_thresholds chan Hsize) as [Hup Hlow].
  pose proof (u32_range (tx_fill_level opchan + size)) as Hrange.
  unfold is_enough_space_in_channel. rewrite Hup, Hlow.
  unfold tx_fill_with in *.
  destruct (tx_packet_level opchan >=? packet_limit); [reflexivity|].
  destruct Hflag as [-> | ->]; cbn [Z.eqb Pos.eqb andb].
  - now replace (u32 (tx_fill_level opchan + size) >? 0) with true
      by (symmetry; apply Z.gtb_lt; lia).
  - now replace (u32 (tx_fill_level opchan + size) <? 0) with false
      by (symmetry; apply Z.ltb_ge; lia).
Qed.

(** C10 (amended): the thresholds are [(size / 100) * 85] and
    [(size / 100) * 80] in integer division, so both are 0 on a channel
    whose capacity is below 100; there, with the flag a proper latch (0 or
    1), the tx fill level not negative and its sum with the size within 32
    bits, every request of non-zero size is refused by the admission test,
    and on an open channel that does not block on transmit the write request
    returns X_LINK_CHAN_FULL without any wait. *)
Theorem small_channel_refuses_writes
    (en : env) (script : list wait_step) (event : xlink_event) (x : multiplexer)
    (opchan : open_channel) :
  let chan := x (ev_link_id event) (ev_chan event) in
  tx_channel_valid event = true ->
  tx_by_passthrough event = false ->
  is_write_request (ev_type event) = true ->
  get_channel x (ev_link_id event) (ev_chan event) = Some opchan ->
  chan_status chan = CHAN_OPEN ->
  chan_is_non_blocking_write chan = true ->
  0 <= chan_size chan < 100 ->
  tx_up_limit opchan = 0 \/ tx_up_limit opchan = 1 ->
  0 <= tx_fill_level opchan ->
  0 < ev_size event ->
  tx_fill_level opchan + ev_size event < 2 ^ 32 ->
  upper_threshold chan = chan_size chan / 100 * 85
  /\ lower_threshold chan = chan_size chan / 100 * 80
  /\ upper_threshold chan = 0
  /\ lower_threshold chan = 0
  /\ fst (is_enough_space_in_channel chan opchan (ev_size event)) = false
  /\ exists r,
      xlink_multiplexer_tx en script event x = Done r
      /\ tx_rc r = Ret X_LINK_CHAN_FULL
      /\ tx_event_queued r = false
      /\ tx_trace r = [].
Proof.
  intros chan Hvalid Hpass Htype Hget Hstatus Hmode Hsize Hflag Hfill Hpos Hsum.
  destruct (small_channel_thresholds chan Hsize) as [Hup Hlow].
  assert (Hrefused : fst (is_enough_space_in_channel chan opchan (ev_size event))
                     = false).
  { apply small_channel_refuses; try assumption.
    unfold tx_fill_with. rewrite u32_small by lia. lia. }
  split; [now rewrite Hup, Z.div_small by lia|].
  split; [now rewrite Hlow, Z.div_small by lia|].
  do 3 (split; [assumption|]).
  rewrite non_blocking_write_mode in Hmode. apply negb_true_iff in Hmode.
  rewrite tx_dispatch by assumption.
  assert (Hsw : tx_switch en script event x = tx_write_req script event x).
  { unfold tx_switch. destruct (ev_type event); simpl in Htype; try discriminate;
      reflexivity. }
  destruct (is_enough_space_in_channel chan opchan (ev_size event))
    as [enough opchan'] eqn:Espace.
  simpl in Hrefused. subst enough.
  rewrite Hsw, (tx_write_req_rejected script event x opchan opchan'); auto.
  eexists. split; [reflexivity|]. cbn. auto.
Qed.

(** ** The rx fill level *)

Lemma s32_small (z : Z) : - 2 ^ 31 <= z < 2 ^ 31 -> s32 z = z.
Proof. intros Hz. unfold s32. rewrite Z.mod_small; lia. Qed.

Lemma s32_add (a b : Z) : s32 (s32 a + b) = s32 (a + b).
Proof.
  unfold s32. f_equal.
  replace ((a + 2 ^ 31) mod 2 ^ 32 - 2 ^ 31 + b + 2 ^ 31)
    with ((a + 2 ^ 31) mod 2 ^ 32 + b) by ring.
  rewrite Zplus_mod_idemp_l. f_equal. ring.
Qed.

Lemma sum_lengths_app (l1 l2 : list packet) :
  sum_lengths (l1 ++ l2) = sum_lengths l1 + sum_lengths l2.
Proof. induction l1 as [|p l1 IH]; simpl; [reflexivity|]. rewrite IH. ring. Qed.

Lemma sum_lengths_nonneg (l : list packet) :
  Forall (fun p => 0 <= pkt_length p < 2 ^ 32) l -> 0 <= sum_lengths l.
Proof. induction 1; simpl; lia. Qed.

Lemma find_packet_splits (addr : Z) (l : list packet) (pkt : packet) (rest : list packet) :
  find_packet addr l = Some (pkt, rest) ->
  sum_lengths l = pkt_length pkt + sum_lengths rest
  /\ pkt_data pkt = addr
  /\ (forall P : packet -> Prop, Forall P l -> P pkt /\ Forall P rest).
Proof.
  revert rest. induction l as [|p l IH]; simpl; intros rest Hfind; [discriminate|].
  destruct (Z.eqb_spec (pkt_data p) addr) as [Heq|Hne].
  - inversion Hfind; subst. repeat split; trivial; now inversion H.
  - destruct (find_packet addr l) as [[q r]|]; [|discriminate].
    inversion Hfind; subst. destruct (IH r eq_refl) as (Hsum & Hdata & Hall).
    simpl. repeat split; [lia|exact Hdata| |];
      inversion H; subst; destruct (Hall P); auto.
Qed.

Lemma select_packet_splits (addr : Z) (l : list packet) (pkt : packet)
    (rest : list packet) :
  select_packet addr l = Some (pkt, rest) ->
  sum_lengths l = pkt_length pkt + sum_lengths rest
  /\ (forall P : packet -> Prop, Forall P l -> P pkt /\ Forall P rest).
Proof.
  unfold select_packet. destruct (addr =? 0).
  - destruct l as [|p l]; [discriminate|]. intros Hsel. inversion Hsel; subst.
    split; [reflexivity|]. intros P HP. now inversion HP.
  - intros Hfind. destruct (find_packet_splits _ _ _ _ Hfind) as (Hsum & _ & Hall).
    now split.
Qed.

Lemma release_selected (o : open_channel) (addr : Z) (pkt : packet) (rest : list packet) :
  select_packet addr (q_head (rx_queue o)) = Some (pkt, rest) ->
  exists o',
    release_packet_from_channel o Rx_queue addr
    = (X_LINK_SUCCESS, o', pkt_length pkt, release_effects pkt)
    /\ q_head (rx_queue o') = rest
    /\ rx_fill_level o' = s32 (rx_fill_level o - pkt_length pkt)
    /\ tx_queue o' = tx_queue o.
Proof.
  intros Hsel. unfold release_packet_from_channel. cbn [queue_of].
  rewrite Hsel. eexists. split; [reflexivity|]. cbn. auto.
Qed.

Lemma release_not_found (o : open_channel) (addr : Z) :
  select_packet addr (q_head (rx_queue o)) = None ->
  release_packet_from_channel o Rx_queue addr = (X_LINK_ERROR, o, 0, []).
Proof.
  intros Hsel. unfold release_packet_from_channel. cbn [queue_of].
  now rewrite Hsel.
Qed.

Lemma release_keeps_accounting (o : open_channel) (addr : Z) :
  rx_accounted o ->
  rx_accounted (snd (fst (fst (release_packet_from_channel o Rx_queue addr)))).
Proof.
  intros (Hfill & Htx & Hlen).
  destruct (select_packet addr (q_head (rx_queue o))) as [[pkt rest]|] eqn:Hsel.
  - destruct (release_selected o addr pkt rest Hsel) as (o' & -> & Hq & Hf & Ht).
    destruct (select_packet_splits _ _ _ _ Hsel) as (Hsum & Hall).
    unfold rx_accounted. cbn [fst snd]. rewrite Hq, Hf, Ht, Hfill, Hsum.
    repeat split; [|assumption|now apply Hall].
    replace (s32 (pkt_length pkt + sum_lengths rest) - pkt_length pkt)
      with (s32 (pkt_length pkt + sum_lengths rest) + - pkt_length pkt) by ring.
    rewrite s32_add. f_equal. ring.
  - rewrite release_not_found by assumption. now repeat split.
Qed.

Lemma add_keeps_accounting (en : env) (o : open_channel) (buffer size paddr : Z) :
  0 <= size < 2 ^ 32 -> rx_accounted o ->
  rx_accounted (snd (fst (add_packet_to_channel en o Rx_queue buffer size paddr))).
Proof.
  intros Hsize (Hfill & Htx & Hlen).
  unfold add_packet_to_channel. cbn [queue_of].
  destruct (q_count (rx_queue o) <? q_capacity (rx_queue o));
    [destruct (kzalloc_ok en)|]; cbn; try now repeat split.
  unfold rx_accounted. cbn. repeat split; [|assumption|].
  - rewrite Hfill, s32_add, sum_lengths_app. cbn. f_equal. ring.
  - apply Forall_app. split; [assumption|]. now repeat constructor.
Qed.

(** Given a round per packet, the loop leaves the queue empty. *)
Lemma drain_queue_empties (w : which_queue) (fuel : nat) (o : open_channel) :
  (length (q_head (queue_of w o)) <= fuel)%nat ->
  q_head (queue_of w (fst (drain_queue fuel w o))) = [].
Proof.
  revert o. induction fuel as [|fuel IH]; intros o Hlen.
  - simpl. destruct (q_head (queue_of w o)); [reflexivity|simpl in Hlen; lia].
  - simpl. destruct (q_head (queue_of w o)) as [|p rest] eqn:Hq; [exact Hq|].
    unfold release_packet_from_channel, select_packet. rewrite Hq. cbn [Z.eqb].
    match goal with
    | |- context [drain_queue fuel w ?o'] =>
        specialize (IH o');
        assert (Hq' : q_head (queue_of w o') = rest) by (destruct w; reflexivity)
    end.
    rewrite Hq' in IH. simpl in Hlen.
    destruct (drain_queue fuel w _). apply IH. lia.
Qed.

Lemma rx_accounted_new (chan : Z) : rx_accounted (new_open_channel chan).
Proof. unfold rx_accounted. cbn. repeat split. constructor. Qed.

(** The two loops of [multiplexer_close_channel]. *)

Lemma drain_queue_trace (w : which_queue) (fuel : nat) (o : open_channel) :
  (length (q_head (queue_of w o)) <= fuel)%nat ->
  snd (drain_queue fuel w o) = flat_map release_effects (q_head (queue_of w o)).
Proof.
  revert o. induction fuel as [|fuel IH]; intros o Hlen.
  - simpl. destruct (q_head (queue_of w o)); [reflexivity|simpl in Hlen; lia].
  - simpl. destruct (q_head (queue_of w o)) as [|p rest] eqn:Hq; [reflexivity|].
    unfold release_packet_from_channel, select_packet. rewrite Hq. cbn [Z.eqb].
    match goal with
    | |- context [drain_queue fuel w ?o'] =>
        specialize (IH o');
        assert (Hq' : q_head (queue_of w o') = rest) by (destruct w; reflexivity)
    end.
    rewrite Hq' in IH. simpl in Hlen.
    destruct (drain_queue fuel w _) as [o'' t']. cbn [snd] in *.
    rewrite IH by lia. reflexivity.
Qed.

Lemma drain_rx_keeps_tx (fuel : nat) (o : open_channel) :
  tx_queue (fst (drain_queue fuel Rx_queue o)) = tx_queue o
  /\ id (fst (drain_queue fuel Rx_queue o)) = id o.
Proof.
  revert o. induction fuel as [|fuel IH]; intros o; [now split|].
  simpl. destruct (q_head (rx_queue o)) as [|p rest] eqn:Hq; [now split|].
  unfold release_packet_from_channel, select_packet. cbn [queue_of].
  rewrite Hq. cbn [Z.eqb].
  match goal with
  | |- context [drain_queue fuel Rx_queue ?o'] => specialize (IH o')
  end.
  destruct (drain_queue fuel Rx_queue _) as [o'' t']. exact IH.
Qed.

Lemma drain_tx_keeps_id (fuel : nat) (o : open_channel) :
  id (fst (drain_queue fuel Tx_queue o)) = id o.
Proof.
  revert o. induction fuel as [|fuel IH]; intros o; [reflexivity|].
  simpl. destruct (q_head (tx_queue o)) as [|p rest] eqn:Hq; [reflexivity|].
  unfold release_packet_from_channel, select_packet. cbn [queue_of].
  rewrite Hq. cbn [Z.eqb].
  match goal with
  | |- context [drain_queue fuel Tx_queue ?o'] => specialize (IH o')
  end.
  destruct (drain_queue fuel Tx_queue _) as [o'' t']. exact IH.
Qed.

Lemma close_channel_trace (x : multiplexer) (l c : Z) (opchan : open_channel) :
  chan_opchan (x l c) = Some opchan ->
  multiplexer_close_channel x l c
  = (X_LINK_SUCCESS, upd x l c (set_opchan None (x l c)),
     flat_map release_effects (q_head (rx_queue opchan))
     ++ flat_map release_effects (q_head (tx_queue opchan))
     ++ [Kfree_opchan (id opchan)]).
Proof.
  intros Hget. unfold multiplexer_close_channel. rewrite Hget.
  pose proof (drain_queue_trace Rx_queue (length (q_head (rx_queue opchan))) opchan
                (le_n _)) as Hrx.
  destruct (drain_rx_keeps_tx (length (q_head (rx_queue opchan))) opchan)
    as (Htx & Hid).
  destruct (drain_queue _ Rx_queue opchan) as [o1 t1]. cbn [fst snd] in *.
  pose proof (drain_queue_trace Tx_queue (length (q_head (tx_queue o1))) o1
                (le_n _)) as Htxt.
  pose proof (drain_tx_keeps_id (length (q_head (tx_queue o1))) o1) as Hid2.
  destruct (drain_queue _ Tx_queue o1) as [o2 t2]. cbn [fst snd queue_of] in *.
  now rewrite Hrx, Htxt, Htx, Hid2, Hid.
Qed.

(** ** The accounting across the entry points *)

Lemma rx_accounted_ext (o o' : open_channel) :
  rx_queue o' = rx_queue o -> tx_queue o' = tx_queue o ->
  rx_fill_level o' = rx_fill_level o ->
  rx_accounted o -> rx_accounted o'.
Proof. unfold rx_accounted. now intros -> -> ->. Qed.

Lemma accounted_upd (x : multiplexer) (l c : Z) (ch : channel) :
  accounted x ->
  (forall o, chan_opchan ch = Some o -> rx_accounted o) ->
  accounted (upd x l c ch).
Proof.
  intros Hx Hch l' c' o. unfold get_channel, upd.
  destruct ((l' =? l) && (c' =? c))%bool; [apply Hch|apply Hx].
Qed.

Lemma accounted_put (x : multiplexer) (l c : Z) (o : open_channel) :
  accounted x -> rx_accounted o -> accounted (put_channel x l c o).
Proof.
  intros Hx Ho. apply accounted_upd; [exact Hx|].
  destruct (x l c); cbn. intros o' Heq. now inversion Heq; subst.
Qed.

Lemma accounted_config (x : multiplexer) (l c : Z) (ch : channel) :
  accounted x -> chan_opchan ch = chan_opchan (x l c) -> accounted (upd x l c ch).
Proof.
  intros Hx Hsame. apply accounted_upd; [exact Hx|].
  intros o Ho. apply (Hx l c). unfold get_channel. congruence.
Qed.

Lemma accounted_free (x : multiplexer) (l c : Z) :
  accounted x -> accounted (upd x l c (set_opchan None (x l c))).
Proof. intros Hx. apply accounted_upd; [exact Hx|]. destruct (x l c); discriminate. Qed.

Lemma is_enough_space_keeps_accounting (chan : channel) (o : open_channel) (size : Z) :
  rx_accounted o -> rx_accounted (snd (is_enough_space_in_channel chan o size)).
Proof.
  intros Ho. unfold is_enough_space_in_channel.
  repeat match goal with
         | |- context [if ?b then _ else _] => destruct b
         end; cbn [snd]; trivial; now apply (rx_accounted_ext o).
Qed.

Lemma wait_for_space_keeps_accounting (script : list wait_step) (l c size : Z) :
  script_keeps_accounting script ->
  forall x, accounted x ->
  forall rc x' t script',
    wait_for_space script x l c size = Done (rc, x', t, script') ->
    accounted x' /\ script_keeps_accounting script'.
Proof.
  intros Hscript.
  assert (Hput : forall x o, accounted x -> get_channel x l c = Some o ->
                 accounted (put_channel x l c
                              (snd (is_enough_space_in_channel (x l c) o size)))).
  { intros x o Hx Hget. apply accounted_put; [exact Hx|].
    apply is_enough_space_keeps_accounting. exact (Hx l c o Hget). }
  induction Hscript as [|step rest Hstep Hrest IH]; intros x Hx rc x' t script'; simpl.
  - destruct (get_channel x l c) as [o|] eqn:Hget; [|discriminate].
    specialize (Hput x o Hx Hget).
    destruct (is_enough_space_in_channel (x l c) o size) as [enough o'].
    cbn [snd] in Hput.
    destruct enough; [|destruct (tx_blocking _)]; try discriminate;
      intros Heq; inversion Heq; subst; split; trivial; constructor.
  - destruct (get_channel x l c) as [o|] eqn:Hget; [|discriminate].
    specialize (Hput x o Hx Hget).
    destruct (is_enough_space_in_channel (x l c) o size) as [enough o'].
    cbn [snd] in Hput.
    assert (Hall : script_keeps_accounting (step :: rest)) by now constructor.
    destruct enough; [intros Heq; inversion Heq; subst; now split|].
    destruct (tx_blocking _); [|intros Heq; inversion Heq; subst; now split].
    destruct (ws_result step).
    + destruct (wait_for_space rest _ l c size) as [[[[rc3 x3] t3] s3]| | |] eqn:Erec;
        try discriminate.
      intros Heq. inversion Heq; subst.
      exact (IH _ (Hstep _ Hput) _ _ _ _ Erec).
    + destruct (_ =? 0); [discriminate|].
      intros Heq. inversion Heq; subst. split; [now apply Hstep|exact Hrest].
    + intros Heq. inversion Heq; subst. split; [now apply Hstep|exact Hrest].
Qed.


Lemma set_tx_levels_keeps_accounting (fill pkts : Z) (o : open_channel) :
  rx_accounted o -> rx_accounted (set_tx_levels fill pkts o).
Proof. now apply rx_accounted_ext. Qed.

Ltac done_eq :=
  let Heq := fresh "Heq" in
  unfold tx_done, rx_done; intros Heq; inversion Heq; subst; clear Heq;
  cbn [tx_mux rx_mux].

Lemma tx_write_req_keeps_accounting (script : list wait_step) (event : xlink_event)
    (x : multiplexer) :
  script_keeps_accounting script -> accounted x ->
  forall r, tx_write_req script event x = Done r -> accounted (tx_mux r).
Proof.
  intros Hscript Hx r. unfold tx_write_req.
  destruct (get_channel x _ _) as [o0|]; [|now done_eq].
  destruct (negb _); [now done_eq|].
  destruct (wait_for_space script x _ _ _) as [[[[rc x1] t1] s1]| | |] eqn:Ewait;
    try discriminate.
  destruct (wait_for_space_keeps_accounting _ _ _ _ Hscript x Hx _ _ _ _ Ewait)
    as (Hx1 & Hs1).
  destruct rc; try now done_eq.
  destruct (get_channel x1 _ _) as [o|] eqn:Hget; [|discriminate].
  assert (Hx2 : accounted
                  (put_channel x1 (ev_link_id event) (ev_chan event)
                     (set_tx_levels
                        (s32 (tx_fill_level o
                              + ev_size (set_ev_timeout
                                           (chan_timeout (x (ev_link_id event)
                                                            (ev_chan event))) event)))
                        (s32 (tx_packet_level o + 1)) o))).
  { apply accounted_put; [exact Hx1|].
    apply set_tx_levels_keeps_accounting. exact (Hx1 _ _ _ Hget). }
  destruct (is_passthru_channel _) as [[|]|]; [| |discriminate].
  - destruct (ev_type _); now done_eq.
  - destruct (tx_blocking _); [|now done_eq].
    destruct Hs1 as [|step rest Hstep _]; [discriminate|].
    destruct (ws_result step); [now done_eq; apply Hstep| |now done_eq; apply Hstep].
    destruct (_ =? 0); [discriminate|]. done_eq. now apply Hstep.
Qed.

Lemma wait_for_packet_keeps_accounting (script : list wait_step) (x : multiplexer)
    (l c : Z) :
  script_keeps_accounting script -> accounted x ->
  forall rc x' t, wait_for_packet script x l c = Done (rc, x', t) -> accounted x'.
Proof.
  intros Hscript Hx rc x' t. unfold wait_for_packet.
  destruct (rx_blocking _); [|intros Heq; now inversion Heq; subst].
  destruct Hscript as [|step rest Hstep _]; [discriminate|].
  destruct (ws_result step); [| |];
    try (destruct (_ =? 0); try discriminate);
    intros Heq; inversion Heq; subst; now apply Hstep.
Qed.

Lemma tx_read_req_keeps_accounting (script : list wait_step) (event : xlink_event)
    (x : multiplexer) :
  script_keeps_accounting script -> accounted x ->
  forall r, tx_read_req script event x = Done r -> accounted (tx_mux r).
Proof.
  intros Hscript Hx r. unfold tx_read_req.
  destruct (get_channel x _ _) as [o0|]; [|now done_eq].
  destruct (negb _); [now done_eq|].
  destruct (is_passthru_channel _) as [passthru|]; [|discriminate].
  destruct (wait_for_packet script x _ _) as [[[rc x1] t1]| | |] eqn:Ewait;
    try discriminate.
  pose proof (wait_for_packet_keeps_accounting _ _ _ _ Hscript Hx _ _ _ Ewait) as Hx1.
  destruct (is_success rc); [|now done_eq].
  destruct (get_channel x1 _ _); [|discriminate].
  destruct (get_packet_from_channel _); now done_eq.
Qed.

Lemma tx_read_to_buffer_req_keeps_accounting (script : list wait_step)
    (event : xlink_event) (x : multiplexer) :
  script_keeps_accounting script -> accounted x ->
  forall r, tx_read_to_buffer_req script event x = Done r -> accounted (tx_mux r).
Proof.
  intros Hscript Hx r. unfold tx_read_to_buffer_req.
  destruct (get_channel x _ _) as [o0|]; [|now done_eq].
  destruct (negb _); [now done_eq|].
  destruct (is_passthru_channel _) as [passthru|]; [|discriminate].
  destruct (wait_for_packet script x _ _) as [[[rc x1] t1]| | |] eqn:Ewait;
    try discriminate.
  pose proof (wait_for_packet_keeps_accounting _ _ _ _ Hscript Hx _ _ _ Ewait) as Hx1.
  destruct (is_success rc); [|now done_eq].
  destruct (get_channel x1 _ _) as [o|] eqn:Hget; [|discriminate].
  destruct (get_packet_from_channel _) as [pkt|]; [|now done_eq].
  pose proof (release_keeps_accounting o (pkt_data pkt) (Hx1 _ _ _ Hget)) as Hrel.
  destruct passthru.
  - destruct (release_packet_from_channel o Rx_queue (pkt_data pkt))
      as [[[rc' o'] len] t2].
    done_eq. now apply accounted_put.
  - done_eq. apply accounted_put; [exact Hx1|exact (Hx1 _ _ _ Hget)].
Qed.

Lemma tx_release_req_keeps_accounting (event : xlink_event) (x : multiplexer) :
  accounted x ->
  forall r, tx_release_req event x = Done r -> accounted (tx_mux r).
Proof.
  intros Hx r. unfold tx_release_req.
  destruct (get_channel x _ _) as [o|] eqn:Hget; [|now done_eq].
  pose proof (release_keeps_accounting o (ev_data event) (Hx _ _ _ Hget)) as Hrel.
  destruct (release_packet_from_channel o Rx_queue (ev_data event))
    as [[[rc o'] len] t].
  destruct rc; done_eq; now apply accounted_put.
Qed.

Lemma multiplexer_open_channel_keeps_accounting (en : env) (x : multiplexer) (l c : Z) :
  accounted x -> accounted (snd (fst (multiplexer_open_channel en x l c))).
Proof.
  intros Hx. unfold multiplexer_open_channel.
  destruct (chan_opchan (x l c)); [exact Hx|].
  destruct (kzalloc_ok en); [|exact Hx].
  apply accounted_put; [exact Hx|apply rx_accounted_new].
Qed.

Lemma multiplexer_close_channel_keeps_accounting (x : multiplexer) (l c : Z) :
  accounted x -> accounted (snd (fst (multiplexer_close_channel x l c))).
Proof.
  intros Hx. destruct (chan_opchan (x l c)) as [o|] eqn:Hget.
  - rewrite (close_channel_trace x l c o Hget). now apply accounted_free.
  - unfold multiplexer_close_channel. now rewrite Hget.
Qed.

Lemma tx_open_channel_req_keeps_accounting (en : env) (script : list wait_step)
    (event : xlink_event) (x : multiplexer) :
  script_keeps_accounting script -> accounted x ->
  forall r, tx_open_channel_req en script event x = Done r -> accounted (tx_mux r).
Proof.
  intros Hscript Hx r. unfold tx_open_channel_req.
  set (l := ev_link_id event). set (c := ev_chan event).
  destruct (chan_status (x l c)).
  - match goal with
    | |- context [multiplexer_open_channel en ?x1 l c] =>
        assert (Hx1 : accounted x1) by (apply accounted_config;
                                        [exact Hx|now destruct (x l c)]);
        pose proof (multiplexer_open_channel_keeps_accounting en x1 l c Hx1) as Hx2;
        destruct (multiplexer_open_channel en x1 l c) as [[rc x2] t2]
    end.
    cbn [fst snd] in Hx2.
    destruct rc; try now done_eq.
    destruct (get_channel x2 l c); [|now done_eq].
    destruct Hscript as [|step rest Hstep _]; [discriminate|].
    pose proof (Hstep _ Hx2) as Hx3.
    destruct (ws_result step).
    + done_eq. apply accounted_config; [exact Hx3|now destruct (ws_others step x2 l c)].
    + destruct (get_channel _ l c); [|discriminate].
      pose proof (multiplexer_close_channel_keeps_accounting _ l c Hx3) as Hx4.
      destruct (multiplexer_close_channel _ l c) as [[rc4 x4] t4]. now done_eq.
    + destruct (get_channel _ l c); [|discriminate].
      pose proof (multiplexer_close_channel_keeps_accounting _ l c Hx3) as Hx4.
      destruct (multiplexer_close_channel _ l c) as [[rc4 x4] t4]. now done_eq.
  - now done_eq.
  - match goal with
    | |- context [multiplexer_open_channel en ?x1 l c] =>
        assert (Hx1 : accounted x1) by (apply accounted_config;
                                        [exact Hx|now destruct (x l c)]);
        pose proof (multiplexer_open_channel_keeps_accounting en x1 l c Hx1) as Hx2;
        destruct (multiplexer_open_channel en x1 l c) as [[rc x2] t2]
    end.
    now done_eq.
Qed.

Lemma tx_callback_req_keeps_accounting (event : xlink_event) (x : multiplexer) :
  accounted x ->
  (forall r, tx_data_ready_callback_req event x = Done r -> accounted (tx_mux r))
  /\ (forall r, tx_data_consumed_callback_req event x = Done r -> accounted (tx_mux r)).
Proof.
  intros Hx. unfold tx_data_ready_callback_req, tx_data_consumed_callback_req.
  split; intros r; destruct (get_channel x _ _) as [o|] eqn:Hget;
    done_eq; trivial; apply accounted_put; trivial;
    apply (rx_accounted_ext o); trivial; exact (Hx _ _ _ Hget).
Qed.

Lemma tx_close_channel_req_keeps_accounting (event : xlink_event) (x : multiplexer) :
  accounted x ->
  forall r, tx_close_channel_req event x = Done r -> accounted (tx_mux r).
Proof.
  intros Hx r. unfold tx_close_channel_req.
  set (l := ev_link_id event). set (c := ev_chan event).
  pose proof (multiplexer_close_channel_keeps_accounting x l c Hx) as Hx1.
  destruct (chan_status (x l c)); try now done_eq.
  destruct (multiplexer_close_channel x l c) as [[rc x1] t]. cbn [fst snd] in Hx1.
  destruct rc; done_eq; trivial.
  apply accounted_config; [exact Hx1|now destruct (x1 l c)].
Qed.

Lemma xlink_multiplexer_tx_keeps_accounting (en : env) (script : list wait_step)
    (event : xlink_event) (x : multiplexer) :
  passthrough_keeps_accounting ->
  script_keeps_accounting script -> accounted x ->
  forall r, xlink_multiplexer_tx en script event x = Done r -> accounted (tx_mux r).
Proof.
  intros Hpass Hscript Hx r. unfold xlink_multiplexer_tx.
  destruct (_ >=? _); [now done_eq|].
  destruct (negb _); [now done_eq|].
  destruct (is_control_channel _); [now done_eq|].
  destruct (tx_by_passthrough event).
  - specialize (Hpass event x Hx).
    destruct (xlink_passthrough event x) as [[rc x1] t]. now done_eq.
  - unfold tx_switch.
    destruct (tx_callback_req_keeps_accounting event x Hx) as (Hready & Hconsumed).
    destruct (ev_type event);
      first [ now apply tx_write_req_keeps_accounting
            | now apply tx_read_req_keeps_accounting
            | now apply tx_read_to_buffer_req_keeps_accounting
            | now apply tx_release_req_keeps_accounting
            | now apply (tx_open_channel_req_keeps_accounting en)
            | now apply tx_close_channel_req_keeps_accounting
            | exact (Hready r) | exact (Hconsumed r)
            | now done_eq ].
Qed.


Lemma rx_write_req_keeps_accounting (en : env) (event : xlink_event) (x : multiplexer) :
  0 <= ev_size event < 2 ^ 32 -> accounted x ->
  (forall r, rx_write_req en event x = Done r -> accounted (rx_mux r))
  /\ (forall r, rx_write_control_req en event x = Done r -> accounted (rx_mux r)).
Proof.
  intros Hsize Hx. unfold rx_write_req, rx_write_control_req.
  split; intros r.
  - destruct (get_channel x _ _) as [o|] eqn:Hget; [|now done_eq].
    destruct (allocate_result en) as [buffer paddr].
    destruct (negb _); [|now done_eq].
    destruct (read_result en) as [read_rc read_size].
    destruct (_ || _)%bool; [now done_eq|].
    match goal with
    | |- context [add_packet_to_channel en o Rx_queue ?b ?s ?p] =>
        pose proof (add_keeps_accounting en o b s p Hsize (Hx _ _ _ Hget)) as Hadd;
        destruct (add_packet_to_channel en o Rx_queue b s p) as [[rc o'] t]
    end.
    cbn [fst snd] in Hadd.
    destruct rc; try now done_eq.
    destruct (_ && _)%bool.
    + destruct (run_callback _ _ _ _). done_eq. now apply accounted_put.
    + done_eq. now apply accounted_put.
  - destruct (get_channel x _ _) as [o|] eqn:Hget; [|now done_eq].
    destruct (allocate_result en) as [buffer paddr].
    destruct (negb _); [|now done_eq].
    match goal with
    | |- context [add_packet_to_channel en o Rx_queue ?b ?s ?p] =>
        pose proof (add_keeps_accounting en o b s p Hsize (Hx _ _ _ Hget)) as Hadd;
        destruct (add_packet_to_channel en o Rx_queue b s p) as [[rc o'] t]
    end.
    cbn [fst snd] in Hadd.
    destruct rc; done_eq; trivial. now apply accounted_put.
Qed.

Lemma rx_open_channel_req_keeps_accounting (en : env) (event : xlink_event)
    (x : multiplexer) :
  passthrough_keeps_accounting -> accounted x ->
  forall r, rx_open_channel_req en event x = Done r -> accounted (rx_mux r).
Proof.
  intros Hpass Hx r. unfold rx_open_channel_req.
  set (l := ev_link_id event). set (c := ev_chan event).
  match goal with
  | |- context [xlink_passthrough event (fst ?p)] => idtac
  | |- (let '(x', t') := ?p in _) = _ -> _ =>
      assert (Hx' : accounted (fst p)); [|destruct p as [x' t']]
  end.
  - destruct (chan_status (x l c)).
    + match goal with
      | |- context [multiplexer_open_channel en ?x1 l c] =>
          assert (Hx1 : accounted x1) by (apply accounted_config;
                                          [exact Hx|now destruct (x l c)]);
          pose proof (multiplexer_open_channel_keeps_accounting en x1 l c Hx1) as Hx2;
          destruct (multiplexer_open_channel en x1 l c) as [[rc x2] t2]
      end.
      cbn [fst snd] in Hx2.
      destruct rc; trivial.
      destruct (get_channel x2 l c); trivial. cbn [fst].
      apply accounted_config; [exact Hx2|now destruct (x2 l c)].
    + now destruct (get_channel x l c).
    + now destruct (get_channel x l c).
  - cbn [fst] in Hx'. specialize (Hpass event x' Hx').
    destruct (xlink_passthrough event x') as [[rc x''] t'']. now done_eq.
Qed.

Lemma xlink_multiplexer_rx_keeps_accounting (en : env) (event : xlink_event)
    (x : multiplexer) :
  passthrough_keeps_accounting ->
  0 <= ev_size event < 2 ^ 32 -> accounted x ->
  forall r, xlink_multiplexer_rx en event x = Done r -> accounted (rx_mux r).
Proof.
  intros Hpass Hsize Hx r.
  destruct (rx_write_req_keeps_accounting en event x Hsize Hx) as (Hdata & Hcontrol).
  unfold xlink_multiplexer_rx.
  destruct (ev_type event);
    first [ exact (Hdata r) | exact (Hcontrol r)
          | now apply rx_open_channel_req_keeps_accounting
          | discriminate
          | now done_eq
          | idtac ].
  - (* read request *)
    unfold rx_read_req. destruct (get_channel x _ _).
    + destruct (_ && _)%bool; [destruct (run_callback _ _ _ _)|]; now done_eq.
    + destruct (status_eqb _ _); [discriminate|now done_eq].
  - unfold rx_read_req. destruct (get_channel x _ _).
    + destruct (_ && _)%bool; [destruct (run_callback _ _ _ _)|]; now done_eq.
    + destruct (status_eqb _ _); [discriminate|now done_eq].
  - (* release request *)
    unfold rx_release_req. destruct (get_channel x _ _) as [o|] eqn:Hget;
      [|now done_eq].
    done_eq. apply accounted_put; [exact Hx|].
    apply set_tx_levels_keeps_accounting. exact (Hx _ _ _ Hget).
  - unfold rx_response. destruct (get_channel x _ _); now done_eq.
  - unfold rx_response. destruct (get_channel x _ _); now done_eq.
  - unfold rx_response. destruct (get_channel x _ _); now done_eq.
  - unfold rx_response. destruct (get_channel x _ _); now done_eq.
Qed.

Lemma run_call_keeps_accounting (k : call) (x : multiplexer) :
  passthrough_keeps_accounting ->
  call_well_formed k -> accounted x -> accounted (run_call k x).
Proof.
  intros Hpass Hk Hx. destruct k as [en script event|en event|l c addr]; simpl.
  - destruct Hk as (_ & Hscript).
    destruct (xlink_multiplexer_tx en script event x) as [r| | |] eqn:Etx; trivial.
    now apply (xlink_multiplexer_tx_keeps_accounting en script event x).
  - destruct (xlink_multiplexer_rx en event x) as [r| | |] eqn:Erx; trivial.
    now apply (xlink_multiplexer_rx_keeps_accounting en event x).
  - unfold core_release_packet_from_channel.
    destruct CONFIG_XLINK_LOCAL_HOST; trivial.
    destruct (is_passthru_channel c) as [[|]|]; trivial.
    destruct (get_channel x l c) as [o|] eqn:Hget; trivial.
    pose proof (release_keeps_accounting o addr (Hx _ _ _ Hget)) as Hrel.
    destruct (release_packet_from_channel o Rx_queue addr) as [[[rc o'] len] t].
    now apply accounted_put.
Qed.

Lemma run_calls_keep_accounting (calls : list call) (x : multiplexer) :
  passthrough_keeps_accounting ->
  Forall call_well_formed calls -> accounted x -> accounted (run_calls calls x).
Proof.
  intros Hpass Hcalls. revert x.
  induction Hcalls as [|k calls Hk _ IH]; intros x Hx; [exact Hx|].
  simpl. apply IH. now apply run_call_keeps_accounting.
Qed.

(** C1 (amended): start from a slot table without any open-channel object
    and make any sequence of calls of the transmit entry point, the receive
    entry point and [core_release_packet_from_channel] (which enqueue
    received packets, release packets and drain the queues on close).  Then
    for every channel that has its object, [rx_fill_level] is the sum of the
    lengths of the packets in its rx queue reduced to a signed 32-bit value;
    as long as that sum is below 2^31 it is the sum itself and is not
    negative.  Releasing a packet of the queue takes it off the queue and
    subtracts its length from [rx_fill_level] in 32-bit arithmetic; below
    2^31 this is the exact difference and the level stays at or above
    zero. *)
Theorem rx_fill_level_accounting (calls : list call) (x0 : multiplexer) :
  passthrough_keeps_accounting ->
  (forall l c, get_channel x0 l c = None) ->
  Forall call_well_formed calls ->
  forall l c o,
    get_channel (run_calls calls x0) l c = Some o ->
    let queued := sum_lengths (q_head (rx_queue o)) in
    rx_fill_level o = s32 queued
    /\ (queued < 2 ^ 31 -> rx_fill_level o = queued /\ 0 <= rx_fill_level o)
    /\ forall addr pkt rest,
        select_packet addr (q_head (rx_queue o)) = Some (pkt, rest) ->
        exists o',
          release_packet_from_channel o Rx_queue addr
          = (X_LINK_SUCCESS, o', pkt_length pkt, release_effects pkt)
          /\ q_head (rx_queue o') = rest
          /\ rx_fill_level o' = s32 (rx_fill_level o - pkt_length pkt)
          /\ (queued < 2 ^ 31 ->
              rx_fill_level o' = rx_fill_level o - pkt_length pkt
              /\ 0 <= rx_fill_level o').
Proof.
  intros Hpass Hinit Hcalls l c o Hget queued.
  assert (Hx0 : accounted x0) by (intros l' c' o' Ho'; now rewrite Hinit in Ho').
  pose proof (run_calls_keep_accounting calls x0 Hpass Hcalls Hx0 l c o Hget) as Hacc.
  destruct Hacc as (Hfill & Htx & Hlen). fold queued in Hfill.
  pose proof (sum_lengths_nonneg _ Hlen) as Hnonneg. fold queued in Hnonneg.
  assert (Hexact : queued < 2 ^ 31 -> rx_fill_level o = queued).
  { intros Hfit. rewrite Hfill. apply s32_small. lia. }
  split; [exact Hfill|]. split; [intros Hfit; rewrite (Hexact Hfit); lia|].
  intros addr pkt rest Hsel.
  destruct (release_selected o addr pkt rest Hsel) as (o' & Hrel & Hq & Hf & _).
  destruct (select_packet_splits _ _ _ _ Hsel) as (Hsum & Hall).
  destruct (Hall _ Hlen) as (Hpkt & Hrest).
  pose proof (sum_lengths_nonneg _ Hrest) as Hrest_nonneg.
  fold queued in Hsum.
  exists o'. split; [exact Hrel|]. split; [exact Hq|]. split; [exact Hf|].
  intros Hfit. rewrite Hf, (Hexact Hfit).
  rewrite s32_small by lia. lia.
Qed.

(** ** Opening a channel *)

(** C7: a local open request on a slot in CHAN_OPEN_PEER state whose
    open-channel object the peer's request has allocated returns
    X_LINK_SUCCESS at once: nothing is allocated, no event is queued and no
    wait is made (the trace is empty); the slot is CHAN_OPEN, holds the
    requested size, timeout and mode, and keeps the object it had; no other
    slot changes. *)
Theorem open_after_peer_adopts_channel
    (en : env) (script : list wait_step) (event : xlink_event) (x : multiplexer)
    (opchan : open_channel) :
  let l := ev_link_id event in
  let c := ev_chan event in
  tx_channel_valid event = true ->
  tx_by_passthrough event = false ->
  ev_type event = XLINK_OPEN_CHANNEL_REQ ->
  chan_status (x l c) = CHAN_OPEN_PEER ->
  get_channel x l c = Some opchan ->
  exists r,
    xlink_multiplexer_tx en script event x = Done r
    /\ tx_rc r = Ret X_LINK_SUCCESS
    /\ tx_event_queued r = false
    /\ tx_trace r = []
    /\ chan_status (tx_mux r l c) = CHAN_OPEN
    /\ chan_size (tx_mux r l c) = ev_size event
    /\ chan_timeout (tx_mux r l c) = ev_timeout event
    /\ chan_mode (tx_mux r l c) = opmode_of_data (ev_data event)
    /\ chan_opchan (tx_mux r l c) = Some opchan
    /\ forall l' c', (l', c') <> (l, c) -> tx_mux r l' c' = x l' c'.
Proof.
  intros l c Hvalid Hpass Htype Hstatus Hget.
  rewrite tx_dispatch by assumption.
  unfold tx_switch. rewrite Htype. unfold tx_open_channel_req. fold l c.
  rewrite Hstatus. unfold multiplexer_open_channel. rewrite upd_same.
  unfold get_channel in Hget. cbn [chan_opchan set_mode set_size_timeout set_status].
  rewrite Hget.
  eexists. split; [reflexivity|]. cbn [tx_rc tx_event_queued tx_trace tx_mux].
  rewrite upd_same. cbn.
  repeat split; trivial. intros l' c' Hne. now apply upd_other.
Qed.

Lemma drain_empty_queue (fuel : nat) (w : which_queue) (o : open_channel) :
  q_head (queue_of w o) = [] -> drain_queue fuel w o = (o, []).
Proof. intros Hq. destruct fuel; simpl; [reflexivity|]. now rewrite Hq. Qed.

Lemma close_new_channel (x : multiplexer) (l c : Z) :
  chan_opchan (x l c) = Some (new_open_channel c) ->
  multiplexer_close_channel x l c
  = (X_LINK_SUCCESS, upd x l c (set_opchan None (x l c)), [Kfree_opchan c]).
Proof. intros Hnew. unfold multiplexer_close_channel. now rewrite Hnew. Qed.

(** C3: a local open request on a CLOSED slot without an object, whose
    allocation succeeds, stores the requested size, timeout and mode,
    allocates the open-channel object, hands the open request to the
    dispatcher and waits on [opened] for at most 5000 ms.  The other threads
    leaving the slot alone during the wait: if the wait is completed the
    slot is CHAN_OPEN with its new object and the call returns
    X_LINK_SUCCESS; if it times out or is interrupted the object is freed,
    the slot is CHAN_CLOSED without an object, and the call returns
    X_LINK_TIMEOUT, respectively X_LINK_ERROR. *)
Theorem open_closed_channel_handshake
    (en : env) (step : wait_step) (script : list wait_step) (event : xlink_event)
    (x : multiplexer) :
  let l := ev_link_id event in
  let c := ev_chan event in
  tx_channel_valid event = true ->
  tx_by_passthrough event = false ->
  ev_type event = XLINK_OPEN_CHANNEL_REQ ->
  chan_status (x l c) = CHAN_CLOSED ->
  get_channel x l c = None ->
  kzalloc_ok en = true ->
  (forall x', ws_others step x' l c = x' l c) ->
  exists r,
    xlink_multiplexer_tx en (step :: script) event x = Done r
    /\ tx_event_queued r = true
    /\ chan_size (tx_mux r l c) = ev_size event
    /\ chan_timeout (tx_mux r l c) = ev_timeout event
    /\ chan_mode (tx_mux r l c) = opmode_of_data (ev_data event)
    /\ (exists after,
           tx_trace r
           = [Kzalloc_opchan true; Dispatcher_event_add EVENT_TX event;
              Wait_for_completion c Sig_opened (Some 5000)] ++ after
           /\ after = match ws_result step with
                      | Completed => []
                      | _ => [Kfree_opchan c]
                      end)
    /\ match ws_result step with
       | Completed =>
           tx_rc r = Ret X_LINK_SUCCESS
           /\ chan_status (tx_mux r l c) = CHAN_OPEN
           /\ chan_opchan (tx_mux r l c) = Some (new_open_channel c)
       | Timed_out =>
           tx_rc r = Ret X_LINK_TIMEOUT
           /\ chan_status (tx_mux r l c) = CHAN_CLOSED
           /\ chan_opchan (tx_mux r l c) = None
       | Interrupted =>
           tx_rc r = Ret X_LINK_ERROR
           /\ chan_status (tx_mux r l c) = CHAN_CLOSED
           /\ chan_opchan (tx_mux r l c) = None
       end.
Proof.
  intros l c Hvalid Hpass Htype Hstatus Hget Halloc Hquiet.
  rewrite tx_dispatch by assumption.
  unfold tx_switch. rewrite Htype. unfold tx_open_channel_req. fold l c.
  rewrite Hstatus. unfold multiplexer_open_channel. rewrite upd_same.
  unfold get_channel in Hget. cbn [chan_opchan set_mode set_size_timeout].
  rewrite Hget, Halloc. rewrite get_put_channel.
  set (x2 := put_channel _ l c (new_open_channel c)).
  assert (Hslot : ws_others step x2 l c = x2 l c) by apply Hquiet.
  assert (Hx2 : x2 l c
                = set_opchan (Some (new_open_channel c))
                    (set_mode (opmode_of_data (ev_data event))
                       (set_size_timeout (ev_size event) (ev_timeout event) (x l c)))).
  { subst x2. unfold put_channel. now rewrite !upd_same. }
  destruct (ws_result step) eqn:Hres.
  - (* completed *)
    eexists. split; [reflexivity|].
    cbn [tx_rc tx_event_queued tx_trace tx_mux]. rewrite upd_same, Hslot, Hx2.
    cbn. repeat split; trivial. exists []. now split.
  - (* timed out *)
    unfold get_channel. rewrite Hslot, Hx2. cbn [chan_opchan set_opchan].
    rewrite (close_new_channel (ws_others step x2) l c) by now rewrite Hslot, Hx2.
    eexists. split; [reflexivity|].
    cbn [tx_rc tx_event_queued tx_trace tx_mux]. rewrite upd_same, Hslot, Hx2.
    cbn. rewrite Hstatus. repeat split; trivial. exists [Kfree_opchan c]. now split.
  - (* interrupted *)
    unfold get_channel. rewrite Hslot, Hx2. cbn [chan_opchan set_opchan].
    rewrite (close_new_channel (ws_others step x2) l c) by now rewrite Hslot, Hx2.
    eexists. split; [reflexivity|].
    cbn [tx_rc tx_event_queued tx_trace tx_mux]. rewrite upd_same, Hslot, Hx2.
    cbn. rewrite Hstatus. repeat split; trivial. exists [Kfree_opchan c]. now split.
Qed.

(** ** Closing a channel *)



(** ** Write requests at the receive entry point *)

Lemma run_callback_delivery (en : env) (opchan : open_channel) :
  existsb is_callback_delivery
    (snd (run_callback en opchan (ready_callback opchan) (ready_calling_pid opchan)))
  = ready_callback_deliverable opchan.
Proof.
  unfold run_callback, ready_callback_deliverable.
  destruct (Ascii.eqb _ _); [destruct (ready_calling_pid opchan =? 0)|]; reflexivity.
Qed.

Lemma add_packet_keeps_callbacks (en : env) (opchan : open_channel) (w : which_queue)
    (buffer size paddr : Z) :
  let o' := snd (fst (add_packet_to_channel en opchan w buffer size paddr)) in
  ready_callback o' = ready_callback opchan
  /\ ready_calling_pid o' = ready_calling_pid opchan
  /\ callback_origin o' = callback_origin opchan
  /\ id o' = id opchan.
Proof.
  unfold add_packet_to_channel.
  destruct (_ <? _); [destruct (kzalloc_ok en)|]; destruct w; cbn; auto.
Qed.

Lemma add_packet_trace (en : env) (opchan : open_channel) (w : which_queue)
    (buffer size paddr : Z) :
  kzalloc_ok en = true ->
  fst (fst (add_packet_to_channel en opchan w buffer size paddr)) = X_LINK_SUCCESS
  /\ existsb is_callback_delivery
       (snd (add_packet_to_channel en opchan w buffer size paddr)) = false.
Proof.
  intros Hk. unfold add_packet_to_channel. rewrite Hk.
  destruct (_ <? _); cbn; auto.
Qed.

(** What the receive entry point does with a write request that reaches an
    open channel (buffer allocated, transport read complete, packet record
    allocated): [pkt_available] is completed whatever the mode; on the data
    and volatile-data path the ready callback is run exactly when the slot
    is CHAN_OPEN, the mode is non-blocking for receive and a ready callback
    is registered; on the control-data path it is never run. *)
Lemma rx_write_completion (en : env) (event : xlink_event) (x : multiplexer)
    (opchan : open_channel) :
  let l := ev_link_id event in
  let c := ev_chan event in
  is_write_request (ev_type event) = true ->
  get_channel x l c = Some opchan ->
  fst (allocate_result en) <> 0 ->
  read_result en = (0, ev_size event) ->
  kzalloc_ok en = true ->
  exists r,
    xlink_multiplexer_rx en event x = Done r
    /\ In (Complete c Sig_pkt_available) (rx_trace r)
    /\ existsb is_callback_delivery (rx_trace r)
       = match ev_type event with
         | XLINK_WRITE_CONTROL_REQ => false
         | _ =>
             status_eqb (chan_status (x l c)) CHAN_OPEN
             && chan_is_non_blocking_read (x l c)
             && negb (ready_callback opchan =? 0)
             && ready_callback_deliverable opchan
         end.
Proof.
  intros l c Htype Hget Halloc Hread Hk.
  destruct (allocate_result en) as [buffer paddr] eqn:Ealloc. simpl in Halloc.
  assert (Hbuf : (buffer =? 0) = false) by now apply Z.eqb_neq.
  assert (Hcases : ev_type event = XLINK_WRITE_CONTROL_REQ
                   \/ (ev_type event <> XLINK_WRITE_CONTROL_REQ
                       /\ xlink_multiplexer_rx en event x = rx_write_req en event x)).
  { unfold xlink_multiplexer_rx.
    destruct (ev_type event); simpl in Htype; try discriminate;
      first [now left | right; split; [discriminate|reflexivity]]. }
  destruct Hcases as [Hc | [Hne Hrx]].
  - unfold xlink_multiplexer_rx. rewrite Hc. unfold rx_write_control_req.
    fold l c. rewrite Hget, Ealloc, Hbuf. cbn [negb].
    match goal with
    | |- context [add_packet_to_channel en opchan Rx_queue ?b ?s ?p] =>
        destruct (add_packet_trace en opchan Rx_queue b s p Hk) as (Hrc & Htr);
        destruct (add_packet_to_channel en opchan Rx_queue b s p) as [[rc o'] t1]
    end.
    cbn [fst snd] in Hrc, Htr. subst rc.
    eexists. split; [reflexivity|]. cbn [rx_trace].
    split.
    + apply in_or_app. right. apply in_or_app. right. now right; left.
    + rewrite !existsb_app, Htr. reflexivity.
  - rewrite Hrx. unfold rx_write_req. fold l c.
    rewrite Hget, Ealloc, Hbuf, Hread. cbn [negb].
    change (ev_size (set_ev_timeout _ event)) with (ev_size event).
    rewrite !Z.eqb_refl. cbn [negb orb].
    match goal with
    | |- context [add_packet_to_channel en opchan Rx_queue ?b ?s ?p] =>
        destruct (add_packet_trace en opchan Rx_queue b s p Hk) as (Hrc & Htr);
        destruct (add_packet_keeps_callbacks en opchan Rx_queue b s p)
          as (Hcb & Hpid & Horigin & _);
        destruct (add_packet_to_channel en opchan Rx_queue b s p) as [[rc o'] t1]
    end.
    cbn [fst snd] in Hrc, Htr, Hcb, Hpid, Horigin. subst rc. cbv beta iota.
    destruct (put_channel_fields x l c o') as (Hm & Hs & _).
    unfold chan_is_non_blocking_read. rewrite Hm, Hs, Hcb.
    assert (Hdel : ready_callback_deliverable o' = ready_callback_deliverable opchan).
    { unfold ready_callback_deliverable. now rewrite Hpid, Horigin. }
    pose proof (run_callback_delivery en o') as Hrun.
    rewrite Hcb, Hdel in Hrun.
    set (cond := (status_eqb _ _ && _ && _)%bool).
    assert (Hty : match ev_type event with
                  | XLINK_WRITE_CONTROL_REQ => false
                  | _ => (cond && ready_callback_deliverable opchan)%bool
                  end = (cond && ready_callback_deliverable opchan)%bool).
    { destruct (ev_type event); congruence. }
    rewrite Hty.
    destruct cond.
    + destruct (run_callback en o' (ready_callback opchan) (ready_calling_pid o'))
        as [rc t4] eqn:Ecb.
      cbn [snd] in Hrun.
      eexists. split; [reflexivity|]. cbn [rx_trace]. split.
      * apply in_or_app. left. apply in_or_app. right. apply in_or_app. right.
        now right; left.
      * rewrite !existsb_app, Htr, Hrun. reflexivity.
    + eexists. split; [reflexivity|]. cbn [rx_trace]. split.
      * apply in_or_app. right. apply in_or_app. right. now right; left.
      * rewrite !existsb_app, Htr. reflexivity.
Qed.

(** ** Size bounds of the write entry points *)

(** C8: the three write entry points test the size against three separate
    bounds (data, control data, volatile data); a size above the bound of
    its entry point makes the call return X_LINK_ERROR with an empty trace:
    no event is created, no buffer is allocated, nothing is passed to the
    multiplexer or the transport, and the slot table is unchanged. *)
Theorem oversized_write_rejected_first
    (ce : core_env) (xlink : option keembay_xlink_dev) (handle : option xlink_handle)
    (chan pmessage pmessage_cell : Z) (x : multiplexer)
    (data_size control_size volatile_size : Z) :
  XLINK_MAX_DATA_SIZE < data_size ->
  XLINK_MAX_CONTROL_DATA_SIZE < control_size ->
  XLINK_MAX_BUF_SIZE < volatile_size ->
  xlink_write_data ce xlink handle chan pmessage pmessage_cell data_size x
  = Done (Ret X_LINK_ERROR, x, [])
  /\ xlink_write_control_data ce xlink handle chan pmessage control_size x
     = Done (Ret X_LINK_ERROR, x, [])
  /\ xlink_write_volatile ce xlink handle chan pmessage volatile_size x
     = Done (Ret X_LINK_ERROR, x, []).
Proof.
  intros Hdata Hcontrol Hvolatile.
  apply Z.gtb_lt in Hdata, Hcontrol, Hvolatile.
  unfold xlink_write_data, xlink_write_control_data, xlink_write_volatile, core_error.
  rewrite Hdata, Hcontrol, Hvolatile.
  now destruct xlink, handle.
Qed.

End Properties.

(** * The properties on the sample states *)

Lemma sample_passthrough_keeps_accounting :
  passthrough_keeps_accounting (K := kmb_defs).
Proof. intros event x Hx. exact Hx. Qed.

Lemma quiet_keeps_accounting (results : list wait_result) :
  script_keeps_accounting (map quiet results).
Proof. induction results; constructor; trivial. Qed.

Ltac well_formed_calls :=
  repeat (apply Forall_cons || apply Forall_nil); cbn [call_well_formed];
  repeat match goal with
         | |- _ /\ script_keeps_accounting _ => split
         | |- 0 <= _ < _ => split; [vm_compute; discriminate|vm_compute; reflexivity]
         | |- script_keeps_accounting [] => exact (quiet_keeps_accounting [])
         | |- script_keeps_accounting [quiet ?r] => exact (quiet_keeps_accounting [r])
         end.

Lemma rx_fill_level_accounting_witness :
  Forall call_well_formed sample_calls
  /\ exists o,
      get_channel (run_calls sample_calls empty_multiplexer) 0 0x20 = Some o
      /\ map pkt_length (q_head (rx_queue o)) = [50; 7]
      /\ rx_fill_level o = 57
      /\ exists o',
          release_packet_from_channel o Rx_queue 0x3000
          = (X_LINK_SUCCESS, o', 7,
             release_effects
               {| pkt_data := 0x3000; pkt_length := 7; pkt_paddr := 0x3000 + 0x8000 |})
          /\ rx_fill_level o' = rx_fill_level o - 7
          /\ 0 <= rx_fill_level o'.
Proof.
  assert (Hcalls : Forall call_well_formed sample_calls) by well_formed_calls.
  split; [exact Hcalls|].
  eexists. split; [vm_compute; reflexivity|].
  match goal with
  | |- map _ (q_head (rx_queue ?o)) = _ /\ _ =>
      destruct (rx_fill_level_accounting (K := kmb_defs) sample_calls empty_multiplexer
                  sample_passthrough_keeps_accounting (fun _ _ => eq_refl) Hcalls
                  0 0x20 o ltac:(vm_compute; reflexivity))
        as (_ & Hexact & Hrel)
  end.
  split; [reflexivity|].
  destruct (Hexact ltac:(vm_compute; reflexivity)) as (Heq & _).
  split; [exact Heq|].
  destruct (Hrel 0x3000
              {| pkt_data := 0x3000; pkt_length := 7; pkt_paddr := 0x3000 + 0x8000 |}
              [ {| pkt_data := 0x2000; pkt_length := 50; pkt_paddr := 0x2000 + 0x8000 |} ]
              ltac:(reflexivity)) as (o' & Ho' & _ & _ & Hdec).
  exists o'. split; [exact Ho'|]. exact (Hdec ltac:(vm_compute; reflexivity)).
Defined.

(** The claim of C1 as it is written fails on two packets of 1 GiB: the
    queue holds 2^31 bytes while [rx_fill_level], an int32_t, has wrapped to
    -2^31. *)
Lemma rx_fill_level_wraps_at_two_gigabytes :
  Forall call_well_formed two_gigabytes
  /\ exists o,
      get_channel (run_calls two_gigabytes empty_multiplexer) 0 0x20 = Some o
      /\ map pkt_length (q_head (rx_queue o)) = [1073741824; 1073741824]
      /\ sum_lengths (q_head (rx_queue o)) = 2147483648
      /\ rx_fill_level o = -2147483648
      /\ rx_fill_level o <> sum_lengths (q_head (rx_queue o))
      /\ rx_fill_level o < 0.
Proof.
  split; [well_formed_calls|].
  eexists. split; [vm_compute; reflexivity|]. vm_compute. repeat split; congruence.
Qed.

Lemma admission_hysteresis_witness :
  let chan := sample_channel RXB_TXB 4096 1000 (sample_opchan 3300 1 1) 0 0x401 in
  (* the marks of a channel of 4096 bytes *)
  upper_threshold chan = 3400 /\ lower_threshold chan = 3200
  (* (a) 3300 + 200 is above the upper mark: the flag is set *)
  /\ is_enough_space_in_channel chan (sample_opchan 3300 1 0) 200
     = (false, sample_opchan 3300 1 1)
  (* (b) flag set, 3300 + 10 lies between the marks: refused *)
  /\ is_enough_space_in_channel chan (sample_opchan 3300 1 1) 10
     = (false, sample_opchan 3300 1 1)
  (* (c) flag set, 1000 + 10 is below the lower mark: admitted, flag cleared *)
  /\ tx_fill_with (sample_opchan 1000 1 1) 10 < lower_threshold chan
  /\ tx_up_limit (snd (is_enough_space_in_channel chan (sample_opchan 1000 1 1) 10)) = 0
  (* (d) two waits with the fill between the marks: never admitted *)
  /\ forall x' t script',
      wait_for_space [quiet Completed; quiet Timed_out]
        (sample_channel RXB_TXB 4096 1000 (sample_opchan 3300 1 1)) 0 0x401 10
      <> Done (X_LINK_SUCCESS, x', t, script').
Proof.
  intros chan.
  destruct (admission_hysteresis chan (sample_opchan 3300 1 0) 200 [] 
              empty_multiplexer 0 0x401) as (Hset & _).
  destruct (admission_hysteresis chan (sample_opchan 3300 1 1) 10
              [quiet Completed; quiet Timed_out]
              (sample_channel RXB_TXB 4096 1000 (sample_opchan 3300 1 1)) 0 0x401)
    as (_ & Hband & _ & Hloop).
  destruct (admission_hysteresis chan (sample_opchan 1000 1 1) 10 []
              empty_multiplexer 0 0x401) as (_ & _ & Hrelease & _).
  split; [reflexivity|]. split; [reflexivity|].
  split.
  { destruct (Hset eq_refl eq_refl) as (Hrefused & Habove).
    vm_compute in Habove. reflexivity. }
  split.
  { apply Hband; [reflexivity|]. left. vm_compute. discriminate. }
  destruct (Hrelease eq_refl eq_refl) as (Hlow & _ & Hclear).
  split; [exact Hlow|]. split; [exact Hclear|].
  apply Hloop.
  - exists (sample_opchan 3300 1 1).
    split; [reflexivity|]. split; [reflexivity|]. vm_compute. discriminate.
  - repeat constructor; intros x Hx; exact Hx.
Defined.

(** The scenario of a blocked writer.  Channel 0x401: blocking, 4096 bytes,
    timeout 1000 ms.  A write of 3000 bytes is admitted (3000 is not above
    3400).  A second write of 1000 bytes is held back (4000 is above 3400)
    and waits on [pkt_released]; the release request of the peer for the
    3000 bytes arrives during the wait, the fill of the request is then 1000,
    below 3200, and the write is admitted: the level is 1000 in the end.
    Without the release the second write times out with the flag set. *)
Example blocked_writer_is_released :
  let x0 := sample_channel RXB_TXB 4096 1000 (new_open_channel 0x401) in
  let consumed := completed_by sample_env (sample_event XLINK_READ_REQ 0x401 0 0 0) in
  let released :=
    completed_by sample_env (sample_event XLINK_RELEASE_REQ 0x401 3000 0 0) in
  let first := sample_event XLINK_WRITE_REQ 0x401 3000 0 0x7000 in
  let second := sample_event XLINK_WRITE_REQ 0x401 1000 0 0x7800 in
  (* return value, waits made, tx fill level and flag afterwards *)
  let summary (r : outcome tx_result) :=
    match r with
    | Done r =>
        Some (tx_rc r,
              flat_map (fun e => match e with
                                 | Wait_for_completion _ s bound => [(s, bound)]
                                 | _ => []
                                 end) (tx_trace r),
              option_map (fun o => (tx_fill_level o, tx_up_limit o))
                (get_channel (tx_mux r) 0 0x401))
    | _ => None
    end in
  let x1 := mux_after_tx (xlink_multiplexer_tx sample_env [consumed] first x0) x0 in
  summary (xlink_multiplexer_tx sample_env [consumed] first x0)
  = Some (Ret X_LINK_SUCCESS, [(Sig_pkt_consumed, Some 1000)], Some (3000, 0))
  /\ summary (xlink_multiplexer_tx sample_env [released; consumed] second x1)
     = Some (Ret X_LINK_SUCCESS,
             [(Sig_pkt_released, Some 1000); (Sig_pkt_consumed, Some 1000)],
             Some (1000, 0))
  /\ summary (xlink_multiplexer_tx sample_env [quiet Timed_out] second x1)
     = Some (Ret X_LINK_TIMEOUT, [(Sig_pkt_released, Some 1000)], Some (3000, 1)).
Proof. repeat split; vm_compute; reflexivity. Qed.

(** The response of the peer, handled by the receive entry point while the
    caller waits, leaves the slot as it is. *)
Lemma peer_response_leaves_slot (x : multiplexer) (l c : Z) :
  ws_others
    (completed_by sample_env (sample_event XLINK_OPEN_CHANNEL_RESP 0x401 0 0 0)) x l c
  = x l c.
Proof.
  cbn [completed_by ws_others]. unfold xlink_multiplexer_rx, rx_response.
  cbn [ev_type sample_event]. now destruct (get_channel x _ _).
Qed.

Lemma open_closed_channel_handshake_witness :
  let event := sample_event XLINK_OPEN_CHANNEL_REQ 0x401 4096 1000 1 in
  let response := sample_event XLINK_OPEN_CHANNEL_RESP 0x401 0 0 0 in
  (exists r,
      xlink_multiplexer_tx sample_env [completed_by sample_env response] event
        empty_multiplexer = Done r
      /\ tx_rc r = Ret X_LINK_SUCCESS
      /\ chan_status (tx_mux r 0 0x401) = CHAN_OPEN
      /\ chan_opchan (tx_mux r 0 0x401) = Some (new_open_channel 0x401))
  /\ (exists r,
         xlink_multiplexer_tx sample_env [quiet Timed_out] event empty_multiplexer = Done r
         /\ tx_rc r = Ret X_LINK_TIMEOUT
         /\ chan_status (tx_mux r 0 0x401) = CHAN_CLOSED
         /\ chan_opchan (tx_mux r 0 0x401) = None)
  /\ (exists r,
         xlink_multiplexer_tx sample_env [quiet Interrupted] event empty_multiplexer
         = Done r
         /\ tx_rc r = Ret X_LINK_ERROR
         /\ chan_status (tx_mux r 0 0x401) = CHAN_CLOSED
         /\ chan_opchan (tx_mux r 0 0x401) = None).
Proof.
  intros event response.
  pose proof (fun step Hstep =>
                open_closed_channel_handshake (K := kmb_defs) sample_env step [] event
                  empty_multiplexer ltac:(reflexivity) ltac:(reflexivity)
                  ltac:(reflexivity) ltac:(reflexivity) ltac:(reflexivity)
                  ltac:(reflexivity) Hstep) as Hopen.
  cbn [ev_link_id ev_chan event sample_event] in Hopen.
  split; [|split].
  - destruct (Hopen (completed_by sample_env response)
                (fun x' => peer_response_leaves_slot x' 0 0x401))
      as (r & Hr & _ & _ & _ & _ & _ & Hrc & Hst & Hoc).
    exists r. repeat split; assumption.
  - destruct (Hopen (quiet Timed_out) (fun x' => eq_refl))
      as (r & Hr & _ & _ & _ & _ & _ & Hrc & Hst & Hoc).
    exists r. repeat split; assumption.
  - destruct (Hopen (quiet Interrupted) (fun x' => eq_refl))
      as (r & Hr & _ & _ & _ & _ & _ & Hrc & Hst & Hoc).
    exists r. repeat split; assumption.
Defined.


Lemma full_pipeline_non_blocking_write_chan_full_witness :
  let x := sample_channel RXN_TXN 4096 0 (sample_opchan 0 10000 0) in
  let write := sample_event XLINK_WRITE_REQ 0x401 8 0 0x77 in
  tx_packet_level (sample_opchan 0 10000 0) = XLINK_PACKET_QUEUE_CAPACITY
  /\ chan_is_non_blocking_write (x 0 0x401) = true
  /\ exists r,
      xlink_multiplexer_tx sample_env [] write x = Done r
      /\ tx_rc r = Ret X_LINK_CHAN_FULL
      /\ tx_trace r = [].
Proof.
  intros x write. split; [reflexivity|]. split; [reflexivity|].
  destruct (full_pipeline_non_blocking_write_chan_full (K:=kmb_defs) sample_env [] write x
              (sample_opchan 0 10000 0) ltac:(reflexivity) ltac:(reflexivity)
              ltac:(reflexivity) ltac:(reflexivity) ltac:(reflexivity)
              ltac:(reflexivity) ltac:(vm_compute; split; discriminate))
    as (_ & r & Hr & Hrc & _ & Htrace & _).
  exists r. repeat split; assumption.
Defined.

Lemma open_after_peer_adopts_channel_witness :
  let peer := sample_event XLINK_OPEN_CHANNEL_REQ 0x401 2048 500 0 in
  let x := mux_after_rx (xlink_multiplexer_rx sample_env peer empty_multiplexer)
             empty_multiplexer in
  let event := sample_event XLINK_OPEN_CHANNEL_REQ 0x401 4096 1000 3 in
  chan_status (x 0 0x401) = CHAN_OPEN_PEER
  /\ exists r,
      xlink_multiplexer_tx sample_env [] event x = Done r
      /\ tx_rc r = Ret X_LINK_SUCCESS
      /\ tx_trace r = []
      /\ chan_status (tx_mux r 0 0x401) = CHAN_OPEN
      /\ chan_size (tx_mux r 0 0x401) = 4096
      /\ chan_timeout (tx_mux r 0 0x401) = 1000
      /\ chan_mode (tx_mux r 0 0x401) = RXN_TXB
      /\ chan_opchan (tx_mux r 0 0x401) = Some (new_open_channel 0x401).
Proof.
  intros peer x event. split; [reflexivity|].
  destruct (open_after_peer_adopts_channel (K:=kmb_defs) sample_env [] event x
              (new_open_channel 0x401) ltac:(reflexivity) ltac:(reflexivity)
              ltac:(reflexivity) ltac:(reflexivity) ltac:(reflexivity))
    as (r & Hr & Hrc & _ & Htrace & Hstatus & Hsize & Htimeout & Hmode & Hopchan & _).
  exists r. repeat split; assumption.
Defined.

Lemma oversized_write_rejected_first_witness :
  let x := sample_channel RXN_TXN 4096 0 (new_open_channel 0x401) in
  let handle := Some {| sw_device_id := 1; dev_type := HOST_DEVICE |} in
  XLINK_MAX_DATA_SIZE < 1073741825
  /\ XLINK_MAX_CONTROL_DATA_SIZE < 120
  /\ XLINK_MAX_BUF_SIZE < 129
  /\ xlink_write_data sample_core_env (Some sample_link_table) handle 0x401
       0x7000 0x7F00 1073741825 x = Done (Ret X_LINK_ERROR, x, [])
  /\ xlink_write_control_data sample_core_env (Some sample_link_table) handle 0x401
       0x7000 120 x = Done (Ret X_LINK_ERROR, x, [])
  /\ xlink_write_volatile sample_core_env (Some sample_link_table) handle 0x401
       0x7000 129 x = Done (Ret X_LINK_ERROR, x, []).
Proof.
  intros x handle.
  assert (Hd : XLINK_MAX_DATA_SIZE < 1073741825) by (vm_compute; reflexivity).
  assert (Hc : XLINK_MAX_CONTROL_DATA_SIZE < 120) by (vm_compute; reflexivity).
  assert (Hv : XLINK_MAX_BUF_SIZE < 129) by (vm_compute; reflexivity).
  split; [exact Hd|]. split; [exact Hc|]. split; [exact Hv|].
  exact (oversized_write_rejected_first (K:=kmb_defs) sample_core_env (Some sample_link_table)
           handle 0x401 0x7000 0x7F00 x 1073741825 120 129 Hd Hc Hv).
Defined.

(** Each entry point has its own bound: 120 bytes are too many for control
    data and pass the test for volatile data. *)
Example size_bounds_are_separate :
  let x := sample_channel RXN_TXN 4096 0 (new_open_channel 0x401) in
  let handle := Some {| sw_device_id := 1; dev_type := HOST_DEVICE |} in
  xlink_write_control_data sample_core_env (Some sample_link_table) handle 0x401
    0x7000 120 x = Done (Ret X_LINK_ERROR, x, [])
  /\ exists x' t,
      xlink_write_volatile sample_core_env (Some sample_link_table) handle 0x401
        0x7000 120 x = Done (Ret X_LINK_SUCCESS, x', t)
      /\ In (Platform_allocate 120 XLINK_NORMAL_MEMORY 0x4000 0xC000) t.
Proof.
  intros x handle. split; [reflexivity|].
  eexists. eexists. split; [vm_compute; reflexivity|]. right; left. reflexivity.
Qed.

Lemma full_queue_drops_packet_silently_witness :
  let x := sample_channel RXB_TXB 4096 0 full_rx_queue in
  let write := sample_event XLINK_WRITE_REQ 0x401 8 0 0 in
  q_count (rx_queue full_rx_queue) = q_capacity (rx_queue full_rx_queue)
  /\ add_packet_to_channel (receive_env 0x3000 8) full_rx_queue Rx_queue 0x3000 8 0xB000
     = (X_LINK_SUCCESS, full_rx_queue, [])
  /\ exists r,
      xlink_multiplexer_rx (receive_env 0x3000 8) write x = Done r
      /\ rx_rc r = Ret X_LINK_SUCCESS
      /\ get_channel (rx_mux r) 0 0x401 = Some full_rx_queue
      /\ forallb (fun e => negb (is_deallocation e)) (rx_trace r) = true.
Proof.
  intros x write. split; [reflexivity|].
  destruct (full_queue_drops_packet_silently (K:=kmb_defs) (receive_env 0x3000 8) write x
              full_rx_queue ltac:(reflexivity) ltac:(reflexivity) ltac:(reflexivity)
              ltac:(vm_compute; discriminate) ltac:(reflexivity))
    as (Hadd & r & Hr & Hsame & Hkeep & _ & _ & Hrc & _).
  split; [apply Hadd|].
  exists r. split; [exact Hr|]. split.
  - exact Hrc.
  - split; [|exact Hkeep]. unfold get_channel. now rewrite Hsame.
Defined.

(** The claim of C9 as it is written fails when the ready callback is run
    and fails.  Channel 0x401 is open with non-blocking receive, a ready
    callback is registered from user space, the rx queue is full, and the
    signal cannot be sent: the packet is dropped as the claim says (the
    channel is as it was, nothing is deallocated), and the receive entry
    point returns X_LINK_ERROR, not X_LINK_SUCCESS. *)
Lemma full_queue_reports_failed_callback :
  let o := set_ready 0xC0DE 0x77 "U" full_rx_queue in
  let x := sample_channel RXN_TXN 4096 0 o in
  let write := sample_event XLINK_WRITE_REQ 0x401 8 0 0 in
  let en := {| kzalloc_ok := true; allocate_result := (0x3000, 0xB000);
               read_result := (0, 8); send_sig_result := -1 |} in
  get_channel x 0 0x401 = Some o
  /\ q_count (rx_queue o) = q_capacity (rx_queue o)
  /\ fst (allocate_result en) <> 0
  /\ read_result en = (0, ev_size write)
  /\ add_packet_to_channel en o Rx_queue 0x3000 8 0xB000 = (X_LINK_SUCCESS, o, [])
  /\ exists r,
      xlink_multiplexer_rx en write x = Done r
      /\ get_channel (rx_mux r) 0 0x401 = Some o
      /\ forallb (fun e => negb (is_deallocation e)) (rx_trace r) = true
      /\ In (Send_sig_info 0x77 0x401 0xC0DE) (rx_trace r)
      /\ rx_rc r = Ret X_LINK_ERROR
      /\ rx_rc r <> Ret X_LINK_SUCCESS.
Proof.
  intros o x write en.
  split; [reflexivity|]. split; [reflexivity|]. split; [vm_compute; discriminate|].
  split; [reflexivity|]. split; [reflexivity|].
  eexists. split; [vm_compute; reflexivity|].
  split; [reflexivity|]. split; [reflexivity|].
  split; [cbn; auto 10|]. split; [reflexivity|]. discriminate.
Qed.

Lemma small_channel_refuses_writes_witness :
  let x := sample_channel RXN_TXN 50 0 (new_open_channel 0x401) in
  let write := sample_event XLINK_WRITE_REQ 0x401 5 0 0x77 in
  chan_size (x 0 0x401) = 50
  /\ upper_threshold (x 0 0x401) = 0
  /\ lower_threshold (x 0 0x401) = 0
  /\ exists r,
      xlink_multiplexer_tx sample_env [] write x = Done r
      /\ tx_rc r = Ret X_LINK_CHAN_FULL
      /\ tx_trace r = [].
Proof.
  intros x write. split; [reflexivity|].
  destruct (small_channel_refuses_writes (K:=kmb_defs) sample_env [] write x (new_open_channel 0x401)
              ltac:(reflexivity) ltac:(reflexivity) ltac:(reflexivity)
              ltac:(reflexivity) ltac:(reflexivity) ltac:(reflexivity)
              ltac:(vm_compute; split; [discriminate|reflexivity])
              ltac:(left; reflexivity)
              ltac:(vm_compute; discriminate) ltac:(reflexivity) ltac:(reflexivity))
    as (_ & _ & Hup & Hlow & _ & r & Hr & Hrc & _ & Htrace).
  split; [exact Hup|]. split; [exact Hlow|].
  exists r. repeat split; assumption.
Defined.

(** The claim of C10 as it is written fails once the tx fill level is not
    zero: after a release request of 5 bytes that answers no write, the level
    is -5, and a non-blocking write of 5 bytes on the channel of 50 bytes is
    admitted and queued instead of failing with X_LINK_CHAN_FULL. *)
Lemma small_channel_admits_write_after_stray_release :
  let x := after_stray_release in
  let write := sample_event XLINK_WRITE_REQ 0x20 5 0 0x77 in
  chan_size (x 0 0x20) = 50
  /\ chan_status (x 0 0x20) = CHAN_OPEN
  /\ chan_is_non_blocking_write (x 0 0x20) = true
  /\ upper_threshold (x 0 0x20) = 0
  /\ lower_threshold (x 0 0x20) = 0
  /\ ev_size write <> 0
  /\ exists o r,
      get_channel x 0 0x20 = Some o
      /\ tx_fill_level o = -5
      /\ fst (is_enough_space_in_channel (x 0 0x20) o (ev_size write)) = true
      /\ xlink_multiplexer_tx sample_env [] write x = Done r
      /\ tx_rc r = Ret X_LINK_SUCCESS
      /\ tx_rc r <> Ret X_LINK_CHAN_FULL
      /\ tx_event_queued r = true.
Proof.
  intros x write.
  do 5 (split; [reflexivity|]). split; [vm_compute; discriminate|].
  eexists. eexists.
  split; [vm_compute; reflexivity|]. split; [reflexivity|]. split; [reflexivity|].
  split; [vm_compute; reflexivity|]. cbn. repeat split. discriminate.
Qed.

(** C6 on the control-data path: on channel 0x401, open, non-blocking for
    receive, with a ready callback registered, a data write request that
    arrives at the receive entry point completes [pkt_available] and calls
    the callback; a control-data write request completes [pkt_available]
    and queues its packet, but the callback is not called. *)
Theorem control_write_skips_ready_callback :
  let x := with_ready_callback in
  let en := receive_env 0x1000 8 in
  chan_status (x 0 0x401) = CHAN_OPEN
  /\ chan_is_non_blocking_read (x 0 0x401) = true
  /\ option_map ready_callback (get_channel x 0 0x401) = Some 0xC0DE
  /\ (exists r,
         xlink_multiplexer_rx en (sample_event XLINK_WRITE_REQ 0x401 8 0 0) x = Done r
         /\ In (Complete 0x401 Sig_pkt_available) (rx_trace r)
         /\ In (Call_function 0xC0DE 0x401) (rx_trace r))
  /\ (exists r,
         xlink_multiplexer_rx en (sample_event XLINK_WRITE_CONTROL_REQ 0x401 8 0 0) x
         = Done r
         /\ rx_rc r = Ret X_LINK_SUCCESS
         /\ In (Complete 0x401 Sig_pkt_available) (rx_trace r)
         /\ option_map (fun o => q_count (rx_queue o)) (get_channel (rx_mux r) 0 0x401)
            = Some 1
         /\ existsb is_callback_delivery (rx_trace r) = false).
Proof.
  intros x en. do 3 (split; [reflexivity|]). split.
  - eexists. split; [vm_compute; reflexivity|]. cbn. split; auto 10.
  - eexists. split; [vm_compute; reflexivity|]. cbn. repeat split; auto 10.
Qed.

(** * Properties of the rest of the driver *)

(** ** The registry of remote allocations *)

Lemma find_alloc_app_fresh (buf paddr : Z) (l : list remote_allocs) :
  (forall rmt, In rmt l -> ra_paddr rmt <> paddr) ->
  find_alloc buf paddr (l ++ [ {| ra_virt := buf; ra_paddr := paddr |} ]) = Some l.
Proof.
  induction l as [|r l IH]; intros Hfresh; simpl.
  - now rewrite !Z.eqb_refl.
  - destruct (Z.eqb_spec (ra_paddr r) paddr) as [Heq|Hne].
    + exfalso. apply (Hfresh r); [now left|exact Heq].
    + rewrite andb_false_r, IH; [reflexivity|]. intros rmt Hin. apply Hfresh. now right.
Qed.

Lemma find_app_fresh (paddr : Z) (l l' : list remote_allocs) :
  (forall rmt, In rmt l -> ra_paddr rmt <> paddr) ->
  find (fun rmt => ra_paddr rmt =? paddr) (l ++ l')
  = find (fun rmt => ra_paddr rmt =? paddr) l'.
Proof.
  induction l as [|r l IH]; intros Hfresh; simpl; [reflexivity|].
  destruct (Z.eqb_spec (ra_paddr r) paddr) as [Heq|Hne].
  - exfalso. apply (Hfresh r); [now left|exact Heq].
  - apply IH. intros rmt Hin. apply Hfresh. now right.
Qed.

Lemma find_app_other (paddr other : Z) (l : list remote_allocs) (buf : Z) :
  other <> paddr ->
  find (fun rmt => ra_paddr rmt =? other) (l ++ [ {| ra_virt := buf; ra_paddr := paddr |} ])
  = find (fun rmt => ra_paddr rmt =? other) l.
Proof.
  intros Hne. induction l as [|r l IH]; simpl.
  - destruct (Z.eqb_spec paddr other); [congruence|reflexivity].
  - destruct (ra_paddr r =? other); [reflexivity|exact IH].
Qed.

(** X1: a buffer registered at a bus address that no entry of the registry
    has is found again at that address, the lookups at the other addresses
    are as before, and unregistering it gives the registry back as it
    was. *)
Theorem registered_buffer_round_trip (en : env) (rmt_queue : list remote_allocs)
    (buf paddr : Z) :
  kzalloc_ok en = true ->
  (forall rmt, In rmt rmt_queue -> ra_paddr rmt <> paddr) ->
  exists q',
    register_allocated_buffer en rmt_queue buf paddr = (X_LINK_SUCCESS, q')
    /\ find_allocated_buffer q' paddr = buf
    /\ (forall other, other <> paddr ->
        find_allocated_buffer q' other = find_allocated_buffer rmt_queue other)
    /\ unregister_allocated_buffer q' buf paddr = (X_LINK_SUCCESS, rmt_queue).
Proof.
  intros Hok Hfresh. unfold register_allocated_buffer. rewrite Hok.
  eexists. split; [reflexivity|]. split; [|split].
  - unfold find_allocated_buffer. rewrite find_app_fresh by exact Hfresh.
    simpl. now rewrite Z.eqb_refl.
  - intros other Hne. unfold find_allocated_buffer. now rewrite find_app_other.
  - unfold unregister_allocated_buffer. now rewrite find_alloc_app_fresh.
Qed.

Lemma find_alloc_none (buf paddr : Z) (l : list remote_allocs) :
  (forall rmt, In rmt l -> ~ (ra_virt rmt = buf /\ ra_paddr rmt = paddr)) ->
  find_alloc buf paddr l = None.
Proof.
  induction l as [|r l IH]; intros Hnone; simpl; [reflexivity|].
  destruct (Z.eqb_spec (ra_virt r) buf) as [Hv|Hv];
    destruct (Z.eqb_spec (ra_paddr r) paddr) as [Hp|Hp]; simpl;
    try (rewrite IH; [reflexivity|intros rmt Hin; apply Hnone; now right]).
  exfalso. apply (Hnone r); [now left|now split].
Qed.

Lemma find_alloc_split (buf paddr : Z) (before after : list remote_allocs)
    (rmt : remote_allocs) :
  ra_virt rmt = buf -> ra_paddr rmt = paddr ->
  (forall r, In r before -> ~ (ra_virt r = buf /\ ra_paddr r = paddr)) ->
  find_alloc buf paddr (before ++ rmt :: after) = Some (before ++ after).
Proof.
  intros Hv Hp. induction before as [|r before IH]; intros Hnone; simpl.
  - subst. now rewrite !Z.eqb_refl.
  - destruct (Z.eqb_spec (ra_virt r) buf) as [Hv'|Hv'];
      destruct (Z.eqb_spec (ra_paddr r) paddr) as [Hp'|Hp']; simpl;
      try (rewrite IH; [reflexivity|intros r' Hin; apply Hnone; now right]).
    exfalso. apply (Hnone r); [now left|now split].
Qed.

(** X2: [unregister_allocated_buffer] takes out the oldest entry that has
    both the buffer and the bus address and leaves the others in their
    order; when no entry has both it returns X_LINK_ERROR and the registry is
    unchanged.  [find_allocated_buffer] answers with the oldest entry at a
    bus address, so a second registration at an address already in the
    registry is not found there, and it answers NULL for an address that is
    not registered.  A registration whose node cannot be allocated returns
    X_LINK_ERROR and leaves the registry unchanged. *)
Theorem registry_lookup_takes_oldest_entry (en : env) (rmt_queue : list remote_allocs)
    (buf paddr : Z) :
  (forall before rmt after,
      rmt_queue = before ++ rmt :: after ->
      ra_virt rmt = buf -> ra_paddr rmt = paddr ->
      (forall r, In r before -> ~ (ra_virt r = buf /\ ra_paddr r = paddr)) ->
      unregister_allocated_buffer rmt_queue buf paddr = (X_LINK_SUCCESS, before ++ after))
  /\ ((forall r, In r rmt_queue -> ~ (ra_virt r = buf /\ ra_paddr r = paddr)) ->
      unregister_allocated_buffer rmt_queue buf paddr = (X_LINK_ERROR, rmt_queue))
  /\ (forall before rmt after,
         rmt_queue = before ++ rmt :: after ->
         ra_paddr rmt = paddr ->
         (forall r, In r before -> ra_paddr r <> paddr) ->
         find_allocated_buffer rmt_queue paddr = ra_virt rmt
         /\ find_allocated_buffer
              (snd (register_allocated_buffer en rmt_queue buf paddr)) paddr
            = ra_virt rmt)
  /\ ((forall r, In r rmt_queue -> ra_paddr r <> paddr) ->
      find_allocated_buffer rmt_queue paddr = 0)
  /\ (kzalloc_ok en = false ->
      register_allocated_buffer en rmt_queue buf paddr = (X_LINK_ERROR, rmt_queue)).
Proof.
  repeat split.
  - intros before rmt after -> Hv Hp Hnone. unfold unregister_allocated_buffer.
    now rewrite (find_alloc_split buf paddr before after rmt Hv Hp Hnone).
  - intros Hnone. unfold unregister_allocated_buffer. now rewrite find_alloc_none.
  - subst rmt_queue. unfold find_allocated_buffer.
    rewrite find_app_fresh by assumption. simpl.
    destruct (Z.eqb_spec (ra_paddr rmt) paddr); [reflexivity|contradiction].
  - subst rmt_queue. unfold find_allocated_buffer, register_allocated_buffer.
    destruct (kzalloc_ok en); cbn [snd]; rewrite <- ?app_assoc;
      rewrite find_app_fresh by assumption; simpl;
      destruct (Z.eqb_spec (ra_paddr rmt) paddr); try reflexivity; contradiction.
  - intros Hfresh. unfold find_allocated_buffer.
    rewrite <- (app_nil_r rmt_queue), find_app_fresh by exact Hfresh. reflexivity.
  - intros Hfail. unfold register_allocated_buffer. now rewrite Hfail.
Qed.

(** Comparisons of integers are settled by what the context knows. *)
Ltac settle_comparisons :=
  repeat match goal with
         | |- context [?a <=? ?b] =>
             first [ replace (a <=? b) with true by (symmetry; apply Z.leb_le; lia)
                   | replace (a <=? b) with false by (symmetry; apply Z.leb_gt; lia) ]
         | |- context [?a <? ?b] =>
             first [ replace (a <? b) with true by (symmetry; apply Z.ltb_lt; lia)
                   | replace (a <? b) with false by (symmetry; apply Z.ltb_ge; lia) ]
         | |- context [?a =? ?b] =>
             first [ replace (a =? b) with true by (symmetry; apply Z.eqb_eq; lia)
                   | replace (a =? b) with false by (symmetry; apply Z.eqb_neq; lia) ]
         end.

Section MoreProperties.

Context {K : xlink_defs} {L : xlink_link_defs}.

(** ** The channel table *)

Lemma channel_intervals (chan : Z) :
  chan < 0 \/ 0 <= chan <= 1 \/ 2 <= chan <= 9 \/ 10 <= chan <= 0x3FD
  \/ 0x3FE <= chan <= 0x3FF \/ 0x400 <= chan <= 0xFFE \/ chan = 0xFFF \/ 0xFFF < chan.
Proof. lia. Qed.

(** X3: with more than 0xFFF channels, the table gives a type to the
    channels 0 .. 0xFFF and to no other; the channels relayed to the local
    transport are 0 .. 0x3FF, those that are not are 0x400 .. 0xFFF; and the
    interface towards the remote host is PCIe except for the channels
    2 .. 9 (USB) and 0x3FE, 0x3FF and 0xFFF (Ethernet). *)
Theorem channel_table_lookup (chan : Z) :
  0xFFF < NMB_CHANNELS ->
  (get_channel_type chan <> None <-> 0 <= chan <= 0xFFF)
  /\ (is_passthru_channel chan = Some true <-> 0 <= chan <= 0x3FF)
  /\ (is_passthru_channel chan = Some false <-> 0x400 <= chan <= 0xFFF)
  /\ (forall t, get_channel_type chan = Some t ->
      remote_to_local t
      = if (2 <=? chan) && (chan <=? 9) then USB_CDC_INTERFACE
        else if ((0x3FE <=? chan) && (chan <=? 0x3FF)) || (chan =? 0xFFF)
             then ETH_INTERFACE
             else PCIE_INTERFACE).
Proof.
  intros Hn. unfold is_passthru_channel, get_channel_type, default_channel_table.
  cbn [walk_channel_table table_entry start_range stop_range entry_type].
  rewrite !Z.geb_leb, (Z.ltb_irrefl NMB_CHANNELS).
  destruct (channel_intervals chan) as [H|[H|[H|[H|[H|[H|[H|H]]]]]]];
    settle_comparisons; cbn [andb orb local_to_ip remote_to_local interface_eqb];
    (split; [first [split; [lia|discriminate] | split; [congruence|lia]]|]);
    (split; [first [split; [lia|reflexivity] | split; [discriminate|lia]]|]);
    (split; [first [split; [lia|reflexivity] | split; [discriminate|lia]]|]);
    intros t Ht; try discriminate Ht; now inversion Ht.
Qed.

(** ** The life cycle of a link *)

Lemma close_channel_effects (x : multiplexer) (l c : Z) (o : open_channel) :
  chan_opchan (x l c) = Some o ->
  multiplexer_close_channel x l c
  = (X_LINK_SUCCESS, upd x l c (set_opchan None (x l c)), close_effects o).
Proof. intros Hget. now rewrite (close_channel_trace x l c o Hget). Qed.

Lemma channel_range_step (i : Z) (rounds : nat) :
  channel_range i (S rounds) = i :: channel_range (i + 1) rounds.
Proof.
  unfold channel_range. cbn [seq map]. rewrite Z.add_0_r. f_equal.
  rewrite <- seq_shift, map_map. apply map_ext. intros k. lia.
Qed.

Lemma in_channel_range (i c : Z) (rounds : nat) :
  In c (channel_range i rounds) <-> i <= c < i + Z.of_nat rounds.
Proof.
  unfold channel_range. rewrite in_map_iff. split.
  - intros (k & <- & Hin). apply in_seq in Hin. lia.
  - intros Hc. exists (Z.to_nat (c - i)). split; [lia|]. apply in_seq. lia.
Qed.

Lemma disconnect_effects_ext (x x' : multiplexer) (l : Z) (chans : list Z) :
  (forall c, In c chans -> x' l c = x l c) ->
  disconnect_effects x' l chans = disconnect_effects x l chans.
Proof.
  intros Hsame. unfold disconnect_effects.
  induction chans as [|c chans IH]; [reflexivity|]. cbn [flat_map].
  rewrite Hsame by now left. f_equal. apply IH. intros c' Hin. apply Hsame. now right.
Qed.

Lemma set_opchan_none (ch : channel) :
  chan_opchan ch = None -> set_opchan None ch = ch.
Proof. intros <-. apply set_opchan_same. Qed.

Lemma disconnect_channels_spec (rounds : nat) (x : multiplexer) (l i : Z) :
  (forall c, i <= c < i + Z.of_nat rounds ->
     fst (disconnect_channels rounds x l i) l c = set_opchan None (x l c))
  /\ (forall l' c, l' <> l \/ c < i \/ i + Z.of_nat rounds <= c ->
        fst (disconnect_channels rounds x l i) l' c = x l' c)
  /\ snd (disconnect_channels rounds x l i)
     = disconnect_effects x l (channel_range i rounds).
Proof.
  revert x i. induction rounds as [|rounds IH]; intros x i.
  - cbn. repeat split; trivial. intros c Hc. lia.
  - rewrite channel_range_step. cbn [disconnect_channels disconnect_effects flat_map].
    set (x1 := upd x l i (set_opchan None (x l i))).
    assert (Hx1 : forall l' c, (l', c) <> (l, i) -> x1 l' c = x l' c)
      by (intros l' c Hne; now apply upd_other).
    assert (Hi : x1 l i = set_opchan None (x l i)) by apply upd_same.
    destruct (chan_opchan (x l i)) as [o|] eqn:Hget.
    + rewrite (close_channel_effects x l i o Hget). fold x1.
      destruct (IH x1 (i + 1)) as (Hin & Hout & Htrace).
      destruct (disconnect_channels rounds x1 l (i + 1)) as [x2 t2].
      cbn [fst snd] in *. repeat split.
      * intros c Hc. destruct (Z.eq_dec c i) as [->|Hne].
        -- rewrite Hout by lia. exact Hi.
        -- rewrite Hin by lia. rewrite Hx1; [reflexivity|congruence].
      * intros l' c Hc. rewrite Hout by lia. apply Hx1. intros Heq.
        inversion Heq; subst. lia.
      * rewrite Htrace. f_equal. apply disconnect_effects_ext.
        intros c Hc. apply in_channel_range in Hc. apply Hx1. intros Heq.
        inversion Heq. lia.
    + destruct (IH x (i + 1)) as (Hin & Hout & Htrace).
      destruct (disconnect_channels rounds x l (i + 1)) as [x2 t2].
      cbn [fst snd app] in *. repeat split.
      * intros c Hc. destruct (Z.eq_dec c i) as [->|Hne].
        -- rewrite Hout by lia. symmetry. now apply set_opchan_none.
        -- apply Hin. lia.
      * intros l' c Hc. apply Hout. lia.
      * exact Htrace.
Qed.

(** X4: [xlink_multiplexer_disconnect] frees the open-channel object of
    every channel 0 .. NMB_CHANNELS - 1 of the link and touches nothing
    else: the slots of the link keep their mode, status, size and timeout
    (a channel that was CHAN_OPEN stays CHAN_OPEN), the other links are as
    they were, and the calls are, in ascending order of the channels that
    had an object, the release of every packet of its rx and tx queues and
    the [kfree] of the object. *)
Theorem disconnect_frees_the_objects_of_the_link (x : multiplexer) (l : Z) :
  exists x',
    xlink_multiplexer_disconnect (Some x) l
    = (X_LINK_SUCCESS, Some x',
       disconnect_effects x l (channel_range 0 (Z.to_nat NMB_CHANNELS)))
    /\ (forall c, 0 <= c < NMB_CHANNELS ->
          x' l c = set_opchan None (x l c) /\ get_channel x' l c = None
          /\ chan_status (x' l c) = chan_status (x l c))
    /\ (forall l' c, l' <> l \/ c < 0 \/ NMB_CHANNELS <= c -> x' l' c = x l' c).
Proof.
  unfold xlink_multiplexer_disconnect.
  destruct (disconnect_channels_spec (Z.to_nat NMB_CHANNELS) x l 0)
    as (Hin & Hout & Htrace).
  destruct (disconnect_channels _ x l 0) as [x' t]. cbn [fst snd] in *.
  exists x'. rewrite Htrace. split; [reflexivity|]. split.
  - intros c Hc. unfold get_channel. rewrite Hin by lia. now destruct (x l c).
  - intros l' c Hc. apply Hout. lia.
Qed.

Lemma open_channel_ready (en : env) (x : multiplexer) (l c : Z) :
  object_ready en x l c = true ->
  exists x',
    multiplexer_open_channel en x l c
    = (X_LINK_SUCCESS, x',
       match chan_opchan (x l c) with
       | Some _ => []
       | None => [Kzalloc_opchan true]
       end)
    /\ x' l c = set_opchan (Some (object_or_new x l c)) (x l c)
    /\ (forall l' c', (l', c') <> (l, c) -> x' l' c' = x l' c').
Proof.
  unfold multiplexer_open_channel, object_ready, object_or_new, put_channel.
  destruct (chan_opchan (x l c)) as [o|] eqn:Hget; intros Hready.
  - exists x. repeat split. rewrite <- Hget. symmetry. apply set_opchan_same.
  - rewrite Hready. eexists. split; [reflexivity|]. split.
    + apply upd_same.
    + intros l' c' Hne. now apply upd_other.
Qed.

Lemma open_channel_not_ready (en : env) (x : multiplexer) (l c : Z) :
  object_ready en x l c = false ->
  multiplexer_open_channel en x l c = (X_LINK_ERROR, x, [Kzalloc_opchan false])
  /\ chan_opchan (x l c) = None.
Proof.
  unfold multiplexer_open_channel, object_ready.
  destruct (chan_opchan (x l c)); [discriminate|]. now intros ->.
Qed.

(** X5: when each of the two control channels of the link has its object
    or can be given one, [xlink_multiplexer_connect] returns X_LINK_SUCCESS
    and leaves both slots CHAN_OPEN with the size, timeout and mode of a
    control channel and with the object they had, or a new one; it
    allocates nothing for a slot that had its object, and it changes no
    other slot. *)
Theorem connect_opens_the_control_channels (en_ip en_vpu : env) (x : multiplexer)
    (l : Z) :
  IP_CONTROL_CHANNEL <> VPU_CONTROL_CHANNEL ->
  object_ready en_ip x l IP_CONTROL_CHANNEL = true ->
  object_ready en_vpu x l VPU_CONTROL_CHANNEL = true ->
  exists x',
    xlink_multiplexer_connect en_ip en_vpu (Some x) l
    = (X_LINK_SUCCESS, Some x',
       (match chan_opchan (x l IP_CONTROL_CHANNEL) with
        | Some _ => []
        | None => [Kzalloc_opchan true]
        end)
       ++ (match chan_opchan (x l VPU_CONTROL_CHANNEL) with
           | Some _ => []
           | None => [Kzalloc_opchan true]
           end))
    /\ (forall c, c = IP_CONTROL_CHANNEL \/ c = VPU_CONTROL_CHANNEL ->
          x' l c = set_control_channel (set_opchan (Some (object_or_new x l c)) (x l c))
          /\ get_channel x' l c = Some (object_or_new x l c)
          /\ chan_status (x' l c) = CHAN_OPEN
          /\ chan_mode (x' l c) = CONTROL_CHANNEL_OPMODE
          /\ chan_size (x' l c) = CONTROL_CHANNEL_DATASIZE
          /\ chan_timeout (x' l c) = CONTROL_CHANNEL_TIMEOUT_MS)
    /\ (forall l' c, l' <> l \/ (c <> IP_CONTROL_CHANNEL /\ c <> VPU_CONTROL_CHANNEL) ->
          x' l' c = x l' c).
Proof.
  intros Hne Hip Hvpu. unfold xlink_multiplexer_connect.
  destruct (open_channel_ready en_ip x l _ Hip) as (x1 & -> & Hx1 & Hx1').
  set (x2 := upd x1 l IP_CONTROL_CHANNEL (set_control_channel (x1 l IP_CONTROL_CHANNEL))).
  assert (Hx2 : forall l' c, (l', c) <> (l, IP_CONTROL_CHANNEL) -> x2 l' c = x l' c).
  { intros l' c Hc. unfold x2. rewrite upd_other by exact Hc. now apply Hx1'. }
  assert (Hvpu2 : object_ready en_vpu x2 l VPU_CONTROL_CHANNEL = true).
  { unfold object_ready. rewrite Hx2 by congruence. exact Hvpu. }
  destruct (open_channel_ready en_vpu x2 l _ Hvpu2) as (x3 & -> & Hx3 & Hx3').
  eexists. split.
  { rewrite Hx2 by congruence. reflexivity. }
  assert (Hpost : forall c, c = IP_CONTROL_CHANNEL \/ c = VPU_CONTROL_CHANNEL ->
            upd x3 l VPU_CONTROL_CHANNEL (set_control_channel (x3 l VPU_CONTROL_CHANNEL)) l c
            = set_control_channel (set_opchan (Some (object_or_new x l c)) (x l c))).
  { intros c [->| ->].
    - rewrite upd_other by congruence. rewrite Hx3' by congruence.
      unfold x2. rewrite upd_same, Hx1. reflexivity.
    - rewrite upd_same, Hx3. unfold object_or_new. rewrite !Hx2 by congruence.
      reflexivity. }
  split.
  - intros c Hc. unfold get_channel. rewrite (Hpost c Hc). now repeat split.
  - intros l' c Hc.
    rewrite upd_other by (intros Heq; inversion Heq; subst; destruct Hc as [?|[? ?]]; congruence).
    rewrite Hx3' by (intros Heq; inversion Heq; subst; destruct Hc as [?|[? ?]]; congruence).
    apply Hx2. intros Heq; inversion Heq; subst; destruct Hc as [?|[? ?]]; congruence.
Qed.

(** X6: when a control channel of the link has no object and cannot be
    given one, [xlink_multiplexer_connect] returns X_LINK_ERROR after
    [xlink_multiplexer_disconnect] has run on the link: none of the channels
    0 .. NMB_CHANNELS - 1 of the link has an object any more, whether it was
    in use before the call or not, and the other links are as they were. *)
Theorem failed_connect_frees_the_link (en_ip en_vpu : env) (x : multiplexer) (l : Z) :
  IP_CONTROL_CHANNEL <> VPU_CONTROL_CHANNEL ->
  object_ready en_ip x l IP_CONTROL_CHANNEL
  && object_ready en_vpu x l VPU_CONTROL_CHANNEL = false ->
  exists x' t,
    xlink_multiplexer_connect en_ip en_vpu (Some x) l = (X_LINK_ERROR, Some x', t)
    /\ In (Kzalloc_opchan false) t
    /\ (forall c, 0 <= c < NMB_CHANNELS -> get_channel x' l c = None)
    /\ (forall l' c, l' <> l -> x' l' c = x l' c).
Proof.
  intros Hne Hready. unfold xlink_multiplexer_connect, xlink_multiplexer_disconnect.
  destruct (object_ready en_ip x l IP_CONTROL_CHANNEL) eqn:Hip.
  - cbn [andb] in Hready.
    destruct (open_channel_ready en_ip x l _ Hip) as (x1 & -> & Hx1 & Hx1').
    set (x2 := upd x1 l IP_CONTROL_CHANNEL
                 (set_control_channel (x1 l IP_CONTROL_CHANNEL))).
    assert (Hx2 : forall l' c, (l', c) <> (l, IP_CONTROL_CHANNEL) -> x2 l' c = x l' c).
    { intros l' c Hc. unfold x2. rewrite upd_other by exact Hc. now apply Hx1'. }
    assert (Hvpu2 : object_ready en_vpu x2 l VPU_CONTROL_CHANNEL = false).
    { unfold object_ready. rewrite Hx2 by congruence. exact Hready. }
    destruct (open_channel_not_ready en_vpu x2 l _ Hvpu2) as (-> & _).
    destruct (disconnect_channels_spec (Z.to_nat NMB_CHANNELS) x2 l 0)
      as (Hin & Hout & _).
    destruct (disconnect_channels _ x2 l 0) as [x' t]. cbn [fst snd] in *.
    exists x'. eexists. split; [reflexivity|]. split; [|split].
    + apply in_or_app. left. apply in_or_app. right. now left.
    + intros c Hc. unfold get_channel. rewrite Hin by lia. reflexivity.
    + intros l' c Hl. rewrite Hout by now left. apply Hx2. congruence.
  - destruct (open_channel_not_ready en_ip x l _ Hip) as (-> & _).
    destruct (disconnect_channels_spec (Z.to_nat NMB_CHANNELS) x l 0)
      as (Hin & Hout & _).
    destruct (disconnect_channels _ x l 0) as [x' t]. cbn [fst snd] in *.
    exists x'. eexists. split; [reflexivity|]. split; [|split].
    + apply in_or_app. left. now left.
    + intros c Hc. unfold get_channel. rewrite Hin by lia. reflexivity.
    + intros l' c Hl. apply Hout. now left.
Qed.

Lemma typed_channel_nonneg (chan : Z) :
  get_channel_type chan <> None -> 0 <= chan.
Proof.
  unfold get_channel_type, default_channel_table.
  cbn [walk_channel_table table_entry start_range stop_range entry_type].
  rewrite (Z.ltb_irrefl NMB_CHANNELS).
  repeat match goal with
         | |- context [if ?a <? NMB_CHANNELS then _ else _] =>
             destruct (a <? NMB_CHANNELS); [|congruence]
         | |- context [(chan >=? ?a) && _] =>
             destruct (Z.geb_spec chan a); [intros; lia|cbn [andb]]
         end.
  congruence.
Qed.

Lemma valid_channel_in_range (event : xlink_event) :
  tx_channel_valid event = true -> 0 <= ev_chan event < NMB_CHANNELS.
Proof.
  unfold tx_channel_valid, is_channel_for_device. intros Hvalid.
  apply andb_prop in Hvalid as [Hvalid _].
  apply andb_prop in Hvalid as [Hrange Hdev].
  apply negb_true_iff in Hrange. split.
  - apply typed_channel_nonneg. now destruct (get_channel_type (ev_chan event)).
  - destruct (Z.geb_spec (ev_chan event) NMB_CHANNELS); [discriminate|lia].
Qed.

(** X7: a channel that is CHAN_OPEN when [xlink_multiplexer_disconnect]
    runs on its link is left without its object and still CHAN_OPEN, and
    from then on no request of the transmit entry point gets it out of that
    state: an open request returns X_LINK_ALREADY_OPEN, a close request
    X_LINK_ERROR, a write, read, release or callback request
    X_LINK_COMMUNICATION_FAIL, and each of them leaves the slot table as it
    is and calls nothing. *)
Theorem channel_open_at_disconnect_is_stuck (en : env) (script : list wait_step)
    (event : xlink_event) (x : multiplexer) :
  tx_channel_valid event = true ->
  tx_by_passthrough event = false ->
  chan_status (x (ev_link_id event) (ev_chan event)) = CHAN_OPEN ->
  exists x' t,
    xlink_multiplexer_disconnect (Some x) (ev_link_id event)
    = (X_LINK_SUCCESS, Some x', t)
    /\ get_channel x' (ev_link_id event) (ev_chan event) = None
    /\ chan_status (x' (ev_link_id event) (ev_chan event)) = CHAN_OPEN
    /\ xlink_multiplexer_tx en script event x'
       = tx_done (result_without_object (ev_type event)) false event x' [].
Proof.
  intros Hvalid Hpass Hopen. unfold xlink_multiplexer_disconnect.
  pose proof (valid_channel_in_range event Hvalid) as Hrange.
  destruct (disconnect_channels_spec (Z.to_nat NMB_CHANNELS) x (ev_link_id event) 0)
    as (Hin & _ & _).
  destruct (disconnect_channels _ x (ev_link_id event) 0) as [x' t]. cbn [fst] in Hin.
  specialize (Hin (ev_chan event) ltac:(lia)).
  assert (Hget : get_channel x' (ev_link_id event) (ev_chan event) = None)
    by (unfold get_channel; now rewrite Hin).
  assert (Hstatus : chan_status (x' (ev_link_id event) (ev_chan event)) = CHAN_OPEN)
    by (rewrite Hin; exact Hopen).
  exists x', t. split; [reflexivity|]. split; [exact Hget|]. split; [exact Hstatus|].
  rewrite (tx_dispatch en script event x' Hvalid Hpass). unfold tx_switch.
  destruct (ev_type event); cbn [result_without_object]; try reflexivity;
    unfold tx_write_req, tx_read_req, tx_read_to_buffer_req, tx_release_req,
      tx_open_channel_req, tx_close_channel_req, tx_data_ready_callback_req,
      tx_data_consumed_callback_req, multiplexer_close_channel;
    rewrite ?Hget, ?Hstatus; try reflexivity.
  unfold get_channel in Hget. now rewrite Hget.
Qed.


(** ** The relay to the local transport *)

Lemma relay_slot_table (rv : relay_env) (event : xlink_event) (x : multiplexer) :
  let l := ev_link_id event in
  let c := ev_chan event in
  let x' := relay_mux (Relay.xlink_passthrough rv event x) in
  x' = x
  \/ (exists slot',
        x' = upd x l c slot'
        /\ chan_opchan slot' = chan_opchan (x l c)
        /\ chan_status slot' = chan_status (x l c)
        /\ (ev_type event = XLINK_OPEN_CHANNEL_REQ
            \/ ev_type event = XLINK_CLOSE_CHANNEL_REQ)).
Proof.
  unfold relay_mux, Relay.xlink_passthrough. cbv zeta.
  destruct (negb CONFIG_XLINK_LOCAL_HOST); [now left|].
  destruct (_ >=? _); [now left|].
  destruct (ev_type event);
    repeat match goal with
           | |- context [if ?b then _ else _] => destruct b
           | |- context [let '(_, _) := ?p in _] => destruct p
           end;
    cbn [fst snd];
    first [ now left
          | right; eexists; split; [reflexivity|]; split; [reflexivity|];
            split; [reflexivity|]; auto ].
Qed.

(** X9: [xlink_passthrough] never touches an open-channel object or the
    status of a slot: whatever the request and the answers of the
    transport, every slot keeps its object and its status, only the slot of
    the event can change, and it changes for open and close requests only;
    hence the relay keeps the accounting of the rx queues, which is what
    the invariant of the fill level asks of it. *)
Theorem relay_keeps_objects_and_status (rv : relay_env) (event : xlink_event)
    (x : multiplexer) :
  let x' := relay_mux (Relay.xlink_passthrough rv event x) in
  (forall l c, get_channel x' l c = get_channel x l c
               /\ chan_status (x' l c) = chan_status (x l c))
  /\ (forall l c, (l, c) <> (ev_link_id event, ev_chan event) -> x' l c = x l c)
  /\ (ev_type event <> XLINK_OPEN_CHANNEL_REQ ->
      ev_type event <> XLINK_CLOSE_CHANNEL_REQ -> forall l c, x' l c = x l c)
  /\ (accounted x -> accounted x')
  /\ @passthrough_keeps_accounting (with_relay rv).
Proof.
  assert (Hslots : forall ev y l c,
             get_channel (relay_mux (Relay.xlink_passthrough rv ev y)) l c
             = get_channel y l c
             /\ chan_status (relay_mux (Relay.xlink_passthrough rv ev y) l c)
                = chan_status (y l c)).
  { intros ev y l c.
    destruct (relay_slot_table rv ev y) as [->|(slot' & -> & Ho & Hs & _)];
      [now split|].
    unfold get_channel, upd.
    destruct ((l =? ev_link_id ev) && (c =? ev_chan ev))%bool eqn:Heq; [|now split].
    apply andb_prop in Heq as [Hl Hc].
    apply Z.eqb_eq in Hl. apply Z.eqb_eq in Hc. subst. now split. }
  assert (Hacc : forall ev y, accounted y ->
             accounted (relay_mux (Relay.xlink_passthrough rv ev y))).
  { intros ev y Hy l c o Hget. apply (Hy l c). now rewrite <- (proj1 (Hslots ev y l c)). }
  cbv zeta. split; [apply Hslots|]. split; [|split; [|split]].
  - intros l c Hne.
    destruct (relay_slot_table rv event x) as [->|(slot' & -> & _)]; [reflexivity|].
    now apply upd_other.
  - intros Hopen Hclose l c.
    destruct (relay_slot_table rv event x) as [->|(slot' & _ & _ & _ & [H|H])];
      [reflexivity|contradiction|contradiction].
  - apply Hacc.
  - intros ev y Hy. specialize (Hacc ev y Hy). unfold relay_mux in Hacc.
    cbn [xlink_passthrough with_relay].
    destruct (Relay.xlink_passthrough rv ev y) as [[[rc ev'] y'] t]. exact Hacc.
Qed.

Ltac relay_cases :=
  repeat match goal with
         | H : ?a = _ |- context [?a] => rewrite H
         | |- context [if ?b then _ else _] => destruct b eqn:?
         | |- context [let '(_, _) := ?p in _] => destruct p eqn:?
         end.

(** X10: the IPC status of a relayed channel.  An open request on a slot
    whose IPC status is CHAN_CLOSED stores the size, timeout and mode it
    asks for and calls the transport; the IPC status becomes CHAN_OPEN if
    the transport accepts, and stays CHAN_CLOSED with X_LINK_ERROR if it
    refuses (the stored parameters stay).  On any other IPC status the open
    request returns X_LINK_ALREADY_OPEN without a call.  A close request
    calls the transport only when the IPC status is CHAN_OPEN and sets it
    to CHAN_CLOSED if the transport accepts; otherwise it returns
    X_LINK_ERROR and changes nothing.  An accepted open followed by an
    accepted close leaves the slot with the parameters of the open request
    and ready to be opened again. *)
Theorem relay_open_close (rv : relay_env) (event : xlink_event) (x : multiplexer) :
  CONFIG_XLINK_LOCAL_HOST = true ->
  ev_chan event < XLINK_IPC_MAX_CHANNELS ->
  let l := ev_link_id event in
  let c := ev_chan event in
  let dev := ev_sw_device_id event in
  let open := set_ev_type XLINK_OPEN_CHANNEL_REQ event in
  let close := set_ev_type XLINK_CLOSE_CHANNEL_REQ event in
  (chan_ipc_status (x l c) <> CHAN_CLOSED ->
   Relay.xlink_passthrough rv open x = (Ret X_LINK_ALREADY_OPEN, open, x, []))
  /\ (chan_ipc_status (x l c) = CHAN_CLOSED ->
      Relay.xlink_passthrough rv open x
      = if open_channel_result rv =? 0
        then (Ret X_LINK_SUCCESS, open,
              upd x l c (set_ipc_status CHAN_OPEN (requested_slot event (x l c))),
              [Relay_open_channel dev c])
        else (Ret X_LINK_ERROR, open, upd x l c (requested_slot event (x l c)),
              [Relay_open_channel dev c]))
  /\ (chan_ipc_status (x l c) <> CHAN_OPEN ->
      Relay.xlink_passthrough rv close x = (Ret X_LINK_ERROR, close, x, []))
  /\ (chan_ipc_status (x l c) = CHAN_OPEN ->
      Relay.xlink_passthrough rv close x
      = if close_channel_result rv =? 0
        then (Ret X_LINK_SUCCESS, close,
              upd x l c (set_ipc_status CHAN_CLOSED (x l c)),
              [Relay_close_channel dev c])
        else (Ret X_LINK_ERROR, close, x, [Relay_close_channel dev c]))
  /\ (chan_ipc_status (x l c) = CHAN_CLOSED ->
      open_channel_result rv = 0 -> close_channel_result rv = 0 ->
      let x1 := relay_mux (Relay.xlink_passthrough rv open x) in
      let x2 := relay_mux (Relay.xlink_passthrough rv close x1) in
      chan_ipc_status (x1 l c) = CHAN_OPEN
      /\ x2 l c = requested_slot event (x l c)
      /\ chan_ipc_status (x2 l c) = CHAN_CLOSED).
Proof.
  intros Hcfg Hchan l c dev open close.
  assert (Hrange : (c >=? XLINK_IPC_MAX_CHANNELS) = false)
    by (subst c; destruct (Z.geb_spec (ev_chan event) XLINK_IPC_MAX_CHANNELS);
        [lia|reflexivity]).
  assert (Hopen : forall y, chan_ipc_status (y l c) = CHAN_CLOSED ->
            Relay.xlink_passthrough rv open y
            = if open_channel_result rv =? 0
              then (Ret X_LINK_SUCCESS, open,
                    upd y l c (set_ipc_status CHAN_OPEN (requested_slot event (y l c))),
                    [Relay_open_channel dev c])
              else (Ret X_LINK_ERROR, open, upd y l c (requested_slot event (y l c)),
                    [Relay_open_channel dev c])).
  { intros y Hst. unfold Relay.xlink_passthrough. rewrite Hcfg. cbn [negb].
    cbn [open ev_chan ev_link_id ev_type set_ev_type]. fold l c. rewrite Hrange, Hst.
    cbn [status_eqb]. now destruct (open_channel_result rv =? 0). }
  assert (Hclose : forall y, chan_ipc_status (y l c) = CHAN_OPEN ->
            Relay.xlink_passthrough rv close y
            = if close_channel_result rv =? 0
              then (Ret X_LINK_SUCCESS, close,
                    upd y l c (set_ipc_status CHAN_CLOSED (y l c)),
                    [Relay_close_channel dev c])
              else (Ret X_LINK_ERROR, close, y, [Relay_close_channel dev c])).
  { intros y Hst. unfold Relay.xlink_passthrough. rewrite Hcfg. cbn [negb].
    cbn [close ev_chan ev_link_id ev_type set_ev_type]. fold l c. rewrite Hrange, Hst.
    cbn [status_eqb]. now destruct (close_channel_result rv =? 0). }
  split; [|split; [exact (Hopen x)|split; [|split; [exact (Hclose x)|]]]].
  - intros Hst. unfold Relay.xlink_passthrough. rewrite Hcfg. cbn [negb].
    cbn [open ev_chan ev_link_id ev_type set_ev_type]. fold l c. rewrite Hrange.
    destruct (chan_ipc_status (x l c)); [contradiction|reflexivity|reflexivity].
  - intros Hst. unfold Relay.xlink_passthrough. rewrite Hcfg. cbn [negb].
    cbn [close ev_chan ev_link_id ev_type set_ev_type]. fold l c. rewrite Hrange.
    destruct (chan_ipc_status (x l c)); [reflexivity|contradiction|reflexivity].
  - intros Hst Hok Hok' x1 x2. subst x2 x1.
    rewrite (Hopen x Hst), Hok. cbn [Z.eqb relay_mux fst snd].
    rewrite Hclose by (now rewrite upd_same).
    rewrite Hok'. cbn [Z.eqb relay_mux fst snd]. rewrite !upd_same.
    repeat split. unfold requested_slot. cbn. rewrite <- Hst. now destruct (x l c).
Qed.

(** X11: when [xlink_passthrough] calls nothing.  In the build without
    the local host, and for a channel at or above XLINK_IPC_MAX_CHANNELS,
    every request returns success and nothing happens.  Otherwise a write
    or read request on a channel whose IPC status is not CHAN_OPEN returns
    X_LINK_ERROR, the registration of a callback returns X_LINK_ERROR, and
    a release request, a ping or a response returns success; none of them
    calls the transport or changes the event or a slot. *)
Theorem relay_without_transport_call (rv : relay_env) (event : xlink_event)
    (x : multiplexer) :
  (CONFIG_XLINK_LOCAL_HOST = false \/ XLINK_IPC_MAX_CHANNELS <= ev_chan event ->
   Relay.xlink_passthrough rv event x = (Ret X_LINK_SUCCESS, event, x, []))
  /\ (CONFIG_XLINK_LOCAL_HOST = true -> ev_chan event < XLINK_IPC_MAX_CHANNELS ->
      (is_relayed_io (ev_type event) = true ->
       chan_ipc_status (x (ev_link_id event) (ev_chan event)) <> CHAN_OPEN ->
       Relay.xlink_passthrough rv event x = (Ret X_LINK_ERROR, event, x, []))
      /\ (ev_type event = XLINK_DATA_READY_CALLBACK_REQ
          \/ ev_type event = XLINK_DATA_CONSUMED_CALLBACK_REQ ->
          Relay.xlink_passthrough rv event x = (Ret X_LINK_ERROR, event, x, []))
      /\ (is_relay_no_op (ev_type event) = true ->
          Relay.xlink_passthrough rv event x = (Ret X_LINK_SUCCESS, event, x, []))).
Proof.
  split.
  - intros [Hcfg|Hchan]; unfold Relay.xlink_passthrough.
    + now rewrite Hcfg.
    + destruct (negb CONFIG_XLINK_LOCAL_HOST); [reflexivity|].
      destruct (Z.geb_spec (ev_chan event) XLINK_IPC_MAX_CHANNELS); [reflexivity|lia].
  - intros Hcfg Hchan. unfold Relay.xlink_passthrough. rewrite Hcfg. cbn [negb].
    destruct (Z.geb_spec (ev_chan event) XLINK_IPC_MAX_CHANNELS); [lia|].
    split; [|split].
    + intros Hio Hst.
      destruct (chan_ipc_status (x (ev_link_id event) (ev_chan event)));
        [|contradiction|]; cbn [status_eqb];
        destruct (ev_type event); try discriminate Hio; reflexivity.
    + intros [-> | ->]; reflexivity.
    + intros Hnop. destruct (ev_type event); try discriminate Hnop; reflexivity.
Qed.

(** X12: a read that is relayed on a channel whose IPC status is CHAN_OPEN
    makes one call of the transport read, and the timeout of that call is
    U32_MAX when the mode of the channel has receive blocking set and the
    timeout of the channel when it has not; the timeout of the event plays
    no part.  For XLINK_READ_REQ the address the transport delivers is
    translated and stored for the caller together with the length, also
    when the transport returns an error, and the return value is that of
    the transport as it is. *)
Theorem relay_read_timeout (rv : relay_env) (event : xlink_event) (x : multiplexer) :
  CONFIG_XLINK_LOCAL_HOST = true ->
  ev_chan event < XLINK_IPC_MAX_CHANNELS ->
  chan_ipc_status (x (ev_link_id event) (ev_chan event)) = CHAN_OPEN ->
  is_read_request (ev_type event) = true
  \/ ev_type event = XLINK_PASSTHRU_READ_REQ
  \/ ev_type event = XLINK_PASSTHRU_READ_TO_BUFFER_REQ
     /\ fst (relay_allocate_result rv) <> 0 ->
  let slot := x (ev_link_id event) (ev_chan event) in
  let timeout := if rx_blocking (chan_mode slot) then U32_MAX else chan_timeout slot in
  let r := Relay.xlink_passthrough rv event x in
  (exists buffer is_volatile,
      filter is_relay_read (snd r)
      = [Relay_read (ev_sw_device_id event) (ev_chan event) buffer timeout is_volatile])
  /\ (ev_type event = XLINK_READ_REQ \/ ev_type event = XLINK_PASSTHRU_READ_REQ ->
      let '(rc, vpuaddr, length) := relay_read_result rv in
      r = (of_int rc, set_ev_result (dma_to_phys rv vpuaddr) length event, x,
           [Relay_read (ev_sw_device_id event) (ev_chan event) (Local_vpuaddr 0)
              timeout false])).
Proof.
  intros Hcfg Hchan Hst Htype slot timeout r. subst r timeout slot.
  unfold Relay.xlink_passthrough, Relay.read_timeout, rx_blocking.
  rewrite Hcfg, Hst. cbn [negb status_eqb].
  destruct (Z.geb_spec (ev_chan event) XLINK_IPC_MAX_CHANNELS); [lia|].
  destruct (relay_read_result rv) as [[rc vpuaddr] length].
  destruct (relay_allocate_result rv) as [buffer paddr].
  split.
  - destruct Htype as [Hr|[Hr|[Hr Hbuf]]];
      destruct (ev_type event); try discriminate Hr;
      try (cbn [fst] in Hbuf; destruct (Z.eqb_spec buffer 0); [contradiction|]);
      cbn [negb]; repeat match goal with
                         | |- context [if ?b || ?b' then (_, _, _, _) else _] =>
                             destruct (b || b')
                         end;
      cbn; eauto.
  - intros [Hr|Hr]; rewrite Hr; reflexivity.
Qed.

(** X13: a read into a buffer that is relayed returns X_LINK_SUCCESS
    exactly when the transport returns 0 and delivers at most
    XLINK_MAX_BUF_SIZE bytes, and X_LINK_ERROR otherwise.  For
    XLINK_PASSTHRU_READ_TO_BUFFER_REQ the relay allocates a buffer of
    XLINK_MAX_BUF_SIZE bytes for the call: if the allocation fails the
    transport is not called; if the read fails the buffer is given back
    (with the size of the event, not the size it was allocated with); if the
    read succeeds the buffer stays with the event. *)
Theorem relay_read_to_buffer (rv : relay_env) (event : xlink_event) (x : multiplexer) :
  CONFIG_XLINK_LOCAL_HOST = true ->
  ev_chan event < XLINK_IPC_MAX_CHANNELS ->
  chan_ipc_status (x (ev_link_id event) (ev_chan event)) = CHAN_OPEN ->
  let slot := x (ev_link_id event) (ev_chan event) in
  let dev := ev_sw_device_id event in
  let chan := ev_chan event in
  let '(rc, _, length) := relay_read_result rv in
  let '(buffer, paddr) := relay_allocate_result rv in
  let delivered := (rc =? 0) && (length <=? XLINK_MAX_BUF_SIZE) in
  let result := if delivered then X_LINK_SUCCESS else X_LINK_ERROR in
  (ev_type event = XLINK_READ_TO_BUFFER_REQ ->
   Relay.xlink_passthrough rv event x
   = (Ret result, set_ev_result (ev_pdata event) length event, x,
      [Relay_read dev chan (Event_data (ev_data event)) (Relay.read_timeout slot) true]))
  /\ (ev_type event = XLINK_PASSTHRU_READ_TO_BUFFER_REQ ->
      Relay.xlink_passthrough rv event x
      = if buffer =? 0
        then (Ret X_LINK_ERROR, set_ev_buffer 0 (ev_paddr event) event, x,
              [Relay_allocate XLINK_MAX_BUF_SIZE 0 paddr])
        else (Ret result,
              set_ev_result (ev_pdata event) length
                (set_ev_buffer buffer (ev_paddr event) event), x,
              [Relay_allocate XLINK_MAX_BUF_SIZE buffer paddr;
               Relay_read dev chan (Event_data buffer) (Relay.read_timeout slot) true]
              ++ (if delivered then []
                  else [Relay_deallocate buffer paddr (ev_size event)]))).
Proof.
  intros Hcfg Hchan Hst slot dev chan.
  destruct (relay_read_result rv) as [[rc vpuaddr] length] eqn:Hread.
  destruct (relay_allocate_result rv) as [buffer paddr] eqn:Halloc.
  cbv zeta. unfold Relay.xlink_passthrough. rewrite Hcfg, Hst, Hread, Halloc.
  cbn [negb status_eqb].
  destruct (Z.geb_spec (ev_chan event) XLINK_IPC_MAX_CHANNELS); [lia|].
  assert (Hgt : (length >? XLINK_MAX_BUF_SIZE) = negb (length <=? XLINK_MAX_BUF_SIZE)).
  { rewrite Z.gtb_ltb, Z.leb_antisym. now rewrite negb_involutive. }
  rewrite Hgt.
  split; intros ->.
  - destruct (rc =? 0), (length <=? XLINK_MAX_BUF_SIZE); reflexivity.
  - destruct (Z.eqb_spec buffer 0) as [->|Hne]; [reflexivity|]. cbn [negb].
    destruct (rc =? 0), (length <=? XLINK_MAX_BUF_SIZE); reflexivity.
Qed.

(** ** The kernel API *)

(** X14: an entry point of the API that is called for a device that is
    not connected (no link holds its id), with a NULL handle, or before the
    driver is probed returns X_LINK_ERROR; it creates no event, allocates
    nothing, does not reach the multiplexer, leaves the slot table as it is
    and, for the reading entry points, leaves the cells of the caller as
    they are. *)
Theorem api_needs_a_connected_device (ce : core_env) (ue : user_env)
    (xlink : option keembay_xlink_dev) (handle : option xlink_handle)
    (chan a b c : Z) (x : multiplexer) :
  no_link xlink handle ->
  xlink_open_channel ce xlink handle chan a b c x = core_error x []
  /\ xlink_close_channel ce xlink handle chan x = core_error x []
  /\ xlink_write_data ce xlink handle chan a b c x = core_error x []
  /\ xlink_write_data_user ce ue xlink handle chan a b x = core_error x []
  /\ xlink_write_control_data ce xlink handle chan a b x = core_error x []
  /\ xlink_write_volatile ce xlink handle chan a b x = core_error x []
  /\ xlink_read_data ce xlink handle chan a b x = Done (Ret X_LINK_ERROR, (a, b), x, [])
  /\ xlink_read_data_to_buffer ce xlink handle chan a b x
     = Done (Ret X_LINK_ERROR, (0, b), x, [])
  /\ xlink_release_data ce xlink handle chan a x = core_error x []
  /\ xlink_data_available_event ce xlink handle chan a b x = core_error x []
  /\ xlink_data_consumed_event ce xlink handle chan a b x = core_error x [].
Proof.
  intros Hno.
  unfold xlink_open_channel, xlink_close_channel, xlink_write_data,
    xlink_write_data_user, xlink_write_control_data, xlink_write_volatile,
    xlink_read_data, xlink_read_data_to_buffer, xlink_release_data,
    xlink_data_available_event, xlink_data_consumed_event, with_event,
    with_read_event.
  destruct xlink as [dev|], handle as [h|]; cbn [no_link] in Hno;
    try (repeat split; reflexivity).
  rewrite Hno. repeat split; try reflexivity;
    match goal with |- context [if ?b then _ else _] => now destruct b end.
Qed.

(** *** The origin of a callback *)

Lemma user_bit_is_free (chan : Z) :
  0 <= chan < 2 ^ 15 -> Z.land chan (Z.shiftl 1 15) = 0.
Proof.
  intros Hc. change (Z.shiftl 1 15) with (2 ^ 15).
  rewrite <- (Z.mod_small chan (2 ^ 15)) by lia.
  rewrite <- Z.land_ones by lia. rewrite <- Z.land_assoc. apply Z.land_0_r.
Qed.

Lemma user_bit_macros (chan : Z) :
  0 <= chan < 2 ^ 15 ->
  CHANNEL_USER_BIT_IS_SET (CHANNEL_SET_USER_BIT chan) = true
  /\ CHANNEL_CLEAR_USER_BIT (CHANNEL_SET_USER_BIT chan) = chan
  /\ CHANNEL_USER_BIT_IS_SET chan = false
  /\ CHANNEL_CLEAR_USER_BIT chan = chan.
Proof.
  intros Hc. pose proof (user_bit_is_free chan Hc) as Hfree.
  unfold CHANNEL_USER_BIT_IS_SET, CHANNEL_CLEAR_USER_BIT, CHANNEL_SET_USER_BIT, u16.
  assert (Hclear : Z.land chan (Z.lnot (Z.shiftl 1 15)) = chan).
  { rewrite <- Z.ldiff_land. rewrite <- (Z.lor_ldiff_and chan (Z.shiftl 1 15)) at 2.
    now rewrite Hfree, Z.lor_0_r. }
  assert (Hset : Z.lor chan (Z.shiftl 1 15) = chan + 2 ^ 15).
  { rewrite <- Z.lxor_lor by exact Hfree. symmetry. now apply Z.add_nocarry_lxor. }
  assert (Hmod : Z.lor chan (Z.shiftl 1 15) mod 2 ^ 16 = Z.lor chan (Z.shiftl 1 15))
    by (rewrite Hset; apply Z.mod_small; lia).
  rewrite Hmod, Hfree, Hclear.
  rewrite !Z.land_lor_distr_l, Hfree, Hclear, Z.land_diag, Z.land_lnot_diag.
  rewrite Z.lor_0_l, Z.lor_0_r. repeat split; try (apply Z.mod_small; lia).
Qed.

Lemma usable_channel_event (link : xlink_link) (type : xlink_event_type)
    (chan size timeout : Z) (fill : xlink_event -> xlink_event) :
  usable_channel link chan = true ->
  let event := xlink_create_event (link_id link) type
                 (sw_device_id (link_handle link)) (dev_type (link_handle link))
                 chan size timeout in
  ev_chan (fill event) = chan ->
  ev_sw_device_id (fill event) = ev_sw_device_id event ->
  ev_dev_type (fill event) = ev_dev_type event ->
  ev_interface (fill event) = ev_interface event ->
  tx_channel_valid (fill event) = true /\ tx_by_passthrough (fill event) = false.
Proof.
  intros Husable event Hchan Hdev Htype Hitf.
  unfold usable_channel, tx_channel_valid, tx_by_passthrough in *.
  rewrite Hchan, Hdev, Htype, Hitf.
  cbn in Husable |- *. apply andb_prop in Husable as [Hvalid Hrelay].
  split; [exact Hvalid|now apply negb_true_iff].
Qed.

Lemma registration_submitted (ce : core_env) (dev : keembay_xlink_dev)
    (h : xlink_handle) (link : xlink_link) (type : xlink_event_type)
    (chan callback pid : Z) (origin : ascii) (x : multiplexer) :
  get_link_by_sw_device_id dev (sw_device_id h) = Some link ->
  event_created ce = true ->
  usable_channel link chan = true ->
  type = XLINK_DATA_READY_CALLBACK_REQ \/ type = XLINK_DATA_CONSUMED_CALLBACK_REQ ->
  exists t,
    with_event ce (Some dev) (Some h) type chan 0 0 x
      (set_ev_callback callback pid origin)
    = match get_channel x (link_id link) chan with
      | None => Done (Ret X_LINK_COMMUNICATION_FAIL, x, t)
      | Some o =>
          Done (Ret X_LINK_SUCCESS,
                put_channel x (link_id link) chan
                  (match type with
                   | XLINK_DATA_READY_CALLBACK_REQ => set_ready callback pid origin o
                   | _ => set_consumed callback pid origin o
                   end), t)
      end
    /\ existsb is_callback_delivery t = false.
Proof.
  intros Hlink Hcreated Husable Htype. unfold with_event, core_submit.
  rewrite Hlink, Hcreated. cbn [negb].
  match goal with
  | |- context [xlink_multiplexer_tx _ _ (set_ev_callback _ _ _ ?e) x] =>
      destruct (usable_channel_event link type chan 0 0
                  (set_ev_callback callback pid origin) Husable)
        as (Hvalid & Hrelay); try reflexivity
  end.
  rewrite (tx_dispatch _ _ _ _ Hvalid Hrelay). unfold tx_switch.
  destruct Htype as [-> | ->]; cbn [set_ev_callback ev_type];
    unfold tx_data_ready_callback_req, tx_data_consumed_callback_req;
    cbn [set_ev_callback ev_link_id ev_chan xlink_create_event ev_data
           ev_calling_pid ev_callback_origin];
    destruct (get_channel x (link_id link) chan); eexists; split; reflexivity.
Qed.

Lemma run_callback_effects (en : env) (o : open_channel) (callback pid : Z) :
  snd (run_callback en o callback pid) = delivery (callback_origin o) pid (id o) callback.
Proof.
  unfold run_callback, delivery.
  destruct (Ascii.eqb _ _); [destruct (pid =? 0)|]; reflexivity.
Qed.

Lemma delivery_is_delivery (origin : ascii) (pid chan callback : Z) :
  forallb is_callback_delivery (delivery origin pid chan callback) = true.
Proof. unfold delivery. destruct (Ascii.eqb _ _); [destruct (pid =? 0)|]; reflexivity. Qed.

(** A data write that is received on a channel that is CHAN_OPEN and
    non-blocking for receive: the calls up to the completion of
    [pkt_available] deliver no callback, and they are followed by the calls
    of [run_callback] when a ready callback is registered. *)
Lemma received_write_delivery (en : env) (event : xlink_event) (x : multiplexer)
    (o : open_channel) :
  ev_type event = XLINK_WRITE_REQ \/ ev_type event = XLINK_WRITE_VOLATILE_REQ ->
  get_channel x (ev_link_id event) (ev_chan event) = Some o ->
  received en event ->
  chan_status (x (ev_link_id event) (ev_chan event)) = CHAN_OPEN ->
  chan_is_non_blocking_read (x (ev_link_id event) (ev_chan event)) = true ->
  exists t,
    existsb is_callback_delivery t = false
    /\ rx_calls en event x
       = t ++ (if ready_callback o =? 0 then []
               else delivery (callback_origin o) (ready_calling_pid o) (id o)
                      (ready_callback o)).
Proof.
  intros Htype Hget (Halloc & Hread & Hk) Hopen Hmode. unfold rx_calls.
  assert (Hrx : xlink_multiplexer_rx en event x = rx_write_req en event x)
    by (unfold xlink_multiplexer_rx; destruct Htype as [-> | ->]; reflexivity).
  rewrite Hrx. unfold rx_write_req. rewrite Hget.
  destruct (allocate_result en) as [buffer paddr]. cbn [fst] in Halloc.
  apply Z.eqb_neq in Halloc. rewrite Halloc, Hread. cbn [negb].
  change (ev_size (set_ev_timeout _ event)) with (ev_size event).
  rewrite !Z.eqb_refl. cbn [negb orb].
  match goal with
  | |- context [add_packet_to_channel en o Rx_queue ?b ?s ?p] =>
      destruct (add_packet_trace en o Rx_queue b s p Hk) as (Hrc & Htr);
      destruct (add_packet_keeps_callbacks en o Rx_queue b s p)
        as (Hcb & Hpid & Horigin & Hid);
      destruct (add_packet_to_channel en o Rx_queue b s p) as [[rc o'] t1]
  end.
  cbn [fst snd] in Hrc, Htr, Hcb, Hpid, Horigin, Hid. subst rc. cbv beta iota.
  destruct (put_channel_fields x (ev_link_id event) (ev_chan event) o') as (Hm & Hs & _).
  unfold chan_is_non_blocking_read in *. rewrite Hm, Hs, Hopen, Hmode, Hcb.
  cbn [status_eqb andb].
  destruct (ready_callback o =? 0); cbn [negb].
  - cbn [rx_done rx_trace]. eexists. split; [|now rewrite app_nil_r].
    rewrite !existsb_app, Htr. reflexivity.
  - pose proof (run_callback_effects en o' (ready_callback o) (ready_calling_pid o'))
      as Hrun.
    destruct (run_callback en o' _ _) as [rc t4]. cbn [snd] in Hrun.
    cbn [rx_done rx_trace]. rewrite Hrun, Horigin, Hpid, Hid.
    eexists. split; [|reflexivity]. rewrite !existsb_app, Htr. reflexivity.
Qed.

(** X15: how a ready callback registered through the API is delivered.
    [xlink_data_available_event] takes the origin of the call from bit 15
    of the channel and registers on the channel without that bit.  After a
    registration from user space a data write that is received on the
    channel (CHAN_OPEN, non-blocking for receive) ends with one signal to
    the task that registered, carrying the callback; after a registration
    from the kernel it ends with one call of the callback; and after a
    registration of the NULL callback it delivers nothing. *)
Theorem registered_ready_callback_is_delivered (ce : core_env) (en : env)
    (dev : keembay_xlink_dev) (h : xlink_handle) (link : xlink_link)
    (chan callback current : Z) (write : xlink_event) (x : multiplexer)
    (o : open_channel) :
  0 <= chan < 2 ^ 15 ->
  get_link_by_sw_device_id dev (sw_device_id h) = Some link ->
  event_created ce = true ->
  usable_channel link chan = true ->
  get_channel x (link_id link) chan = Some o ->
  chan_status (x (link_id link) chan) = CHAN_OPEN ->
  chan_is_non_blocking_read (x (link_id link) chan) = true ->
  ev_type write = XLINK_WRITE_REQ \/ ev_type write = XLINK_WRITE_VOLATILE_REQ ->
  ev_link_id write = link_id link -> ev_chan write = chan ->
  received en write ->
  callback <> 0 -> current <> 0 ->
  let from_user :=
    mux_after_core
      (xlink_data_available_event ce (Some dev) (Some h) (CHANNEL_SET_USER_BIT chan)
         callback current x) x in
  let from_kernel :=
    mux_after_core
      (xlink_data_available_event ce (Some dev) (Some h) chan callback current x) x in
  let disabled :=
    mux_after_core
      (xlink_data_available_event ce (Some dev) (Some h) chan 0 current x) x in
  get_channel from_user (link_id link) chan = Some (set_ready callback current "U" o)
  /\ get_channel from_kernel (link_id link) chan
     = Some (set_ready callback current "K" o)
  /\ get_channel disabled (link_id link) chan = Some (set_ready 0 0 "K" o)
  /\ (exists t, existsb is_callback_delivery t = false
                /\ rx_calls en write from_user
                   = t ++ [Send_sig_info current (id o) callback])
  /\ (exists t, existsb is_callback_delivery t = false
                /\ rx_calls en write from_kernel = t ++ [Call_function callback (id o)])
  /\ existsb is_callback_delivery (rx_calls en write disabled) = false.
Proof.
  intros Hchan Hlink Hcreated Husable Hget Hopen Hmode Htype Hwl Hwc Hrecv Hcb Hcur
    from_user from_kernel disabled.
  destruct (user_bit_macros chan Hchan) as (Hset & Hclear & Hunset & Hclear').
  assert (Hreg : forall bit cb origin,
             CHANNEL_USER_BIT_IS_SET bit = (Ascii.eqb origin "U"%char) ->
             (origin = "U"%char \/ origin = "K"%char) ->
             CHANNEL_CLEAR_USER_BIT bit = chan ->
             let x1 := mux_after_core
                         (xlink_data_available_event ce (Some dev) (Some h) bit cb
                            current x) x in
             get_channel x1 (link_id link) chan
             = Some (set_ready cb (registered_pid cb current) origin o)
             /\ chan_status (x1 (link_id link) chan) = CHAN_OPEN
             /\ chan_is_non_blocking_read (x1 (link_id link) chan) = true).
  { intros bit cb origin Hbit Horigin Hbitc x1. subst x1.
    unfold xlink_data_available_event. rewrite Hbit, Hbitc.
    destruct (registration_submitted ce dev h link XLINK_DATA_READY_CALLBACK_REQ chan
                cb (if cb =? 0 then 0 else current)
                (if Ascii.eqb origin "U" then "U"%char else "K"%char) x
                Hlink Hcreated Husable (or_introl eq_refl)) as (t & Hsub & _).
    rewrite Hsub, Hget. cbn [mux_after_core].
    destruct (put_channel_fields x (link_id link) chan
                (set_ready cb (if cb =? 0 then 0 else current)
                   (if Ascii.eqb origin "U" then "U"%char else "K"%char) o))
      as (Hm & Hs & _).
    unfold chan_is_non_blocking_read in *. rewrite Hm, Hs, get_put_channel.
    destruct Horigin as [-> | ->]; now repeat split. }
  destruct (Hreg (CHANNEL_SET_USER_BIT chan) callback "U"%char Hset
              (or_introl eq_refl) Hclear) as (Hu & Hus & Hum).
  destruct (Hreg chan callback "K"%char Hunset (or_intror eq_refl) Hclear')
    as (Hk & Hks & Hkm).
  destruct (Hreg chan 0 "K"%char Hunset (or_intror eq_refl) Hclear')
    as (Hd & Hds & Hdm).
  fold from_user in Hu, Hus, Hum. fold from_kernel in Hk, Hks, Hkm.
  fold disabled in Hd, Hds, Hdm.
  unfold registered_pid in Hu, Hk, Hd.
  apply Z.eqb_neq in Hcb. rewrite Hcb in Hu, Hk. cbn [Z.eqb] in Hd.
  rewrite <- Hwl, <- Hwc in *.
  split; [exact Hu|]. split; [exact Hk|]. split; [exact Hd|].
  destruct (received_write_delivery en write from_user _ Htype Hu Hrecv Hus Hum)
    as (tu & Htu & Hcu).
  destruct (received_write_delivery en write from_kernel _ Htype Hk Hrecv Hks Hkm)
    as (tk & Htk & Hck).
  destruct (received_write_delivery en write disabled _ Htype Hd Hrecv Hds Hdm)
    as (td & Htd & Hcd).
  cbn [set_ready ready_callback ready_calling_pid callback_origin id] in Hcu, Hck, Hcd.
  unfold delivery in Hcu, Hck. rewrite Hcb in Hcu, Hck.
  apply Z.eqb_neq in Hcur. cbn [Ascii.eqb] in Hcu, Hck. 
  split; [|split].
  - exists tu. split; [exact Htu|]. rewrite Hcu.
    change (Ascii.eqb "U" "U") with true. cbv iota. now rewrite Hcur.
  - exists tk. split; [exact Htk|]. rewrite Hck. reflexivity.
  - rewrite Hcd. cbn [Z.eqb]. now rewrite app_nil_r.
Qed.

Lemma api_registration (ce : core_env) (dev : keembay_xlink_dev) (h : xlink_handle)
    (link : xlink_link) (chan bit callback current : Z) (origin : ascii)
    (x : multiplexer) (o : open_channel) :
  get_link_by_sw_device_id dev (sw_device_id h) = Some link ->
  event_created ce = true ->
  usable_channel link chan = true ->
  get_channel x (link_id link) chan = Some o ->
  CHANNEL_USER_BIT_IS_SET bit = Ascii.eqb origin "U"%char ->
  origin = "U"%char \/ origin = "K"%char ->
  CHANNEL_CLEAR_USER_BIT bit = chan ->
  let pid := registered_pid callback current in
  (forall l c, (l, c) <> (link_id link, chan) ->
     mux_after_core (xlink_data_available_event ce (Some dev) (Some h) bit callback
                       current x) x l c = x l c
     /\ mux_after_core (xlink_data_consumed_event ce (Some dev) (Some h) bit callback
                          current x) x l c = x l c)
  /\ mux_after_core (xlink_data_available_event ce (Some dev) (Some h) bit callback
                       current x) x (link_id link) chan
     = set_opchan (Some (set_ready callback pid origin o)) (x (link_id link) chan)
  /\ mux_after_core (xlink_data_consumed_event ce (Some dev) (Some h) bit callback
                       current x) x (link_id link) chan
     = set_opchan (Some (set_consumed callback pid origin o)) (x (link_id link) chan).
Proof.
  intros Hlink Hcreated Husable Hget Hbit Horigin Hclear pid.
  unfold xlink_data_available_event, xlink_data_consumed_event.
  fold (CHANNEL_USER_BIT_IS_SET bit). fold (CHANNEL_CLEAR_USER_BIT bit).
  rewrite Hbit, Hclear.
  assert (Ho : (if Ascii.eqb origin "U" then "U"%char else "K"%char) = origin)
    by (destruct Horigin as [-> | ->]; reflexivity).
  rewrite Ho. fold (registered_pid callback current). fold pid.
  destruct (registration_submitted ce dev h link XLINK_DATA_READY_CALLBACK_REQ chan
              callback pid origin x Hlink Hcreated Husable (or_introl eq_refl))
    as (t & -> & _).
  destruct (registration_submitted ce dev h link XLINK_DATA_CONSUMED_CALLBACK_REQ chan
              callback pid origin x Hlink Hcreated Husable (or_intror eq_refl))
    as (t' & -> & _).
  rewrite Hget. cbn [mux_after_core]. unfold put_channel. split; [|split].
  - intros l c Hne. now rewrite !upd_other.
  - apply upd_same.
  - apply upd_same.
Qed.

(** X16: a channel has one origin for its two callbacks, and each
    registration overwrites it.  After a ready callback is registered from
    user space and then a consumed callback from the kernel, the channel
    holds both callbacks with the origin of the kernel, and a data write
    that is received on it (CHAN_OPEN, non-blocking for receive) ends with
    a call of the ready callback as a kernel function instead of a signal
    to the task that registered it. *)
Theorem callbacks_share_one_origin (ce : core_env) (en : env)
    (dev : keembay_xlink_dev) (h : xlink_handle) (link : xlink_link)
    (chan ready consumed user_task kernel_task : Z) (write : xlink_event)
    (x : multiplexer) (o : open_channel) :
  0 <= chan < 2 ^ 15 ->
  get_link_by_sw_device_id dev (sw_device_id h) = Some link ->
  event_created ce = true ->
  usable_channel link chan = true ->
  get_channel x (link_id link) chan = Some o ->
  chan_status (x (link_id link) chan) = CHAN_OPEN ->
  chan_is_non_blocking_read (x (link_id link) chan) = true ->
  ev_type write = XLINK_WRITE_REQ \/ ev_type write = XLINK_WRITE_VOLATILE_REQ ->
  ev_link_id write = link_id link -> ev_chan write = chan ->
  received en write ->
  ready <> 0 -> consumed <> 0 ->
  let x1 :=
    mux_after_core
      (xlink_data_available_event ce (Some dev) (Some h) (CHANNEL_SET_USER_BIT chan)
         ready user_task x) x in
  let x2 :=
    mux_after_core
      (xlink_data_consumed_event ce (Some dev) (Some h) chan consumed kernel_task x1)
      x1 in
  get_channel x2 (link_id link) chan
  = Some (set_consumed consumed kernel_task "K" (set_ready ready user_task "U" o))
  /\ exists t, existsb is_callback_delivery t = false
               /\ rx_calls en write x2 = t ++ [Call_function ready (id o)].
Proof.
  intros Hchan Hlink Hcreated Husable Hget Hopen Hmode Htype Hwl Hwc Hrecv Hr Hc x1 x2.
  destruct (user_bit_macros chan Hchan) as (Hset & Hclear & Hunset & Hclear').
  destruct (api_registration ce dev h link chan (CHANNEL_SET_USER_BIT chan) ready
              user_task "U"%char x o Hlink Hcreated Husable Hget Hset
              (or_introl eq_refl) Hclear) as (_ & Hx1 & _).
  fold x1 in Hx1.
  assert (Hget1 : get_channel x1 (link_id link) chan
                  = Some (set_ready ready (registered_pid ready user_task) "U" o))
    by (unfold get_channel; now rewrite Hx1).
  destruct (api_registration ce dev h link chan chan consumed kernel_task "K"%char
              x1 _ Hlink Hcreated Husable Hget1 Hunset (or_intror eq_refl) Hclear')
    as (_ & _ & Hx2).
  fold x2 in Hx2.
  unfold registered_pid in *.
  apply Z.eqb_neq in Hr. apply Z.eqb_neq in Hc. rewrite Hr in *. rewrite Hc in *.
  assert (Hget2 : get_channel x2 (link_id link) chan
                  = Some (set_consumed consumed kernel_task "K"
                            (set_ready ready user_task "U" o)))
    by (unfold get_channel; now rewrite Hx2).
  split; [exact Hget2|].
  rewrite <- Hwl, <- Hwc in *.
  assert (Hs2 : chan_status (x2 (ev_link_id write) (ev_chan write)) = CHAN_OPEN)
    by (rewrite Hx2, Hx1; exact Hopen).
  assert (Hm2 : chan_is_non_blocking_read (x2 (ev_link_id write) (ev_chan write)) = true)
    by (unfold chan_is_non_blocking_read in *; rewrite Hx2, Hx1; exact Hmode).
  destruct (received_write_delivery en write x2 _ Htype Hget2 Hrecv Hs2 Hm2)
    as (t & Ht & Hcalls).
  exists t. split; [exact Ht|]. rewrite Hcalls.
  cbn [set_consumed set_ready ready_callback ready_calling_pid callback_origin id].
  rewrite Hr. reflexivity.
Qed.

(** *** The completion of a local write *)

(** X17: a read request that arrives at the receive entry point (the
    peer has consumed a packet) for a channel that has its object hands the
    response to the dispatcher and completes [pkt_consumed] whatever the
    mode, leaves the slot table as it is, and then runs the consumed
    callback exactly when the slot is CHAN_OPEN, the mode is non-blocking
    for transmit and a consumed callback is registered; the return value is
    then that of [run_callback], and X_LINK_SUCCESS otherwise. *)
Theorem read_completion_runs_consumed_callback (en : env) (event : xlink_event)
    (x : multiplexer) (o : open_channel) :
  let l := ev_link_id event in
  let c := ev_chan event in
  is_read_request (ev_type event) = true ->
  get_channel x l c = Some o ->
  let runs := status_eqb (chan_status (x l c)) CHAN_OPEN
              && chan_is_non_blocking_write (x l c)
              && negb (consumed_callback o =? 0) in
  let response := set_ev_type XLINK_READ_TO_BUFFER_RESP
                    (set_ev_timeout (chan_timeout (x l c)) event) in
  xlink_multiplexer_rx en event x
  = Done {| rx_rc := Ret (if runs
                          then fst (run_callback en o (consumed_callback o)
                                      (consumed_calling_pid o))
                          else X_LINK_SUCCESS);
            rx_mux := x;
            rx_trace := [Dispatcher_event_add EVENT_RX response;
                         Complete c Sig_pkt_consumed]
                        ++ (if runs
                            then delivery (callback_origin o) (consumed_calling_pid o)
                                   (id o) (consumed_callback o)
                            else []) |}.
Proof.
  intros l c Htype Hget runs response.
  assert (Hrx : xlink_multiplexer_rx en event x = rx_read_req en event x)
    by (unfold xlink_multiplexer_rx; destruct (ev_type event);
        try discriminate Htype; reflexivity).
  rewrite Hrx. unfold rx_read_req. fold l c. rewrite Hget. fold runs.
  destruct runs; [|reflexivity].
  rewrite <- (run_callback_effects en o).
  destruct (run_callback en o _ _) as [rc t]. reflexivity.
Qed.

(** *** Reading and releasing *)

Lemma usable_channel_typed (link : xlink_link) (chan : Z) :
  usable_channel link chan = true -> exists p, is_passthru_channel chan = Some p.
Proof.
  unfold usable_channel, tx_channel_valid, is_channel_for_device, is_passthru_channel.
  cbn [xlink_create_event ev_chan]. intros Husable.
  apply andb_prop in Husable as [Hvalid _].
  apply andb_prop in Hvalid as [Hvalid _].
  apply andb_prop in Hvalid as [_ Hdev].
  destruct (get_channel_type chan); [eauto|discriminate].
Qed.

Lemma read_event_submitted (ce : core_env) (dev : keembay_xlink_dev) (h : xlink_handle)
    (link : xlink_link) (type : xlink_event_type) (chan pmessage size : Z)
    (x : multiplexer) (fill : xlink_event -> xlink_event) :
  get_link_by_sw_device_id dev (sw_device_id h) = Some link ->
  event_created ce = true ->
  usable_channel link chan = true ->
  let event := xlink_create_event (link_id link) type
                 (sw_device_id (link_handle link)) (dev_type (link_handle link))
                 chan size 0 in
  let filled := fill (set_ev_result pmessage size event) in
  ev_chan filled = chan -> ev_sw_device_id filled = ev_sw_device_id event ->
  ev_dev_type filled = ev_dev_type event -> ev_interface filled = ev_interface event ->
  with_read_event ce (Some dev) (Some h) type chan pmessage size x fill
  = match tx_switch (mux_env ce) (mux_script ce) filled x with
    | Done r =>
        Done (tx_rc r, (ev_pdata (tx_event r), ev_length (tx_event r)), tx_mux r,
              Create_event event :: tx_trace r ++ destroy_unless_queued r)
    | Blocked => Blocked
    | Fault => Fault
    | Not_covered => Not_covered
    end.
Proof.
  intros Hlink Hcreated Husable event filled Hc Hd Ht Hi.
  unfold with_read_event. rewrite Hlink, Hcreated. cbn [negb]. fold event filled.
  destruct (usable_channel_event link type chan size 0
              (fun e => fill (set_ev_result pmessage size e)) Husable Hc Hd Ht Hi)
    as (Hvalid & Hrelay).
  fold event filled in Hvalid, Hrelay.
  now rewrite (tx_dispatch _ _ _ _ Hvalid Hrelay).
Qed.

(** X18: reading from a channel that is CHAN_OPEN and non-blocking for
    receive.  When the rx queue holds a packet, [xlink_read_data] returns
    X_LINK_SUCCESS with the address and the length of the oldest packet in
    the cells of the caller and leaves the slot table as it is: the packet
    stays in the queue until it is released.  When the rx queue is empty it
    returns X_LINK_ERROR at once, without a wait, with the cells of the
    caller and the slot table unchanged. *)
Theorem read_data_returns_the_oldest_packet (ce : core_env)
    (dev : keembay_xlink_dev) (h : xlink_handle) (link : xlink_link)
    (chan pmessage size : Z) (x : multiplexer) (o : open_channel) :
  get_link_by_sw_device_id dev (sw_device_id h) = Some link ->
  event_created ce = true ->
  usable_channel link chan = true ->
  get_channel x (link_id link) chan = Some o ->
  chan_status (x (link_id link) chan) = CHAN_OPEN ->
  chan_is_non_blocking_read (x (link_id link) chan) = true ->
  exists t,
    xlink_read_data ce (Some dev) (Some h) chan pmessage size x
    = match q_head (rx_queue o) with
      | pkt :: _ => Done (Ret X_LINK_SUCCESS, (pkt_data pkt, pkt_length pkt), x, t)
      | [] => Done (Ret X_LINK_ERROR, (pmessage, size), x, t)
      end
    /\ forallb (fun e => match e with
                         | Wait_for_completion _ _ _ | Platform_deallocate _ _ _ _ => false
                         | _ => true
                         end) t = true.
Proof.
  intros Hlink Hcreated Husable Hget Hopen Hmode.
  destruct (usable_channel_typed link chan Husable) as (p & Hp).
  unfold xlink_read_data.
  rewrite (read_event_submitted ce dev h link XLINK_READ_REQ chan pmessage size x
             (fun e => e) Hlink Hcreated Husable) by reflexivity.
  unfold tx_switch, tx_read_req.
  cbn [set_ev_result ev_type ev_link_id ev_chan xlink_create_event].
  rewrite Hget, Hopen, Hp. cbn [status_eqb negb].
  unfold wait_for_packet.
  assert (Hnb : rx_blocking (chan_mode (x (link_id link) chan)) = false).
  { unfold chan_is_non_blocking_read, rx_blocking in *.
    now destruct (chan_mode (x (link_id link) chan)). }
  rewrite Hnb. cbn [is_success]. rewrite Hget. unfold get_packet_from_channel.
  destruct (q_head (rx_queue o)) as [|pkt rest].
  - destruct p; eexists; (split; [reflexivity|reflexivity]).
  - destruct p; eexists; (split; [reflexivity|reflexivity]).
Qed.

Lemma event_submitted (ce : core_env) (dev : keembay_xlink_dev) (h : xlink_handle)
    (link : xlink_link) (type : xlink_event_type) (chan size timeout : Z)
    (x : multiplexer) (fill : xlink_event -> xlink_event) :
  get_link_by_sw_device_id dev (sw_device_id h) = Some link ->
  event_created ce = true ->
  usable_channel link chan = true ->
  let event := xlink_create_event (link_id link) type
                 (sw_device_id (link_handle link)) (dev_type (link_handle link))
                 chan size timeout in
  ev_chan (fill event) = chan -> ev_sw_device_id (fill event) = ev_sw_device_id event ->
  ev_dev_type (fill event) = ev_dev_type event ->
  ev_interface (fill event) = ev_interface event ->
  with_event ce (Some dev) (Some h) type chan size timeout x fill
  = match tx_switch (mux_env ce) (mux_script ce) (fill event) x with
    | Done r =>
        Done (tx_rc r, tx_mux r,
              [Create_event event] ++ tx_trace r ++ destroy_unless_queued r)
    | Blocked => Blocked
    | Fault => Fault
    | Not_covered => Not_covered
    end.
Proof.
  intros Hlink Hcreated Husable event Hc Hd Ht Hi.
  unfold with_event, core_submit. rewrite Hlink, Hcreated. cbn [negb]. fold event.
  destruct (usable_channel_event link type chan size timeout fill Husable Hc Hd Ht Hi)
    as (Hvalid & Hrelay).
  fold event in Hvalid, Hrelay.
  now rewrite (tx_dispatch _ _ _ _ Hvalid Hrelay).
Qed.

(** X19: [xlink_release_data] on a channel that has its object.  With a
    NULL address it takes the oldest packet of the rx queue, with another
    address the oldest packet whose data is at that address: the packet is
    deallocated, the others stay in their order, the count and the fill
    level go down by one and by its length, and the release request that
    goes to the dispatcher carries its length.  When the queue is empty or
    holds no packet at the address the call returns X_LINK_ERROR, the slot
    table is unchanged and nothing is deallocated or sent. *)
Theorem release_data_frees_the_selected_packet (ce : core_env)
    (dev : keembay_xlink_dev) (h : xlink_handle) (link : xlink_link)
    (chan data_addr : Z) (x : multiplexer) (o : open_channel) :
  get_link_by_sw_device_id dev (sw_device_id h) = Some link ->
  event_created ce = true ->
  usable_channel link chan = true ->
  get_channel x (link_id link) chan = Some o ->
  let l := link_id link in
  let event := xlink_create_event l XLINK_RELEASE_REQ
                 (sw_device_id (link_handle link)) (dev_type (link_handle link))
                 chan 0 0 in
  let request := set_ev_buffer data_addr 0 event in
  match select_packet data_addr (q_head (rx_queue o)) with
  | Some (pkt, rest) =>
      exists o',
        xlink_release_data ce (Some dev) (Some h) chan data_addr x
        = Done (Ret X_LINK_SUCCESS, put_channel x l chan o',
                [Create_event event] ++ release_effects pkt
                ++ [Dispatcher_event_add EVENT_TX (set_ev_size (pkt_length pkt) request)])
        /\ q_head (rx_queue o') = rest
        /\ q_count (rx_queue o') = u32 (q_count (rx_queue o) - 1)
        /\ rx_fill_level o' = s32 (rx_fill_level o - pkt_length pkt)
        /\ (data_addr = 0 -> exists tl, q_head (rx_queue o) = pkt :: tl /\ rest = tl)
        /\ (data_addr <> 0 -> pkt_data pkt = data_addr)
  | None =>
      exists x',
        xlink_release_data ce (Some dev) (Some h) chan data_addr x
        = Done (Ret X_LINK_ERROR, x', [Create_event event; Destroy_event request])
        /\ forall l' c', x' l' c' = x l' c'
  end.
Proof.
  intros Hlink Hcreated Husable Hget l event request. subst l.
  unfold xlink_release_data.
  rewrite (event_submitted ce dev h link XLINK_RELEASE_REQ chan 0 0 x
             (fun e => set_ev_buffer data_addr (ev_paddr e) e) Hlink Hcreated Husable)
    by reflexivity.
  unfold tx_switch, tx_release_req.
  cbn [set_ev_buffer ev_type ev_link_id ev_chan xlink_create_event ev_paddr ev_data].
  rewrite Hget.
  destruct (select_packet data_addr (q_head (rx_queue o))) as [[pkt rest]|] eqn:Hsel.
  - destruct (release_selected o data_addr pkt rest Hsel) as (o' & Hrel & Hq & Hf & _).
    assert (Hcount : q_count (rx_queue o') = u32 (q_count (rx_queue o) - 1)).
    { unfold release_packet_from_channel in Hrel. cbn [queue_of] in Hrel.
      rewrite Hsel in Hrel. inversion Hrel. reflexivity. }
    rewrite Hrel. exists o'. split; [reflexivity|]. split; [exact Hq|].
    split; [exact Hcount|]. split; [exact Hf|]. split.
    + intros ->. unfold select_packet in Hsel. cbn [Z.eqb] in Hsel.
      destruct (q_head (rx_queue o)) as [|p tl]; [discriminate|].
      inversion Hsel; subst. eauto.
    + intros Hne. unfold select_packet in Hsel.
      apply Z.eqb_neq in Hne. rewrite Hne in Hsel.
      now destruct (find_packet_splits _ _ _ _ Hsel) as (_ & Hdata & _).
  - rewrite (release_not_found o data_addr Hsel). eexists. split; [reflexivity|].
    intros l' c'. now apply put_channel_same.
Qed.

(** ** Receiving a write *)

(** X20: a write request that arrives at the receive entry point for a
    channel that has its object and room in its rx queue, when the buffer is
    allocated and the transport delivers the bytes: the packet goes to the
    tail of the rx queue with the buffer, the size of the event and the bus
    address of the buffer; the count goes up by one and the fill level by
    the size; the response goes to the dispatcher and [pkt_available] is
    completed.  The status of the slot is not looked at for this. *)
Theorem received_write_joins_the_tail (en : env) (event : xlink_event)
    (x : multiplexer) (o : open_channel) :
  let l := ev_link_id event in
  let c := ev_chan event in
  is_write_request (ev_type event) = true ->
  get_channel x l c = Some o ->
  received en event ->
  q_count (rx_queue o) < q_capacity (rx_queue o) ->
  exists r o',
    xlink_multiplexer_rx en event x = Done r
    /\ (forall l' c', rx_mux r l' c' = put_channel x l c o' l' c')
    /\ q_head (rx_queue o')
       = q_head (rx_queue o)
         ++ [ {| pkt_data := fst (allocate_result en); pkt_length := ev_size event;
                 pkt_paddr := snd (allocate_result en) |} ]
    /\ q_count (rx_queue o') = u32 (q_count (rx_queue o) + 1)
    /\ rx_fill_level o' = s32 (rx_fill_level o + ev_size event)
    /\ tx_queue o' = tx_queue o
    /\ tx_fill_level o' = tx_fill_level o /\ tx_packet_level o' = tx_packet_level o
    /\ In (Complete c Sig_pkt_available) (rx_trace r)
    /\ (exists response,
          In (Dispatcher_event_add EVENT_RX response) (rx_trace r)
          /\ ev_data response = fst (allocate_result en)
          /\ ev_type response = match ev_type event with
                                | XLINK_WRITE_CONTROL_REQ => XLINK_WRITE_CONTROL_RESP
                                | _ => XLINK_WRITE_VOLATILE_RESP
                                end).
Proof.
  intros l c Htype Hget (Halloc & Hread & Hk) Hroom.
  destruct (allocate_result en) as [buffer paddr] eqn:Ealloc. cbn [fst snd] in *.
  apply Z.eqb_neq in Halloc. apply Z.ltb_lt in Hroom.
  set (o' := set_rx_fill_level (s32 (rx_fill_level o + ev_size event))
               (set_rx_queue
                  (set_q (u32 (q_count (rx_queue o) + 1))
                     (q_head (rx_queue o)
                      ++ [ {| pkt_data := buffer; pkt_length := ev_size event;
                              pkt_paddr := paddr |} ]) (rx_queue o)) o)).
  assert (Hadd : forall e, ev_size e = ev_size event ->
            add_packet_to_channel en o Rx_queue buffer (ev_size e) paddr
            = (X_LINK_SUCCESS, o', [Kzalloc_packet true])).
  { intros e ->. unfold add_packet_to_channel. cbn [queue_of]. now rewrite Hroom, Hk. }
  unfold xlink_multiplexer_rx.
  destruct (ev_type event) eqn:Ety; try discriminate Htype;
    unfold rx_write_req, rx_write_control_req; fold l c;
    rewrite Hget, Ealloc, Halloc, ?Hread; cbn [negb];
    change (ev_size (set_ev_timeout _ event)) with (ev_size event);
    rewrite ?Z.eqb_refl; cbn [negb orb];
    cbn [set_ev_buffer ev_data ev_size set_ev_timeout];
    rewrite (Hadd event eq_refl).
  all: cbv beta iota.
  1, 2: destruct (_ && _)%bool;
    [destruct (run_callback en o' _ _) as [rc t4]|].
  all: eexists; exists o'; (split; [reflexivity|]); cbn [rx_done rx_mux rx_trace];
    (split; [reflexivity|]); do 6 (split; [reflexivity|]).
  all: split; [rewrite ?in_app_iff; cbn [In]; tauto|].
  all: eexists; rewrite ?in_app_iff; cbn [In];
    (split; [eauto 7|split; reflexivity]).
Qed.

(** X21: a write request that arrives at the receive entry point for a
    channel that has its object and cannot be completed leaves the slot
    table as it is and returns X_LINK_ERROR, without a response to the
    dispatcher and without the completion of [pkt_available]: when the
    buffer cannot be allocated nothing else is called; when the transport
    read fails or delivers another size than the event announces, and when
    the packet record cannot be allocated, the buffer is given back. *)
Theorem failed_receive_gives_the_buffer_back (en : env) (event : xlink_event)
    (x : multiplexer) (o : open_channel) :
  let l := ev_link_id event in
  let c := ev_chan event in
  is_write_request (ev_type event) = true ->
  get_channel x l c = Some o ->
  let size := ev_size event in
  let buffer := fst (allocate_result en) in
  let paddr := snd (allocate_result en) in
  let control := match ev_type event with
                 | XLINK_WRITE_CONTROL_REQ => true
                 | _ => false
                 end in
  let allocate := Platform_allocate size XLINK_NORMAL_MEMORY buffer paddr in
  let give_back := Platform_deallocate buffer paddr size XLINK_NORMAL_MEMORY in
  let read := if control then []
              else [Platform_read (ev_interface event) (ev_sw_device_id event) buffer
                      size (chan_timeout (x l c))] in
  (buffer = 0 -> xlink_multiplexer_rx en event x = rx_done X_LINK_ERROR x [allocate])
  /\ (buffer <> 0 -> control = false -> read_result en <> (0, size) ->
      xlink_multiplexer_rx en event x
      = rx_done X_LINK_ERROR x ([allocate] ++ read ++ [give_back]))
  /\ (buffer <> 0 -> control = true \/ read_result en = (0, size) ->
      q_count (rx_queue o) < q_capacity (rx_queue o) -> kzalloc_ok en = false ->
      xlink_multiplexer_rx en event x
      = rx_done X_LINK_ERROR x
          ([allocate] ++ read ++ [Kzalloc_packet false; give_back])).
Proof.
  intros l c Htype Hget size buffer paddr control allocate give_back read.
  subst allocate give_back read buffer paddr size.
  destruct (allocate_result en) as [buffer paddr] eqn:Ealloc. cbn [fst snd].
  assert (Hdata : control = false ->
            xlink_multiplexer_rx en event x = rx_write_req en event x).
  { unfold xlink_multiplexer_rx. subst control.
    destruct (ev_type event); try discriminate Htype; try discriminate; reflexivity. }
  assert (Hcontrol : control = true ->
            xlink_multiplexer_rx en event x = rx_write_control_req en event x).
  { unfold xlink_multiplexer_rx. subst control.
    destruct (ev_type event); try discriminate Htype; try discriminate; reflexivity. }
  assert (Hfull : forall e, q_count (rx_queue o) < q_capacity (rx_queue o) ->
            kzalloc_ok en = false ->
            add_packet_to_channel en o Rx_queue buffer (ev_size e) paddr
            = (X_LINK_ERROR, o, [Kzalloc_packet false])).
  { intros e Hroom Hk. unfold add_packet_to_channel. cbn [queue_of].
    apply Z.ltb_lt in Hroom. now rewrite Hroom, Hk. }
  split; [|split].
  - intros ->. destruct control; [rewrite Hcontrol|rewrite Hdata]; trivial;
      unfold rx_write_control_req, rx_write_req; fold l c; rewrite Hget, Ealloc;
      reflexivity.
  - intros Hbuf Hc Hread. rewrite Hc. rewrite (Hdata Hc).
    unfold rx_write_req. fold l c. rewrite Hget, Ealloc.
    apply Z.eqb_neq in Hbuf. rewrite Hbuf. cbn [negb].
    destruct (read_result en) as [read_rc read_size].
    change (ev_size (set_ev_timeout _ event)) with (ev_size event).
    destruct (Z.eqb_spec read_rc 0) as [->|Hrc]; [|reflexivity].
    destruct (Z.eqb_spec (ev_size event) read_size) as [<-|Hsize]; [|reflexivity].
    now contradiction Hread.
  - intros Hbuf Hok Hroom Hk. apply Z.eqb_neq in Hbuf.
    destruct control eqn:Hc.
    + rewrite (Hcontrol eq_refl). unfold rx_write_control_req. fold l c.
      rewrite Hget, Ealloc, Hbuf. cbn [negb].
      cbn [set_ev_buffer ev_data ev_size set_ev_timeout].
      now rewrite (Hfull event Hroom Hk).
    + destruct Hok as [Hok|Hread]; [discriminate|].
      rewrite (Hdata eq_refl). unfold rx_write_req. fold l c.
      rewrite Hget, Ealloc, Hbuf, Hread. cbn [negb].
      change (ev_size (set_ev_timeout _ event)) with (ev_size event).
      rewrite !Z.eqb_refl. cbn [negb orb].
      cbn [set_ev_buffer ev_data ev_size set_ev_timeout].
      now rewrite (Hfull event Hroom Hk).
Qed.

(** ** Sending a write *)

Lemma admitted_write (en : env) (script : list wait_step) (event : xlink_event)
    (x : multiplexer) (o : open_channel) :
  let l := ev_link_id event in
  let c := ev_chan event in
  tx_channel_valid event = true ->
  tx_by_passthrough event = false ->
  is_write_request (ev_type event) = true ->
  get_channel x l c = Some o ->
  chan_status (x l c) = CHAN_OPEN ->
  is_passthru_channel c = Some false ->
  fst (is_enough_space_in_channel (x l c) o (ev_size event)) = true ->
  let o1 := snd (is_enough_space_in_channel (x l c) o (ev_size event)) in
  let x2 := put_channel (put_channel x l c o1) l c
              (after_admission (x l c) o (ev_size event)) in
  let sent := set_ev_timeout (chan_timeout (x l c)) event in
  let add := Dispatcher_event_add EVENT_TX sent in
  let w := Wait_for_completion c Sig_pkt_consumed (wait_bound (chan_timeout (x l c))) in
  xlink_multiplexer_tx en script event x
  = if tx_blocking (chan_mode (x l c)) then
      match script with
      | [] => Blocked
      | step :: _ =>
          if match ws_result step with Timed_out => chan_timeout (x l c) =? 0
                                     | _ => false end
          then Blocked
          else tx_done (wait_outcome (ws_result step)) true sent (ws_others step x2)
                 [add; w]
      end
    else tx_done X_LINK_SUCCESS true sent x2 [add].
Proof.
  intros l c Hvalid Hrelay Htype Hget Hopen Hpass Henough o1 x2 sent add w.
  rewrite (tx_dispatch en script event x Hvalid Hrelay). unfold tx_switch.
  assert (Hw : forall r, match ev_type event with
                         | XLINK_WRITE_REQ | XLINK_WRITE_VOLATILE_REQ
                         | XLINK_WRITE_CONTROL_REQ => tx_write_req script event x
                         | _ => r
                         end = tx_write_req script event x)
    by (intros r; destruct (ev_type event); try discriminate Htype; reflexivity).
  match goal with |- ?lhs = _ => transitivity (tx_write_req script event x) end.
  { destruct (ev_type event); try discriminate Htype; reflexivity. }
  clear Hw. unfold tx_write_req. fold l c. rewrite Hget, Hopen. cbn [status_eqb negb].
  change (ev_size (set_ev_timeout _ event)) with (ev_size event).
  assert (Hwait : wait_for_space script x l c (ev_size event)
                  = Done (X_LINK_SUCCESS, put_channel x l c o1, [], script)).
  { destruct script; cbn [wait_for_space]; rewrite Hget; subst o1;
      destruct (is_enough_space_in_channel (x l c) o (ev_size event)) as [b o'];
      cbn [fst snd] in *; subst b; reflexivity. }
  rewrite Hwait, get_put_channel, Hpass.
  destruct (put_channel_fields (put_channel x l c o1) l c
              (set_tx_levels (s32 (tx_fill_level o1 + ev_size event))
                 (s32 (tx_packet_level o1 + 1)) o1)) as (Hm & _ & _ & Ht).
  destruct (put_channel_fields x l c o1) as (Hm' & _ & _ & Ht').
  rewrite Hm, Hm', Ht, Ht'. fold sent. fold add.
  unfold after_admission in x2. fold o1 in x2. fold x2.
  destruct (tx_blocking (chan_mode (x l c))); [|reflexivity].
  destruct script as [|step rest]; [reflexivity|].
  destruct (ws_result step); reflexivity.
Qed.


(** X23: the tx levels of a channel count what is in flight.  A write
    that is admitted on a channel that is non-blocking for transmit raises
    the fill level by its size and the packet level by one and returns
    X_LINK_SUCCESS with the event queued; the release request by which the
    peer answers it, carrying the same size, lowers both again and
    completes [pkt_released]: the two levels are then what they were before
    the write, and the queues and the rx fill level are untouched. *)
Theorem write_and_peer_release_restore_tx_levels (en en' : env)
    (script : list wait_step) (event release : xlink_event) (x : multiplexer)
    (o : open_channel) :
  let l := ev_link_id event in
  let c := ev_chan event in
  tx_channel_valid event = true ->
  tx_by_passthrough event = false ->
  is_write_request (ev_type event) = true ->
  get_channel x l c = Some o ->
  chan_status (x l c) = CHAN_OPEN ->
  is_passthru_channel c = Some false ->
  fst (is_enough_space_in_channel (x l c) o (ev_size event)) = true ->
  tx_blocking (chan_mode (x l c)) = false ->
  - 2 ^ 31 <= tx_fill_level o < 2 ^ 31 ->
  - 2 ^ 31 <= tx_packet_level o < 2 ^ 31 ->
  ev_type release = XLINK_RELEASE_REQ ->
  ev_link_id release = l -> ev_chan release = c -> ev_size release = ev_size event ->
  exists r r' o',
    xlink_multiplexer_tx en script event x = Done r
    /\ tx_rc r = Ret X_LINK_SUCCESS /\ tx_event_queued r = true
    /\ get_channel (tx_mux r) l c = Some (after_admission (x l c) o (ev_size event))
    /\ xlink_multiplexer_rx en' release (tx_mux r) = Done r'
    /\ rx_rc r' = Ret X_LINK_SUCCESS
    /\ In (Complete c Sig_pkt_released) (rx_trace r')
    /\ get_channel (rx_mux r') l c = Some o'
    /\ tx_fill_level o' = tx_fill_level o
    /\ tx_packet_level o' = tx_packet_level o
    /\ rx_queue o' = rx_queue o /\ tx_queue o' = tx_queue o
    /\ rx_fill_level o' = rx_fill_level o.
Proof.
  intros l c Hvalid Hrelay Htype Hget Hopen Hpass Henough Hnb Hfill Hpkts
    Hrel Hrl Hrc Hrs.
  rewrite (admitted_write en script event x o
             Hvalid Hrelay Htype Hget Hopen Hpass Henough).
  fold l c. rewrite Hnb.
  eexists. eexists. eexists. split; [reflexivity|].
  cbn [tx_done tx_rc tx_event_queued tx_mux].
  split; [reflexivity|]. split; [reflexivity|].
  split; [apply get_put_channel|].
  unfold xlink_multiplexer_rx. rewrite Hrel. unfold rx_release_req.
  rewrite Hrl, Hrc, get_put_channel.
  split; [reflexivity|]. cbn [rx_done rx_rc rx_trace rx_mux].
  split; [reflexivity|]. split; [cbn; tauto|].
  split; [apply get_put_channel|].
  cbn [set_ev_timeout ev_size]. rewrite Hrs.
  assert (Hlevels : tx_fill_level (after_admission (x l c) o (ev_size event))
                    = s32 (tx_fill_level o + ev_size event)
                    /\ tx_packet_level (after_admission (x l c) o (ev_size event))
                       = s32 (tx_packet_level o + 1)
                    /\ rx_queue (after_admission (x l c) o (ev_size event)) = rx_queue o
                    /\ tx_queue (after_admission (x l c) o (ev_size event)) = tx_queue o
                    /\ rx_fill_level (after_admission (x l c) o (ev_size event))
                       = rx_fill_level o).
  { unfold after_admission, is_enough_space_in_channel.
    repeat match goal with |- context [if ?b then _ else _] => destruct b end;
      now repeat split. }
  destruct Hlevels as (Hf & Hp & Hrq & Htq & Hrf).
  cbn [set_tx_levels tx_fill_level tx_packet_level rx_queue tx_queue rx_fill_level].
  rewrite Hf, Hp.
  replace (s32 (tx_fill_level o + ev_size event) - ev_size event)
    with (s32 (tx_fill_level o + ev_size event) + - ev_size event) by ring.
  replace (s32 (tx_packet_level o + 1) - 1)
    with (s32 (tx_packet_level o + 1) + - 1) by ring.
  rewrite !s32_add.
  replace (tx_fill_level o + ev_size event + - ev_size event)
    with (tx_fill_level o) by ring.
  replace (tx_packet_level o + 1 + - 1) with (tx_packet_level o) by ring.
  rewrite !s32_small by assumption. now repeat split.
Qed.

End MoreProperties.

(** ** Invariants of the open-channel objects *)

Section Invariants.

Context {K : xlink_defs}.

(** A property of the objects that the operations on an object keep. *)
Variable P : Z -> open_channel -> Prop.

Hypothesis P_new : forall c, P c (new_open_channel c).
Hypothesis P_admission :
  forall c slot o size, P c o -> P c (snd (is_enough_space_in_channel slot o size)).
Hypothesis P_levels : forall c fill pkts o, P c o -> P c (set_tx_levels fill pkts o).
Hypothesis P_ready : forall c cb pid origin o, P c o -> P c (set_ready cb pid origin o).
Hypothesis P_consumed :
  forall c cb pid origin o, P c o -> P c (set_consumed cb pid origin o).
Hypothesis P_add :
  forall c en o buffer size paddr,
    0 <= size < 2 ^ 32 -> P c o ->
    P c (snd (fst (add_packet_to_channel en o Rx_queue buffer size paddr))).
Hypothesis P_release :
  forall c o addr,
    P c o -> P c (snd (fst (fst (release_packet_from_channel o Rx_queue addr)))).

Let holds : multiplexer -> Prop := every_object P.

Lemma holds_upd (x : multiplexer) (l c : Z) (ch : channel) :
  holds x -> (forall o, chan_opchan ch = Some o -> P c o) -> holds (upd x l c ch).
Proof.
  intros Hx Hch l' c' o. unfold get_channel, upd.
  destruct (Z.eqb_spec l' l), (Z.eqb_spec c' c); cbn [andb]; subst;
    [apply Hch|apply Hx..].
Qed.

Lemma holds_put (x : multiplexer) (l c : Z) (o : open_channel) :
  holds x -> P c o -> holds (put_channel x l c o).
Proof.
  intros Hx Ho. apply holds_upd; [exact Hx|].
  destruct (x l c); cbn. intros o' Heq. now inversion Heq; subst.
Qed.

Lemma holds_config (x : multiplexer) (l c : Z) (ch : channel) :
  holds x -> chan_opchan ch = chan_opchan (x l c) -> holds (upd x l c ch).
Proof.
  intros Hx Hsame. apply holds_upd; [exact Hx|].
  intros o Ho. apply (Hx l c). unfold get_channel. congruence.
Qed.

Lemma holds_free (x : multiplexer) (l c : Z) :
  holds x -> holds (upd x l c (set_opchan None (x l c))).
Proof. intros Hx. apply holds_upd; [exact Hx|]. destruct (x l c); discriminate. Qed.

Ltac returned :=
  let Heq := fresh "Heq" in
  unfold tx_done, rx_done; intros Heq; inversion Heq; subst; clear Heq;
  cbn [tx_mux rx_mux].

Lemma wait_for_space_keeps (script : list wait_step) (l c size : Z) :
  script_keeps holds script ->
  forall x, holds x ->
  forall rc x' t script',
    wait_for_space script x l c size = Done (rc, x', t, script') ->
    holds x' /\ script_keeps holds script'.
Proof.
  intros Hscript.
  assert (Hput : forall x o, holds x -> get_channel x l c = Some o ->
                 holds (put_channel x l c
                          (snd (is_enough_space_in_channel (x l c) o size)))).
  { intros x o Hx Hget. apply holds_put; [exact Hx|].
    apply P_admission. exact (Hx l c o Hget). }
  induction Hscript as [|step rest Hstep Hrest IH]; intros x Hx rc x' t script'; simpl.
  - destruct (get_channel x l c) as [o|] eqn:Hget; [|discriminate].
    specialize (Hput x o Hx Hget).
    destruct (is_enough_space_in_channel (x l c) o size) as [enough o'].
    cbn [snd] in Hput.
    destruct enough; [|destruct (tx_blocking _)]; try discriminate;
      intros Heq; inversion Heq; subst; split; trivial; constructor.
  - destruct (get_channel x l c) as [o|] eqn:Hget; [|discriminate].
    specialize (Hput x o Hx Hget).
    destruct (is_enough_space_in_channel (x l c) o size) as [enough o'].
    cbn [snd] in Hput.
    assert (Hall : script_keeps holds (step :: rest)) by now constructor.
    destruct enough; [intros Heq; inversion Heq; subst; now split|].
    destruct (tx_blocking _); [|intros Heq; inversion Heq; subst; now split].
    destruct (ws_result step).
    + destruct (wait_for_space rest _ l c size) as [[[[rc3 x3] t3] s3]| | |] eqn:Erec;
        try discriminate.
      intros Heq. inversion Heq; subst.
      exact (IH _ (Hstep _ Hput) _ _ _ _ Erec).
    + destruct (_ =? 0); [discriminate|].
      intros Heq. inversion Heq; subst. split; [now apply Hstep|exact Hrest].
    + intros Heq. inversion Heq; subst. split; [now apply Hstep|exact Hrest].
Qed.

Lemma tx_write_req_keeps (script : list wait_step) (event : xlink_event)
    (x : multiplexer) :
  script_keeps holds script -> holds x ->
  forall r, tx_write_req script event x = Done r -> holds (tx_mux r).
Proof.
  intros Hscript Hx r. unfold tx_write_req.
  destruct (get_channel x _ _) as [o0|]; [|now returned].
  destruct (negb _); [now returned|].
  destruct (wait_for_space script x _ _ _) as [[[[rc x1] t1] s1]| | |] eqn:Ewait;
    try discriminate.
  destruct (wait_for_space_keeps _ _ _ _ Hscript x Hx _ _ _ _ Ewait) as (Hx1 & Hs1).
  destruct rc; try now returned.
  destruct (get_channel x1 _ _) as [o|] eqn:Hget; [|discriminate].
  match goal with
  | |- context [put_channel x1 ?l ?c ?o2] =>
      assert (Hx2 : holds (put_channel x1 l c o2))
        by (apply holds_put; [exact Hx1|apply P_levels; exact (Hx1 _ _ _ Hget)])
  end.
  destruct (is_passthru_channel _) as [[|]|]; [| |discriminate].
  - destruct (ev_type _); now returned.
  - destruct (tx_blocking _); [|now returned].
    destruct Hs1 as [|step rest Hstep _]; [discriminate|].
    destruct (ws_result step); [now returned; apply Hstep| |now returned; apply Hstep].
    destruct (_ =? 0); [discriminate|]. returned. now apply Hstep.
Qed.

Lemma wait_for_packet_keeps (script : list wait_step) (x : multiplexer) (l c : Z) :
  script_keeps holds script -> holds x ->
  forall rc x' t, wait_for_packet script x l c = Done (rc, x', t) -> holds x'.
Proof.
  intros Hscript Hx rc x' t. unfold wait_for_packet.
  destruct (rx_blocking _); [|intros Heq; now inversion Heq; subst].
  destruct Hscript as [|step rest Hstep _]; [discriminate|].
  destruct (ws_result step); [| |];
    try (destruct (_ =? 0); try discriminate);
    intros Heq; inversion Heq; subst; now apply Hstep.
Qed.

Lemma tx_read_req_keeps (script : list wait_step) (event : xlink_event)
    (x : multiplexer) :
  script_keeps holds script -> holds x ->
  forall r, tx_read_req script event x = Done r -> holds (tx_mux r).
Proof.
  intros Hscript Hx r. unfold tx_read_req.
  destruct (get_channel x _ _) as [o0|]; [|now returned].
  destruct (negb _); [now returned|].
  destruct (is_passthru_channel _) as [passthru|]; [|discriminate].
  destruct (wait_for_packet script x _ _) as [[[rc x1] t1]| | |] eqn:Ewait;
    try discriminate.
  pose proof (wait_for_packet_keeps _ _ _ _ Hscript Hx _ _ _ Ewait) as Hx1.
  destruct (is_success rc); [|now returned].
  destruct (get_channel x1 _ _); [|discriminate].
  destruct (get_packet_from_channel _); now returned.
Qed.

Lemma tx_read_to_buffer_req_keeps (script : list wait_step) (event : xlink_event)
    (x : multiplexer) :
  script_keeps holds script -> holds x ->
  forall r, tx_read_to_buffer_req script event x = Done r -> holds (tx_mux r).
Proof.
  intros Hscript Hx r. unfold tx_read_to_buffer_req.
  destruct (get_channel x _ _) as [o0|]; [|now returned].
  destruct (negb _); [now returned|].
  destruct (is_passthru_channel _) as [passthru|]; [|discriminate].
  destruct (wait_for_packet script x _ _) as [[[rc x1] t1]| | |] eqn:Ewait;
    try discriminate.
  pose proof (wait_for_packet_keeps _ _ _ _ Hscript Hx _ _ _ Ewait) as Hx1.
  destruct (is_success rc); [|now returned].
  destruct (get_channel x1 _ _) as [o|] eqn:Hget; [|discriminate].
  destruct (get_packet_from_channel _) as [pkt|]; [|now returned].
  pose proof (P_release _ o (pkt_data pkt) (Hx1 _ _ _ Hget)) as Hrel.
  destruct passthru.
  - destruct (release_packet_from_channel o Rx_queue (pkt_data pkt))
      as [[[rc' o'] len] t2].
    returned. now apply holds_put.
  - returned. apply holds_put; [exact Hx1|exact (Hx1 _ _ _ Hget)].
Qed.

Lemma tx_release_req_keeps (event : xlink_event) (x : multiplexer) :
  holds x -> forall r, tx_release_req event x = Done r -> holds (tx_mux r).
Proof.
  intros Hx r. unfold tx_release_req.
  destruct (get_channel x _ _) as [o|] eqn:Hget; [|now returned].
  pose proof (P_release _ o (ev_data event) (Hx _ _ _ Hget)) as Hrel.
  destruct (release_packet_from_channel o Rx_queue (ev_data event))
    as [[[rc o'] len] t].
  destruct rc; returned; now apply holds_put.
Qed.

Lemma multiplexer_open_channel_keeps (en : env) (x : multiplexer) (l c : Z) :
  holds x -> holds (snd (fst (multiplexer_open_channel en x l c))).
Proof.
  intros Hx. unfold multiplexer_open_channel.
  destruct (chan_opchan (x l c)); [exact Hx|].
  destruct (kzalloc_ok en); [|exact Hx].
  apply holds_put; [exact Hx|apply P_new].
Qed.

Lemma multiplexer_close_channel_keeps (x : multiplexer) (l c : Z) :
  holds x -> holds (snd (fst (multiplexer_close_channel x l c))).
Proof.
  intros Hx. destruct (chan_opchan (x l c)) as [o|] eqn:Hget.
  - rewrite (close_channel_trace x l c o Hget). now apply holds_free.
  - unfold multiplexer_close_channel. now rewrite Hget.
Qed.

Lemma tx_open_channel_req_keeps (en : env) (script : list wait_step)
    (event : xlink_event) (x : multiplexer) :
  script_keeps holds script -> holds x ->
  forall r, tx_open_channel_req en script event x = Done r -> holds (tx_mux r).
Proof.
  intros Hscript Hx r. unfold tx_open_channel_req.
  set (l := ev_link_id event). set (c := ev_chan event).
  destruct (chan_status (x l c)).
  - match goal with
    | |- context [multiplexer_open_channel en ?x1 l c] =>
        assert (Hx1 : holds x1) by (apply holds_config;
                                    [exact Hx|now destruct (x l c)]);
        pose proof (multiplexer_open_channel_keeps en x1 l c Hx1) as Hx2;
        destruct (multiplexer_open_channel en x1 l c) as [[rc x2] t2]
    end.
    cbn [fst snd] in Hx2.
    destruct rc; try now returned.
    destruct (get_channel x2 l c); [|now returned].
    destruct Hscript as [|step rest Hstep _]; [discriminate|].
    pose proof (Hstep _ Hx2) as Hx3.
    destruct (ws_result step).
    + returned. apply holds_config; [exact Hx3|now destruct (ws_others step x2 l c)].
    + destruct (get_channel _ l c); [|discriminate].
      pose proof (multiplexer_close_channel_keeps _ l c Hx3) as Hx4.
      destruct (multiplexer_close_channel _ l c) as [[rc4 x4] t4]. now returned.
    + destruct (get_channel _ l c); [|discriminate].
      pose proof (multiplexer_close_channel_keeps _ l c Hx3) as Hx4.
      destruct (multiplexer_close_channel _ l c) as [[rc4 x4] t4]. now returned.
  - now returned.
  - match goal with
    | |- context [multiplexer_open_channel en ?x1 l c] =>
        assert (Hx1 : holds x1) by (apply holds_config;
                                    [exact Hx|now destruct (x l c)]);
        pose proof (multiplexer_open_channel_keeps en x1 l c Hx1) as Hx2;
        destruct (multiplexer_open_channel en x1 l c) as [[rc x2] t2]
    end.
    now returned.
Qed.

Lemma tx_callback_req_keeps (event : xlink_event) (x : multiplexer) :
  holds x ->
  (forall r, tx_data_ready_callback_req event x = Done r -> holds (tx_mux r))
  /\ (forall r, tx_data_consumed_callback_req event x = Done r -> holds (tx_mux r)).
Proof.
  intros Hx. unfold tx_data_ready_callback_req, tx_data_consumed_callback_req.
  split; intros r; destruct (get_channel x _ _) as [o|] eqn:Hget;
    returned; trivial; apply holds_put; trivial;
    [apply P_ready|apply P_consumed]; exact (Hx _ _ _ Hget).
Qed.

Lemma tx_close_channel_req_keeps (event : xlink_event) (x : multiplexer) :
  holds x -> forall r, tx_close_channel_req event x = Done r -> holds (tx_mux r).
Proof.
  intros Hx r. unfold tx_close_channel_req.
  set (l := ev_link_id event). set (c := ev_chan event).
  pose proof (multiplexer_close_channel_keeps x l c Hx) as Hx1.
  destruct (chan_status (x l c)); try now returned.
  destruct (multiplexer_close_channel x l c) as [[rc x1] t]. cbn [fst snd] in Hx1.
  destruct rc; returned; trivial.
  apply holds_config; [exact Hx1|now destruct (x1 l c)].
Qed.

Lemma xlink_multiplexer_tx_keeps (en : env) (script : list wait_step)
    (event : xlink_event) (x : multiplexer) :
  passthrough_keeps holds ->
  script_keeps holds script -> holds x ->
  forall r, xlink_multiplexer_tx en script event x = Done r -> holds (tx_mux r).
Proof.
  intros Hpass Hscript Hx r. unfold xlink_multiplexer_tx.
  destruct (_ >=? _); [now returned|].
  destruct (negb _); [now returned|].
  destruct (is_control_channel _); [now returned|].
  destruct (tx_by_passthrough event).
  - specialize (Hpass event x Hx).
    destruct (xlink_passthrough event x) as [[rc x1] t]. now returned.
  - unfold tx_switch.
    destruct (tx_callback_req_keeps event x Hx) as (Hready & Hconsumed).
    destruct (ev_type event);
      first [ now apply tx_write_req_keeps
            | now apply tx_read_req_keeps
            | now apply tx_read_to_buffer_req_keeps
            | now apply tx_release_req_keeps
            | now apply (tx_open_channel_req_keeps en)
            | now apply tx_close_channel_req_keeps
            | exact (Hready r) | exact (Hconsumed r)
            | now returned ].
Qed.

Lemma rx_write_req_keeps (en : env) (event : xlink_event) (x : multiplexer) :
  0 <= ev_size event < 2 ^ 32 -> holds x ->
  (forall r, rx_write_req en event x = Done r -> holds (rx_mux r))
  /\ (forall r, rx_write_control_req en event x = Done r -> holds (rx_mux r)).
Proof.
  intros Hsize Hx. unfold rx_write_req, rx_write_control_req.
  split; intros r.
  - destruct (get_channel x _ _) as [o|] eqn:Hget; [|now returned].
    destruct (allocate_result en) as [buffer paddr].
    destruct (negb _); [|now returned].
    destruct (read_result en) as [read_rc read_size].
    destruct (_ || _)%bool; [now returned|].
    match goal with
    | |- context [add_packet_to_channel en o Rx_queue ?b ?s ?p] =>
        pose proof (P_add _ en o b s p Hsize (Hx _ _ _ Hget)) as Hadd;
        destruct (add_packet_to_channel en o Rx_queue b s p) as [[rc o'] t]
    end.
    cbn [fst snd] in Hadd.
    destruct rc; try now returned.
    destruct (_ && _)%bool.
    + destruct (run_callback _ _ _ _). returned. now apply holds_put.
    + returned. now apply holds_put.
  - destruct (get_channel x _ _) as [o|] eqn:Hget; [|now returned].
    destruct (allocate_result en) as [buffer paddr].
    destruct (negb _); [|now returned].
    match goal with
    | |- context [add_packet_to_channel en o Rx_queue ?b ?s ?p] =>
        pose proof (P_add _ en o b s p Hsize (Hx _ _ _ Hget)) as Hadd;
        destruct (add_packet_to_channel en o Rx_queue b s p) as [[rc o'] t]
    end.
    cbn [fst snd] in Hadd.
    destruct rc; returned; trivial. now apply holds_put.
Qed.

Lemma rx_open_channel_req_keeps (en : env) (event : xlink_event) (x : multiplexer) :
  passthrough_keeps holds -> holds x ->
  forall r, rx_open_channel_req en event x = Done r -> holds (rx_mux r).
Proof.
  intros Hpass Hx r. unfold rx_open_channel_req.
  set (l := ev_link_id event). set (c := ev_chan event).
  match goal with
  | |- (let '(x', t') := ?p in _) = _ -> _ =>
      assert (Hx' : holds (fst p)); [|destruct p as [x' t']]
  end.
  - destruct (chan_status (x l c)).
    + match goal with
      | |- context [multiplexer_open_channel en ?x1 l c] =>
          assert (Hx1 : holds x1) by (apply holds_config;
                                      [exact Hx|now destruct (x l c)]);
          pose proof (multiplexer_open_channel_keeps en x1 l c Hx1) as Hx2;
          destruct (multiplexer_open_channel en x1 l c) as [[rc x2] t2]
      end.
      cbn [fst snd] in Hx2.
      destruct rc; trivial.
      destruct (get_channel x2 l c); trivial. cbn [fst].
      apply holds_config; [exact Hx2|now destruct (x2 l c)].
    + now destruct (get_channel x l c).
    + now destruct (get_channel x l c).
  - cbn [fst] in Hx'. specialize (Hpass event x' Hx').
    destruct (xlink_passthrough event x') as [[rc x''] t'']. now returned.
Qed.

Lemma xlink_multiplexer_rx_keeps (en : env) (event : xlink_event) (x : multiplexer) :
  passthrough_keeps holds ->
  0 <= ev_size event < 2 ^ 32 -> holds x ->
  forall r, xlink_multiplexer_rx en event x = Done r -> holds (rx_mux r).
Proof.
  intros Hpass Hsize Hx r.
  destruct (rx_write_req_keeps en event x Hsize Hx) as (Hdata & Hcontrol).
  unfold xlink_multiplexer_rx.
  destruct (ev_type event);
    first [ exact (Hdata r) | exact (Hcontrol r)
          | now apply rx_open_channel_req_keeps
          | discriminate
          | now returned
          | idtac ].
  - unfold rx_read_req. destruct (get_channel x _ _).
    + destruct (_ && _)%bool; [destruct (run_callback _ _ _ _)|]; now returned.
    + destruct (status_eqb _ _); [discriminate|now returned].
  - unfold rx_read_req. destruct (get_channel x _ _).
    + destruct (_ && _)%bool; [destruct (run_callback _ _ _ _)|]; now returned.
    + destruct (status_eqb _ _); [discriminate|now returned].
  - unfold rx_release_req. destruct (get_channel x _ _) as [o|] eqn:Hget;
      [|now returned].
    returned. apply holds_put; [exact Hx|].
    apply P_levels. exact (Hx _ _ _ Hget).
  - unfold rx_response. destruct (get_channel x _ _); now returned.
  - unfold rx_response. destruct (get_channel x _ _); now returned.
  - unfold rx_response. destruct (get_channel x _ _); now returned.
  - unfold rx_response. destruct (get_channel x _ _); now returned.
Qed.

Lemma run_call_keeps (k : call) (x : multiplexer) :
  passthrough_keeps holds -> call_keeps holds k -> holds x -> holds (run_call k x).
Proof.
  intros Hpass Hk Hx. destruct k as [en script event|en event|l c addr]; simpl.
  - destruct (xlink_multiplexer_tx en script event x) as [r| | |] eqn:Etx; trivial.
    now apply (xlink_multiplexer_tx_keeps en script event x).
  - destruct (xlink_multiplexer_rx en event x) as [r| | |] eqn:Erx; trivial.
    now apply (xlink_multiplexer_rx_keeps en event x).
  - unfold core_release_packet_from_channel.
    destruct CONFIG_XLINK_LOCAL_HOST; trivial.
    destruct (is_passthru_channel c) as [[|]|]; trivial.
    destruct (get_channel x l c) as [o|] eqn:Hget; trivial.
    pose proof (P_release _ o addr (Hx _ _ _ Hget)) as Hrel.
    destruct (release_packet_from_channel o Rx_queue addr) as [[[rc o'] len] t].
    now apply holds_put.
Qed.

Lemma run_calls_keep (calls : list call) (x : multiplexer) :
  passthrough_keeps holds ->
  Forall (call_keeps holds) calls -> holds x -> holds (run_calls calls x).
Proof.
  intros Hpass Hcalls. revert x.
  induction Hcalls as [|k calls Hk _ IH]; intros x Hx; [exact Hx|].
  simpl. apply IH. now apply run_call_keeps.
Qed.

End Invariants.

Section Shape.

Context {K : xlink_defs}.

Lemma find_packet_length (addr : Z) (l : list packet) (pkt : packet) (rest : list packet) :
  find_packet addr l = Some (pkt, rest) -> length l = S (length rest).
Proof.
  revert rest. induction l as [|p l IH]; simpl; intros rest Hfind; [discriminate|].
  destruct (pkt_data p =? addr); [now inversion Hfind|].
  destruct (find_packet addr l) as [[q r]|]; [|discriminate].
  inversion Hfind; subst. simpl. f_equal. now apply IH.
Qed.

Lemma select_packet_length (addr : Z) (l : list packet) (pkt : packet)
    (rest : list packet) :
  select_packet addr l = Some (pkt, rest) -> length l = S (length rest).
Proof.
  unfold select_packet. destruct (addr =? 0).
  - destruct l; [discriminate|]. intros Heq. now inversion Heq.
  - apply find_packet_length.
Qed.

Lemma object_shape_kept :
  0 <= XLINK_PACKET_QUEUE_CAPACITY < 2 ^ 32 ->
  (forall c, object_shape c (new_open_channel c))
  /\ (forall c slot o size,
        object_shape c o ->
        object_shape c (snd (is_enough_space_in_channel slot o size)))
  /\ (forall c fill pkts o, object_shape c o -> object_shape c (set_tx_levels fill pkts o))
  /\ (forall c cb pid origin o,
        object_shape c o -> object_shape c (set_ready cb pid origin o))
  /\ (forall c cb pid origin o,
        object_shape c o -> object_shape c (set_consumed cb pid origin o))
  /\ (forall c en o buffer size paddr,
        0 <= size < 2 ^ 32 -> object_shape c o ->
        object_shape c (snd (fst (add_packet_to_channel en o Rx_queue buffer size paddr))))
  /\ (forall c o addr,
        object_shape c o ->
        object_shape c (snd (fst (fst (release_packet_from_channel o Rx_queue addr))))).
Proof.
  intros Hcap. unfold object_shape. repeat split; try (cbn; lia);
    try match goal with H : _ /\ _ |- _ => decompose [and] H; clear H end;
    try assumption.
  all: try (unfold is_enough_space_in_channel;
            repeat match goal with |- context [if ?b then _ else _] => destruct b end;
            cbn; auto; fail).
  all: try (unfold add_packet_to_channel; cbn [queue_of];
            destruct (Z.ltb_spec (q_count (rx_queue o)) (q_capacity (rx_queue o)));
            [destruct (kzalloc_ok en)|]; cbn; auto;
            rewrite ?length_app, ?u32_small; cbn [length]; lia).
  all: unfold release_packet_from_channel; cbn [queue_of];
    destruct (select_packet addr (q_head (rx_queue o))) as [[pkt rest]|] eqn:Hsel;
    cbn; auto;
    apply select_packet_length in Hsel; rewrite ?u32_small; lia.
Qed.

(** X24: the shape of the open-channel objects.  Start from a slot table
    without any object and make any sequence of calls of the transmit entry
    point, the receive entry point and [core_release_packet_from_channel].
    Then every object of the table carries the number of its channel as its
    id, its rx queue holds as many packets as its count says and never more
    than XLINK_PACKET_QUEUE_CAPACITY, its tx queue is empty (nothing is ever
    put on it), and its over-watermark flag is 0 or 1. *)
Theorem objects_keep_their_shape (calls : list call) (x0 : multiplexer) :
  0 <= XLINK_PACKET_QUEUE_CAPACITY < 2 ^ 32 ->
  passthrough_keeps (every_object object_shape) ->
  (forall l c, get_channel x0 l c = None) ->
  Forall (call_keeps (every_object object_shape)) calls ->
  forall l c o,
    get_channel (run_calls calls x0) l c = Some o ->
    object_shape c o
    /\ Z.of_nat (length (q_head (rx_queue o))) <= XLINK_PACKET_QUEUE_CAPACITY.
Proof.
  intros Hcap Hpass Hinit Hcalls l c o Hget.
  destruct (object_shape_kept Hcap) as (Hnew & Hadm & Hlev & Hrdy & Hcon & Hadd & Hrel).
  assert (Hx0 : every_object object_shape x0)
    by (intros l' c' o' Ho'; now rewrite Hinit in Ho').
  pose proof (run_calls_keep object_shape Hnew Hadm Hlev Hrdy Hcon Hadd Hrel
                calls x0 Hpass Hcalls Hx0 l c o Hget) as Hshape.
  split; [exact Hshape|].
  destruct Hshape as (_ & _ & _ & Hcount & Hbound & _). lia.
Qed.

End Shape.

Section Safety.

Context {K : xlink_defs}.

Lemma has_object_put (x : multiplexer) (l c : Z) (o : open_channel) :
  has_object l c (put_channel x l c o).
Proof. unfold has_object. now rewrite get_put_channel. Qed.

Lemma wait_for_space_safe (script : list wait_step) (l c size : Z) :
  script_keeps (has_object l c) script ->
  forall x, has_object l c x ->
  match wait_for_space script x l c size with
  | Done (_, x', _, script') => has_object l c x' /\ script_keeps (has_object l c) script'
  | Blocked => True
  | Fault | Not_covered => False
  end.
Proof.
  intros Hscript.
  induction Hscript as [|step rest Hstep Hrest IH]; intros x Hx; simpl.
  - destruct (get_channel x l c) as [o|] eqn:Hget; [|now apply Hx].
    destruct (is_enough_space_in_channel (x l c) o size) as [enough o'].
    destruct enough; [|destruct (tx_blocking _)]; trivial;
      (split; [apply has_object_put|constructor]).
  - destruct (get_channel x l c) as [o|] eqn:Hget; [|now apply Hx].
    destruct (is_enough_space_in_channel (x l c) o size) as [enough o'].
    assert (Hall : script_keeps (has_object l c) (step :: rest)) by now constructor.
    destruct enough; [split; [apply has_object_put|exact Hall]|].
    destruct (tx_blocking _); [|split; [apply has_object_put|exact Hall]].
    pose proof (Hstep _ (has_object_put x l c o')) as Hx2.
    destruct (ws_result step).
    + specialize (IH _ Hx2).
      destruct (wait_for_space rest _ l c size) as [[[[rc3 x3] t3] s3]| | |]; trivial.
    + destruct (_ =? 0); [trivial|now split].
    + now split.
Qed.

(** X25: the transmit entry point does not read through a NULL object.
    As long as the threads that run while the caller waits leave the
    channel of the request its object, a call of [xlink_multiplexer_tx]
    returns or stays blocked in a wait; every use of the object comes after
    a test of [get_channel], and [is_passthru_channel] is only called for a
    channel that has a type. *)
Theorem transmit_reads_no_null_object (en : env) (script : list wait_step)
    (event : xlink_event) (x : multiplexer) :
  script_keeps (has_object (ev_link_id event) (ev_chan event)) script ->
  xlink_multiplexer_tx en script event x <> Fault
  /\ xlink_multiplexer_tx en script event x <> Not_covered.
Proof.
  intros Hscript. unfold xlink_multiplexer_tx.
  destruct (_ >=? _); [split; discriminate|].
  destruct (is_channel_for_device _ _ _) eqn:Hdev; cbn [negb]; [|split; discriminate].
  destruct (is_control_channel _); [split; discriminate|].
  destruct (tx_by_passthrough event).
  { destruct (xlink_passthrough event x) as [[rc x1] t]. split; discriminate. }
  assert (Htyped : exists p, is_passthru_channel (ev_chan event) = Some p).
  { unfold is_channel_for_device in Hdev. unfold is_passthru_channel.
    destruct (get_channel_type (ev_chan event)); [eauto|discriminate]. }
  destruct Htyped as (p & Hp).
  set (l := ev_link_id event) in *. set (c := ev_chan event) in *.
  assert (Hwait : forall y, has_object l c y ->
            match wait_for_packet script y l c with
            | Done (_, y', _) => has_object l c y'
            | Blocked => True
            | Fault | Not_covered => False
            end).
  { intros y Hy. unfold wait_for_packet. destruct (rx_blocking _); [|exact Hy].
    destruct Hscript as [|step rest Hstep _]; [trivial|].
    destruct (ws_result step); [now apply Hstep| |];
      try (destruct (_ =? 0); trivial); now apply Hstep. }
  unfold tx_switch.
  destruct (ev_type event); try (split; discriminate).
  1-3: unfold tx_write_req; fold l c;
    destruct (get_channel x l c) as [o0|] eqn:Hget; [|split; discriminate];
    destruct (negb _); [split; discriminate|];
    assert (Hx : has_object l c x) by (unfold has_object; congruence);
    pose proof (wait_for_space_safe script l c
                  (ev_size (set_ev_timeout (chan_timeout (x l c)) event)) Hscript x Hx)
      as Hsafe;
    destruct (wait_for_space script x l c _) as [[[[rc x1] t1] s1]| | |];
    try contradiction; try (split; discriminate);
    destruct Hsafe as (Hx1 & Hs1); destruct rc; try (split; discriminate);
    destruct (get_channel x1 l c) as [o|] eqn:Hget1; [|now contradiction Hx1];
    rewrite Hp; destruct p;
    [ destruct (ev_type _); split; discriminate |];
    destruct (tx_blocking _); [|split; discriminate];
    destruct s1 as [|step rest]; [split; discriminate|];
    destruct (ws_result step); try (split; discriminate);
    destruct (_ =? 0); split; discriminate.
  - unfold tx_read_req. fold l c.
    destruct (get_channel x l c) as [o0|] eqn:Hget; [|split; discriminate].
    destruct (negb _); [split; discriminate|].
    rewrite Hp.
    assert (Hx : has_object l c x) by (unfold has_object; congruence).
    specialize (Hwait x Hx).
    destruct (wait_for_packet script x l c) as [[[rc x1] t1]| | |];
      try contradiction; try (split; discriminate).
    destruct (is_success rc); [|split; discriminate].
    destruct (get_channel x1 l c) as [o|] eqn:Hget1; [|now contradiction Hwait].
    destruct (get_packet_from_channel _); split; discriminate.
  - unfold tx_read_to_buffer_req. fold l c.
    destruct (get_channel x l c) as [o0|] eqn:Hget; [|split; discriminate].
    destruct (negb _); [split; discriminate|].
    rewrite Hp.
    assert (Hx : has_object l c x) by (unfold has_object; congruence).
    specialize (Hwait x Hx).
    destruct (wait_for_packet script x l c) as [[[rc x1] t1]| | |];
      try contradiction; try (split; discriminate).
    destruct (is_success rc); [|split; discriminate].
    destruct (get_channel x1 l c) as [o|] eqn:Hget1; [|now contradiction Hwait].
    destruct (get_packet_from_channel _); [|split; discriminate].
    destruct p; [destruct (release_packet_from_channel _ _ _) as [[[r' o'] len] t2]|];
      split; discriminate.
  - unfold tx_release_req. fold l c.
    destruct (get_channel x l c); [|split; discriminate].
    destruct (release_packet_from_channel _ _ _) as [[[r' o'] len] t2].
    destruct r'; split; discriminate.
  - unfold tx_open_channel_req. fold l c.
    destruct (chan_status (x l c)); try (split; discriminate).
    + destruct (multiplexer_open_channel en _ l c) as [[rc x2] t2].
      destruct rc; try (split; discriminate).
      destruct (get_channel x2 l c) as [o|] eqn:Hget2; [|split; discriminate].
      destruct Hscript as [|step rest Hstep _]; [split; discriminate|].
      assert (Hx3 : has_object l c (ws_others step x2))
        by (apply Hstep; unfold has_object; congruence).
      unfold has_object in Hx3.
      destruct (ws_result step); try (split; discriminate);
        (destruct (get_channel (ws_others step x2) l c); [|congruence]);
        destruct (multiplexer_close_channel _ l c) as [[rc4 x4] t4];
        split; discriminate.
    + destruct (multiplexer_open_channel en _ l c) as [[rc x2] t2].
      split; discriminate.
  - unfold tx_close_channel_req. fold l c.
    destruct (chan_status (x l c)); try (split; discriminate).
    destruct (multiplexer_close_channel x l c) as [[rc x1] t].
    destruct rc; split; discriminate.
  - unfold tx_data_ready_callback_req. fold l c.
    destruct (get_channel x l c); split; discriminate.
  - unfold tx_data_consumed_callback_req. fold l c.
    destruct (get_channel x l c); split; discriminate.
Qed.

End Safety.

(** ** The table of links *)

Lemma find_index_some {A : Type} (p : A -> bool) (l : list A) (n : nat) :
  find_index p l = Some n ->
  exists a, nth_error l n = Some a /\ p a = true
    /\ forall m b, (m < n)%nat -> nth_error l m = Some b -> p b = false.
Proof.
  revert n. induction l as [|a l IH]; intros n; cbn; [discriminate|].
  destruct (p a) eqn:Hp.
  - intros [= <-]. exists a. repeat split; trivial. intros m b Hm. lia.
  - destruct (find_index p l) as [k|]; [|discriminate]. intros [= <-].
    destruct (IH k eq_refl) as (b & Hb & Hpb & Hfirst).
    exists b. repeat split; trivial.
    intros [|m] c Hm; cbn; [now intros [= <-]|]. apply Hfirst. lia.
Qed.

Lemma find_index_none {A : Type} (p : A -> bool) (l : list A) :
  find_index p l = None <-> forall m b, nth_error l m = Some b -> p b = false.
Proof.
  induction l as [|a l IH]; cbn.
  - split; [|trivial]. now intros _ [|m] b.
  - destruct (p a) eqn:Hp.
    + split; [discriminate|]. intros H. specialize (H O a eq_refl). congruence.
    + destruct (find_index p l) as [k|]; cbn.
      * split; [discriminate|]. intros H.
        destruct IH as [_ IH]. discriminate IH. intros m b. apply (H (S m)).
      * split; [|trivial]. intros _ [|m] b; cbn; [now intros [= <-]|].
        now apply IH.
Qed.

Lemma find_index_first {A : Type} (p : A -> bool) (l : list A) (n : nat) (a : A) :
  nth_error l n = Some a -> p a = true ->
  (forall m b, (m < n)%nat -> nth_error l m = Some b -> p b = false) ->
  find_index p l = Some n.
Proof.
  revert n. induction l as [|c l IH]; intros [|n]; cbn; try discriminate.
  - now intros [= ->] ->.
  - intros Hn Hp Hfirst. rewrite (Hfirst O c) by (trivial; lia).
    rewrite (IH n Hn Hp); [reflexivity|].
    intros m b Hm. apply (Hfirst (S m)). lia.
Qed.

Lemma nth_error_update_nth {A : Type} (n m : nat) (f : A -> A) (l : list A) :
  nth_error (update_nth n f l) m
  = if Nat.eqb m n then option_map f (nth_error l m) else nth_error l m.
Proof.
  revert n m. induction l as [|a l IH]; intros [|n] [|m]; cbn; trivial;
    try (now destruct (Nat.eqb _ _)); try apply IH.
Qed.

Lemma update_nth_same {A : Type} (n : nat) (f : A -> A) (l : list A) (a : A) :
  nth_error l n = Some a -> f a = a -> update_nth n f l = l.
Proof.
  revert n. induction l as [|c l IH]; intros [|n]; cbn; try discriminate.
  - now intros [= ->] ->.
  - intros Hn Hf. now rewrite (IH n Hn Hf).
Qed.

Lemma update_nth_twice {A : Type} (n : nat) (f g : A -> A) (l : list A) :
  update_nth n f (update_nth n g l) = update_nth n (fun a => f (g a)) l.
Proof.
  revert n. induction l as [|c l IH]; intros [|n]; cbn; trivial. now rewrite IH.
Qed.

Lemma find_map_none {A B : Type} (p : B -> bool) (g : A -> B) (l : list A) :
  (forall m b, nth_error l m = Some b -> p (g b) = false) ->
  find p (map g l) = None.
Proof.
  induction l as [|a l IH]; cbn; trivial. intros H.
  rewrite (H O a eq_refl). apply IH. intros m b. apply (H (S m)).
Qed.

Lemma map_update_nth {A B : Type} (g : A -> B) (n : nat) (f : A -> A) (l : list A) :
  (forall a, nth_error l n = Some a -> g (f a) = g a) ->
  map g (update_nth n f l) = map g l.
Proof.
  revert n. induction l as [|c l IH]; intros [|n] H; cbn; trivial.
  - now rewrite (H c).
  - rewrite IH; [reflexivity|]. exact H.
Qed.

Lemma length_update_nth {A : Type} (n : nat) (f : A -> A) (l : list A) :
  length (update_nth n f l) = length l.
Proof.
  revert n. induction l as [|c l IH]; intros [|n]; cbn; trivial. now rewrite IH.
Qed.

Section LinkProperties.

Context {K : xlink_defs} {L : xlink_link_defs}.

Lemma link_found (dev : xlink_dev) (id : Z) (n : nat) :
  link_index_by_sw_device_id dev id = Some n ->
  exists e, nth_error (links dev) n = Some e /\ entry_device e = id
    /\ forall m b, (m < n)%nat -> nth_error (links dev) m = Some b ->
         entry_device b <> id.
Proof.
  intros H. destruct (find_index_some _ _ _ H) as (e & He & Hp & Hfirst).
  exists e. split; [exact He|]. split; [now apply Z.eqb_eq|].
  intros m b Hm Hb. apply Z.eqb_neq. now apply (Hfirst m).
Qed.

Lemma link_not_found (dev : xlink_dev) (id : Z) :
  link_index_by_sw_device_id dev id = None <->
  forall m b, nth_error (links dev) m = Some b -> entry_device b <> id.
Proof.
  unfold link_index_by_sw_device_id. rewrite find_index_none.
  split; intros H m b Hb; [apply Z.eqb_neq|apply Z.eqb_neq]; now apply (H m).
Qed.

Lemma link_is_first (dev : xlink_dev) (id : Z) (n : nat) (e : link_entry) :
  nth_error (links dev) n = Some e -> entry_device e = id ->
  (forall m b, (m < n)%nat -> nth_error (links dev) m = Some b ->
     entry_device b <> id) ->
  link_index_by_sw_device_id dev id = Some n.
Proof.
  intros He Hid Hfirst. apply (find_index_first _ _ _ e He); [now apply Z.eqb_eq|].
  intros m b Hm Hb. apply Z.eqb_neq. now apply (Hfirst m).
Qed.

Lemma distinct_update (dev : xlink_dev) (n : nat) (f : link_entry -> link_entry) :
  distinct_devices dev ->
  (forall e, nth_error (links dev) n = Some e ->
     entry_device (f e) = XLINK_INVALID_SW_DEVICE_ID
     \/ entry_device (f e) = entry_device e
     \/ forall m b, nth_error (links dev) m = Some b ->
          entry_device b <> entry_device (f e)) ->
  distinct_devices (update_link n f dev).
Proof.
  intros Hdev Hf m m' e e'. unfold update_link. cbn [links].
  rewrite !nth_error_update_nth.
  destruct (Nat.eqb_spec m n) as [->|Hm], (Nat.eqb_spec m' n) as [->|Hm']; trivial.
  - destruct (nth_error (links dev) n) as [a|] eqn:Ha; [|discriminate].
    intros [= <-] Hb Heq Hvalid.
    destruct (Hf a eq_refl) as [H|[H|H]]; [contradiction| |].
    + symmetry. apply (Hdev m' n e' a Hb Ha); congruence.
    + now contradiction (H m' e' Hb).
  - destruct (nth_error (links dev) n) as [a|] eqn:Ha; [|discriminate].
    intros Hb [= <-] Heq Hvalid.
    destruct (Hf a eq_refl) as [H|[H|H]]; [congruence| |].
    + apply (Hdev m n e a Hb Ha); congruence.
    + now contradiction (H m e Hb).
  - apply Hdev.
Qed.

(** X26: connecting a device that is already connected only takes a
    reference: [xlink_connect] returns X_LINK_SUCCESS, hands back the handle
    stored in the link and calls neither the platform, the dispatcher nor
    the multiplexer; the table holds the same devices, and the reference
    count of the link is one higher.  A call of [xlink_disconnect] with the
    handle it returned gives the reference back, again without any call,
    and leaves the device exactly as it was before the two calls. *)
Theorem connect_again_and_disconnect_cancel (ce ce' : connect_env) (dev : xlink_dev)
    (xmux : option multiplexer) (h : xlink_handle) (n : nat) (e : link_entry) :
  link_index_by_sw_device_id dev (sw_device_id h) = Some n ->
  nth_error (links dev) n = Some e ->
  1 <= le_refcount e < 2 ^ 31 - 1 ->
  let r := xlink_connect ce (Some dev) xmux (Some h) in
  lr_rc r = X_LINK_SUCCESS /\ lr_trace r = [] /\ lr_xmux r = xmux
  /\ lr_handle r = Some (link_handle (le_link e))
  /\ (exists dev1,
        lr_xlink r = Some dev1 /\ devices dev1 = devices dev
        /\ nmb_connected_links dev1 = nmb_connected_links dev
        /\ nth_error (links dev1) n = Some (set_entry_refcount (le_refcount e + 1) e))
  /\ xlink_disconnect ce' (lr_xlink r) (lr_xmux r) (lr_handle r)
     = link_done X_LINK_SUCCESS (lr_handle r) (Some dev) xmux [].
Proof.
  intros Hidx He Hcount r. subst r. unfold xlink_connect. rewrite Hidx, He.
  cbn [lr_rc lr_trace lr_xmux lr_handle lr_xlink link_done].
  destruct (link_found _ _ _ Hidx) as (e0 & He0 & Hid & Hfirst).
  assert (e0 = e) by congruence. subst e0.
  set (dev1 := update_link n (set_entry_refcount (le_refcount e + 1)) dev).
  assert (Hn1 : nth_error (links dev1) n
                = Some (set_entry_refcount (le_refcount e + 1) e)).
  { unfold dev1, update_link. cbn [links]. rewrite nth_error_update_nth.
    now rewrite Nat.eqb_refl, He. }
  repeat split.
  - exists dev1. repeat split; trivial.
    unfold devices, dev1, update_link. cbn [links]. now apply map_update_nth.
  - unfold xlink_disconnect.
    assert (Hidx1 : link_index_by_sw_device_id dev1 (sw_device_id (link_handle (le_link e)))
                    = Some n).
    { apply (link_is_first _ _ _ _ Hn1); [reflexivity|].
      intros m b Hm. unfold dev1, update_link. cbn [links].
      rewrite nth_error_update_nth.
      destruct (Nat.eqb_spec m n) as [->|_]; [lia|]. intros Hb.
      fold (entry_device e). rewrite Hid. now apply (Hfirst m). }
    rewrite Hidx1, Hn1. cbn [le_refcount set_entry_refcount].
    destruct (Z.eqb_spec (le_refcount e + 1 - 1) 0) as [H0|_]; [lia|].
    f_equal. f_equal. unfold dev1, update_link. cbn [links nmb_connected_links].
    rewrite update_nth_twice.
    rewrite (update_nth_same n _ (links dev) e He); [now destruct dev|].
    unfold set_entry_refcount. cbn [le_link le_refcount].
    destruct e as [lk rc]. cbn. f_equal. lia.
Qed.

Lemma next_link_found (dev : xlink_dev) (n : nat) :
  get_next_link dev = Some n ->
  exists e, nth_error (links dev) n = Some e
    /\ entry_device e = XLINK_INVALID_SW_DEVICE_ID
    /\ forall m b, (m < n)%nat -> nth_error (links dev) m = Some b ->
         entry_device b <> XLINK_INVALID_SW_DEVICE_ID.
Proof. apply link_found. Qed.

(** The device [r_cleanup] of [xlink_connect] leaves. *)
Lemma connect_cleanup (dev : xlink_dev) (h : xlink_handle) (n : nat) (count : Z) :
  link_index_by_sw_device_id dev (sw_device_id h) = None ->
  get_next_link dev = Some n ->
  let dev' := update_link n invalidate
                (set_nmb_connected_links count
                   (update_link n (set_entry_handle h 1) dev)) in
  get_next_link dev' = Some n
  /\ link_index_by_sw_device_id dev' (sw_device_id h) = None
  /\ devices dev' = devices dev
  /\ nmb_connected_links dev' = count.
Proof.
  intros Hnone Hnext dev'.
  destruct (next_link_found _ _ Hnext) as (e & He & Hfree & Hfirst).
  assert (Hlinks : links dev'
                   = update_nth n (fun a => invalidate (set_entry_handle h 1 a))
                       (links dev))
    by (unfold dev', update_link; cbn [links]; apply update_nth_twice).
  assert (Hn : nth_error (links dev') n
               = Some (invalidate (set_entry_handle h 1 e)))
    by (rewrite Hlinks, nth_error_update_nth, Nat.eqb_refl, He; reflexivity).
  assert (Hother : forall m, m <> n -> nth_error (links dev') m = nth_error (links dev) m).
  { intros m Hm. rewrite Hlinks, nth_error_update_nth.
    now destruct (Nat.eqb_spec m n). }
  repeat split.
  - apply (link_is_first _ _ _ _ Hn); [reflexivity|].
    intros m b Hm. rewrite Hother by lia. now apply Hfirst.
  - apply link_not_found. intros m b.
    destruct (Nat.eq_dec m n) as [->|Hm].
    + rewrite Hn. intros [= <-]. cbn. intros Heq.
      apply (proj1 (link_not_found _ _) Hnone n e He). congruence.
    + rewrite Hother by exact Hm. now apply link_not_found.
  - unfold devices. rewrite Hlinks. apply map_update_nth.
    intros a Ha. assert (a = e) by congruence. subst a. now rewrite Hfree.
Qed.

(** X27: what a failed connect leaves behind.  When the platform has
    connected the device and the start of the dispatcher or the connect of
    the multiplexer then fails, [xlink_connect] returns X_LINK_ERROR and
    gives the link back (it is free again, it is the link the next connect
    takes, and no link holds the device), but the count
    [nmb_connected_links] stays incremented, and a dispatcher that was
    started is not stopped. *)
Theorem failed_connect_keeps_the_count_of_links (ce : connect_env) (dev : xlink_dev)
    (xmux : option multiplexer) (h : xlink_handle) (n : nat) :
  link_index_by_sw_device_id dev (sw_device_id h) = None ->
  get_next_link dev = Some n ->
  platform_connect_result ce = 0 ->
  lr_rc (xlink_connect ce (Some dev) xmux (Some h)) <> X_LINK_SUCCESS ->
  let r := xlink_connect ce (Some dev) xmux (Some h) in
  lr_rc r = X_LINK_ERROR
  /\ (exists t,
        lr_trace r
        = Platform_connect (get_interface_from_sw_device_id (sw_device_id h))
            (sw_device_id h) :: t
        /\ forall d, ~ In (Dispatcher_stop d) t)
  /\ exists dev',
       lr_xlink r = Some dev'
       /\ get_next_link dev' = Some n
       /\ link_index_by_sw_device_id dev' (sw_device_id h) = None
       /\ devices dev' = devices dev
       /\ nmb_connected_links dev' = u32 (nmb_connected_links dev + 1).
Proof.
  intros Hnone Hnext Hplat. cbv zeta.
  pose proof (connect_cleanup dev h n (u32 (nmb_connected_links dev + 1)) Hnone Hnext)
    as Hclean. cbv zeta in Hclean.
  unfold xlink_connect. rewrite Hnone, Hnext, Hplat. cbn [Z.eqb negb].
  assert (Hmux : forall d t, ~ In (Dispatcher_stop d) (map Multiplexer_call t)).
  { intros d t Hin. apply in_map_iff in Hin. now destruct Hin as (k & [=] & _). }
  destruct (negb (interface_eqb _ IPC_INTERFACE)); cbn [andb].
  - destruct (negb (dispatcher_start_result ce =? 0)).
    + intros _. cbn. split; [reflexivity|]. split; [|eauto].
      eexists. split; [reflexivity|]. intros d [[=]|[]].
    + destruct (xlink_multiplexer_connect _ _ _ _) as [[rc xmux'] t].
      destruct rc; cbn; intros Hrc; try congruence;
        (split; [reflexivity|]); (split; [|eauto]);
        (eexists; split; [reflexivity|]); intros d [[=]|Hin];
        now apply (Hmux d t).
  - destruct (xlink_multiplexer_connect _ _ _ _) as [[rc xmux'] t].
    destruct rc; cbn; intros Hrc; try congruence;
      (split; [reflexivity|]); (split; [|eauto]);
      (eexists; split; [reflexivity|]); intros d; apply Hmux.
Qed.

(** X28: the last disconnect.  When the link of the device holds its
    last reference and the dispatcher stops, [xlink_disconnect] returns
    X_LINK_SUCCESS; afterwards no link holds the device (the API finds no
    link for the handle), a link is free, the count of connected links is
    one lower, and no channel of the link has an open-channel object. *)
Theorem last_disconnect_unlinks_the_device (ce : connect_env) (dev : xlink_dev)
    (x : multiplexer) (h : xlink_handle) (n : nat) (e : link_entry) :
  distinct_devices dev ->
  sw_device_id h <> XLINK_INVALID_SW_DEVICE_ID ->
  link_index_by_sw_device_id dev (sw_device_id h) = Some n ->
  nth_error (links dev) n = Some e ->
  le_refcount e = 1 ->
  dispatcher_stop_result ce = 0 ->
  exists dev' x' t,
    xlink_disconnect ce (Some dev) (Some x) (Some h)
    = link_done X_LINK_SUCCESS (Some h) (Some dev') (Some x') t
    /\ no_link (Some (link_table dev')) (Some h)
    /\ link_index_by_sw_device_id dev' (sw_device_id h) = None
    /\ get_next_link dev' <> None
    /\ nmb_connected_links dev' = u32 (nmb_connected_links dev - 1)
    /\ (forall c, 0 <= c < NMB_CHANNELS ->
          get_channel x' (link_id (le_link e)) c = None)
    /\ (forall l c, l <> link_id (le_link e) -> x' l c = x l c).
Proof.
  intros Hdev Hvalid Hidx He Hcount Hstop.
  destruct (link_found _ _ _ Hidx) as (e0 & He0 & Hid & Hfirst).
  assert (e0 = e) by congruence. subst e0.
  unfold xlink_disconnect. rewrite Hidx, He, Hcount, Hstop. cbn [Z.sub Z.eqb Z.opp Z.add Z.pos_sub negb].
  rewrite andb_false_r.
  unfold xlink_multiplexer_disconnect.
  destruct (disconnect_channels_spec (Z.to_nat NMB_CHANNELS) x (link_id (le_link e)) 0)
    as (Hin & Hout & _).
  destruct (disconnect_channels _ x _ 0) as [x' t]. cbn [fst snd] in *.
  set (dev' := set_nmb_connected_links _ _).
  exists dev', x'. eexists. split; [reflexivity|].
  assert (Hlinks : links dev'
                   = update_nth n (fun a => invalidate (set_entry_refcount 0 a))
                       (links dev))
    by (unfold dev', update_link; cbn [links]; apply update_nth_twice).
  assert (Hn : nth_error (links dev') n
               = Some (invalidate (set_entry_refcount 0 e)))
    by (rewrite Hlinks, nth_error_update_nth, Nat.eqb_refl, He; reflexivity).
  assert (Hother : forall m, m <> n -> nth_error (links dev') m = nth_error (links dev) m).
  { intros m Hm. rewrite Hlinks, nth_error_update_nth.
    now destruct (Nat.eqb_spec m n). }
  assert (Hgone : forall m b, nth_error (links dev') m = Some b ->
                    entry_device b <> sw_device_id h).
  { intros m b. destruct (Nat.eq_dec m n) as [->|Hm].
    - rewrite Hn. intros [= <-]. cbn. congruence.
    - rewrite Hother by exact Hm. intros Hb Heq. apply Hm.
      apply (Hdev m n b e Hb He); congruence. }
  split; [|split; [|split; [|split; [|split]]]].
  - cbn. unfold get_link_by_sw_device_id, link_table. apply find_map_none.
    intros m b Hb. apply Z.eqb_neq. now apply (Hgone m).
  - now apply link_not_found.
  - intros Hfree. apply (proj1 (link_not_found _ _) Hfree n _ Hn). reflexivity.
  - reflexivity.
  - intros c Hc. unfold get_channel. rewrite Hin by lia. reflexivity.
  - intros l c Hl. apply Hout. now left.
Qed.

Lemma distinct_count (dev : xlink_dev) (count : Z) :
  distinct_devices dev -> distinct_devices (set_nmb_connected_links count dev).
Proof. intros H. exact H. Qed.

Lemma length_update_link (dev : xlink_dev) (n : nat) (f : link_entry -> link_entry) :
  length (links (update_link n f dev)) = length (links dev).
Proof. apply length_update_nth. Qed.

(** X29: the table of links never holds a device twice.  If no two links
    hold the same device (the free links apart), the same is true of the
    table [xlink_connect] and [xlink_disconnect] leave, whatever they
    return, and the table keeps its number of links. *)
Theorem links_hold_distinct_devices (ce : connect_env) (dev : xlink_dev)
    (xmux : option multiplexer) (handle : option xlink_handle) :
  distinct_devices dev ->
  (forall dev', lr_xlink (xlink_connect ce (Some dev) xmux handle) = Some dev' ->
     distinct_devices dev' /\ length (links dev') = length (links dev))
  /\ (forall dev', lr_xlink (xlink_disconnect ce (Some dev) xmux handle) = Some dev' ->
        distinct_devices dev' /\ length (links dev') = length (links dev)).
Proof.
  intros Hdev.
  assert (Hcount : forall n e, nth_error (links dev) n = Some e -> forall k,
            distinct_devices (update_link n (set_entry_refcount k) dev))
    by (intros n e He k; apply distinct_update; auto).
  assert (Hfree : forall n d, distinct_devices d ->
            distinct_devices (update_link n invalidate d))
    by (intros n d Hd; apply distinct_update; auto).
  split; intros dev'.
  - unfold xlink_connect. destruct handle as [h|]; [|now intros [= <-]].
    destruct (link_index_by_sw_device_id dev (sw_device_id h)) as [n|] eqn:Hidx.
    + destruct (nth_error (links dev) n) as [e|] eqn:He; [|now intros [= <-]].
      intros [= <-]. split; [now apply (Hcount n e)|apply length_update_link].
    + destruct (get_next_link dev) as [n|] eqn:Hnext; [|now intros [= <-]].
      destruct (negb (platform_connect_result ce =? 0)); [now intros [= <-]|].
      set (dev1 := set_nmb_connected_links _ _).
      assert (Hdev1 : distinct_devices dev1).
      { apply distinct_count, distinct_update; [exact Hdev|].
        intros e He. right. right. intros m b Hb. cbn.
        now apply (proj1 (link_not_found _ _) Hidx m). }
      assert (Hlen : length (links dev1) = length (links dev))
        by apply length_update_link.
      assert (Hclean : distinct_devices (update_link n invalidate dev1)
                       /\ length (links (update_link n invalidate dev1))
                          = length (links dev))
        by (split; [now apply Hfree|now rewrite length_update_link]).
      destruct (_ && _); [now intros [= <-]|].
      destruct (xlink_multiplexer_connect _ _ _ _) as [[rc xmux'] t].
      destruct rc; intros [= <-]; auto.
  - unfold xlink_disconnect. destruct handle as [h|]; [|now intros [= <-]].
    destruct (link_index_by_sw_device_id dev (sw_device_id h)) as [n|];
      [|now intros [= <-]].
    destruct (nth_error (links dev) n) as [e|] eqn:He; [|now intros [= <-]].
    set (dev1 := update_link n _ dev).
    assert (Hdev1 : distinct_devices dev1) by now apply (Hcount n e).
    assert (Hlen : length (links dev1) = length (links dev))
      by apply length_update_link.
    destruct (_ =? 0); [|now intros [= <-]].
    destruct (_ && _); [now intros [= <-]|].
    destruct (xlink_multiplexer_disconnect xmux _) as [[rc xmux'] t].
    destruct rc; intros [= <-]; auto.
    split; [now apply distinct_count, Hfree|].
    cbn [links set_nmb_connected_links]. now rewrite length_update_link.
Qed.

(** X30: a connect with the id XLINK_INVALID_SW_DEVICE_ID connects
    nothing.  The search for the link of the device finds the first free
    link, so [xlink_connect] takes the branch of a device that is already
    connected: it returns X_LINK_SUCCESS when a link is free (X_LINK_ERROR
    otherwise) without calling the platform, the dispatcher or the
    multiplexer, and the devices of the table and the count of connected
    links are as before. *)
Theorem connect_with_the_invalid_device_id (ce : connect_env) (dev : xlink_dev)
    (xmux : option multiplexer) (h : xlink_handle) :
  sw_device_id h = XLINK_INVALID_SW_DEVICE_ID ->
  let r := xlink_connect ce (Some dev) xmux (Some h) in
  lr_trace r = [] /\ lr_xmux r = xmux
  /\ lr_rc r = match get_next_link dev with
               | Some _ => X_LINK_SUCCESS
               | None => X_LINK_ERROR
               end
  /\ exists dev',
       lr_xlink r = Some dev' /\ devices dev' = devices dev
       /\ nmb_connected_links dev' = nmb_connected_links dev.
Proof.
  intros Hid. cbv zeta. unfold xlink_connect. rewrite Hid.
  change (link_index_by_sw_device_id dev XLINK_INVALID_SW_DEVICE_ID)
    with (get_next_link dev).
  destruct (get_next_link dev) as [n|] eqn:Hnext; [|cbn; eauto 7].
  destruct (next_link_found _ _ Hnext) as (e & He & _). rewrite He. cbn.
  repeat split. eexists. split; [reflexivity|]. split; [|reflexivity].
  unfold devices. cbn [links update_link]. now apply map_update_nth.
Qed.

End LinkProperties.

(** * The further properties on the sample states *)

Lemma registered_buffer_round_trip_witness :
  let q := [ {| ra_virt := 0x1000; ra_paddr := 0x9000 |} ] in
  kzalloc_ok sample_env = true
  /\ (forall rmt, In rmt q -> ra_paddr rmt <> 0xA000)
  /\ exists q',
       register_allocated_buffer sample_env q 0x2000 0xA000 = (X_LINK_SUCCESS, q')
       /\ find_allocated_buffer q' 0xA000 = 0x2000
       /\ find_allocated_buffer q' 0x9000 = 0x1000
       /\ unregister_allocated_buffer q' 0x2000 0xA000 = (X_LINK_SUCCESS, q).
Proof.
  intros q.
  assert (Hfresh : forall rmt, In rmt q -> ra_paddr rmt <> 0xA000)
    by (intros rmt [<-|[]]; cbn; discriminate).
  split; [reflexivity|]. split; [exact Hfresh|].
  destruct (registered_buffer_round_trip sample_env q 0x2000 0xA000 eq_refl Hfresh)
    as (q' & Hreg & Hfind & Hother & Hunreg).
  exists q'. repeat split; trivial.
  rewrite Hother by discriminate. reflexivity.
Defined.

Lemma channel_table_lookup_witness :
  0xFFF < NMB_CHANNELS
  /\ is_passthru_channel 0x3FF = Some true
  /\ is_passthru_channel 0x400 = Some false
  /\ get_channel_type 0x1000 = None.
Proof.
  assert (Hsize : 0xFFF < NMB_CHANNELS) by reflexivity.
  split; [exact Hsize|].
  destruct (channel_table_lookup 0x3FF Hsize) as (_ & Hrelayed & _).
  destruct (channel_table_lookup 0x400 Hsize) as (_ & _ & Hdirect & _).
  destruct (channel_table_lookup 0x1000 Hsize) as (Htyped & _).
  split; [apply Hrelayed; lia|]. split; [apply Hdirect; lia|].
  destruct (get_channel_type 0x1000) eqn:Htype; [|reflexivity].
  assert (0 <= 0x1000 <= 0xFFF) by (apply Htyped; discriminate). lia.
Defined.

Lemma connect_opens_the_control_channels_witness :
  IP_CONTROL_CHANNEL <> VPU_CONTROL_CHANNEL
  /\ object_ready sample_env empty_multiplexer 0 IP_CONTROL_CHANNEL = true
  /\ object_ready sample_env empty_multiplexer 0 VPU_CONTROL_CHANNEL = true
  /\ exists x',
       xlink_multiplexer_connect sample_env sample_env (Some empty_multiplexer) 0
       = (X_LINK_SUCCESS, Some x', [Kzalloc_opchan true; Kzalloc_opchan true])
       /\ chan_status (x' 0 0xA) = CHAN_OPEN
       /\ chan_status (x' 0 0x400) = CHAN_OPEN
       /\ chan_size (x' 0 0x400) = 128
       /\ x' 0 0x401 = closed_channel.
Proof.
  assert (Hne : IP_CONTROL_CHANNEL <> VPU_CONTROL_CHANNEL) by discriminate.
  split; [exact Hne|]. split; [reflexivity|]. split; [reflexivity|].
  destruct (connect_opens_the_control_channels sample_env sample_env
              empty_multiplexer 0 Hne eq_refl eq_refl) as (x' & Hcall & Hin & Hout).
  exists x'. split; [exact Hcall|].
  destruct (Hin 0xA (or_introl eq_refl)) as (_ & _ & Hip & _).
  destruct (Hin 0x400 (or_intror eq_refl)) as (_ & _ & Hvpu & _ & Hsize & _).
  repeat split; trivial.
  apply Hout. right. split; discriminate.
Defined.

Lemma failed_connect_frees_the_link_witness :
  IP_CONTROL_CHANNEL <> VPU_CONTROL_CHANNEL
  /\ object_ready sample_env empty_multiplexer 0 IP_CONTROL_CHANNEL
     && object_ready out_of_memory empty_multiplexer 0 VPU_CONTROL_CHANNEL = false
  /\ exists x' t,
       xlink_multiplexer_connect sample_env out_of_memory (Some empty_multiplexer) 0
       = (X_LINK_ERROR, Some x', t)
       /\ get_channel x' 0 IP_CONTROL_CHANNEL = None.
Proof.
  assert (Hne : IP_CONTROL_CHANNEL <> VPU_CONTROL_CHANNEL) by discriminate.
  split; [exact Hne|]. split; [reflexivity|].
  destruct (failed_connect_frees_the_link sample_env out_of_memory
              empty_multiplexer 0 Hne eq_refl) as (x' & t & Hcall & _ & Hfree & _).
  exists x', t. split; [exact Hcall|]. apply Hfree. split; [discriminate|reflexivity].
Defined.
Lemma channel_open_at_disconnect_is_stuck_witness :
  let x := sample_channel RXN_TXN 4096 0 (new_open_channel 0x401) in
  let write := sample_event XLINK_WRITE_REQ 0x401 10 0 0x7000 in
  tx_channel_valid write = true /\ tx_by_passthrough write = false
  /\ chan_status (x 0 0x401) = CHAN_OPEN
  /\ exists x' t,
       xlink_multiplexer_disconnect (Some x) 0 = (X_LINK_SUCCESS, Some x', t)
       /\ chan_status (x' 0 0x401) = CHAN_OPEN
       /\ xlink_multiplexer_tx sample_env [] write x'
          = tx_done X_LINK_COMMUNICATION_FAIL false write x' [].
Proof.
  intros x write.
  assert (Hvalid : tx_channel_valid write = true) by reflexivity.
  assert (Hdirect : tx_by_passthrough write = false) by reflexivity.
  assert (Hopen : chan_status (x 0 0x401) = CHAN_OPEN) by reflexivity.
  split; [exact Hvalid|]. split; [exact Hdirect|]. split; [exact Hopen|].
  destruct (channel_open_at_disconnect_is_stuck sample_env [] write x
              Hvalid Hdirect Hopen) as (x' & t & Hcall & _ & Hstill & Htx).
  exists x', t. auto.
Defined.


Lemma relay_open_close_witness :
  let open := relay_event XLINK_OPEN_CHANNEL_REQ 4096 0 1 in
  let close := relay_event XLINK_CLOSE_CHANNEL_REQ 0 0 0 in
  @CONFIG_XLINK_LOCAL_HOST local_host_constants = true
  /\ ev_chan open < @XLINK_IPC_MAX_CHANNELS local_host_constants
  /\ chan_ipc_status (relay_open 0 0x20) = CHAN_OPEN
  /\ chan_size (relay_open 0 0x20) = 4096
  /\ Relay.xlink_passthrough (K := local_host_constants) sample_relay_env open
       relay_open
     = (Ret X_LINK_ALREADY_OPEN, open, relay_open, [])
  /\ Relay.xlink_passthrough (K := local_host_constants) sample_relay_env close
       empty_multiplexer
     = (Ret X_LINK_ERROR, close, empty_multiplexer, []).
Proof.
  intros open close. split; [reflexivity|]. split; [reflexivity|].
  destruct (relay_open_close (K := local_host_constants) sample_relay_env open
              empty_multiplexer eq_refl eq_refl)
    as (_ & _ & _ & _ & Hboth).
  destruct (Hboth eq_refl eq_refl eq_refl) as (Hopen & _).
  destruct (relay_open_close (K := local_host_constants) sample_relay_env open
              relay_open eq_refl eq_refl) as (Hagain & _).
  destruct (relay_open_close (K := local_host_constants) sample_relay_env close
              empty_multiplexer eq_refl eq_refl) as (_ & _ & Hclosed & _).
  split; [exact Hopen|]. split; [reflexivity|].
  split.
  - apply Hagain. intros Hstatus. vm_compute in Hstatus. discriminate Hstatus.
  - apply Hclosed. intros Hstatus. vm_compute in Hstatus. discriminate Hstatus.
Defined.

Lemma relay_read_timeout_witness :
  let read := relay_event XLINK_READ_REQ 0 0 0 in
  @CONFIG_XLINK_LOCAL_HOST local_host_constants = true
  /\ ev_chan read < @XLINK_IPC_MAX_CHANNELS local_host_constants
  /\ chan_ipc_status (relay_open 0 0x20) = CHAN_OPEN
  /\ is_read_request (ev_type read) = true
  /\ Relay.xlink_passthrough (K := local_host_constants) sample_relay_env read
       relay_open
     = (Ret X_LINK_SUCCESS, set_ev_result 0x4000000 64 read, relay_open,
        [Relay_read 1 0x20 (Local_vpuaddr 0) 0 false]).
Proof.
  intros read. split; [reflexivity|]. split; [reflexivity|]. split; [reflexivity|].
  split; [reflexivity|].
  destruct (relay_read_timeout (K := local_host_constants) sample_relay_env read
              relay_open eq_refl eq_refl eq_refl (or_introl eq_refl))
    as (_ & Hread).
  exact (Hread (or_introl eq_refl)).
Defined.

Lemma relay_read_to_buffer_witness :
  let read := relay_event XLINK_PASSTHRU_READ_TO_BUFFER_REQ 32 0 0 in
  @CONFIG_XLINK_LOCAL_HOST local_host_constants = true
  /\ ev_chan read < @XLINK_IPC_MAX_CHANNELS local_host_constants
  /\ chan_ipc_status (relay_open 0 0x20) = CHAN_OPEN
  /\ Relay.xlink_passthrough (K := local_host_constants) sample_relay_env read
       relay_open
     = (Ret X_LINK_SUCCESS, set_ev_result 0 64 (set_ev_buffer 0x5000 0 read),
        relay_open,
        [Relay_allocate 128 0x5000 0xD000;
         Relay_read 1 0x20 (Event_data 0x5000) 0 true]).
Proof.
  intros read. split; [reflexivity|]. split; [reflexivity|]. split; [reflexivity|].
  pose proof (relay_read_to_buffer (K := local_host_constants) sample_relay_env read
                relay_open eq_refl eq_refl eq_refl) as Hread.
  cbv zeta in Hread. cbn [relay_read_result relay_allocate_result sample_relay_env]
    in Hread.
  destruct Hread as (_ & Hread). exact (Hread eq_refl).
Defined.

Lemma api_needs_a_connected_device_witness :
  let stranger := {| sw_device_id := 7; dev_type := HOST_DEVICE |} in
  let x := sample_channel RXN_TXN 4096 0 (new_open_channel 0x401) in
  no_link (Some sample_link_table) (Some stranger)
  /\ xlink_open_channel sample_core_env (Some sample_link_table) (Some stranger)
       0x401 1 4096 0 x = core_error x []
  /\ xlink_read_data sample_core_env None (Some stranger) 0x401 0 0 x
     = Done (Ret X_LINK_ERROR, (0, 0), x, []).
Proof.
  intros stranger x.
  assert (Hnone : no_link (Some sample_link_table) (Some stranger)) by reflexivity.
  split; [exact Hnone|].
  destruct (api_needs_a_connected_device sample_core_env
              {| get_user_result := None; copy_from_user_ok := false; addr_cell := 0 |}
              (Some sample_link_table) (Some stranger) 0x401 1 4096 0 x Hnone)
    as (Hopen & _).
  destruct (api_needs_a_connected_device sample_core_env
              {| get_user_result := None; copy_from_user_ok := false; addr_cell := 0 |}
              None (Some stranger) 0x401 0 0 0 x I)
    as (_ & _ & _ & _ & _ & _ & Hread & _).
  split; [exact Hopen|exact Hread].
Defined.
Lemma registered_ready_callback_is_delivered_witness :
  let h := {| sw_device_id := 1; dev_type := HOST_DEVICE |} in
  let link := {| link_id := 0; link_handle := h |} in
  let o := new_open_channel 0x401 in
  let x := sample_channel RXN_TXN 4096 0 o in
  let write := sample_event XLINK_WRITE_REQ 0x401 100 0 0 in
  let en := receive_env 0x1000 100 in
  let from_user :=
    mux_after_core
      (xlink_data_available_event sample_core_env (Some sample_link_table) (Some h)
         (CHANNEL_SET_USER_BIT 0x401) 0xC0DE 0x77 x) x in
  0 <= 0x401 < 2 ^ 15
  /\ get_link_by_sw_device_id sample_link_table (sw_device_id h) = Some link
  /\ usable_channel link 0x401 = true
  /\ get_channel x 0 0x401 = Some o
  /\ chan_is_non_blocking_read (x 0 0x401) = true
  /\ received en write
  /\ get_channel from_user 0 0x401 = Some (set_ready 0xC0DE 0x77 "U" o)
  /\ exists t, existsb is_callback_delivery t = false
               /\ rx_calls en write from_user = t ++ [Send_sig_info 0x77 0x401 0xC0DE].
Proof.
  intros h link o x write en from_user.
  assert (Hchan : 0 <= 0x401 < 2 ^ 15) by (split; [discriminate|reflexivity]).
  assert (Hlink : get_link_by_sw_device_id sample_link_table (sw_device_id h)
                  = Some link) by reflexivity.
  assert (Husable : usable_channel link 0x401 = true) by reflexivity.
  assert (Hget : get_channel x (link_id link) 0x401 = Some o) by reflexivity.
  assert (Hopen : chan_status (x (link_id link) 0x401) = CHAN_OPEN) by reflexivity.
  assert (Hmode : chan_is_non_blocking_read (x (link_id link) 0x401) = true)
    by reflexivity.
  assert (Hrecv : received en write)
    by (split; [discriminate|split; reflexivity]).
  destruct (registered_ready_callback_is_delivered sample_core_env en
              sample_link_table h link 0x401 0xC0DE 0x77 write x o
              Hchan Hlink eq_refl Husable Hget Hopen Hmode (or_introl eq_refl)
              eq_refl eq_refl Hrecv ltac:(discriminate) ltac:(discriminate))
    as (Huser & _ & _ & Hsignal & _).
  split; [exact Hchan|]. split; [exact Hlink|]. split; [exact Husable|].
  split; [exact Hget|]. split; [exact Hmode|]. split; [exact Hrecv|].
  split; [exact Huser|exact Hsignal].
Defined.

Lemma callbacks_share_one_origin_witness :
  let h := {| sw_device_id := 1; dev_type := HOST_DEVICE |} in
  let link := {| link_id := 0; link_handle := h |} in
  let o := new_open_channel 0x401 in
  let x := sample_channel RXN_TXN 4096 0 o in
  let write := sample_event XLINK_WRITE_REQ 0x401 100 0 0 in
  let en := receive_env 0x1000 100 in
  let x1 :=
    mux_after_core
      (xlink_data_available_event sample_core_env (Some sample_link_table) (Some h)
         (CHANNEL_SET_USER_BIT 0x401) 0xC0DE 0x77 x) x in
  let x2 :=
    mux_after_core
      (xlink_data_consumed_event sample_core_env (Some sample_link_table) (Some h)
         0x401 0xD00D 0x88 x1) x1 in
  0 <= 0x401 < 2 ^ 15
  /\ get_link_by_sw_device_id sample_link_table (sw_device_id h) = Some link
  /\ usable_channel link 0x401 = true
  /\ get_channel x 0 0x401 = Some o
  /\ received en write
  /\ exists t, existsb is_callback_delivery t = false
               /\ rx_calls en write x2 = t ++ [Call_function 0xC0DE 0x401].
Proof.
  intros h link o x write en x1 x2.
  assert (Hchan : 0 <= 0x401 < 2 ^ 15) by (split; [discriminate|reflexivity]).
  assert (Hlink : get_link_by_sw_device_id sample_link_table (sw_device_id h)
                  = Some link) by reflexivity.
  assert (Husable : usable_channel link 0x401 = true) by reflexivity.
  assert (Hget : get_channel x (link_id link) 0x401 = Some o) by reflexivity.
  assert (Hopen : chan_status (x (link_id link) 0x401) = CHAN_OPEN) by reflexivity.
  assert (Hmode : chan_is_non_blocking_read (x (link_id link) 0x401) = true)
    by reflexivity.
  assert (Hrecv : received en write)
    by (split; [discriminate|split; reflexivity]).
  destruct (callbacks_share_one_origin sample_core_env en
              sample_link_table h link 0x401 0xC0DE 0xD00D 0x77 0x88 write x o
              Hchan Hlink eq_refl Husable Hget Hopen Hmode (or_introl eq_refl)
              eq_refl eq_refl Hrecv ltac:(discriminate) ltac:(discriminate))
    as (_ & Hcall).
  split; [exact Hchan|]. split; [exact Hlink|]. split; [exact Husable|].
  split; [exact Hget|]. split; [exact Hrecv|]. exact Hcall.
Defined.

Lemma read_completion_runs_consumed_callback_witness :
  let o := set_consumed 0xD00D 0x88 "K" (new_open_channel 0x401) in
  let x := sample_channel RXN_TXN 4096 0 o in
  let read := sample_event XLINK_READ_REQ 0x401 0 0 0 in
  is_read_request (ev_type read) = true
  /\ get_channel x 0 0x401 = Some o
  /\ exists response,
       xlink_multiplexer_rx sample_env read x
       = Done {| rx_rc := Ret X_LINK_SUCCESS; rx_mux := x;
                 rx_trace := [Dispatcher_event_add EVENT_RX response;
                              Complete 0x401 Sig_pkt_consumed;
                              Call_function 0xD00D 0x401] |}.
Proof.
  intros o x read.
  assert (Hget : get_channel x (ev_link_id read) (ev_chan read) = Some o)
    by reflexivity.
  split; [reflexivity|]. split; [exact Hget|].
  eexists.
  exact (read_completion_runs_consumed_callback sample_env read x o eq_refl Hget).
Defined.

Lemma read_data_returns_the_oldest_packet_witness :
  let h := {| sw_device_id := 1; dev_type := HOST_DEVICE |} in
  let link := {| link_id := 0; link_handle := h |} in
  let x := sample_channel RXN_TXN 4096 0 full_rx_queue in
  get_link_by_sw_device_id sample_link_table (sw_device_id h) = Some link
  /\ usable_channel link 0x401 = true
  /\ get_channel x 0 0x401 = Some full_rx_queue
  /\ chan_is_non_blocking_read (x 0 0x401) = true
  /\ exists t,
       xlink_read_data sample_core_env (Some sample_link_table) (Some h) 0x401 0 0 x
       = Done (Ret X_LINK_SUCCESS, (0x1000, 10), x, t).
Proof.
  intros h link x.
  assert (Hlink : get_link_by_sw_device_id sample_link_table (sw_device_id h)
                  = Some link) by reflexivity.
  assert (Husable : usable_channel link 0x401 = true) by reflexivity.
  assert (Hget : get_channel x (link_id link) 0x401 = Some full_rx_queue)
    by reflexivity.
  assert (Hopen : chan_status (x (link_id link) 0x401) = CHAN_OPEN) by reflexivity.
  assert (Hmode : chan_is_non_blocking_read (x (link_id link) 0x401) = true)
    by reflexivity.
  destruct (read_data_returns_the_oldest_packet sample_core_env sample_link_table
              h link 0x401 0 0 x full_rx_queue Hlink eq_refl Husable Hget Hopen Hmode)
    as (t & Hcall & _).
  split; [exact Hlink|]. split; [exact Husable|]. split; [exact Hget|].
  split; [exact Hmode|]. exists t. exact Hcall.
Defined.

Lemma release_data_frees_the_selected_packet_witness :
  let h := {| sw_device_id := 1; dev_type := HOST_DEVICE |} in
  let link := {| link_id := 0; link_handle := h |} in
  let x := sample_channel RXN_TXN 4096 0 full_rx_queue in
  get_link_by_sw_device_id sample_link_table (sw_device_id h) = Some link
  /\ usable_channel link 0x401 = true
  /\ get_channel x 0 0x401 = Some full_rx_queue
  /\ exists o' t,
       xlink_release_data sample_core_env (Some sample_link_table) (Some h)
         0x401 0x2000 x
       = Done (Ret X_LINK_SUCCESS, put_channel x 0 0x401 o', t)
       /\ q_head (rx_queue o')
          = [ {| pkt_data := 0x1000; pkt_length := 10; pkt_paddr := 0x9000 |} ]
       /\ rx_fill_level o' = 10.
Proof.
  intros h link x.
  assert (Hlink : get_link_by_sw_device_id sample_link_table (sw_device_id h)
                  = Some link) by reflexivity.
  assert (Husable : usable_channel link 0x401 = true) by reflexivity.
  assert (Hget : get_channel x (link_id link) 0x401 = Some full_rx_queue)
    by reflexivity.
  pose proof (release_data_frees_the_selected_packet sample_core_env
                sample_link_table h link 0x401 0x2000 x full_rx_queue
                Hlink eq_refl Husable Hget) as Hrelease.
  cbv zeta in Hrelease.
  change (select_packet 0x2000 (q_head (rx_queue full_rx_queue)))
    with (Some ({| pkt_data := 0x2000; pkt_length := 20; pkt_paddr := 0xA000 |},
                [ {| pkt_data := 0x1000; pkt_length := 10; pkt_paddr := 0x9000 |} ]))
    in Hrelease.
  destruct Hrelease as (o' & Hcall & Hrest & _ & Hfill & _).
  split; [exact Hlink|]. split; [exact Husable|]. split; [exact Hget|].
  exists o'. eexists. split; [exact Hcall|].
  split; [exact Hrest|]. rewrite Hfill. reflexivity.
Defined.
Lemma received_write_joins_the_tail_witness :
  let o := set_rx_queue
             {| q_count := 2; q_capacity := 3; q_head := q_head (rx_queue full_rx_queue) |}
             full_rx_queue in
  let x3 := sample_channel RXN_TXN 4096 0 o in
  let write := sample_event XLINK_WRITE_REQ 0x401 7 0 0 in
  let en := receive_env 0x3000 7 in
  is_write_request (ev_type write) = true
  /\ get_channel x3 0 0x401 = Some o
  /\ received en write
  /\ q_count (rx_queue o) < q_capacity (rx_queue o)
  /\ exists r o',
       xlink_multiplexer_rx en write x3 = Done r
       /\ get_channel (rx_mux r) 0 0x401 = Some o'
       /\ map pkt_data (q_head (rx_queue o')) = [0x1000; 0x2000; 0x3000]
       /\ rx_fill_level o' = 37.
Proof.
  intros o x3 write en.
  assert (Hget : get_channel x3 (ev_link_id write) (ev_chan write) = Some o)
    by reflexivity.
  assert (Hrecv : received en write)
    by (split; [discriminate|split; reflexivity]).
  assert (Hroom : q_count (rx_queue o) < q_capacity (rx_queue o)) by reflexivity.
  destruct (received_write_joins_the_tail en write x3 o eq_refl Hget Hrecv Hroom)
    as (r & o' & Hcall & Hmux & Hqueue & _ & Hfill & _).
  split; [reflexivity|]. split; [exact Hget|]. split; [exact Hrecv|].
  split; [exact Hroom|].
  exists r, o'. split; [exact Hcall|]. split.
  - unfold get_channel. rewrite Hmux. apply get_put_channel.
  - rewrite Hqueue, Hfill. split; reflexivity.
Defined.

Lemma failed_receive_gives_the_buffer_back_witness :
  let x := sample_channel RXN_TXN 4096 0 (new_open_channel 0x401) in
  let write := sample_event XLINK_WRITE_REQ 0x401 7 0 0 in
  let short_read :=
    {| kzalloc_ok := true; allocate_result := (0x3000, 0xB000);
       read_result := (0, 5); send_sig_result := 0 |} in
  is_write_request (ev_type write) = true
  /\ get_channel x 0 0x401 = Some (new_open_channel 0x401)
  /\ xlink_multiplexer_rx out_of_memory write x
     = rx_done X_LINK_ERROR x [Platform_allocate 7 XLINK_NORMAL_MEMORY 0 0]
  /\ xlink_multiplexer_rx short_read write x
     = rx_done X_LINK_ERROR x
         [Platform_allocate 7 XLINK_NORMAL_MEMORY 0x3000 0xB000;
          Platform_read PCIE_INTERFACE 1 0x3000 7 0;
          Platform_deallocate 0x3000 0xB000 7 XLINK_NORMAL_MEMORY].
Proof.
  intros x write short_read.
  assert (Hget : get_channel x (ev_link_id write) (ev_chan write)
                 = Some (new_open_channel 0x401)) by reflexivity.
  destruct (failed_receive_gives_the_buffer_back out_of_memory write x
              (new_open_channel 0x401) eq_refl Hget) as (Hnull & _).
  destruct (failed_receive_gives_the_buffer_back short_read write x
              (new_open_channel 0x401) eq_refl Hget) as (_ & Hshort & _).
  split; [reflexivity|]. split; [exact Hget|]. split.
  - exact (Hnull eq_refl).
  - apply Hshort; [discriminate|reflexivity|discriminate].
Defined.


Lemma write_and_peer_release_restore_tx_levels_witness :
  let o := sample_opchan 500 2 0 in
  let x := sample_channel RXN_TXN 4096 0 o in
  let write := sample_event XLINK_WRITE_REQ 0x401 100 0 0x7000 in
  let release := sample_event XLINK_RELEASE_REQ 0x401 100 0 0 in
  tx_channel_valid write = true /\ tx_by_passthrough write = false
  /\ get_channel x 0 0x401 = Some o
  /\ tx_blocking (chan_mode (x 0 0x401)) = false
  /\ exists r r' o1 o2,
       xlink_multiplexer_tx sample_env [] write x = Done r
       /\ get_channel (tx_mux r) 0 0x401 = Some o1
       /\ tx_fill_level o1 = 600 /\ tx_packet_level o1 = 3
       /\ xlink_multiplexer_rx sample_env release (tx_mux r) = Done r'
       /\ get_channel (rx_mux r') 0 0x401 = Some o2
       /\ tx_fill_level o2 = 500 /\ tx_packet_level o2 = 2.
Proof.
  intros o x write release.
  assert (Hvalid : tx_channel_valid write = true) by reflexivity.
  assert (Hdirect : tx_by_passthrough write = false) by reflexivity.
  assert (Hget : get_channel x (ev_link_id write) (ev_chan write) = Some o)
    by reflexivity.
  assert (Hopen : chan_status (x (ev_link_id write) (ev_chan write)) = CHAN_OPEN)
    by reflexivity.
  assert (Htype : is_passthru_channel (ev_chan write) = Some false) by reflexivity.
  assert (Hspace : fst (is_enough_space_in_channel
                          (x (ev_link_id write) (ev_chan write)) o (ev_size write))
                   = true) by reflexivity.
  assert (Hmode : tx_blocking (chan_mode (x (ev_link_id write) (ev_chan write)))
                  = false) by reflexivity.
  assert (Hfill : - 2 ^ 31 <= tx_fill_level o < 2 ^ 31)
    by (split; [discriminate|reflexivity]).
  assert (Hpkts : - 2 ^ 31 <= tx_packet_level o < 2 ^ 31)
    by (split; [discriminate|reflexivity]).
  destruct (write_and_peer_release_restore_tx_levels sample_env sample_env [] write
              release x o Hvalid Hdirect eq_refl Hget Hopen Htype Hspace Hmode
              Hfill Hpkts eq_refl eq_refl eq_refl eq_refl)
    as (r & r' & o' & Htx & _ & _ & Hafter & Hrx & _ & _ & Hget' & Hf & Hp & _).
  split; [exact Hvalid|]. split; [exact Hdirect|]. split; [exact Hget|].
  split; [exact Hmode|].
  exists r, r'. eexists. exists o'.
  split; [exact Htx|]. split; [exact Hafter|].
  split; [reflexivity|]. split; [reflexivity|].
  split; [exact Hrx|]. split; [exact Hget'|].
  rewrite Hf, Hp. split; reflexivity.
Defined.

Lemma sample_passthrough_keeps_shape :
  passthrough_keeps (K := kmb_defs) (every_object object_shape).
Proof. intros event x Hx. exact Hx. Qed.

Lemma objects_keep_their_shape_witness :
  0 <= XLINK_PACKET_QUEUE_CAPACITY < 2 ^ 32
  /\ Forall (call_keeps (every_object object_shape)) sample_calls
  /\ exists o,
       get_channel (run_calls sample_calls empty_multiplexer) 0 0x20 = Some o
       /\ object_shape 0x20 o
       /\ q_count (rx_queue o) = 2.
Proof.
  assert (Hcap : 0 <= XLINK_PACKET_QUEUE_CAPACITY < 2 ^ 32)
    by (split; [discriminate|reflexivity]).
  assert (Hcalls : Forall (call_keeps (every_object object_shape)) sample_calls).
  { unfold sample_calls.
    apply Forall_cons;
      [apply Forall_cons; [intros y Hy; exact Hy|apply Forall_nil]|].
    apply Forall_cons; [split; [discriminate|reflexivity]|].
    apply Forall_cons; [split; [discriminate|reflexivity]|].
    apply Forall_cons; [split; [discriminate|reflexivity]|].
    apply Forall_cons; [apply Forall_nil|apply Forall_nil]. }
  split; [exact Hcap|]. split; [exact Hcalls|].
  eexists. split; [vm_compute; reflexivity|]. split; [|reflexivity].
  refine (proj1 (objects_keep_their_shape sample_calls empty_multiplexer Hcap
                   sample_passthrough_keeps_shape (fun _ _ => eq_refl) Hcalls
                   0 0x20 _ _)).
  vm_compute. reflexivity.
Defined.

Lemma transmit_reads_no_null_object_witness :
  let x := sample_channel RXB_TXB 4096 1000 (sample_opchan 3300 1 1) in
  let write := sample_event XLINK_WRITE_REQ 0x401 10 0 0x7000 in
  script_keeps (has_object 0 0x401) [quiet Completed; quiet Timed_out]
  /\ xlink_multiplexer_tx sample_env [quiet Completed; quiet Timed_out] write x
     <> Fault.
Proof.
  intros x write.
  assert (Hscript : script_keeps (has_object (ev_link_id write) (ev_chan write))
                      [quiet Completed; quiet Timed_out])
    by (repeat (apply Forall_cons; [intros y Hy; exact Hy|]); apply Forall_nil).
  split; [exact Hscript|].
  exact (proj1 (transmit_reads_no_null_object sample_env _ write x Hscript)).
Defined.
Lemma sample_links_distinct : distinct_devices sample_links.
Proof.
  intros [|[|[|m]]] [|[|[|m']]] e e'; cbn; trivial; try discriminate;
    try (now destruct m); try (now destruct m');
    intros [= <-] [= <-]; cbn; intros Heq Hvalid; congruence.
Qed.

Lemma connect_again_and_disconnect_cancel_witness :
  let h := {| sw_device_id := 1; dev_type := VPUIP_DEVICE |} in
  let stored := {| sw_device_id := 1; dev_type := HOST_DEVICE |} in
  let r := xlink_connect (sample_connect_env 0) (Some sample_links)
             (Some empty_multiplexer) (Some h) in
  link_index_by_sw_device_id sample_links (sw_device_id h) = Some 0%nat
  /\ lr_rc r = X_LINK_SUCCESS /\ lr_trace r = []
  /\ lr_handle r = Some stored
  /\ xlink_disconnect (sample_connect_env 0) (lr_xlink r) (lr_xmux r) (lr_handle r)
     = link_done X_LINK_SUCCESS (Some stored) (Some sample_links)
         (Some empty_multiplexer) [].
Proof.
  intros h stored r.
  assert (Hidx : link_index_by_sw_device_id sample_links (sw_device_id h)
                 = Some 0%nat) by reflexivity.
  assert (Hentry : nth_error (links sample_links) 0
                   = Some {| le_link := {| link_id := 0; link_handle := stored |};
                             le_refcount := 1 |}) by reflexivity.
  assert (Hcount : 1 <= 1 < 2 ^ 31 - 1) by (split; [discriminate|reflexivity]).
  pose proof (connect_again_and_disconnect_cancel (sample_connect_env 0)
                (sample_connect_env 0) sample_links (Some empty_multiplexer) h 0 _
                Hidx Hentry Hcount) as Hagain.
  cbv zeta in Hagain.
  destruct Hagain as (Hrc & Htrace & _ & Hhandle & _ & Hback).
  split; [exact Hidx|]. split; [exact Hrc|]. split; [exact Htrace|].
  split; [exact Hhandle|]. exact Hback.
Defined.

Lemma failed_connect_keeps_the_count_of_links_witness :
  let h := {| sw_device_id := 2; dev_type := HOST_DEVICE |} in
  let r := xlink_connect (sample_connect_env (-1)) (Some sample_links)
             (Some empty_multiplexer) (Some h) in
  link_index_by_sw_device_id sample_links (sw_device_id h) = None
  /\ get_next_link sample_links = Some 1%nat
  /\ lr_rc r = X_LINK_ERROR
  /\ lr_trace r = [Platform_connect PCIE_INTERFACE 2; Dispatcher_start 1]
  /\ exists dev',
       lr_xlink r = Some dev'
       /\ devices dev' = devices sample_links
       /\ nmb_connected_links sample_links = 1
       /\ nmb_connected_links dev' = 2.
Proof.
  intros h r.
  assert (Hnone : link_index_by_sw_device_id sample_links (sw_device_id h) = None)
    by reflexivity.
  assert (Hnext : get_next_link sample_links = Some 1%nat) by reflexivity.
  assert (Hfails : lr_rc (xlink_connect (sample_connect_env (-1)) (Some sample_links)
                            (Some empty_multiplexer) (Some h)) <> X_LINK_SUCCESS)
    by (vm_compute; discriminate).
  pose proof (failed_connect_keeps_the_count_of_links (sample_connect_env (-1))
                sample_links (Some empty_multiplexer) h 1 Hnone Hnext eq_refl Hfails)
    as Hfailed.
  cbv zeta in Hfailed.
  destruct Hfailed as (Hrc & _ & dev' & Hdev & _ & _ & Hsame & Hcount).
  split; [exact Hnone|]. split; [exact Hnext|]. split; [exact Hrc|].
  split; [reflexivity|].
  exists dev'. split; [exact Hdev|]. split; [exact Hsame|]. split; [reflexivity|].
  exact Hcount.
Defined.

Lemma last_disconnect_unlinks_the_device_witness :
  let h := {| sw_device_id := 1; dev_type := HOST_DEVICE |} in
  let x := sample_channel RXN_TXN 4096 0 (new_open_channel 0x401) in
  distinct_devices sample_links
  /\ link_index_by_sw_device_id sample_links (sw_device_id h) = Some 0%nat
  /\ exists dev' x' t,
       xlink_disconnect (sample_connect_env 0) (Some sample_links) (Some x) (Some h)
       = link_done X_LINK_SUCCESS (Some h) (Some dev') (Some x') t
       /\ link_index_by_sw_device_id dev' 1 = None
       /\ nmb_connected_links dev' = 0
       /\ get_channel x' 0 0x401 = None.
Proof.
  intros h x.
  assert (Hidx : link_index_by_sw_device_id sample_links (sw_device_id h)
                 = Some 0%nat) by reflexivity.
  assert (Hvalid : sw_device_id h <> XLINK_INVALID_SW_DEVICE_ID) by discriminate.
  assert (Hentry : nth_error (links sample_links) 0
                   = Some {| le_link := {| link_id := 0; link_handle := h |};
                             le_refcount := 1 |}) by reflexivity.
  pose proof (last_disconnect_unlinks_the_device (sample_connect_env 0) sample_links
                x h 0 _ sample_links_distinct Hvalid Hidx Hentry eq_refl eq_refl)
    as Hlast.
  destruct Hlast as (dev' & x' & t & Hcall & _ & Hgone & _ & Hcount & Hfree & _).
  split; [exact sample_links_distinct|]. split; [exact Hidx|].
  exists dev', x', t. split; [exact Hcall|]. split; [exact Hgone|].
  split; [exact Hcount|]. apply Hfree. split; [discriminate|reflexivity].
Defined.

Lemma links_hold_distinct_devices_witness :
  let h := {| sw_device_id := 2; dev_type := HOST_DEVICE |} in
  distinct_devices sample_links
  /\ exists dev',
       lr_xlink (xlink_connect (sample_connect_env 0) (Some sample_links)
                   (Some empty_multiplexer) (Some h)) = Some dev'
       /\ devices dev' = [1; 2]
       /\ distinct_devices dev'.
Proof.
  intros h. split; [exact sample_links_distinct|].
  eexists. split; [vm_compute; reflexivity|]. split; [reflexivity|].
  refine (proj1 (proj1 (links_hold_distinct_devices (sample_connect_env 0)
                          sample_links (Some empty_multiplexer) (Some h)
                          sample_links_distinct) _ _)).
  vm_compute. reflexivity.
Defined.

Lemma connect_with_the_invalid_device_id_witness :
  let h := {| sw_device_id := 0xDEADBEEF; dev_type := HOST_DEVICE |} in
  let r := xlink_connect (sample_connect_env 0) (Some sample_links)
             (Some empty_multiplexer) (Some h) in
  sw_device_id h = XLINK_INVALID_SW_DEVICE_ID
  /\ lr_rc r = X_LINK_SUCCESS /\ lr_trace r = []
  /\ exists dev', lr_xlink r = Some dev' /\ devices dev' = devices sample_links.
Proof.
  intros h r.
  assert (Hid : sw_device_id h = XLINK_INVALID_SW_DEVICE_ID) by reflexivity.
  pose proof (connect_with_the_invalid_device_id (sample_connect_env 0) sample_links
                (Some empty_multiplexer) h Hid) as Hconnect.
  cbv zeta in Hconnect.
  destruct Hconnect as (Htrace & _ & Hrc & dev' & Hdev & Hsame & _).
  split; [exact Hid|]. split; [exact Hrc|]. split; [exact Htrace|].
  exists dev'. split; [exact Hdev|exact Hsame].
Defined.
